(** * Derived computations of the billing dashboard

    A shallow embedding of the client-side logic of the dashboard pages
    (products, sale items, purchase items, purchases, ledger, customers,
    vendors): stock classification, statistics, derived totals, list
    filters, form validation and the reaction of a page to a failing
    backend call.

    Conventions of the embedding.
    - A JavaScript [number] is a value of a type [N] carrying the
      operations the pages use ([JsNumber]).  Two instances are given:
      [Z], the integer-valued numbers, on which JavaScript arithmetic is
      exact, and [float], the IEEE 754 binary64 numbers JavaScript really
      computes with.
    - A JavaScript string is a [string]; [toLowerCase] and [trim] are
      modelled on the ASCII range.
    - A [Date] is its time value in milliseconds; the local time zone
      gives the offset from UTC in force at each instant.
    - An optional property ([Partial<Row>], [x | null]) is an [option].
    - [toast], [router.push] and the calls to the backend client are
      recorded in the page state, in the order the code issues them.

    The embedding of the pages comes first, then the definitions the
    statements are written with (exact arithmetic, filter predicates,
    sums, validation rules, failed calls, sample data), then the
    theorems. *)

From Stdlib Require Import ZArith List String Ascii Bool Lia Floats.
From Stdlib Require Import Permutation.
Import ListNotations.

Set Warnings "-inexact-float".

Local Open Scope string_scope.
Local Open Scope bool_scope.

(** ** JavaScript strings *)

(** Strings are sequences of 8-bit characters.  The functions are those
    of JavaScript on strings of ASCII characters: among these only [A] to
    [Z] have a lower case, and the white space is TAB, LF, VT, FF, CR and
    SP.  A statement that depends on what the functions do to other
    characters is made of ASCII strings only. *)
Module JsString.

Definition is_upper (c : ascii) : bool :=
  (65 <=? nat_of_ascii c)%nat && (nat_of_ascii c <=? 90)%nat.

Definition lower_char (c : ascii) : ascii :=
  if is_upper c then ascii_of_nat (nat_of_ascii c + 32) else c.

(** [String.prototype.toLowerCase], on ASCII characters. *)
Fixpoint toLowerCase (s : string) : string :=
  match s with
  | EmptyString => EmptyString
  | String c r => String (lower_char c) (toLowerCase r)
  end.

(** [String.prototype.includes]: [t] occurs in [s]. *)
Fixpoint includes (s t : string) : bool :=
  prefix t s ||
  match s with
  | EmptyString => false
  | String _ r => includes r t
  end.

(** White space and line terminators among the ASCII characters: TAB,
    LF, VT, FF, CR, SP. *)
Definition is_whitespace (c : ascii) : bool :=
  let n := nat_of_ascii c in
  ((9 <=? n)%nat && (n <=? 13)%nat) || (n =? 32)%nat.

Fixpoint trimStart (s : string) : string :=
  match s with
  | EmptyString => EmptyString
  | String c r => if is_whitespace c then trimStart r else s
  end.

Fixpoint trimEnd (s : string) : string :=
  match s with
  | EmptyString => EmptyString
  | String c r =>
      match trimEnd r with
      | EmptyString => if is_whitespace c then EmptyString else String c EmptyString
      | r' => String c r'
      end
  end.

(** [String.prototype.trim]. *)
Definition trim (s : string) : string := trimEnd (trimStart s).

(** [ToBoolean] of a string: only the empty string is falsy. *)
Definition truthy (s : string) : bool := negb (s =? "").

(** [ToBoolean] of [s?.trim()] for an optional string. *)
Definition truthy_trim (o : option string) : bool :=
  match o with
  | None => false
  | Some s => truthy (trim s)
  end.

(** [ToBoolean] of an optional string ([undefined], [null] and [""] are
    falsy). *)
Definition truthy_opt (o : option string) : bool :=
  match o with
  | None => false
  | Some s => truthy s
  end.

(** [o || d] for an optional string [o] and a string [d]. *)
Definition or_default (o : option string) (d : string) : string :=
  match o with
  | Some s => if truthy s then s else d
  | None => d
  end.

(** [o || null]. *)
Definition or_null (o : option string) : option string :=
  match o with
  | Some s => if truthy s then Some s else None
  | None => None
  end.

(** [o?.trim()]. *)
Definition trim_opt (o : option string) : option string :=
  option_map trim o.

(** An optional string inside a template literal. *)
Definition interpolate (o : option string) : string :=
  match o with
  | Some s => s
  | None => "undefined"
  end.

End JsString.

(** ** JavaScript numbers *)

(** The operations on numbers that the pages use: [0], [+], [-], [*],
    [===], [<], [<=] and [ToBoolean]. *)
Class JsNumber (N : Type) : Type := {
  zero : N;
  add : N -> N -> N;
  sub : N -> N -> N;
  mul : N -> N -> N;
  strict_eq : N -> N -> bool;
  lt : N -> N -> bool;
  le : N -> N -> bool;
  truthy : N -> bool
}.

(** [/] and the conversion of an array length to a number. *)
Class JsDivision (N : Type) `{JsNumber N} : Type := {
  div : N -> N -> N;
  of_nat : nat -> N
}.

(** [a > b] is [b < a]. *)
Definition gt {N} `{JsNumber N} (a b : N) : bool := lt b a.

(** Integer-valued numbers: exact arithmetic, [0] the only falsy value. *)
#[export] Instance JsNumber_Z : JsNumber Z := {
  zero := 0%Z;
  add := Z.add;
  sub := Z.sub;
  mul := Z.mul;
  strict_eq := Z.eqb;
  lt := Z.ltb;
  le := Z.leb;
  truthy := fun x => negb (x =? 0)%Z
}.

(** binary64 numbers: [+0], [-0] and [NaN] are falsy, [NaN] is not
    [===] to itself. *)
#[export] Instance JsNumber_float : JsNumber float := {
  zero := 0%float;
  add := PrimFloat.add;
  sub := PrimFloat.sub;
  mul := PrimFloat.mul;
  strict_eq := PrimFloat.eqb;
  lt := PrimFloat.ltb;
  le := PrimFloat.leb;
  truthy := fun x => negb (PrimFloat.eqb x 0%float || PrimFloat.is_nan x)
}.

#[export] Instance JsDivision_float : JsDivision float := {
  div := PrimFloat.div;
  of_nat := fun n => PrimFloat.of_uint63 (Uint63.of_Z (Z.of_nat n))
}.

(** [Array.prototype.reduce((sum, x) => sum + f(x), 0)]. *)
Definition reduce_sum {N} `{JsNumber N} {A} (f : A -> N) (l : list A) : N :=
  fold_left (fun sum x => add sum (f x)) l zero.

(** [Number(x) || 0] for an optional number: [undefined] converts to
    [NaN], and every falsy number is replaced by [0]. *)
Definition number_or_zero {N} `{JsNumber N} (x : option N) : N :=
  match x with
  | None => zero
  | Some n => if truthy n then n else zero
  end.

(** ** Notifications *)

Inductive toast : Type :=
| toast_error (title description : string)
| toast_success (title description : string).

(** One failed validation rule: the toast and the [false] result. *)
Definition reject (description : string) : bool * list toast :=
  (false, [toast_error "Validation Error" description]).

Definition accept : bool * list toast := (true, []).

(** ** Products page *)

Module Products.
Section WithNumber.
Context {N : Type} `{JsNumber N}.

(** A row of the [products] table. *)
Record Product : Type := {
  id : string;
  user_id : string;
  name : string;
  category : string;
  quantity : N;
  price : N;
  min_stock : N;
  created_at : string;
  updated_at : string
}.

(** The form state, a [Partial<Product>]. *)
Record Form : Type := {
  f_name : option string;
  f_category : option string;
  f_quantity : option N;
  f_price : option N;
  f_min_stock : option N
}.

(** The search stage of the filter effect. *)
Definition searchStage (searchTerm : string) (filtered : list Product)
  : list Product :=
  if JsString.truthy (JsString.trim searchTerm) then
    filter (fun product =>
              JsString.includes (JsString.toLowerCase (name product))
                                (JsString.toLowerCase searchTerm)
              || JsString.includes (JsString.toLowerCase (category product))
                                   (JsString.toLowerCase searchTerm))
           filtered
  else filtered.

(** The category stage. *)
Definition categoryStage (categoryFilter : string) (filtered : list Product)
  : list Product :=
  if negb (categoryFilter =? "all") then
    filter (fun product => category product =? categoryFilter) filtered
  else filtered.

(** The stock stage. *)
Definition stockStage (stockFilter : string) (filtered : list Product)
  : list Product :=
  if stockFilter =? "low" then
    filter (fun product => le (quantity product) (min_stock product)) filtered
  else if stockFilter =? "out" then
    filter (fun product => strict_eq (quantity product) zero) filtered
  else if stockFilter =? "instock" then
    filter (fun product => gt (quantity product) (min_stock product)) filtered
  else filtered.

(** The filter effect: the value given to [setFilteredProducts]. *)
Definition filterProducts (products : list Product)
           (searchTerm categoryFilter stockFilter : string) : list Product :=
  let filtered := products in
  let filtered := searchStage searchTerm filtered in
  let filtered := categoryStage categoryFilter filtered in
  let filtered := stockStage stockFilter filtered in
  filtered.

(** [validateForm]: the result and the toasts it shows. *)
Definition validateForm (formData : Form) : bool * list toast :=
  if negb (JsString.truthy_trim (f_name formData)) then
    reject "Product name is required."
  else if negb (JsString.truthy_trim (f_category formData)) then
    reject "Category is required."
  else if match f_price formData with
          | None => true
          | Some p => negb (truthy p) || le p zero
          end then
    reject "Price must be greater than zero."
  else if match f_quantity formData with
          | None => false
          | Some q => lt q zero
          end then
    reject "Quantity cannot be negative."
  else if match f_min_stock formData with
          | None => false
          | Some m => lt m zero
          end then
    reject "Minimum stock cannot be negative."
  else accept.

(** The three badges [getStockBadge] can render. *)
Inductive StockBadge : Type := OutOfStock | LowStock | InStock.

Definition badge_label (b : StockBadge) : string :=
  match b with
  | OutOfStock => "Out of Stock"
  | LowStock => "Low Stock"
  | InStock => "In Stock"
  end.

Definition getStockBadge (quantity minStock : N) : StockBadge :=
  if strict_eq quantity zero then OutOfStock
  else if le quantity minStock then LowStock
  else InStock.

End WithNumber.
Arguments Product N : clear implicits.
Arguments Form N : clear implicits.
End Products.

(** ** Sale items page *)

Module SaleItems.
Section WithNumber.
Context {N : Type} `{JsNumber N}.

(** A row of the [sale_items] table, with the fields the page reads. *)
Record SaleItem : Type := {
  id : string;
  sale_id : string;
  product_id : option string;
  product_name : string;
  quantity : N;
  price : N;
  total : N
}.

(** The form state, a [Partial<SaleItem>]. *)
Record Form : Type := {
  f_sale_id : option string;
  f_product_id : option string;
  f_product_name : option string;
  f_quantity : option N;
  f_price : option N;
  f_total : option N
}.

Record SaleItemsStats : Type := {
  totalItems : nat;
  totalValue : N;
  avgPrice : N
}.

Definition searchStage (searchTerm : string) (filtered : list SaleItem)
  : list SaleItem :=
  if JsString.truthy (JsString.trim searchTerm) then
    filter (fun item =>
              JsString.includes (JsString.toLowerCase (product_name item))
                                (JsString.toLowerCase searchTerm)
              || JsString.includes (JsString.toLowerCase (id item))
                                   (JsString.toLowerCase searchTerm))
           filtered
  else filtered.

Definition saleStage (saleFilter : string) (filtered : list SaleItem)
  : list SaleItem :=
  if negb (saleFilter =? "all") then
    filter (fun item => sale_id item =? saleFilter) filtered
  else filtered.

Definition filterSaleItems (saleItems : list SaleItem)
           (searchTerm saleFilter : string) : list SaleItem :=
  saleStage saleFilter (searchStage searchTerm saleItems).

(** [formData.total !== total]. *)
Definition total_differs (old : option N) (total : N) : bool :=
  match old with
  | None => true
  | Some t => negb (strict_eq t total)
  end.

(** The product the total effect computes. *)
Definition lineTotal (formData : Form) : N :=
  let quantity := number_or_zero (f_quantity formData) in
  let price := number_or_zero (f_price formData) in
  mul quantity price.

(** The effect run when quantity or price changes: the next form
    state. *)
Definition recomputeTotal (formData : Form) : Form :=
  let total := lineTotal formData in
  if total_differs (f_total formData) total then
    {| f_sale_id := f_sale_id formData;
       f_product_id := f_product_id formData;
       f_product_name := f_product_name formData;
       f_quantity := f_quantity formData;
       f_price := f_price formData;
       f_total := Some total |}
  else formData.

Definition validateForm (formData : Form) : bool * list toast :=
  if negb (JsString.truthy_opt (f_sale_id formData)) then
    reject "Sale selection is required."
  else if negb (JsString.truthy_trim (f_product_name formData)) then
    reject "Product name is required."
  else if match f_quantity formData with
          | None => true
          | Some q => negb (truthy q) || le q zero
          end then
    reject "Quantity must be greater than zero."
  else if match f_price formData with
          | None => true
          | Some p => negb (truthy p) || le p zero
          end then
    reject "Price must be greater than zero."
  else accept.

(** [calculateStats]: the value given to [setStats]. *)
Definition calculateStats `{!JsDivision N} (saleItems : list SaleItem)
  : SaleItemsStats :=
  let totalItems := List.length saleItems in
  let totalValue := reduce_sum total saleItems in
  let avgPrice :=
    if (0 <? totalItems)%nat then div totalValue (of_nat totalItems)
    else zero in
  {| totalItems := totalItems;
     totalValue := totalValue;
     avgPrice := avgPrice |}.

End WithNumber.
Arguments SaleItem N : clear implicits.
Arguments Form N : clear implicits.
Arguments SaleItemsStats N : clear implicits.
End SaleItems.

(** ** Purchase items page *)

Module PurchaseItems.
Section WithNumber.
Context {N : Type} `{JsNumber N}.

Record PurchaseItem : Type := {
  id : string;
  purchase_id : string;
  product_id : option string;
  product_name : string;
  quantity : N;
  price : N;
  total : N
}.

Record Form : Type := {
  f_purchase_id : option string;
  f_product_id : option string;
  f_product_name : option string;
  f_quantity : option N;
  f_price : option N;
  f_total : option N
}.

Record PurchaseItemsStats : Type := {
  totalItems : nat;
  totalValue : N;
  avgPrice : N
}.

Definition searchStage (searchTerm : string) (filtered : list PurchaseItem)
  : list PurchaseItem :=
  if JsString.truthy (JsString.trim searchTerm) then
    filter (fun item =>
              JsString.includes (JsString.toLowerCase (product_name item))
                                (JsString.toLowerCase searchTerm)
              || JsString.includes (JsString.toLowerCase (id item))
                                   (JsString.toLowerCase searchTerm))
           filtered
  else filtered.

Definition purchaseStage (purchaseFilter : string)
           (filtered : list PurchaseItem) : list PurchaseItem :=
  if negb (purchaseFilter =? "all") then
    filter (fun item => purchase_id item =? purchaseFilter) filtered
  else filtered.

Definition filterPurchaseItems (purchaseItems : list PurchaseItem)
           (searchTerm purchaseFilter : string) : list PurchaseItem :=
  purchaseStage purchaseFilter (searchStage searchTerm purchaseItems).

Definition lineTotal (formData : Form) : N :=
  let quantity := number_or_zero (f_quantity formData) in
  let price := number_or_zero (f_price formData) in
  mul quantity price.

Definition recomputeTotal (formData : Form) : Form :=
  let total := lineTotal formData in
  if SaleItems.total_differs (f_total formData) total then
    {| f_purchase_id := f_purchase_id formData;
       f_product_id := f_product_id formData;
       f_product_name := f_product_name formData;
       f_quantity := f_quantity formData;
       f_price := f_price formData;
       f_total := Some total |}
  else formData.

Definition validateForm (formData : Form) : bool * list toast :=
  if negb (JsString.truthy_opt (f_purchase_id formData)) then
    reject "Purchase selection is required."
  else if negb (JsString.truthy_trim (f_product_name formData)) then
    reject "Product name is required."
  else if match f_quantity formData with
          | None => true
          | Some q => negb (truthy q) || le q zero
          end then
    reject "Quantity must be greater than zero."
  else if match f_price formData with
          | None => true
          | Some p => negb (truthy p) || le p zero
          end then
    reject "Price must be greater than zero."
  else accept.

Definition calculateStats `{!JsDivision N} (purchaseItems : list PurchaseItem)
  : PurchaseItemsStats :=
  let totalItems := List.length purchaseItems in
  let totalValue := reduce_sum total purchaseItems in
  let avgPrice :=
    if (0 <? totalItems)%nat then div totalValue (of_nat totalItems)
    else zero in
  {| totalItems := totalItems;
     totalValue := totalValue;
     avgPrice := avgPrice |}.

End WithNumber.
Arguments PurchaseItem N : clear implicits.
Arguments Form N : clear implicits.
Arguments PurchaseItemsStats N : clear implicits.
End PurchaseItems.

(** ** Regular expressions *)

(** The fragment of regular expressions the pages use, matched by
    derivatives against the whole string ([^...$]). *)
Module JsRegExp.

Inductive regex : Type :=
| Fail
| Eps
| CharClass (p : ascii -> bool)
| Seq (r1 r2 : regex)
| Alt (r1 r2 : regex)
| Star (r : regex).

(** [r+]. *)
Definition Plus (r : regex) : regex := Seq r (Star r).

Fixpoint nullable (r : regex) : bool :=
  match r with
  | Fail => false
  | Eps => true
  | CharClass _ => false
  | Seq r1 r2 => nullable r1 && nullable r2
  | Alt r1 r2 => nullable r1 || nullable r2
  | Star _ => true
  end.

Fixpoint deriv (c : ascii) (r : regex) : regex :=
  match r with
  | Fail => Fail
  | Eps => Fail
  | CharClass p => if p c then Eps else Fail
  | Seq r1 r2 =>
      if nullable r1 then Alt (Seq (deriv c r1) r2) (deriv c r2)
      else Seq (deriv c r1) r2
  | Alt r1 r2 => Alt (deriv c r1) (deriv c r2)
  | Star r1 => Seq (deriv c r1) (Star r1)
  end.

(** [/^r$/.test (s)]. *)
Fixpoint test (r : regex) (s : string) : bool :=
  match s with
  | EmptyString => nullable r
  | String c s' => test (deriv c r) s'
  end.

Definition char (c : ascii) : regex := CharClass (Ascii.eqb c).

(** [[^\s@]]. *)
Definition not_space_or_at : regex :=
  CharClass (fun c => negb (JsString.is_whitespace c || Ascii.eqb c "@")).

(** [/^[^\s@]+@[^\s@]+\.[^\s@]+$/]. *)
Definition email : regex :=
  Seq (Plus not_space_or_at)
      (Seq (char "@")
           (Seq (Plus not_space_or_at)
                (Seq (char ".") (Plus not_space_or_at)))).

End JsRegExp.

(** ** Customers and vendors pages *)

Module Parties.
Section WithNumber.
Context {N : Type} `{JsNumber N}.

(** A row of the [customers] table or of the [vendors] table. *)
Record Party : Type := {
  id : string;
  user_id : string;
  name : string;
  email : option string;
  phone : option string;
  address : option string;
  balance : N;
  created_at : string;
  updated_at : string
}.

(** The form state of both pages, a [Partial<Customer>] or
    [Partial<Vendor>]. *)
Record Form : Type := {
  f_name : option string;
  f_email : option string;
  f_phone : option string;
  f_address : option string;
  f_balance : option N
}.

(** [validateForm] of the two pages, which differ in the name of the
    party only. *)
Definition validateForm (party : string) (formData : Form)
  : bool * list toast :=
  if negb (JsString.truthy_trim (f_name formData)) then
    reject (party ++ " name is required.")
  else if match f_email formData with
          | Some e => JsString.truthy e && negb (JsRegExp.test JsRegExp.email e)
          | None => false
          end then
    reject "Please enter a valid email address."
  else if match f_balance formData with
          | Some b => truthy b && lt b zero
          | None => false
          end then
    reject "Balance cannot be negative."
  else accept.

Definition validateCustomerForm : Form -> bool * list toast :=
  validateForm "Customer".

Definition validateVendorForm : Form -> bool * list toast :=
  validateForm "Vendor".

End WithNumber.
Arguments Party N : clear implicits.
Arguments Form N : clear implicits.
End Parties.

(** ** Ledger page *)

Module Ledger.
Section WithNumber.
Context {N : Type} `{JsNumber N}.

(** A row of the [ledger_entries] table, with the fields the page
    reads. *)
Record LedgerEntry : Type := {
  id : string;
  entity_type : string;
  entity_id : option string;
  entity_name : string;
  transaction_type : string;
  amount : N;
  description : option string;
  reference_id : option string;
  reference_type : option string
}.

(** The form state, a [Partial<LedgerEntry>]. *)
Record Form : Type := {
  f_entity_type : option string;
  f_entity_id : option string;
  f_entity_name : option string;
  f_transaction_type : option string;
  f_amount : option N;
  f_description : option string;
  f_reference_id : option string;
  f_reference_type : option string
}.

Record LedgerStats : Type := {
  totalDebits : N;
  totalCredits : N;
  netBalance : N
}.

(** [calculateStats]: the value given to [setStats]. *)
Definition calculateStats (ledgerEntries : list LedgerEntry) : LedgerStats :=
  let totalDebits :=
    reduce_sum amount
      (filter (fun entry => transaction_type entry =? "debit") ledgerEntries) in
  let totalCredits :=
    reduce_sum amount
      (filter (fun entry => transaction_type entry =? "credit") ledgerEntries) in
  let netBalance := sub totalCredits totalDebits in
  {| totalDebits := totalDebits;
     totalCredits := totalCredits;
     netBalance := netBalance |}.

Definition searchStage (searchTerm : string) (filtered : list LedgerEntry)
  : list LedgerEntry :=
  if JsString.truthy (JsString.trim searchTerm) then
    filter (fun entry =>
              JsString.includes (JsString.toLowerCase (entity_name entry))
                                (JsString.toLowerCase searchTerm)
              || match description entry with
                 | Some d => JsString.includes (JsString.toLowerCase d)
                                               (JsString.toLowerCase searchTerm)
                 | None => false
                 end
              || JsString.includes (JsString.toLowerCase (id entry))
                                   (JsString.toLowerCase searchTerm))
           filtered
  else filtered.

Definition entityTypeStage (entityTypeFilter : string)
           (filtered : list LedgerEntry) : list LedgerEntry :=
  if negb (entityTypeFilter =? "all") then
    filter (fun entry => entity_type entry =? entityTypeFilter) filtered
  else filtered.

Definition transactionTypeStage (transactionTypeFilter : string)
           (filtered : list LedgerEntry) : list LedgerEntry :=
  if negb (transactionTypeFilter =? "all") then
    filter (fun entry => transaction_type entry =? transactionTypeFilter)
           filtered
  else filtered.

(** The filter effect: the value given to [setFilteredLedgerEntries]. *)
Definition filterLedgerEntries (ledgerEntries : list LedgerEntry)
           (searchTerm entityTypeFilter transactionTypeFilter : string)
  : list LedgerEntry :=
  let filtered := ledgerEntries in
  let filtered := searchStage searchTerm filtered in
  let filtered := entityTypeStage entityTypeFilter filtered in
  let filtered := transactionTypeStage transactionTypeFilter filtered in
  filtered.

Definition validateForm (formData : Form) : bool * list toast :=
  if negb (JsString.truthy_opt (f_entity_type formData)) then
    reject "Entity type is required."
  else if negb (JsString.truthy_opt (f_entity_id formData))
          && negb (JsString.truthy_trim (f_entity_name formData)) then
    reject "Entity selection or name is required."
  else if negb (JsString.truthy_opt (f_transaction_type formData)) then
    reject "Transaction type is required."
  else if match f_amount formData with
          | None => true
          | Some a => negb (truthy a) || le a zero
          end then
    reject "Amount must be greater than zero."
  else accept.

End WithNumber.
Arguments LedgerEntry N : clear implicits.
Arguments Form N : clear implicits.
Arguments LedgerStats N : clear implicits.
End Ledger.

(** ** Ledger page: operations against the backend *)

Module LedgerPage.
Import Ledger.
Section WithNumber.
Context {N : Type} `{JsNumber N}.

(** The object sent by [insert] and [update]. *)
Record EntryData : Type := {
  d_user_id : string;
  d_entity_type : string;
  d_entity_id : option string;
  d_entity_name : string;
  d_transaction_type : string;
  d_amount : N;
  d_description : option string;
  d_reference_id : option string;
  d_reference_type : option string
}.

(** The calls the page makes on the backend client. *)
Inductive request : Type :=
| auth_getUser
| select_all (table order_by : string) (ascending : bool)
| update_row (table : string) (values : EntryData) (row_id user : string)
| insert_row (table : string) (values : EntryData)
| delete_row (table : string) (row_id user : string).

(** What a call resolves to: the user of [auth.getUser], the rows of a
    [select] on the ledger entries or on the customers or vendors, and
    the message of the error, if any. *)
Record response : Type := {
  r_user : option string;
  r_data : option (list (LedgerEntry N));
  r_parties : option (list (Parties.Party N));
  r_error : option string
}.

(** The backend answers a call knowing the calls made before it. *)
Definition backend : Type := list request -> request -> response.

(** The state of the page, and what it has emitted so far (oldest
    first). *)
Record Page : Type := {
  ledgerEntries : list (LedgerEntry N);
  customers : list (Parties.Party N);
  vendors : list (Parties.Party N);
  formData : Form N;
  editingId : option string;
  loading : bool;
  toasts : list toast;
  navigations : list string;
  requests : list request
}.

Definition action (A : Type) : Type := Page -> A * Page.

Definition ret {A} (a : A) : action A := fun p => (a, p).

Definition bind {A B} (c : action A) (k : A -> action B) : action B :=
  fun p => let (a, p') := c p in k a p'.

Notation "x <- c ;; k" := (bind c (fun x => k))
  (at level 61, c at next level, right associativity).
Notation "c ;; k" := (bind c (fun _ => k))
  (at level 61, right associativity).

Definition setLedgerEntries (l : list (LedgerEntry N)) : action unit :=
  fun p => (tt, {| ledgerEntries := l; customers := customers p;
                   vendors := vendors p; formData := formData p;
                   editingId := editingId p; loading := loading p;
                   toasts := toasts p; navigations := navigations p;
                   requests := requests p |}).

Definition setCustomers (l : list (Parties.Party N)) : action unit :=
  fun p => (tt, {| ledgerEntries := ledgerEntries p;
                   customers := l; vendors := vendors p;
                   formData := formData p;
                   editingId := editingId p; loading := loading p;
                   toasts := toasts p; navigations := navigations p;
                   requests := requests p |}).

Definition setVendors (l : list (Parties.Party N)) : action unit :=
  fun p => (tt, {| ledgerEntries := ledgerEntries p;
                   customers := customers p; vendors := l;
                   formData := formData p;
                   editingId := editingId p; loading := loading p;
                   toasts := toasts p; navigations := navigations p;
                   requests := requests p |}).

Definition setFormData (f : Form N) : action unit :=
  fun p => (tt, {| ledgerEntries := ledgerEntries p;
                   customers := customers p; vendors := vendors p;
                   formData := f;
                   editingId := editingId p; loading := loading p;
                   toasts := toasts p; navigations := navigations p;
                   requests := requests p |}).

Definition setEditingId (e : option string) : action unit :=
  fun p => (tt, {| ledgerEntries := ledgerEntries p;
                   customers := customers p; vendors := vendors p;
                   formData := formData p;
                   editingId := e; loading := loading p;
                   toasts := toasts p; navigations := navigations p;
                   requests := requests p |}).

Definition setLoading (b : bool) : action unit :=
  fun p => (tt, {| ledgerEntries := ledgerEntries p;
                   customers := customers p; vendors := vendors p;
                   formData := formData p;
                   editingId := editingId p; loading := b;
                   toasts := toasts p; navigations := navigations p;
                   requests := requests p |}).

Definition show (ts : list toast) : action unit :=
  fun p => (tt, {| ledgerEntries := ledgerEntries p;
                   customers := customers p; vendors := vendors p;
                   formData := formData p;
                   editingId := editingId p; loading := loading p;
                   toasts := toasts p ++ ts; navigations := navigations p;
                   requests := requests p |}).

Definition router_push (path : string) : action unit :=
  fun p => (tt, {| ledgerEntries := ledgerEntries p;
                   customers := customers p; vendors := vendors p;
                   formData := formData p;
                   editingId := editingId p; loading := loading p;
                   toasts := toasts p; navigations := navigations p ++ [path];
                   requests := requests p |}).

Variable server : backend.

(** [await] of a call on the client. *)
Definition await (r : request) : action response :=
  fun p => (server (requests p) r,
            {| ledgerEntries := ledgerEntries p;
               customers := customers p; vendors := vendors p;
               formData := formData p;
               editingId := editingId p; loading := loading p;
               toasts := toasts p; navigations := navigations p;
               requests := requests p ++ [r] |}).

(** [authError || !user]. *)
Definition auth_failed (r : response) : bool :=
  match r_error r, r_user r with
  | None, Some _ => false
  | _, _ => true
  end.

(** [user.id], read only when the user is there. *)
Definition user_id_of (r : response) : string :=
  match r_user r with
  | Some u => u
  | None => ""
  end.

(** [fetchLedgerEntries] up to its first [await]. *)
Definition fetch_begin : action response :=
  setLoading true ;;
  await auth_getUser.

(** [fetchLedgerEntries] from the point where [auth.getUser] has
    resolved. *)
Definition fetch_resume (auth : response) : action unit :=
  if auth_failed auth then
    show [toast_error "Authentication Error"
                      "Please log in to view ledger entries."] ;;
    router_push "/login" ;;
    setLoading false
  else
    res <- await (select_all "ledger_entries" "created_at" false) ;;
    match r_error res with
    | Some message =>
        show [toast_error "Failed to Fetch Ledger Entries" message]
    | None =>
        setLedgerEntries (match r_data res with Some d => d | None => [] end)
    end ;;
    setLoading false.

Definition fetchLedgerEntries : action unit :=
  auth <- fetch_begin ;;
  fetch_resume auth.

(** [fetchCustomers]: the customers offered for selection. *)
Definition fetchCustomers : action unit :=
  auth <- await auth_getUser ;;
  if auth_failed auth then ret tt
  else
    res <- await (select_all "customers" "name" true) ;;
    match r_error res with
    | Some _ => ret tt
    | None =>
        setCustomers (match r_parties res with Some d => d | None => [] end)
    end.

(** [fetchVendors]: the vendors offered for selection. *)
Definition fetchVendors : action unit :=
  auth <- await auth_getUser ;;
  if auth_failed auth then ret tt
  else
    res <- await (select_all "vendors" "name" true) ;;
    match r_error res with
    | Some _ => ret tt
    | None =>
        setVendors (match r_parties res with Some d => d | None => [] end)
    end.

Definition resetForm : action unit :=
  setFormData {| f_entity_type := Some "customer";
                 f_entity_id := Some "";
                 f_entity_name := Some "";
                 f_transaction_type := Some "debit";
                 f_amount := Some zero;
                 f_description := Some "";
                 f_reference_id := Some "";
                 f_reference_type := Some "" |} ;;
  setEditingId None.

Definition entryData_of (user : string) (formData : Form N) : EntryData :=
  {| d_user_id := user;
     d_entity_type := JsString.or_default (f_entity_type formData) "customer";
     d_entity_id := JsString.or_null (f_entity_id formData);
     d_entity_name :=
       JsString.or_default (JsString.trim_opt (f_entity_name formData)) "";
     d_transaction_type :=
       JsString.or_default (f_transaction_type formData) "debit";
     d_amount := number_or_zero (f_amount formData);
     d_description :=
       JsString.or_null (JsString.trim_opt (f_description formData));
     d_reference_id := JsString.or_null (f_reference_id formData);
     d_reference_type :=
       JsString.or_null (JsString.trim_opt (f_reference_type formData)) |}.

(** A call to [fetchLedgerEntries] that is not awaited runs up to its
    first [await] at once and resumes after the caller has finished;
    [finish_then] is the caller's last statement followed by the
    resumption. *)
Definition finish_then (pending : option response) : action unit :=
  setLoading false ;;
  match pending with
  | Some auth => fetch_resume auth
  | None => ret tt
  end.

(** [handleSubmit], run on the form and editing id of the current
    render.  In the update branch the editing id is a non-empty string,
    which [interpolate] reads. *)
Definition handleSubmit : action unit :=
  fun p0 =>
    let formData := formData p0 in
    let editingId := editingId p0 in
    (let (valid, shown) := validateForm formData in
     show shown ;;
     if negb valid then ret tt
     else
       setLoading true ;;
       auth <- await auth_getUser ;;
       if auth_failed auth then
         show [toast_error "Authentication Error"
                           "Please log in to perform this action."] ;;
         setLoading false
       else
         let entryData := entryData_of (user_id_of auth) formData in
         pending <-
           (if JsString.truthy_opt editingId then
              res <- await (update_row "ledger_entries" entryData
                                       (JsString.interpolate editingId)
                                       (user_id_of auth)) ;;
              match r_error res with
              | Some message =>
                  show [toast_error "Failed to Update Ledger Entry" message] ;;
                  ret None
              | None =>
                  show [toast_success "Ledger Entry Updated"
                          ("Ledger entry for "
                             ++ JsString.interpolate (f_entity_name formData)
                             ++ " has been successfully updated.")] ;;
                  resetForm ;;
                  auth' <- fetch_begin ;;
                  ret (Some auth')
              end
            else
              res <- await (insert_row "ledger_entries" entryData) ;;
              match r_error res with
              | Some message =>
                  show [toast_error "Failed to Create Ledger Entry" message] ;;
                  ret None
              | None =>
                  show [toast_success "Ledger Entry Created"
                          ("Ledger entry for "
                             ++ JsString.interpolate (f_entity_name formData)
                             ++ " has been successfully created.")] ;;
                  resetForm ;;
                  auth' <- fetch_begin ;;
                  ret (Some auth')
              end) ;;
         finish_then pending) p0.

(** [handleDelete id]; [confirmed] is the answer to the [confirm]
    dialog. *)
Definition handleDelete (row_id : string) (confirmed : bool) : action unit :=
  fun p0 =>
    let entry := find (fun e => id e =? row_id) (ledgerEntries p0) in
    (if negb confirmed then ret tt
     else
       setLoading true ;;
       auth <- await auth_getUser ;;
       if auth_failed auth then
         show [toast_error "Authentication Error"
                           "Please log in to perform this action."] ;;
         setLoading false
       else
         res <- await (delete_row "ledger_entries" row_id (user_id_of auth)) ;;
         pending <-
           match r_error res with
           | Some message =>
               show [toast_error "Failed to Delete Ledger Entry" message] ;;
               ret None
           | None =>
               show [toast_success "Ledger Entry Deleted"
                       ("Ledger entry for "
                          ++ match entry with
                             | Some e => JsString.or_default
                                           (Some (entity_name e)) "entity"
                             | None => "entity"
                             end
                          ++ " has been successfully deleted.")] ;;
               auth' <- fetch_begin ;;
               ret (Some auth')
           end ;;
         finish_then pending) p0.

End WithNumber.
Arguments EntryData N : clear implicits.
Arguments request N : clear implicits.
Arguments response N : clear implicits.
Arguments backend N : clear implicits.
Arguments Page N : clear implicits.
End LedgerPage.

(** ** JavaScript dates *)

(** Time values are milliseconds since the epoch; the day and calendar
    arithmetic is that of the language definition ([Day], [MakeDay],
    [YearFromTime], ...).  The local time zone gives the offset from UTC
    in milliseconds that is in force at each instant, so that it can
    change with daylight saving. *)
Module JsDate.
Local Open Scope Z_scope.

Definition msPerDay : Z := 86400000.

Definition Day (t : Z) : Z := t / msPerDay.

Definition TimeWithinDay (t : Z) : Z := t mod msPerDay.

Definition DayFromYear (y : Z) : Z :=
  365 * (y - 1970) + (y - 1969) / 4 - (y - 1901) / 100 + (y - 1601) / 400.

Definition DaysInYear (y : Z) : Z :=
  if (y mod 4 =? 0) && (negb (y mod 100 =? 0) || (y mod 400 =? 0))
  then 366 else 365.

(** The years from [y] on whose first day is not after day [d]. *)
Fixpoint year_search (fuel : nat) (y d : Z) : Z :=
  match fuel with
  | O => y
  | S n => if DayFromYear (y + 1) <=? d then year_search n (y + 1) d else y
  end.

(** The largest year starting at or before [t]: the search starts from
    a year that is not after it. *)
Definition YearFromTime (t : Z) : Z :=
  let d := Day t in
  year_search 1000 (1970 + (if 0 <=? d then d / 366 else d / 365)) d.

Definition InLeapYear (t : Z) : Z :=
  if DaysInYear (YearFromTime t) =? 366 then 1 else 0.

Definition DayWithinYear (t : Z) : Z :=
  Day t - DayFromYear (YearFromTime t).

(** The day within the year on which month [m] (from 0) starts. *)
Definition month_start (leap m : Z) : Z :=
  match m with
  | 0 => 0
  | 1 => 31
  | 2 => 59 + leap
  | 3 => 90 + leap
  | 4 => 120 + leap
  | 5 => 151 + leap
  | 6 => 181 + leap
  | 7 => 212 + leap
  | 8 => 243 + leap
  | 9 => 273 + leap
  | 10 => 304 + leap
  | _ => 334 + leap
  end.

Definition MonthFromTime (t : Z) : Z :=
  let d := DayWithinYear t in
  let leap := InLeapYear t in
  if d <? 31 then 0
  else if d <? 59 + leap then 1
  else if d <? 90 + leap then 2
  else if d <? 120 + leap then 3
  else if d <? 151 + leap then 4
  else if d <? 181 + leap then 5
  else if d <? 212 + leap then 6
  else if d <? 243 + leap then 7
  else if d <? 273 + leap then 8
  else if d <? 304 + leap then 9
  else if d <? 334 + leap then 10
  else 11.

Definition DateFromTime (t : Z) : Z :=
  DayWithinYear t - month_start (InLeapYear t) (MonthFromTime t) + 1.

(** [MakeDay (year, month, date)]: months outside 0..11 carry into the
    year, dates outside the month carry into the neighbouring months. *)
Definition MakeDay (year month date : Z) : Z :=
  let ym := year + month / 12 in
  let mn := month mod 12 in
  let leap := if DaysInYear ym =? 366 then 1 else 0 in
  DayFromYear ym + month_start leap mn + date - 1.

Definition MakeDate (day time : Z) : Z := day * msPerDay + time.

(** The local time zone: [tza_utc t] is the offset in force at the time
    value [t], and [tza_local l] the offset by which the local time [l]
    is read.  A local time that a change of offset skips or repeats is
    read with the offset before the change. *)
Record Zone : Type := {
  tza_utc : Z -> Z;
  tza_local : Z -> Z
}.

(** [LocalTZA (t, isUTC)]. *)
Definition LocalTZA (zone : Zone) (t : Z) (isUTC : bool) : Z :=
  if isUTC then tza_utc zone t else tza_local zone t.

(** The offset in force at [t] in a zone that starts with the offset
    [first] and then changes it: [changes] lists the instants of change
    in order, each with the offset from then on. *)
Fixpoint offset_at (first : Z) (changes : list (Z * Z)) (t : Z) : Z :=
  match changes with
  | [] => first
  | (instant, next) :: later =>
      if t <? instant then first else offset_at next later t
  end.

(** The offset by which the local time [l] is read in that zone: the
    local times up to the later of the two readings of the instant of
    change belong to the offset before it. *)
Fixpoint offset_of_local (first : Z) (changes : list (Z * Z)) (l : Z) : Z :=
  match changes with
  | [] => first
  | (instant, next) :: later =>
      if l <? instant + Z.max first next then first
      else offset_of_local next later l
  end.

Definition zone_of (first : Z) (changes : list (Z * Z)) : Zone :=
  {| tza_utc := offset_at first changes;
     tza_local := offset_of_local first changes |}.

(** A zone without daylight saving. *)
Definition fixed (offset : Z) : Zone := zone_of offset [].

Definition utc : Zone := fixed 0.

Section Local.
Variable zone : Zone.

Definition LocalTime (t : Z) : Z := t + LocalTZA zone t true.
Definition UTC (t : Z) : Z := t - LocalTZA zone t false.

Definition getMonth (t : Z) : Z := MonthFromTime (LocalTime t).
Definition getDate (t : Z) : Z := DateFromTime (LocalTime t).

(** [d.setMonth (month)]: the new time value of [d]. *)
Definition setMonth (t month : Z) : Z :=
  let l := LocalTime t in
  UTC (MakeDate (MakeDay (YearFromTime l) month (DateFromTime l))
                (TimeWithinDay l)).

(** [d.setDate (date)]. *)
Definition setDate (t date : Z) : Z :=
  let l := LocalTime t in
  UTC (MakeDate (MakeDay (YearFromTime l) (MonthFromTime l) date)
                (TimeWithinDay l)).

(** What [toDateString] prints: the local year, month and day (the
    weekday it also prints is a function of these). *)
Definition toDateString (t : Z) : Z * Z * Z :=
  let l := LocalTime t in
  (YearFromTime l, MonthFromTime l, DateFromTime l).
End Local.

Definition digit (c : ascii) : option Z :=
  let n := nat_of_ascii c in
  if ((48 <=? n)%nat && (n <=? 57)%nat)%bool then Some (Z.of_nat n - 48)
  else None.

Fixpoint digits (acc : Z) (l : list ascii) : option Z :=
  match l with
  | [] => Some acc
  | c :: r =>
      match digit c with
      | Some d => digits (10 * acc + d) r
      | None => None
      end
  end.

Definition days_in_month (year month : Z) : Z :=
  if month =? 2 then (if DaysInYear year =? 366 then 29 else 28)
  else if (month =? 4) || (month =? 6) || (month =? 9) || (month =? 11)
       then 30 else 31.

(** [new Date (s)] for a date-only string [YYYY-MM-DD], as a date column
    holds it: midnight UTC of that day.  [None] is the invalid date,
    which is what any other string is taken to be. *)
Definition parse (s : string) : option Z :=
  match list_ascii_of_string s with
  | [y1; y2; y3; y4; "-"%char; m1; m2; "-"%char; d1; d2] =>
      match digits 0 [y1; y2; y3; y4], digits 0 [m1; m2], digits 0 [d1; d2] with
      | Some y, Some m, Some d =>
          if ((1 <=? m) && (m <=? 12) && (1 <=? d)
              && (d <=? days_in_month y m))%bool
          then Some (MakeDate (MakeDay y (m - 1) d) 0)
          else None
      | _, _, _ => None
      end
  | _ => None
  end.

(** [a >= b] on two dates: false when either is invalid. *)
Definition date_ge (a b : option Z) : bool :=
  match a, b with
  | Some x, Some y => y <=? x
  | _, _ => false
  end.

(** [a.toDateString() === b.toDateString()] where [b] is valid. *)
Definition same_date_string (zone : Zone) (a : option Z) (b : Z) : bool :=
  match a with
  | Some x =>
      let '(y1, m1, d1) := toDateString zone x in
      let '(y2, m2, d2) := toDateString zone b in
      (y1 =? y2) && (m1 =? m2) && (d1 =? d2)
  | None => false
  end.

End JsDate.

(** ** Purchases page *)

Module Purchases.
Section WithNumber.
Context {N : Type} `{JsNumber N}.

(** A row of the [purchases] table, with the fields the page reads. *)
Record Purchase : Type := {
  id : string;
  vendor_id : option string;
  vendor_name : string;
  purchase_date : string;
  subtotal : N;
  tax : N;
  total : N;
  status : string
}.

(** The form state, a [Partial<Purchase>]. *)
Record Form : Type := {
  f_vendor_id : option string;
  f_vendor_name : option string;
  f_purchase_date : option string;
  f_subtotal : option N;
  f_tax : option N;
  f_total : option N;
  f_status : option string
}.

Definition searchStage (searchTerm : string) (filtered : list Purchase)
  : list Purchase :=
  if JsString.truthy (JsString.trim searchTerm) then
    filter (fun purchase =>
              JsString.includes (JsString.toLowerCase (vendor_name purchase))
                                (JsString.toLowerCase searchTerm)
              || JsString.includes (JsString.toLowerCase (id purchase))
                                   (JsString.toLowerCase searchTerm))
           filtered
  else filtered.

Definition statusStage (statusFilter : string) (filtered : list Purchase)
  : list Purchase :=
  if negb (statusFilter =? "all") then
    filter (fun purchase => status purchase =? statusFilter) filtered
  else filtered.

(** The date stage; [now] is the time value of [new Date ()] and [zone]
    the offset of the local time zone. *)
Definition dateStage (zone : JsDate.Zone) (now : Z) (dateFilter : string)
           (filtered : list Purchase) : list Purchase :=
  if negb (dateFilter =? "all") then
    let today := now in
    let filterDate := today in
    if dateFilter =? "today" then
      filter (fun purchase =>
                JsDate.same_date_string zone
                  (JsDate.parse (purchase_date purchase)) today)
             filtered
    else if dateFilter =? "week" then
      let filterDate :=
        JsDate.setDate zone filterDate (JsDate.getDate zone today - 7) in
      filter (fun purchase =>
                JsDate.date_ge (JsDate.parse (purchase_date purchase))
                               (Some filterDate))
             filtered
    else if dateFilter =? "month" then
      let filterDate :=
        JsDate.setMonth zone filterDate (JsDate.getMonth zone today - 1) in
      filter (fun purchase =>
                JsDate.date_ge (JsDate.parse (purchase_date purchase))
                               (Some filterDate))
             filtered
    else filtered
  else filtered.

(** The filter effect: the value given to [setFilteredPurchases]. *)
Definition filterPurchases (zone : JsDate.Zone) (now : Z) (purchases : list Purchase)
           (searchTerm statusFilter dateFilter : string) : list Purchase :=
  let filtered := purchases in
  let filtered := searchStage searchTerm filtered in
  let filtered := statusStage statusFilter filtered in
  let filtered := dateStage zone now dateFilter filtered in
  filtered.

(** The sum the total effect computes. *)
Definition invoiceTotal (formData : Form) : N :=
  let subtotal := number_or_zero (f_subtotal formData) in
  let tax := number_or_zero (f_tax formData) in
  add subtotal tax.

Definition recomputeTotal (formData : Form) : Form :=
  let total := invoiceTotal formData in
  if SaleItems.total_differs (f_total formData) total then
    {| f_vendor_id := f_vendor_id formData;
       f_vendor_name := f_vendor_name formData;
       f_purchase_date := f_purchase_date formData;
       f_subtotal := f_subtotal formData;
       f_tax := f_tax formData;
       f_total := Some total;
       f_status := f_status formData |}
  else formData.

Definition validateForm (formData : Form) : bool * list toast :=
  if negb (JsString.truthy_trim (f_vendor_name formData)) then
    reject "Vendor name is required."
  else if match f_subtotal formData with
          | None => true
          | Some s => negb (truthy s) || le s zero
          end then
    reject "Subtotal must be greater than zero."
  else if match f_tax formData with
          | None => false
          | Some t => lt t zero
          end then
    reject "Tax cannot be negative."
  else accept.

End WithNumber.
Arguments Purchase N : clear implicits.
Arguments Form N : clear implicits.
End Purchases.

(** ** Badges *)

(** The variants of a badge the pages use. *)
Inductive BadgeVariant : Type :=
| variant_default
| variant_destructive
| variant_secondary.

(** ** JavaScript sets of strings *)

Module JsSet.

(** [Set.prototype.add]: a value already in the set is not added again;
    the set keeps the order of insertion. *)
Definition add (s : list string) (x : string) : list string :=
  if existsb (String.eqb x) s then s else s ++ [x].

(** [[...new Set (values)]]. *)
Definition of_list (values : list string) : list string :=
  fold_left add values [].

End JsSet.

(** The literal [1]. *)
Class JsOne (N : Type) : Type := one : N.

#[export] Instance JsOne_Z : JsOne Z := 1%Z.

#[export] Instance JsOne_float : JsOne float := 1%float.

(** [Number(x) || d] for an optional number. *)
Definition number_or {N} `{JsNumber N} (x : option N) (d : N) : N :=
  match x with
  | None => d
  | Some n => if truthy n then n else d
  end.

(** ** Ledger page: the form handlers and the badge of a row *)

Module LedgerEditing.
Import Ledger LedgerPage.
Section WithNumber.
Context {N : Type} `{JsNumber N}.

(** The first value of the form state. *)
Definition initialFormData : Form N :=
  {| f_entity_type := Some "customer";
     f_entity_id := Some "";
     f_entity_name := Some "";
     f_transaction_type := Some "debit";
     f_amount := Some zero;
     f_description := Some "";
     f_reference_id := Some "";
     f_reference_type := Some "" |}.

(** [{ ...formData, entity_id, entity_name }]. *)
Definition with_entity (formData : Form N) (entity_id entity_name : string)
  : Form N :=
  {| f_entity_type := f_entity_type formData;
     f_entity_id := Some entity_id;
     f_entity_name := Some entity_name;
     f_transaction_type := f_transaction_type formData;
     f_amount := f_amount formData;
     f_description := f_description formData;
     f_reference_id := f_reference_id formData;
     f_reference_type := f_reference_type formData |}.

(** [handleEntitySelect], run on the lists and the form of the current
    render. *)
Definition handleEntitySelect (entityId : string) : @action N unit :=
  fun p0 =>
    let formData := formData p0 in
    let selectedCustomer :=
      find (fun c => Parties.id c =? entityId) (customers p0) in
    let selectedVendor :=
      find (fun v => Parties.id v =? entityId) (vendors p0) in
    match selectedCustomer, selectedVendor with
    | Some c, _ =>
        setFormData (with_entity formData entityId (Parties.name c)) p0
    | None, Some v =>
        setFormData (with_entity formData entityId (Parties.name v)) p0
    | None, None =>
        setFormData (with_entity formData "" "") p0
    end.

(** The change handler of the entity type selector. *)
Definition handleEntityTypeChange (value : string) : @action N unit :=
  fun p0 =>
    let formData := formData p0 in
    setFormData
      {| f_entity_type := Some value;
         f_entity_id := Some "";
         f_entity_name := Some "";
         f_transaction_type := f_transaction_type formData;
         f_amount := f_amount formData;
         f_description := f_description formData;
         f_reference_id := f_reference_id formData;
         f_reference_type := f_reference_type formData |} p0.

(** [handleEdit]. *)
Definition handleEdit (entry : LedgerEntry N) : @action N unit :=
  bind
    (setFormData
       {| f_entity_type := Some (entity_type entry);
          f_entity_id := Some (JsString.or_default (entity_id entry) "");
          f_entity_name := Some (entity_name entry);
          f_transaction_type := Some (transaction_type entry);
          f_amount := Some (amount entry);
          f_description := Some (JsString.or_default (description entry) "");
          f_reference_id := Some (JsString.or_default (reference_id entry) "");
          f_reference_type :=
            Some (JsString.or_default (reference_type entry) "") |})
    (fun _ => setEditingId (Some (id entry))).

(** [getTransactionTypeBadge]: the variant and the label of the badge. *)
Definition getTransactionTypeBadge (type : string) : BadgeVariant * string :=
  if type =? "debit" then (variant_destructive, "Debit")
  else (variant_default, "Credit").

End WithNumber.
End LedgerEditing.

(** ** Products page: the header, the category selector and the form *)

Module ProductsPage.
Import Products.
Section WithNumber.
Context {N : Type} `{JsNumber N}.

(** The categories offered by the category selector. *)
Definition categories (products : list (Product N)) : list string :=
  JsSet.of_list (filter JsString.truthy (map category products)).

Definition stockAlerts (products : list (Product N)) : list (Product N) :=
  filter (fun p => le (quantity p) (min_stock p)) products.

Definition outOfStock (products : list (Product N)) : list (Product N) :=
  filter (fun p => strict_eq (quantity p) zero) products.

(** The count on the out-of-stock badge of the header, when the badge is
    rendered. *)
Definition outOfStockBadge (products : list (Product N)) : option nat :=
  if (0 <? List.length (outOfStock products))%nat
  then Some (List.length (outOfStock products)) else None.

(** The count and the label of the alerts badge, when it is rendered. *)
Definition stockAlertsBadge (products : list (Product N))
  : option (nat * string) :=
  if (0 <? List.length (stockAlerts products))%nat
  then Some (List.length (stockAlerts products),
             "Low Stock Alert"
               ++ (if negb (List.length (stockAlerts products) =? 1)%nat
                   then "s" else ""))
  else None.

(** The object sent by [insert] and [update]. *)
Record ProductData : Type := {
  d_user_id : string;
  d_name : string;
  d_category : string;
  d_quantity : N;
  d_price : N;
  d_min_stock : N
}.

Definition productData_of (user : string) (formData : Form N) : ProductData :=
  {| d_user_id := user;
     d_name := JsString.or_default (JsString.trim_opt (f_name formData)) "";
     d_category :=
       JsString.or_default (JsString.trim_opt (f_category formData)) "";
     d_quantity := number_or_zero (f_quantity formData);
     d_price := number_or_zero (f_price formData);
     d_min_stock := number_or_zero (f_min_stock formData) |}.

End WithNumber.
Arguments ProductData N : clear implicits.
End ProductsPage.

(** ** Sale items page: the product selector and the data sent *)

Module SaleItemsPage.
Import SaleItems.
Section WithNumber.
Context {N : Type} `{JsNumber N} `{!JsOne N}.

(** [handleProductSelect], run on the products and the form of the
    current render: the next form state. *)
Definition handleProductSelect (products : list (Products.Product N))
           (formData : Form N) (productId : string) : Form N :=
  let selectedProduct :=
    find (fun p => Products.id p =? productId) products in
  match selectedProduct with
  | Some selectedProduct =>
      {| f_sale_id := f_sale_id formData;
         f_product_id := Some productId;
         f_product_name := Some (Products.name selectedProduct);
         f_quantity := f_quantity formData;
         f_price := Some (number_or_zero (Some (Products.price selectedProduct)));
         f_total := f_total formData |}
  | None =>
      {| f_sale_id := f_sale_id formData;
         f_product_id := Some "";
         f_product_name := Some "";
         f_quantity := f_quantity formData;
         f_price := Some zero;
         f_total := f_total formData |}
  end.

(** The object sent by [insert] and [update]. *)
Record ItemData : Type := {
  d_sale_id : option string;
  d_product_id : option string;
  d_product_name : string;
  d_quantity : N;
  d_price : N;
  d_total : N
}.

Definition itemData_of (formData : Form N) : ItemData :=
  {| d_sale_id := f_sale_id formData;
     d_product_id := JsString.or_null (f_product_id formData);
     d_product_name :=
       JsString.or_default (JsString.trim_opt (f_product_name formData)) "";
     d_quantity := number_or (f_quantity formData) one;
     d_price := number_or_zero (f_price formData);
     d_total := number_or_zero (f_total formData) |}.

End WithNumber.
Arguments ItemData N : clear implicits.
End SaleItemsPage.

(** ** Purchase items page: the product selector and the data sent *)

Module PurchaseItemsPage.
Import PurchaseItems.
Section WithNumber.
Context {N : Type} `{JsNumber N} `{!JsOne N}.

Definition handleProductSelect (products : list (Products.Product N))
           (formData : Form N) (productId : string) : Form N :=
  let selectedProduct :=
    find (fun p => Products.id p =? productId) products in
  match selectedProduct with
  | Some selectedProduct =>
      {| f_purchase_id := f_purchase_id formData;
         f_product_id := Some productId;
         f_product_name := Some (Products.name selectedProduct);
         f_quantity := f_quantity formData;
         f_price := Some (number_or_zero (Some (Products.price selectedProduct)));
         f_total := f_total formData |}
  | None =>
      {| f_purchase_id := f_purchase_id formData;
         f_product_id := Some "";
         f_product_name := Some "";
         f_quantity := f_quantity formData;
         f_price := Some zero;
         f_total := f_total formData |}
  end.

Record ItemData : Type := {
  d_purchase_id : option string;
  d_product_id : option string;
  d_product_name : string;
  d_quantity : N;
  d_price : N;
  d_total : N
}.

Definition itemData_of (formData : Form N) : ItemData :=
  {| d_purchase_id := f_purchase_id formData;
     d_product_id := JsString.or_null (f_product_id formData);
     d_product_name :=
       JsString.or_default (JsString.trim_opt (f_product_name formData)) "";
     d_quantity := number_or (f_quantity formData) one;
     d_price := number_or_zero (f_price formData);
     d_total := number_or_zero (f_total formData) |}.

End WithNumber.
Arguments ItemData N : clear implicits.
End PurchaseItemsPage.

(** ** Customers and vendors pages: the search and the data sent *)

Module PartiesPage.
Import Parties.
Section WithNumber.
Context {N : Type} `{JsNumber N}.

(** [o?.toLowerCase().includes (t)] for an optional string [o]. *)
Definition includes_lower_opt (o : option string) (t : string) : bool :=
  match o with
  | Some s => JsString.includes (JsString.toLowerCase s) t
  | None => false
  end.

(** [o?.includes (t)]. *)
Definition includes_opt (o : option string) (t : string) : bool :=
  match o with
  | Some s => JsString.includes s t
  | None => false
  end.

(** The filter effect of both pages: the value given to
    [setFilteredCustomers] or [setFilteredVendors]. *)
Definition filterParties (parties : list (Party N)) (searchTerm : string)
  : list (Party N) :=
  if negb (JsString.truthy (JsString.trim searchTerm)) then parties
  else
    filter (fun party =>
              JsString.includes (JsString.toLowerCase (name party))
                                (JsString.toLowerCase searchTerm)
              || includes_lower_opt (email party)
                                    (JsString.toLowerCase searchTerm)
              || includes_opt (phone party) searchTerm
              || includes_lower_opt (address party)
                                    (JsString.toLowerCase searchTerm))
           parties.

(** The object sent by [insert] and [update]. *)
Record PartyData : Type := {
  d_user_id : string;
  d_name : string;
  d_email : option string;
  d_phone : option string;
  d_address : option string;
  d_balance : option N
}.

(** [customerData]: the balance is whatever the form holds. *)
Definition customerData_of (user : string) (formData : Form N) : PartyData :=
  {| d_user_id := user;
     d_name := JsString.or_default (JsString.trim_opt (f_name formData)) "";
     d_email := JsString.or_null (JsString.trim_opt (f_email formData));
     d_phone := JsString.or_null (JsString.trim_opt (f_phone formData));
     d_address := JsString.or_null (JsString.trim_opt (f_address formData));
     d_balance := f_balance formData |}.

(** [vendorData]. *)
Definition vendorData_of (user : string) (formData : Form N) : PartyData :=
  {| d_user_id := user;
     d_name := JsString.or_default (JsString.trim_opt (f_name formData)) "";
     d_email := JsString.or_null (JsString.trim_opt (f_email formData));
     d_phone := JsString.or_null (JsString.trim_opt (f_phone formData));
     d_address := JsString.or_null (JsString.trim_opt (f_address formData));
     d_balance := Some (number_or_zero (f_balance formData)) |}.

(** [getBalanceBadgeVariant]. *)
Definition getBalanceBadgeVariant (balance : N) : BadgeVariant :=
  if lt balance zero then variant_destructive
  else if strict_eq balance zero then variant_secondary
  else variant_default.

End WithNumber.
Arguments PartyData N : clear implicits.
End PartiesPage.

(** ** Purchases page: the statistics, the vendor selector and the data
    sent *)

Module PurchasesPage.
Import Purchases.
Section WithNumber.
Context {N : Type} `{JsNumber N}.

Record PurchasesStats : Type := {
  totalPurchases : N;
  todayPurchases : N;
  pendingAmount : N
}.

(** [calculateStats]: the value given to [setStats]; [now] is the time
    value of [new Date ()] and [zone] the local time zone. *)
Definition calculateStats (zone : JsDate.Zone) (now : Z) (purchases : list (Purchase N))
  : PurchasesStats :=
  let today := now in
  let totalPurchases := reduce_sum total purchases in
  let todayPurchases :=
    reduce_sum total
      (filter (fun purchase =>
                 JsDate.same_date_string zone
                   (JsDate.parse (purchase_date purchase)) today)
              purchases) in
  let pendingAmount :=
    reduce_sum total
      (filter (fun purchase => status purchase =? "pending") purchases) in
  {| totalPurchases := totalPurchases;
     todayPurchases := todayPurchases;
     pendingAmount := pendingAmount |}.

(** [handleVendorSelect], run on the vendors and the form of the current
    render: the next form state. *)
Definition handleVendorSelect (vendors : list (Parties.Party N))
           (formData : Form N) (vendorId : string) : Form N :=
  let selectedVendor := find (fun v => Parties.id v =? vendorId) vendors in
  match selectedVendor with
  | Some selectedVendor =>
      {| f_vendor_id := Some vendorId;
         f_vendor_name := Some (Parties.name selectedVendor);
         f_purchase_date := f_purchase_date formData;
         f_subtotal := f_subtotal formData;
         f_tax := f_tax formData;
         f_total := f_total formData;
         f_status := f_status formData |}
  | None =>
      {| f_vendor_id := Some "";
         f_vendor_name := Some "";
         f_purchase_date := f_purchase_date formData;
         f_subtotal := f_subtotal formData;
         f_tax := f_tax formData;
         f_total := f_total formData;
         f_status := f_status formData |}
  end.

(** The object sent by [insert] and [update]. *)
Record PurchaseData : Type := {
  d_user_id : string;
  d_vendor_id : option string;
  d_vendor_name : string;
  d_purchase_date : option string;
  d_subtotal : N;
  d_tax : N;
  d_total : N;
  d_status : string
}.

Definition purchaseData_of (user : string) (formData : Form N) : PurchaseData :=
  {| d_user_id := user;
     d_vendor_id := JsString.or_null (f_vendor_id formData);
     d_vendor_name :=
       JsString.or_default (JsString.trim_opt (f_vendor_name formData)) "";
     d_purchase_date := f_purchase_date formData;
     d_subtotal := number_or_zero (f_subtotal formData);
     d_tax := number_or_zero (f_tax formData);
     d_total := number_or_zero (f_total formData);
     d_status := JsString.or_default (f_status formData) "pending" |}.

(** [getStatusBadge]: the variant and the label of the badge. *)
Definition getStatusBadge (status : string) : BadgeVariant * string :=
  if status =? "paid" then (variant_default, "Paid")
  else (variant_secondary, "Pending").

End WithNumber.
Arguments PurchasesStats N : clear implicits.
Arguments PurchaseData N : clear implicits.
End PurchasesPage.


(** ** Sales *)

Module Sales.

(** A row of the [sales] table, with the fields the sale items page
    reads. *)
Record Sale : Type := {
  id : string;
  customer_name : string;
  sale_date : string
}.

End Sales.

(** ** Products page: operations against the backend *)

Module ProductsStore.
Import Products ProductsPage.
Section WithNumber.
Context {N : Type} `{JsNumber N}.

(** The calls the page makes on the backend client; an update and a
    delete carry their chain of [.eq (column, value)] restrictions. *)
Inductive request : Type :=
| auth_getUser
| select_all (table order_by : string) (ascending : bool)
| update_row (table : string) (values : ProductData N)
             (eq : list (string * string))
| insert_row (table : string) (values : ProductData N)
| delete_row (table : string) (eq : list (string * string)).

(** What a call resolves to: the user of [auth.getUser], the rows of a
    [select] on the products, and the message of the error, if any. *)
Record response : Type := {
  r_user : option string;
  r_data : option (list (Product N));
  r_error : option string
}.

(** The backend answers a call knowing the calls made before it. *)
Definition backend : Type := list request -> request -> response.

(** The state of the page, and what it has emitted so far (oldest
    first). *)
Record Page : Type := {
  products : list (Product N);
  formData : Form N;
  editingId : option string;
  loading : bool;
  toasts : list toast;
  navigations : list string;
  requests : list request
}.

Definition action (A : Type) : Type := Page -> A * Page.

Definition ret {A} (a : A) : action A := fun p => (a, p).

Definition bind {A B} (c : action A) (k : A -> action B) : action B :=
  fun p => let (a, p') := c p in k a p'.

Notation "x <- c ;; k" := (bind c (fun x => k))
  (at level 61, c at next level, right associativity).
Notation "c ;; k" := (bind c (fun _ => k))
  (at level 61, right associativity).

Definition setProducts (l : list (Product N)) : action unit :=
  fun p => (tt, {| products := l; formData := formData p;
                  editingId := editingId p; loading := loading p;
                  toasts := toasts p; navigations := navigations p;
                  requests := requests p |}).

Definition setFormData (f : Form N) : action unit :=
  fun p => (tt, {| products := products p; formData := f;
                  editingId := editingId p; loading := loading p;
                  toasts := toasts p; navigations := navigations p;
                  requests := requests p |}).

Definition setEditingId (e : option string) : action unit :=
  fun p => (tt, {| products := products p; formData := formData p;
                  editingId := e; loading := loading p; toasts := toasts p;
                  navigations := navigations p; requests := requests p |}).

Definition setLoading (b : bool) : action unit :=
  fun p => (tt, {| products := products p; formData := formData p;
                  editingId := editingId p; loading := b;
                  toasts := toasts p; navigations := navigations p;
                  requests := requests p |}).

Definition show (ts : list toast) : action unit :=
  fun p => (tt, {| products := products p; formData := formData p;
                  editingId := editingId p; loading := loading p;
                  toasts := toasts p ++ ts; navigations := navigations p;
                  requests := requests p |}).

Definition router_push (path : string) : action unit :=
  fun p => (tt, {| products := products p; formData := formData p;
                  editingId := editingId p; loading := loading p;
                  toasts := toasts p;
                  navigations := navigations p ++ [path];
                  requests := requests p |}).

Variable server : backend.

(** [await] of a call on the client. *)
Definition await (r : request) : action response :=
  fun p => (server (requests p) r,
            {| products := products p; formData := formData p;
               editingId := editingId p; loading := loading p;
               toasts := toasts p; navigations := navigations p;
               requests := requests p ++ [r] |}).

(** [authError || !user]. *)
Definition auth_failed (r : response) : bool :=
  match r_error r, r_user r with
  | None, Some _ => false
  | _, _ => true
  end.

(** [user.id], read only when the user is there. *)
Definition user_id_of (r : response) : string :=
  match r_user r with
  | Some u => u
  | None => ""
  end.

(** [fetchProducts] up to its first [await]. *)
Definition fetch_begin : action response :=
  setLoading true ;;
  await auth_getUser.

(** [fetchProducts] from the point where [auth.getUser] has resolved. *)
Definition fetch_resume (auth : response) : action unit :=
  if auth_failed auth then
    show [toast_error "Authentication Error"
                      "Please log in to view products."] ;;
    router_push "/login" ;;
    setLoading false
  else
    res <- await (select_all "products" "created_at" false) ;;
    match r_error res with
    | Some message =>
        show [toast_error "Failed to Fetch Products" message]
    | None =>
        setProducts (match r_data res with Some d => d | None => [] end)
    end ;;
    setLoading false.

Definition fetchProducts : action unit :=
  auth <- fetch_begin ;;
  fetch_resume auth.

Definition resetForm : action unit :=
  setFormData {| f_name := Some "";
                 f_category := Some "";
                 f_quantity := Some zero;
                 f_price := Some zero;
                 f_min_stock := Some zero |} ;;
  setEditingId None.

(** The caller's last statement followed by the resumption of a
    [fetchProducts] that was started without being awaited. *)
Definition finish_then (pending : option response) : action unit :=
  setLoading false ;;
  match pending with
  | Some auth => fetch_resume auth
  | None => ret tt
  end.

(** [handleSubmit], run on the form and editing id of the current
    render.  In the update branch the editing id is a non-empty string,
    which [interpolate] reads. *)
Definition handleSubmit : action unit :=
  fun p0 =>
    let formData := formData p0 in
    let editingId := editingId p0 in
    (let (valid, shown) := validateForm formData in
     show shown ;;
     if negb valid then ret tt
     else
       setLoading true ;;
       auth <- await auth_getUser ;;
       if auth_failed auth then
         show [toast_error "Authentication Error"
                           "Please log in to perform this action."] ;;
         setLoading false
       else
         let productData := productData_of (user_id_of auth) formData in
         pending <-
           (if JsString.truthy_opt editingId then
              res <- await (update_row "products" productData
                              [("id", JsString.interpolate editingId);
                               ("user_id", user_id_of auth)]) ;;
              match r_error res with
              | Some message =>
                  show [toast_error "Failed to Update Product" message] ;;
                  ret None
              | None =>
                  show [toast_success "Product Updated"
                          (JsString.interpolate (f_name formData)
                             ++ " has been successfully updated.")] ;;
                  resetForm ;;
                  auth' <- fetch_begin ;;
                  ret (Some auth')
              end
            else
              res <- await (insert_row "products" productData) ;;
              match r_error res with
              | Some message =>
                  show [toast_error "Failed to Create Product" message] ;;
                  ret None
              | None =>
                  show [toast_success "Product Created"
                          (JsString.interpolate (f_name formData)
                             ++ " has been successfully created.")] ;;
                  resetForm ;;
                  auth' <- fetch_begin ;;
                  ret (Some auth')
              end) ;;
         finish_then pending) p0.

(** [handleDelete id]; [confirmed] is the answer to the [confirm]
    dialog. *)
Definition handleDelete (row_id : string) (confirmed : bool) : action unit :=
  fun p0 =>
    let product := find (fun x => id x =? row_id) (products p0) in
    (if negb confirmed then ret tt
     else
       setLoading true ;;
       auth <- await auth_getUser ;;
       if auth_failed auth then
         show [toast_error "Authentication Error"
                           "Please log in to perform this action."] ;;
         setLoading false
       else
         res <- await (delete_row "products"
                         [("id", row_id); ("user_id", user_id_of auth)]) ;;
         pending <-
           match r_error res with
           | Some message =>
               show [toast_error "Failed to Delete Product" message] ;;
               ret None
           | None =>
               show [toast_success "Product Deleted"
                       (match product with
                          | Some x => JsString.or_default
                                        (Some (name x)) "Product"
                          | None => "Product"
                          end
                            ++ " has been successfully deleted.")] ;;
               auth' <- fetch_begin ;;
               ret (Some auth')
           end ;;
         finish_then pending) p0.

End WithNumber.
Arguments request N : clear implicits.
Arguments response N : clear implicits.
Arguments backend N : clear implicits.
Arguments Page N : clear implicits.
End ProductsStore.

(** ** Customers page: operations against the backend *)

Module CustomersStore.
Import Parties PartiesPage.
Section WithNumber.
Context {N : Type} `{JsNumber N}.

(** The calls the page makes on the backend client; an update and a
    delete carry their chain of [.eq (column, value)] restrictions. *)
Inductive request : Type :=
| auth_getUser
| select_all (table order_by : string) (ascending : bool)
| update_row (table : string) (values : PartyData N)
             (eq : list (string * string))
| insert_row (table : string) (values : PartyData N)
| delete_row (table : string) (eq : list (string * string)).

(** What a call resolves to: the user of [auth.getUser], the rows of a
    [select] on the customers, and the message of the error, if any. *)
Record response : Type := {
  r_user : option string;
  r_data : option (list (Party N));
  r_error : option string
}.

(** The backend answers a call knowing the calls made before it. *)
Definition backend : Type := list request -> request -> response.

(** The state of the page, and what it has emitted so far (oldest
    first). *)
Record Page : Type := {
  customers : list (Party N);
  formData : Form N;
  editingId : option string;
  loading : bool;
  toasts : list toast;
  navigations : list string;
  requests : list request
}.

Definition action (A : Type) : Type := Page -> A * Page.

Definition ret {A} (a : A) : action A := fun p => (a, p).

Definition bind {A B} (c : action A) (k : A -> action B) : action B :=
  fun p => let (a, p') := c p in k a p'.

Notation "x <- c ;; k" := (bind c (fun x => k))
  (at level 61, c at next level, right associativity).
Notation "c ;; k" := (bind c (fun _ => k))
  (at level 61, right associativity).

Definition setCustomers (l : list (Party N)) : action unit :=
  fun p => (tt, {| customers := l; formData := formData p;
                  editingId := editingId p; loading := loading p;
                  toasts := toasts p; navigations := navigations p;
                  requests := requests p |}).

Definition setFormData (f : Form N) : action unit :=
  fun p => (tt, {| customers := customers p; formData := f;
                  editingId := editingId p; loading := loading p;
                  toasts := toasts p; navigations := navigations p;
                  requests := requests p |}).

Definition setEditingId (e : option string) : action unit :=
  fun p => (tt, {| customers := customers p; formData := formData p;
                  editingId := e; loading := loading p; toasts := toasts p;
                  navigations := navigations p; requests := requests p |}).

Definition setLoading (b : bool) : action unit :=
  fun p => (tt, {| customers := customers p; formData := formData p;
                  editingId := editingId p; loading := b;
                  toasts := toasts p; navigations := navigations p;
                  requests := requests p |}).

Definition show (ts : list toast) : action unit :=
  fun p => (tt, {| customers := customers p; formData := formData p;
                  editingId := editingId p; loading := loading p;
                  toasts := toasts p ++ ts; navigations := navigations p;
                  requests := requests p |}).

Definition router_push (path : string) : action unit :=
  fun p => (tt, {| customers := customers p; formData := formData p;
                  editingId := editingId p; loading := loading p;
                  toasts := toasts p;
                  navigations := navigations p ++ [path];
                  requests := requests p |}).

Variable server : backend.

(** [await] of a call on the client. *)
Definition await (r : request) : action response :=
  fun p => (server (requests p) r,
            {| customers := customers p; formData := formData p;
               editingId := editingId p; loading := loading p;
               toasts := toasts p; navigations := navigations p;
               requests := requests p ++ [r] |}).

(** [authError || !user]. *)
Definition auth_failed (r : response) : bool :=
  match r_error r, r_user r with
  | None, Some _ => false
  | _, _ => true
  end.

(** [user.id], read only when the user is there. *)
Definition user_id_of (r : response) : string :=
  match r_user r with
  | Some u => u
  | None => ""
  end.

(** [fetchCustomers] up to its first [await]. *)
Definition fetch_begin : action response :=
  setLoading true ;;
  await auth_getUser.

(** [fetchCustomers] from the point where [auth.getUser] has resolved. *)
Definition fetch_resume (auth : response) : action unit :=
  if auth_failed auth then
    show [toast_error "Authentication Error"
                      "Please log in to view customers."] ;;
    router_push "/login" ;;
    setLoading false
  else
    res <- await (select_all "customers" "created_at" false) ;;
    match r_error res with
    | Some message =>
        show [toast_error "Failed to Fetch Customers" message]
    | None =>
        setCustomers (match r_data res with Some d => d | None => [] end)
    end ;;
    setLoading false.

Definition fetchCustomers : action unit :=
  auth <- fetch_begin ;;
  fetch_resume auth.

Definition resetForm : action unit :=
  setFormData {| f_name := Some "";
                 f_email := Some "";
                 f_phone := Some "";
                 f_address := Some "";
                 f_balance := None |} ;;
  setEditingId None.

(** The caller's last statement followed by the resumption of a
    [fetchCustomers] that was started without being awaited. *)
Definition finish_then (pending : option response) : action unit :=
  setLoading false ;;
  match pending with
  | Some auth => fetch_resume auth
  | None => ret tt
  end.

(** [handleSubmit], run on the form and editing id of the current
    render.  In the update branch the editing id is a non-empty string,
    which [interpolate] reads. *)
Definition handleSubmit : action unit :=
  fun p0 =>
    let formData := formData p0 in
    let editingId := editingId p0 in
    (let (valid, shown) := validateCustomerForm formData in
     show shown ;;
     if negb valid then ret tt
     else
       setLoading true ;;
       auth <- await auth_getUser ;;
       if auth_failed auth then
         show [toast_error "Authentication Error"
                           "Please log in to perform this action."] ;;
         setLoading false
       else
         let customerData := customerData_of (user_id_of auth) formData in
         pending <-
           (if JsString.truthy_opt editingId then
              res <- await (update_row "customers" customerData
                              [("id", JsString.interpolate editingId);
                               ("user_id", user_id_of auth)]) ;;
              match r_error res with
              | Some message =>
                  show [toast_error "Failed to Update Customer" message] ;;
                  ret None
              | None =>
                  show [toast_success "Customer Updated"
                          (JsString.interpolate (f_name formData)
                             ++ " has been successfully updated.")] ;;
                  resetForm ;;
                  auth' <- fetch_begin ;;
                  ret (Some auth')
              end
            else
              res <- await (insert_row "customers" customerData) ;;
              match r_error res with
              | Some message =>
                  show [toast_error "Failed to Create Customer" message] ;;
                  ret None
              | None =>
                  show [toast_success "Customer Created"
                          (JsString.interpolate (f_name formData)
                             ++ " has been successfully created.")] ;;
                  resetForm ;;
                  auth' <- fetch_begin ;;
                  ret (Some auth')
              end) ;;
         finish_then pending) p0.

(** [handleDelete id]; [confirmed] is the answer to the [confirm]
    dialog. *)
Definition handleDelete (row_id : string) (confirmed : bool) : action unit :=
  fun p0 =>
    let customer := find (fun x => id x =? row_id) (customers p0) in
    (if negb confirmed then ret tt
     else
       setLoading true ;;
       auth <- await auth_getUser ;;
       if auth_failed auth then
         show [toast_error "Authentication Error"
                           "Please log in to perform this action."] ;;
         setLoading false
       else
         res <- await (delete_row "customers"
                         [("id", row_id); ("user_id", user_id_of auth)]) ;;
         pending <-
           match r_error res with
           | Some message =>
               show [toast_error "Failed to Delete Customer" message] ;;
               ret None
           | None =>
               show [toast_success "Customer Deleted"
                       (match customer with
                          | Some x => JsString.or_default
                                        (Some (name x)) "Customer"
                          | None => "Customer"
                          end
                            ++ " has been successfully deleted.")] ;;
               auth' <- fetch_begin ;;
               ret (Some auth')
           end ;;
         finish_then pending) p0.

End WithNumber.
Arguments request N : clear implicits.
Arguments response N : clear implicits.
Arguments backend N : clear implicits.
Arguments Page N : clear implicits.
End CustomersStore.

(** ** Vendors page: operations against the backend *)

Module VendorsStore.
Import Parties PartiesPage.
Section WithNumber.
Context {N : Type} `{JsNumber N}.

(** The calls the page makes on the backend client; an update and a
    delete carry their chain of [.eq (column, value)] restrictions. *)
Inductive request : Type :=
| auth_getUser
| select_all (table order_by : string) (ascending : bool)
| update_row (table : string) (values : PartyData N)
             (eq : list (string * string))
| insert_row (table : string) (values : PartyData N)
| delete_row (table : string) (eq : list (string * string)).

(** What a call resolves to: the user of [auth.getUser], the rows of a
    [select] on the vendors, and the message of the error, if any. *)
Record response : Type := {
  r_user : option string;
  r_data : option (list (Party N));
  r_error : option string
}.

(** The backend answers a call knowing the calls made before it. *)
Definition backend : Type := list request -> request -> response.

(** The state of the page, and what it has emitted so far (oldest
    first). *)
Record Page : Type := {
  vendors : list (Party N);
  formData : Form N;
  editingId : option string;
  loading : bool;
  toasts : list toast;
  navigations : list string;
  requests : list request
}.

Definition action (A : Type) : Type := Page -> A * Page.

Definition ret {A} (a : A) : action A := fun p => (a, p).

Definition bind {A B} (c : action A) (k : A -> action B) : action B :=
  fun p => let (a, p') := c p in k a p'.

Notation "x <- c ;; k" := (bind c (fun x => k))
  (at level 61, c at next level, right associativity).
Notation "c ;; k" := (bind c (fun _ => k))
  (at level 61, right associativity).

Definition setVendors (l : list (Party N)) : action unit :=
  fun p => (tt, {| vendors := l; formData := formData p;
                  editingId := editingId p; loading := loading p;
                  toasts := toasts p; navigations := navigations p;
                  requests := requests p |}).

Definition setFormData (f : Form N) : action unit :=
  fun p => (tt, {| vendors := vendors p; formData := f;
                  editingId := editingId p; loading := loading p;
                  toasts := toasts p; navigations := navigations p;
                  requests := requests p |}).

Definition setEditingId (e : option string) : action unit :=
  fun p => (tt, {| vendors := vendors p; formData := formData p;
                  editingId := e; loading := loading p; toasts := toasts p;
                  navigations := navigations p; requests := requests p |}).

Definition setLoading (b : bool) : action unit :=
  fun p => (tt, {| vendors := vendors p; formData := formData p;
                  editingId := editingId p; loading := b;
                  toasts := toasts p; navigations := navigations p;
                  requests := requests p |}).

Definition show (ts : list toast) : action unit :=
  fun p => (tt, {| vendors := vendors p; formData := formData p;
                  editingId := editingId p; loading := loading p;
                  toasts := toasts p ++ ts; navigations := navigations p;
                  requests := requests p |}).

Definition router_push (path : string) : action unit :=
  fun p => (tt, {| vendors := vendors p; formData := formData p;
                  editingId := editingId p; loading := loading p;
                  toasts := toasts p;
                  navigations := navigations p ++ [path];
                  requests := requests p |}).

Variable server : backend.

(** [await] of a call on the client. *)
Definition await (r : request) : action response :=
  fun p => (server (requests p) r,
            {| vendors := vendors p; formData := formData p;
               editingId := editingId p; loading := loading p;
               toasts := toasts p; navigations := navigations p;
               requests := requests p ++ [r] |}).

(** [authError || !user]. *)
Definition auth_failed (r : response) : bool :=
  match r_error r, r_user r with
  | None, Some _ => false
  | _, _ => true
  end.

(** [user.id], read only when the user is there. *)
Definition user_id_of (r : response) : string :=
  match r_user r with
  | Some u => u
  | None => ""
  end.

(** [fetchVendors] up to its first [await]. *)
Definition fetch_begin : action response :=
  setLoading true ;;
  await auth_getUser.

(** [fetchVendors] from the point where [auth.getUser] has resolved. *)
Definition fetch_resume (auth : response) : action unit :=
  if auth_failed auth then
    show [toast_error "Authentication Error"
                      "Please log in to view vendors."] ;;
    router_push "/login" ;;
    setLoading false
  else
    res <- await (select_all "vendors" "created_at" false) ;;
    match r_error res with
    | Some message =>
        show [toast_error "Failed to Fetch Vendors" message]
    | None =>
        setVendors (match r_data res with Some d => d | None => [] end)
    end ;;
    setLoading false.

Definition fetchVendors : action unit :=
  auth <- fetch_begin ;;
  fetch_resume auth.

Definition resetForm : action unit :=
  setFormData {| f_name := Some "";
                 f_email := Some "";
                 f_phone := Some "";
                 f_address := Some "";
                 f_balance := Some zero |} ;;
  setEditingId None.

(** The caller's last statement followed by the resumption of a
    [fetchVendors] that was started without being awaited. *)
Definition finish_then (pending : option response) : action unit :=
  setLoading false ;;
  match pending with
  | Some auth => fetch_resume auth
  | None => ret tt
  end.

(** [handleSubmit], run on the form and editing id of the current
    render.  In the update branch the editing id is a non-empty string,
    which [interpolate] reads. *)
Definition handleSubmit : action unit :=
  fun p0 =>
    let formData := formData p0 in
    let editingId := editingId p0 in
    (let (valid, shown) := validateVendorForm formData in
     show shown ;;
     if negb valid then ret tt
     else
       setLoading true ;;
       auth <- await auth_getUser ;;
       if auth_failed auth then
         show [toast_error "Authentication Error"
                           "Please log in to perform this action."] ;;
         setLoading false
       else
         let vendorData := vendorData_of (user_id_of auth) formData in
         pending <-
           (if JsString.truthy_opt editingId then
              res <- await (update_row "vendors" vendorData
                              [("id", JsString.interpolate editingId);
                               ("user_id", user_id_of auth)]) ;;
              match r_error res with
              | Some message =>
                  show [toast_error "Failed to Update Vendor" message] ;;
                  ret None
              | None =>
                  show [toast_success "Vendor Updated"
                          (JsString.interpolate (f_name formData)
                             ++ " has been successfully updated.")] ;;
                  resetForm ;;
                  auth' <- fetch_begin ;;
                  ret (Some auth')
              end
            else
              res <- await (insert_row "vendors" vendorData) ;;
              match r_error res with
              | Some message =>
                  show [toast_error "Failed to Create Vendor" message] ;;
                  ret None
              | None =>
                  show [toast_success "Vendor Created"
                          (JsString.interpolate (f_name formData)
                             ++ " has been successfully created.")] ;;
                  resetForm ;;
                  auth' <- fetch_begin ;;
                  ret (Some auth')
              end) ;;
         finish_then pending) p0.

(** [handleDelete id]; [confirmed] is the answer to the [confirm]
    dialog. *)
Definition handleDelete (row_id : string) (confirmed : bool) : action unit :=
  fun p0 =>
    let vendor := find (fun x => id x =? row_id) (vendors p0) in
    (if negb confirmed then ret tt
     else
       setLoading true ;;
       auth <- await auth_getUser ;;
       if auth_failed auth then
         show [toast_error "Authentication Error"
                           "Please log in to perform this action."] ;;
         setLoading false
       else
         res <- await (delete_row "vendors"
                         [("id", row_id); ("user_id", user_id_of auth)]) ;;
         pending <-
           match r_error res with
           | Some message =>
               show [toast_error "Failed to Delete Vendor" message] ;;
               ret None
           | None =>
               show [toast_success "Vendor Deleted"
                       (match vendor with
                          | Some x => JsString.or_default
                                        (Some (name x)) "Vendor"
                          | None => "Vendor"
                          end
                            ++ " has been successfully deleted.")] ;;
               auth' <- fetch_begin ;;
               ret (Some auth')
           end ;;
         finish_then pending) p0.

End WithNumber.
Arguments request N : clear implicits.
Arguments response N : clear implicits.
Arguments backend N : clear implicits.
Arguments Page N : clear implicits.
End VendorsStore.

(** ** Purchases page: operations against the backend *)

Module PurchasesStore.
Import Purchases PurchasesPage.
Section WithNumber.
Context {N : Type} `{JsNumber N}.

(** The calls the page makes on the backend client; an update and a
    delete carry their chain of [.eq (column, value)] restrictions. *)
Inductive request : Type :=
| auth_getUser
| select_all (table order_by : string) (ascending : bool)
| update_row (table : string) (values : PurchaseData N)
             (eq : list (string * string))
| insert_row (table : string) (values : PurchaseData N)
| delete_row (table : string) (eq : list (string * string)).

(** What a call resolves to: the user of [auth.getUser], the rows of a
    [select] on the purchases or on the vendors, and the message of the
    error, if any. *)
Record response : Type := {
  r_user : option string;
  r_data : option (list (Purchase N));
  r_vendors : option (list (Parties.Party N));
  r_error : option string
}.

(** The backend answers a call knowing the calls made before it. *)
Definition backend : Type := list request -> request -> response.

(** The state of the page, and what it has emitted so far (oldest
    first). *)
Record Page : Type := {
  purchases : list (Purchase N);
  vendors : list (Parties.Party N);
  formData : Form N;
  editingId : option string;
  loading : bool;
  toasts : list toast;
  navigations : list string;
  requests : list request
}.

Definition action (A : Type) : Type := Page -> A * Page.

Definition ret {A} (a : A) : action A := fun p => (a, p).

Definition bind {A B} (c : action A) (k : A -> action B) : action B :=
  fun p => let (a, p') := c p in k a p'.

Notation "x <- c ;; k" := (bind c (fun x => k))
  (at level 61, c at next level, right associativity).
Notation "c ;; k" := (bind c (fun _ => k))
  (at level 61, right associativity).

Definition setPurchases (l : list (Purchase N)) : action unit :=
  fun p => (tt, {| purchases := l; vendors := vendors p;
                  formData := formData p; editingId := editingId p;
                  loading := loading p; toasts := toasts p;
                  navigations := navigations p; requests := requests p |}).

Definition setVendors (l : list (Parties.Party N)) : action unit :=
  fun p => (tt, {| purchases := purchases p; vendors := l;
                  formData := formData p; editingId := editingId p;
                  loading := loading p; toasts := toasts p;
                  navigations := navigations p; requests := requests p |}).

Definition setFormData (f : Form N) : action unit :=
  fun p => (tt, {| purchases := purchases p; vendors := vendors p;
                  formData := f; editingId := editingId p;
                  loading := loading p; toasts := toasts p;
                  navigations := navigations p; requests := requests p |}).

Definition setEditingId (e : option string) : action unit :=
  fun p => (tt, {| purchases := purchases p; vendors := vendors p;
                  formData := formData p; editingId := e;
                  loading := loading p; toasts := toasts p;
                  navigations := navigations p; requests := requests p |}).

Definition setLoading (b : bool) : action unit :=
  fun p => (tt, {| purchases := purchases p; vendors := vendors p;
                  formData := formData p; editingId := editingId p;
                  loading := b; toasts := toasts p;
                  navigations := navigations p; requests := requests p |}).

Definition show (ts : list toast) : action unit :=
  fun p => (tt, {| purchases := purchases p; vendors := vendors p;
                  formData := formData p; editingId := editingId p;
                  loading := loading p; toasts := toasts p ++ ts;
                  navigations := navigations p; requests := requests p |}).

Definition router_push (path : string) : action unit :=
  fun p => (tt, {| purchases := purchases p; vendors := vendors p;
                  formData := formData p; editingId := editingId p;
                  loading := loading p; toasts := toasts p;
                  navigations := navigations p ++ [path];
                  requests := requests p |}).

Variable server : backend.

(** [await] of a call on the client. *)
Definition await (r : request) : action response :=
  fun p => (server (requests p) r,
            {| purchases := purchases p; vendors := vendors p;
               formData := formData p; editingId := editingId p;
               loading := loading p; toasts := toasts p;
               navigations := navigations p;
               requests := requests p ++ [r] |}).

(** [authError || !user]. *)
Definition auth_failed (r : response) : bool :=
  match r_error r, r_user r with
  | None, Some _ => false
  | _, _ => true
  end.

(** [user.id], read only when the user is there. *)
Definition user_id_of (r : response) : string :=
  match r_user r with
  | Some u => u
  | None => ""
  end.

(** [fetchPurchases] up to its first [await]. *)
Definition fetch_begin : action response :=
  setLoading true ;;
  await auth_getUser.

(** [fetchPurchases] from the point where [auth.getUser] has resolved. *)
Definition fetch_resume (auth : response) : action unit :=
  if auth_failed auth then
    show [toast_error "Authentication Error"
                      "Please log in to view purchases."] ;;
    router_push "/login" ;;
    setLoading false
  else
    res <- await (select_all "purchases" "created_at" false) ;;
    match r_error res with
    | Some message =>
        show [toast_error "Failed to Fetch Purchases" message]
    | None =>
        setPurchases (match r_data res with Some d => d | None => [] end)
    end ;;
    setLoading false.

Definition fetchPurchases : action unit :=
  auth <- fetch_begin ;;
  fetch_resume auth.

(** [fetchVendors]: the vendors offered for selection. *)
Definition fetchVendors : action unit :=
  auth <- await auth_getUser ;;
  if auth_failed auth then ret tt
  else
    res <- await (select_all "vendors" "name" true) ;;
    match r_error res with
    | Some _ => ret tt
    | None =>
        setVendors (match r_vendors res with Some d => d | None => [] end)
    end.

(** [resetForm]; [today] is the value of
    [new Date ().toISOString ().split ('T')[0]] at the call. *)
Definition resetForm (today : string) : action unit :=
  setFormData {| f_vendor_id := Some "";
                 f_vendor_name := Some "";
                 f_purchase_date := Some today;
                 f_subtotal := Some zero;
                 f_tax := Some zero;
                 f_total := Some zero;
                 f_status := Some "pending" |} ;;
  setEditingId None.

(** The caller's last statement followed by the resumption of a
    [fetchPurchases] that was started without being awaited. *)
Definition finish_then (pending : option response) : action unit :=
  setLoading false ;;
  match pending with
  | Some auth => fetch_resume auth
  | None => ret tt
  end.

(** [handleSubmit], run on the form and editing id of the current
    render.  In the update branch the editing id is a non-empty string,
    which [interpolate] reads.  [today] is the date that [resetForm]
    reads. *)
Definition handleSubmit (today : string) : action unit :=
  fun p0 =>
    let formData := formData p0 in
    let editingId := editingId p0 in
    (let (valid, shown) := validateForm formData in
     show shown ;;
     if negb valid then ret tt
     else
       setLoading true ;;
       auth <- await auth_getUser ;;
       if auth_failed auth then
         show [toast_error "Authentication Error"
                           "Please log in to perform this action."] ;;
         setLoading false
       else
         let purchaseData := purchaseData_of (user_id_of auth) formData in
         pending <-
           (if JsString.truthy_opt editingId then
              res <- await (update_row "purchases" purchaseData
                              [("id", JsString.interpolate editingId);
                               ("user_id", user_id_of auth)]) ;;
              match r_error res with
              | Some message =>
                  show [toast_error "Failed to Update Purchase" message] ;;
                  ret None
              | None =>
                  show [toast_success "Purchase Updated"
                          ("Purchase from "
                             ++ JsString.interpolate (f_vendor_name formData)
                             ++ " has been successfully updated.")] ;;
                  resetForm today ;;
                  auth' <- fetch_begin ;;
                  ret (Some auth')
              end
            else
              res <- await (insert_row "purchases" purchaseData) ;;
              match r_error res with
              | Some message =>
                  show [toast_error "Failed to Create Purchase" message] ;;
                  ret None
              | None =>
                  show [toast_success "Purchase Created"
                          ("Purchase from "
                             ++ JsString.interpolate (f_vendor_name formData)
                             ++ " has been successfully created.")] ;;
                  resetForm today ;;
                  auth' <- fetch_begin ;;
                  ret (Some auth')
              end) ;;
         finish_then pending) p0.

(** [handleDelete id]; [confirmed] is the answer to the [confirm]
    dialog. *)
Definition handleDelete (row_id : string) (confirmed : bool) : action unit :=
  fun p0 =>
    let purchase := find (fun x => id x =? row_id) (purchases p0) in
    (if negb confirmed then ret tt
     else
       setLoading true ;;
       auth <- await auth_getUser ;;
       if auth_failed auth then
         show [toast_error "Authentication Error"
                           "Please log in to perform this action."] ;;
         setLoading false
       else
         res <- await (delete_row "purchases"
                         [("id", row_id); ("user_id", user_id_of auth)]) ;;
         pending <-
           match r_error res with
           | Some message =>
               show [toast_error "Failed to Delete Purchase" message] ;;
               ret None
           | None =>
               show [toast_success "Purchase Deleted"
                       ("Purchase from "
                          ++ match purchase with
                          | Some x => JsString.or_default
                                        (Some (vendor_name x)) "vendor"
                          | None => "vendor"
                          end
                            ++ " has been successfully deleted.")] ;;
               auth' <- fetch_begin ;;
               ret (Some auth')
           end ;;
         finish_then pending) p0.

End WithNumber.
Arguments request N : clear implicits.
Arguments response N : clear implicits.
Arguments backend N : clear implicits.
Arguments Page N : clear implicits.
End PurchasesStore.

(** ** Sale items page: operations against the backend *)

Module SaleItemsStore.
Import SaleItems SaleItemsPage.
Section WithNumber.
Context {N : Type} `{JsNumber N} `{!JsOne N}.

(** The calls the page makes on the backend client; an update and a
    delete carry their chain of [.eq (column, value)] restrictions. *)
Inductive request : Type :=
| auth_getUser
| select_all (table order_by : string) (ascending : bool)
| update_row (table : string) (values : ItemData N)
             (eq : list (string * string))
| insert_row (table : string) (values : ItemData N)
| delete_row (table : string) (eq : list (string * string)).

(** What a call resolves to: the user of [auth.getUser], the rows of a
    [select] on the sale items, on the sales or on the products, and the
    message of the error, if any. *)
Record response : Type := {
  r_user : option string;
  r_data : option (list (SaleItem N));
  r_sales : option (list (Sales.Sale));
  r_products : option (list (Products.Product N));
  r_error : option string
}.

(** The backend answers a call knowing the calls made before it. *)
Definition backend : Type := list request -> request -> response.

(** The state of the page, and what it has emitted so far (oldest
    first). *)
Record Page : Type := {
  saleItems : list (SaleItem N);
  sales : list (Sales.Sale);
  products : list (Products.Product N);
  formData : Form N;
  editingId : option string;
  loading : bool;
  toasts : list toast;
  navigations : list string;
  requests : list request
}.

Definition action (A : Type) : Type := Page -> A * Page.

Definition ret {A} (a : A) : action A := fun p => (a, p).

Definition bind {A B} (c : action A) (k : A -> action B) : action B :=
  fun p => let (a, p') := c p in k a p'.

Notation "x <- c ;; k" := (bind c (fun x => k))
  (at level 61, c at next level, right associativity).
Notation "c ;; k" := (bind c (fun _ => k))
  (at level 61, right associativity).

Definition setSaleItems (l : list (SaleItem N)) : action unit :=
  fun p => (tt, {| saleItems := l; sales := sales p; products := products p;
                  formData := formData p; editingId := editingId p;
                  loading := loading p; toasts := toasts p;
                  navigations := navigations p; requests := requests p |}).

Definition setSales (l : list (Sales.Sale)) : action unit :=
  fun p => (tt, {| saleItems := saleItems p; sales := l;
                  products := products p; formData := formData p;
                  editingId := editingId p; loading := loading p;
                  toasts := toasts p; navigations := navigations p;
                  requests := requests p |}).

Definition setProducts (l : list (Products.Product N)) : action unit :=
  fun p => (tt, {| saleItems := saleItems p; sales := sales p;
                  products := l; formData := formData p;
                  editingId := editingId p; loading := loading p;
                  toasts := toasts p; navigations := navigations p;
                  requests := requests p |}).

Definition setFormData (f : Form N) : action unit :=
  fun p => (tt, {| saleItems := saleItems p; sales := sales p;
                  products := products p; formData := f;
                  editingId := editingId p; loading := loading p;
                  toasts := toasts p; navigations := navigations p;
                  requests := requests p |}).

Definition setEditingId (e : option string) : action unit :=
  fun p => (tt, {| saleItems := saleItems p; sales := sales p;
                  products := products p; formData := formData p;
                  editingId := e; loading := loading p; toasts := toasts p;
                  navigations := navigations p; requests := requests p |}).

Definition setLoading (b : bool) : action unit :=
  fun p => (tt, {| saleItems := saleItems p; sales := sales p;
                  products := products p; formData := formData p;
                  editingId := editingId p; loading := b;
                  toasts := toasts p; navigations := navigations p;
                  requests := requests p |}).

Definition show (ts : list toast) : action unit :=
  fun p => (tt, {| saleItems := saleItems p; sales := sales p;
                  products := products p; formData := formData p;
                  editingId := editingId p; loading := loading p;
                  toasts := toasts p ++ ts; navigations := navigations p;
                  requests := requests p |}).

Definition router_push (path : string) : action unit :=
  fun p => (tt, {| saleItems := saleItems p; sales := sales p;
                  products := products p; formData := formData p;
                  editingId := editingId p; loading := loading p;
                  toasts := toasts p;
                  navigations := navigations p ++ [path];
                  requests := requests p |}).

Variable server : backend.

(** [await] of a call on the client. *)
Definition await (r : request) : action response :=
  fun p => (server (requests p) r,
            {| saleItems := saleItems p; sales := sales p;
               products := products p; formData := formData p;
               editingId := editingId p; loading := loading p;
               toasts := toasts p; navigations := navigations p;
               requests := requests p ++ [r] |}).

(** [authError || !user]. *)
Definition auth_failed (r : response) : bool :=
  match r_error r, r_user r with
  | None, Some _ => false
  | _, _ => true
  end.

(** [fetchSaleItems] up to its first [await]. *)
Definition fetch_begin : action response :=
  setLoading true ;;
  await auth_getUser.

(** [fetchSaleItems] from the point where [auth.getUser] has resolved. *)
Definition fetch_resume (auth : response) : action unit :=
  if auth_failed auth then
    show [toast_error "Authentication Error"
                      "Please log in to view sale items."] ;;
    router_push "/login" ;;
    setLoading false
  else
    res <- await (select_all "sale_items" "created_at" false) ;;
    match r_error res with
    | Some message =>
        show [toast_error "Failed to Fetch Sale Items" message]
    | None =>
        setSaleItems (match r_data res with Some d => d | None => [] end)
    end ;;
    setLoading false.

Definition fetchSaleItems : action unit :=
  auth <- fetch_begin ;;
  fetch_resume auth.

(** [fetchSales]: the sales offered for selection. *)
Definition fetchSales : action unit :=
  auth <- await auth_getUser ;;
  if auth_failed auth then ret tt
  else
    res <- await (select_all "sales" "created_at" false) ;;
    match r_error res with
    | Some _ => ret tt
    | None =>
        setSales (match r_sales res with Some d => d | None => [] end)
    end.

(** [fetchProducts]: the products offered for selection. *)
Definition fetchProducts : action unit :=
  auth <- await auth_getUser ;;
  if auth_failed auth then ret tt
  else
    res <- await (select_all "products" "name" true) ;;
    match r_error res with
    | Some _ => ret tt
    | None =>
        setProducts (match r_products res with Some d => d | None => [] end)
    end.

Definition resetForm : action unit :=
  setFormData {| f_sale_id := Some "";
                 f_product_id := Some "";
                 f_product_name := Some "";
                 f_quantity := Some one;
                 f_price := Some zero;
                 f_total := Some zero |} ;;
  setEditingId None.

(** The caller's last statement followed by the resumption of a
    [fetchSaleItems] that was started without being awaited. *)
Definition finish_then (pending : option response) : action unit :=
  setLoading false ;;
  match pending with
  | Some auth => fetch_resume auth
  | None => ret tt
  end.

(** [handleSubmit], run on the form and editing id of the current
    render.  In the update branch the editing id is a non-empty string,
    which [interpolate] reads. *)
Definition handleSubmit : action unit :=
  fun p0 =>
    let formData := formData p0 in
    let editingId := editingId p0 in
    (let (valid, shown) := validateForm formData in
     show shown ;;
     if negb valid then ret tt
     else
       setLoading true ;;
       auth <- await auth_getUser ;;
       if auth_failed auth then
         show [toast_error "Authentication Error"
                           "Please log in to perform this action."] ;;
         setLoading false
       else
         let itemData := itemData_of formData in
         pending <-
           (if JsString.truthy_opt editingId then
              res <- await (update_row "sale_items" itemData
                              [("id", JsString.interpolate editingId)]) ;;
              match r_error res with
              | Some message =>
                  show [toast_error "Failed to Update Sale Item" message] ;;
                  ret None
              | None =>
                  show [toast_success "Sale Item Updated"
                          ("Sale item "
                             ++ JsString.interpolate (f_product_name formData)
                             ++ " has been successfully updated.")] ;;
                  resetForm ;;
                  auth' <- fetch_begin ;;
                  ret (Some auth')
              end
            else
              res <- await (insert_row "sale_items" itemData) ;;
              match r_error res with
              | Some message =>
                  show [toast_error "Failed to Create Sale Item" message] ;;
                  ret None
              | None =>
                  show [toast_success "Sale Item Created"
                          ("Sale item "
                             ++ JsString.interpolate (f_product_name formData)
                             ++ " has been successfully created.")] ;;
                  resetForm ;;
                  auth' <- fetch_begin ;;
                  ret (Some auth')
              end) ;;
         finish_then pending) p0.

(** [handleDelete id]; [confirmed] is the answer to the [confirm]
    dialog. *)
Definition handleDelete (row_id : string) (confirmed : bool) : action unit :=
  fun p0 =>
    let item := find (fun x => id x =? row_id) (saleItems p0) in
    (if negb confirmed then ret tt
     else
       setLoading true ;;
       auth <- await auth_getUser ;;
       if auth_failed auth then
         show [toast_error "Authentication Error"
                           "Please log in to perform this action."] ;;
         setLoading false
       else
         res <- await (delete_row "sale_items"
                         [("id", row_id)]) ;;
         pending <-
           match r_error res with
           | Some message =>
               show [toast_error "Failed to Delete Sale Item" message] ;;
               ret None
           | None =>
               show [toast_success "Sale Item Deleted"
                       ("Sale item "
                          ++ match item with
                          | Some x => JsString.or_default
                                        (Some (product_name x)) "item"
                          | None => "item"
                          end
                            ++ " has been successfully deleted.")] ;;
               auth' <- fetch_begin ;;
               ret (Some auth')
           end ;;
         finish_then pending) p0.

End WithNumber.
Arguments request N : clear implicits.
Arguments response N : clear implicits.
Arguments backend N : clear implicits.
Arguments Page N : clear implicits.
End SaleItemsStore.

(** ** Purchase items page: operations against the backend *)

Module PurchaseItemsStore.
Import PurchaseItems PurchaseItemsPage.
Section WithNumber.
Context {N : Type} `{JsNumber N} `{!JsOne N}.

(** The calls the page makes on the backend client; an update and a
    delete carry their chain of [.eq (column, value)] restrictions. *)
Inductive request : Type :=
| auth_getUser
| select_all (table order_by : string) (ascending : bool)
| update_row (table : string) (values : ItemData N)
             (eq : list (string * string))
| insert_row (table : string) (values : ItemData N)
| delete_row (table : string) (eq : list (string * string)).

(** What a call resolves to: the user of [auth.getUser], the rows of a
    [select] on the purchase items, on the purchases or on the products,
    and the message of the error, if any. *)
Record response : Type := {
  r_user : option string;
  r_data : option (list (PurchaseItem N));
  r_purchases : option (list (Purchases.Purchase N));
  r_products : option (list (Products.Product N));
  r_error : option string
}.

(** The backend answers a call knowing the calls made before it. *)
Definition backend : Type := list request -> request -> response.

(** The state of the page, and what it has emitted so far (oldest
    first). *)
Record Page : Type := {
  purchaseItems : list (PurchaseItem N);
  purchases : list (Purchases.Purchase N);
  products : list (Products.Product N);
  formData : Form N;
  editingId : option string;
  loading : bool;
  toasts : list toast;
  navigations : list string;
  requests : list request
}.

Definition action (A : Type) : Type := Page -> A * Page.

Definition ret {A} (a : A) : action A := fun p => (a, p).

Definition bind {A B} (c : action A) (k : A -> action B) : action B :=
  fun p => let (a, p') := c p in k a p'.

Notation "x <- c ;; k" := (bind c (fun x => k))
  (at level 61, c at next level, right associativity).
Notation "c ;; k" := (bind c (fun _ => k))
  (at level 61, right associativity).

Definition setPurchaseItems (l : list (PurchaseItem N)) : action unit :=
  fun p => (tt, {| purchaseItems := l; purchases := purchases p;
                  products := products p; formData := formData p;
                  editingId := editingId p; loading := loading p;
                  toasts := toasts p; navigations := navigations p;
                  requests := requests p |}).

Definition setPurchases (l : list (Purchases.Purchase N)) : action unit :=
  fun p => (tt, {| purchaseItems := purchaseItems p; purchases := l;
                  products := products p; formData := formData p;
                  editingId := editingId p; loading := loading p;
                  toasts := toasts p; navigations := navigations p;
                  requests := requests p |}).

Definition setProducts (l : list (Products.Product N)) : action unit :=
  fun p => (tt, {| purchaseItems := purchaseItems p;
                  purchases := purchases p; products := l;
                  formData := formData p; editingId := editingId p;
                  loading := loading p; toasts := toasts p;
                  navigations := navigations p; requests := requests p |}).

Definition setFormData (f : Form N) : action unit :=
  fun p => (tt, {| purchaseItems := purchaseItems p;
                  purchases := purchases p; products := products p;
                  formData := f; editingId := editingId p;
                  loading := loading p; toasts := toasts p;
                  navigations := navigations p; requests := requests p |}).

Definition setEditingId (e : option string) : action unit :=
  fun p => (tt, {| purchaseItems := purchaseItems p;
                  purchases := purchases p; products := products p;
                  formData := formData p; editingId := e;
                  loading := loading p; toasts := toasts p;
                  navigations := navigations p; requests := requests p |}).

Definition setLoading (b : bool) : action unit :=
  fun p => (tt, {| purchaseItems := purchaseItems p;
                  purchases := purchases p; products := products p;
                  formData := formData p; editingId := editingId p;
                  loading := b; toasts := toasts p;
                  navigations := navigations p; requests := requests p |}).

Definition show (ts : list toast) : action unit :=
  fun p => (tt, {| purchaseItems := purchaseItems p;
                  purchases := purchases p; products := products p;
                  formData := formData p; editingId := editingId p;
                  loading := loading p; toasts := toasts p ++ ts;
                  navigations := navigations p; requests := requests p |}).

Definition router_push (path : string) : action unit :=
  fun p => (tt, {| purchaseItems := purchaseItems p;
                  purchases := purchases p; products := products p;
                  formData := formData p; editingId := editingId p;
                  loading := loading p; toasts := toasts p;
                  navigations := navigations p ++ [path];
                  requests := requests p |}).

Variable server : backend.

(** [await] of a call on the client. *)
Definition await (r : request) : action response :=
  fun p => (server (requests p) r,
            {| purchaseItems := purchaseItems p; purchases := purchases p;
               products := products p; formData := formData p;
               editingId := editingId p; loading := loading p;
               toasts := toasts p; navigations := navigations p;
               requests := requests p ++ [r] |}).

(** [authError || !user]. *)
Definition auth_failed (r : response) : bool :=
  match r_error r, r_user r with
  | None, Some _ => false
  | _, _ => true
  end.

(** [fetchPurchaseItems] up to its first [await]. *)
Definition fetch_begin : action response :=
  setLoading true ;;
  await auth_getUser.

(** [fetchPurchaseItems] from the point where [auth.getUser] has resolved. *)
Definition fetch_resume (auth : response) : action unit :=
  if auth_failed auth then
    show [toast_error "Authentication Error"
                      "Please log in to view purchase items."] ;;
    router_push "/login" ;;
    setLoading false
  else
    res <- await (select_all "purchase_items" "created_at" false) ;;
    match r_error res with
    | Some message =>
        show [toast_error "Failed to Fetch Purchase Items" message]
    | None =>
        setPurchaseItems (match r_data res with Some d => d | None => [] end)
    end ;;
    setLoading false.

Definition fetchPurchaseItems : action unit :=
  auth <- fetch_begin ;;
  fetch_resume auth.

(** [fetchPurchases]: the purchases offered for selection. *)
Definition fetchPurchases : action unit :=
  auth <- await auth_getUser ;;
  if auth_failed auth then ret tt
  else
    res <- await (select_all "purchases" "created_at" false) ;;
    match r_error res with
    | Some _ => ret tt
    | None =>
        setPurchases (match r_purchases res with Some d => d | None => [] end)
    end.

(** [fetchProducts]: the products offered for selection. *)
Definition fetchProducts : action unit :=
  auth <- await auth_getUser ;;
  if auth_failed auth then ret tt
  else
    res <- await (select_all "products" "name" true) ;;
    match r_error res with
    | Some _ => ret tt
    | None =>
        setProducts (match r_products res with Some d => d | None => [] end)
    end.

Definition resetForm : action unit :=
  setFormData {| f_purchase_id := Some "";
                 f_product_id := Some "";
                 f_product_name := Some "";
                 f_quantity := Some one;
                 f_price := Some zero;
                 f_total := Some zero |} ;;
  setEditingId None.

(** The caller's last statement followed by the resumption of a
    [fetchPurchaseItems] that was started without being awaited. *)
Definition finish_then (pending : option response) : action unit :=
  setLoading false ;;
  match pending with
  | Some auth => fetch_resume auth
  | None => ret tt
  end.

(** [handleSubmit], run on the form and editing id of the current
    render.  In the update branch the editing id is a non-empty string,
    which [interpolate] reads. *)
Definition handleSubmit : action unit :=
  fun p0 =>
    let formData := formData p0 in
    let editingId := editingId p0 in
    (let (valid, shown) := validateForm formData in
     show shown ;;
     if negb valid then ret tt
     else
       setLoading true ;;
       auth <- await auth_getUser ;;
       if auth_failed auth then
         show [toast_error "Authentication Error"
                           "Please log in to perform this action."] ;;
         setLoading false
       else
         let itemData := itemData_of formData in
         pending <-
           (if JsString.truthy_opt editingId then
              res <- await (update_row "purchase_items" itemData
                              [("id", JsString.interpolate editingId)]) ;;
              match r_error res with
              | Some message =>
                  show [toast_error "Failed to Update Purchase Item" message] ;;
                  ret None
              | None =>
                  show [toast_success "Purchase Item Updated"
                          ("Purchase item "
                             ++ JsString.interpolate (f_product_name formData)
                             ++ " has been successfully updated.")] ;;
                  resetForm ;;
                  auth' <- fetch_begin ;;
                  ret (Some auth')
              end
            else
              res <- await (insert_row "purchase_items" itemData) ;;
              match r_error res with
              | Some message =>
                  show [toast_error "Failed to Create Purchase Item" message] ;;
                  ret None
              | None =>
                  show [toast_success "Purchase Item Created"
                          ("Purchase item "
                             ++ JsString.interpolate (f_product_name formData)
                             ++ " has been successfully created.")] ;;
                  resetForm ;;
                  auth' <- fetch_begin ;;
                  ret (Some auth')
              end) ;;
         finish_then pending) p0.

(** [handleDelete id]; [confirmed] is the answer to the [confirm]
    dialog. *)
Definition handleDelete (row_id : string) (confirmed : bool) : action unit :=
  fun p0 =>
    let item := find (fun x => id x =? row_id) (purchaseItems p0) in
    (if negb confirmed then ret tt
     else
       setLoading true ;;
       auth <- await auth_getUser ;;
       if auth_failed auth then
         show [toast_error "Authentication Error"
                           "Please log in to perform this action."] ;;
         setLoading false
       else
         res <- await (delete_row "purchase_items"
                         [("id", row_id)]) ;;
         pending <-
           match r_error res with
           | Some message =>
               show [toast_error "Failed to Delete Purchase Item" message] ;;
               ret None
           | None =>
               show [toast_success "Purchase Item Deleted"
                       ("Purchase item "
                          ++ match item with
                          | Some x => JsString.or_default
                                        (Some (product_name x)) "item"
                          | None => "item"
                          end
                            ++ " has been successfully deleted.")] ;;
               auth' <- fetch_begin ;;
               ret (Some auth')
           end ;;
         finish_then pending) p0.

End WithNumber.
Arguments request N : clear implicits.
Arguments response N : clear implicits.
Arguments backend N : clear implicits.
Arguments Page N : clear implicits.
End PurchaseItemsStore.

(** * Specification-side definitions *)

(** ** Exact arithmetic *)

(** The laws of a number model in which arithmetic is exact: sums do not
    depend on grouping or order, [===] is identity and [0] is the only
    falsy number. *)
Class ExactNumber (N : Type) `{JsNumber N} : Prop := {
  add_comm : forall a b : N, add a b = add b a;
  add_assoc : forall a b c : N, add a (add b c) = add (add a b) c;
  mul_zero_l : forall a : N, mul zero a = zero;
  strict_eq_true : forall a b : N, strict_eq a b = true -> a = b;
  falsy_zero : forall a : N, truthy a = false -> a = zero
}.

(** ** Binary64 numbers *)

Module Binary64.
Local Open Scope float_scope.

(** [SameValueZero]: the same number, where [+0] and [-0] are the same
    and [NaN] is the same as itself. *)
Definition same_value_zero (a b : float) : Prop :=
  a = b \/ (a =? b) = true.

(** An input that is missing, zero or not a number. *)
Definition zero_like (q : option float) : Prop :=
  q = None
  \/ exists z, q = Some z /\ ((z =? 0) = true \/ is_nan z = true).

(** An input that is not [Infinity] or [-Infinity]. *)
Definition not_infinite (p : option float) : Prop :=
  p = None \/ exists x, p = Some x /\ is_infinity x = false.

(** The representation of the whole number [z]: [z] rounded to 53
    binary digits. *)
Definition Z2SF (z : Z) : spec_float := binary_normalize prec emax z 0 false.

(** The representation of a positive whole number [n] below [2 ^ 53]
    with the sign [s]: the digits of [n] moved up to a mantissa of 53
    digits. *)
Definition canon (s : bool) (n : positive) : spec_float :=
  let d := Zpos (digits2_pos n) in
  match (53 - d)%Z with
  | Zpos k => S754_finite s (Pos.iter xO n k) (d - 53)%Z
  | _ => S754_finite s n 0%Z
  end.

(** The binary64 number of the whole number [z]. *)
Definition of_Z (z : Z) : float := SF2Prim (Z2SF z).

(** The whole part of a binary64 number that is finite, and [0] of one
    that is not. *)
Definition to_Z (x : float) : Z :=
  match Prim2SF x with
  | S754_finite s m e => cond_Zopp s (Z.shiftl (Zpos m) e)
  | _ => 0%Z
  end.

(** A binary64 number that is a whole number: the number of its whole
    part, or [-0]. *)
Definition whole (x : float) : Prop := x = of_Z (to_Z x) \/ x = neg_zero.

(** [Number.MAX_SAFE_INTEGER], which is [2 ^ 53 - 1]. *)
Definition MAX_SAFE_INTEGER : Z := 9007199254740991%Z.

End Binary64.

(** ** Filter predicates *)

(** Each stage of a filter effect as a predicate on one record: an
    inactive filter (blank search, ["all"]) accepts every record. *)
Module Predicates.
Section WithNumber.
Context {N : Type} `{JsNumber N}.

Definition productSearch (searchTerm : string) (p : Products.Product N) : bool :=
  negb (JsString.truthy (JsString.trim searchTerm))
  || (JsString.includes (JsString.toLowerCase (Products.name p))
                        (JsString.toLowerCase searchTerm)
      || JsString.includes (JsString.toLowerCase (Products.category p))
                           (JsString.toLowerCase searchTerm)).

Definition productCategory (categoryFilter : string) (p : Products.Product N)
  : bool :=
  (categoryFilter =? "all") || (Products.category p =? categoryFilter).

Definition productStock (stockFilter : string) (p : Products.Product N) : bool :=
  if stockFilter =? "low" then le (Products.quantity p) (Products.min_stock p)
  else if stockFilter =? "out" then strict_eq (Products.quantity p) zero
  else if stockFilter =? "instock" then
    gt (Products.quantity p) (Products.min_stock p)
  else true.

Definition ledgerSearch (searchTerm : string) (e : Ledger.LedgerEntry N) : bool :=
  negb (JsString.truthy (JsString.trim searchTerm))
  || (JsString.includes (JsString.toLowerCase (Ledger.entity_name e))
                        (JsString.toLowerCase searchTerm)
      || match Ledger.description e with
         | Some d => JsString.includes (JsString.toLowerCase d)
                                       (JsString.toLowerCase searchTerm)
         | None => false
         end
      || JsString.includes (JsString.toLowerCase (Ledger.id e))
                           (JsString.toLowerCase searchTerm)).

Definition ledgerEntityType (entityTypeFilter : string)
           (e : Ledger.LedgerEntry N) : bool :=
  (entityTypeFilter =? "all") || (Ledger.entity_type e =? entityTypeFilter).

Definition ledgerTransactionType (transactionTypeFilter : string)
           (e : Ledger.LedgerEntry N) : bool :=
  (transactionTypeFilter =? "all")
  || (Ledger.transaction_type e =? transactionTypeFilter).

Definition purchaseSearch (searchTerm : string) (p : Purchases.Purchase N)
  : bool :=
  negb (JsString.truthy (JsString.trim searchTerm))
  || (JsString.includes (JsString.toLowerCase (Purchases.vendor_name p))
                        (JsString.toLowerCase searchTerm)
      || JsString.includes (JsString.toLowerCase (Purchases.id p))
                           (JsString.toLowerCase searchTerm)).

Definition purchaseStatus (statusFilter : string) (p : Purchases.Purchase N)
  : bool :=
  (statusFilter =? "all") || (Purchases.status p =? statusFilter).

(** The date predicate of each value of the date filter. *)
Definition purchaseDate (zone : JsDate.Zone) (now : Z) (dateFilter : string)
           (p : Purchases.Purchase N) : bool :=
  if dateFilter =? "all" then true
  else if dateFilter =? "today" then
    JsDate.same_date_string zone (JsDate.parse (Purchases.purchase_date p)) now
  else if dateFilter =? "week" then
    JsDate.date_ge (JsDate.parse (Purchases.purchase_date p))
                   (Some (JsDate.setDate zone now (JsDate.getDate zone now - 7)))
  else if dateFilter =? "month" then
    JsDate.date_ge (JsDate.parse (Purchases.purchase_date p))
                   (Some (JsDate.setMonth zone now (JsDate.getMonth zone now - 1)))
  else true.

Definition saleItemSearch (searchTerm : string) (i : SaleItems.SaleItem N)
  : bool :=
  negb (JsString.truthy (JsString.trim searchTerm))
  || (JsString.includes (JsString.toLowerCase (SaleItems.product_name i))
                        (JsString.toLowerCase searchTerm)
      || JsString.includes (JsString.toLowerCase (SaleItems.id i))
                           (JsString.toLowerCase searchTerm)).

Definition saleItemSale (saleFilter : string) (i : SaleItems.SaleItem N) : bool :=
  (saleFilter =? "all") || (SaleItems.sale_id i =? saleFilter).

Definition purchaseItemSearch (searchTerm : string)
           (i : PurchaseItems.PurchaseItem N) : bool :=
  negb (JsString.truthy (JsString.trim searchTerm))
  || (JsString.includes (JsString.toLowerCase (PurchaseItems.product_name i))
                        (JsString.toLowerCase searchTerm)
      || JsString.includes (JsString.toLowerCase (PurchaseItems.id i))
                           (JsString.toLowerCase searchTerm)).

Definition purchaseItemPurchase (purchaseFilter : string)
           (i : PurchaseItems.PurchaseItem N) : bool :=
  (purchaseFilter =? "all") || (PurchaseItems.purchase_id i =? purchaseFilter).

(** The record is dated within the 30 days before [now]. *)
Definition purchaseInLast30Days (now : Z) (p : Purchases.Purchase N) : bool :=
  match JsDate.parse (Purchases.purchase_date p) with
  | Some t => ((now - 30 * JsDate.msPerDay <=? t) && (t <=? now))%Z
  | None => false
  end.

(** The instant one calendar month before [now], as the page computes
    it. *)
Definition oneMonthBack (zone : JsDate.Zone) (now : Z) : Z :=
  JsDate.setMonth zone now (JsDate.getMonth zone now - 1).

(** The instant at which the local clock shows the date and time it
    shows at [now], moved [days] days back. *)
Definition local_days_before (zone : JsDate.Zone) (now days : Z) : Z :=
  JsDate.UTC zone (JsDate.LocalTime zone now - days * JsDate.msPerDay)%Z.

(** The number of days of the calendar month before the local month of
    [now]. *)
Definition previous_month_days (zone : JsDate.Zone) (now : Z) : Z :=
  let l := JsDate.LocalTime zone now in
  let m := JsDate.MonthFromTime l in
  if (m =? 0)%Z then 31%Z else JsDate.days_in_month (JsDate.YearFromTime l) m.

End WithNumber.
End Predicates.

(** ** Sums *)

Module Sums.
Section WithNumber.
Context {N : Type} `{JsNumber N}.

(** The sum of a list of numbers, taken from left to right from [0]. *)
Definition sum (l : list N) : N := fold_left add l zero.

(** The total of one transaction type while going through the entries
    once: an entry of that type adds its amount to the total so far. *)
Fixpoint running_amount (type : string) (so_far : N)
         (entries : list (Ledger.LedgerEntry N)) : N :=
  match entries with
  | [] => so_far
  | e :: rest =>
      running_amount type
        (if Ledger.transaction_type e =? type then add so_far (Ledger.amount e)
         else so_far)
        rest
  end.

Definition amount_of_type (type : string)
           (entries : list (Ledger.LedgerEntry N)) : N :=
  running_amount type zero entries.

End WithNumber.

(** The sum of the whole numbers [value x] over the list, and the sum
    of their absolute values. *)
Definition whole_sum {A} (value : A -> Z) (l : list A) : Z :=
  fold_right (fun x s => value x + s)%Z 0%Z l.

Definition magnitude {A} (value : A -> Z) (l : list A) : Z :=
  fold_right (fun x s => Z.abs (value x) + s)%Z 0%Z l.

(** The whole value of the amount of an entry. *)
Definition whole_amount (e : Ledger.LedgerEntry float) : Z :=
  Binary64.to_Z (Ledger.amount e).

End Sums.

(** ** Validation rules *)

(** A validation as an ordered list of rules; a rule is the test that it
    is violated and the reason reported then. *)
Module Rules.

Definition rule (F : Type) : Type := ((F -> bool) * string)%type.

Fixpoint first_violation {F} (rules : list (rule F)) (form : F)
  : option string :=
  match rules with
  | [] => None
  | (violated, reason) :: rest =>
      if violated form then Some reason else first_violation rest form
  end.

(** The outcome of a validation whose first violated rule is given. *)
Definition report (violation : option string) : bool * list toast :=
  match violation with
  | Some reason => reject reason
  | None => accept
  end.

Section WithNumber.
Context {N : Type} `{JsNumber N}.

Definition blank (o : option string) : bool := negb (JsString.truthy_trim o).

Definition unset (o : option string) : bool := negb (JsString.truthy_opt o).

(** Missing, [NaN], zero or negative. *)
Definition not_positive (o : option N) : bool :=
  match o with
  | None => true
  | Some x => negb (truthy x) || le x zero
  end.

(** Present and below zero. *)
Definition negative (o : option N) : bool :=
  match o with
  | None => false
  | Some x => lt x zero
  end.

(** Present, truthy and below zero. *)
Definition truthy_negative (o : option N) : bool :=
  match o with
  | None => false
  | Some x => truthy x && lt x zero
  end.

Definition bad_email (o : option string) : bool :=
  match o with
  | Some e => JsString.truthy e && negb (JsRegExp.test JsRegExp.email e)
  | None => false
  end.

Definition product : list (rule (Products.Form N)) :=
  [ (fun f => blank (Products.f_name f), "Product name is required.");
    (fun f => blank (Products.f_category f), "Category is required.");
    (fun f => not_positive (Products.f_price f),
     "Price must be greater than zero.");
    (fun f => negative (Products.f_quantity f), "Quantity cannot be negative.");
    (fun f => negative (Products.f_min_stock f),
     "Minimum stock cannot be negative.") ].

Definition saleItem : list (rule (SaleItems.Form N)) :=
  [ (fun f => unset (SaleItems.f_sale_id f), "Sale selection is required.");
    (fun f => blank (SaleItems.f_product_name f), "Product name is required.");
    (fun f => not_positive (SaleItems.f_quantity f),
     "Quantity must be greater than zero.");
    (fun f => not_positive (SaleItems.f_price f),
     "Price must be greater than zero.") ].

Definition purchaseItem : list (rule (PurchaseItems.Form N)) :=
  [ (fun f => unset (PurchaseItems.f_purchase_id f),
     "Purchase selection is required.");
    (fun f => blank (PurchaseItems.f_product_name f),
     "Product name is required.");
    (fun f => not_positive (PurchaseItems.f_quantity f),
     "Quantity must be greater than zero.");
    (fun f => not_positive (PurchaseItems.f_price f),
     "Price must be greater than zero.") ].

Definition purchase : list (rule (Purchases.Form N)) :=
  [ (fun f => blank (Purchases.f_vendor_name f), "Vendor name is required.");
    (fun f => not_positive (Purchases.f_subtotal f),
     "Subtotal must be greater than zero.");
    (fun f => negative (Purchases.f_tax f), "Tax cannot be negative.") ].

Definition ledgerEntry : list (rule (Ledger.Form N)) :=
  [ (fun f => unset (Ledger.f_entity_type f), "Entity type is required.");
    (fun f => unset (Ledger.f_entity_id f) && blank (Ledger.f_entity_name f),
     "Entity selection or name is required.");
    (fun f => unset (Ledger.f_transaction_type f),
     "Transaction type is required.");
    (fun f => not_positive (Ledger.f_amount f),
     "Amount must be greater than zero.") ].

Definition party (name : string) : list (rule (Parties.Form N)) :=
  [ (fun f => blank (Parties.f_name f), name ++ " name is required.");
    (fun f => bad_email (Parties.f_email f),
     "Please enter a valid email address.");
    (fun f => truthy_negative (Parties.f_balance f),
     "Balance cannot be negative.") ].

End WithNumber.
End Rules.

(** ** A failed backend call *)

Module Failure.
Import LedgerPage.

(** The state of the page [after] an operation is that of the page
    [before] it: the entries, the selection lists, the form, the editing
    id and the navigation. *)
Definition same_state {N : Type} (before after : Page N) : Prop :=
  ledgerEntries after = ledgerEntries before
  /\ customers after = customers before
  /\ vendors after = vendors before
  /\ formData after = formData before
  /\ editingId after = editingId before
  /\ navigations after = navigations before.

(** A failed operation that reports: the state is as before, one error
    toast with the message of the backend has been shown, and the calls
    [calls] have been made, each once. *)
Definition only_reported {N : Type} (before after : Page N)
           (title message : string) (calls : list (request N)) : Prop :=
  same_state before after
  /\ toasts after = (toasts before ++ [toast_error title message])%list
  /\ requests after = (requests before ++ calls)%list.

(** A failed operation that stays silent: the state is as before, nothing
    has been shown, and the calls [calls] have been made, each once. *)
Definition nothing_reported {N : Type} (before after : Page N)
           (calls : list (request N)) : Prop :=
  same_state before after
  /\ toasts after = toasts before
  /\ requests after = (requests before ++ calls)%list.

(** The backend [server] answers the call [call], made after the calls
    [earlier], with the error [message]. *)
Definition fails {N : Type} (server : backend N) (earlier : list (request N))
           (call : request N) (message : string) : Prop :=
  r_error (server earlier call) = Some message.

(** The backend [server] answers [auth.getUser], made after the calls
    [earlier], with the user [user] and no error. *)
Definition signed_in {N : Type} (server : backend N)
           (earlier : list (request N)) (user : string) : Prop :=
  r_user (server earlier (@auth_getUser N)) = Some user
  /\ r_error (server earlier (@auth_getUser N)) = None.

(** What the ledger page does when the backend answers with an error
    the fetch of the entries, the insert, the update or the delete: it
    leaves the state as it was, shows the one error toast carrying the
    message of the backend, and has made the failing call once.  The
    fetches of the customers and of the vendors offered for selection
    leave the state as it was and make their call once as well, but they
    show nothing. *)
Definition errors_handled {N : Type} `{JsNumber N}
           (server : backend N) : Prop :=
  (forall (p : Page N) (user message : string),
      signed_in server (requests p) user ->
      fails server (requests p ++ [auth_getUser])
            (select_all "ledger_entries" "created_at" false) message ->
      only_reported p (snd (fetchLedgerEntries server p))
                    "Failed to Fetch Ledger Entries" message
                    [auth_getUser;
                     select_all "ledger_entries" "created_at" false])
  /\ (forall (p : Page N) (user message : string),
         fst (Ledger.validateForm (formData p)) = true ->
         JsString.truthy_opt (editingId p) = false ->
         signed_in server (requests p) user ->
         fails server (requests p ++ [auth_getUser])
               (insert_row "ledger_entries" (entryData_of user (formData p)))
               message ->
         only_reported p (snd (handleSubmit server p))
                       "Failed to Create Ledger Entry" message
                       [auth_getUser;
                        insert_row "ledger_entries"
                                   (entryData_of user (formData p))])
  /\ (forall (p : Page N) (row_id user message : string),
         fst (Ledger.validateForm (formData p)) = true ->
         editingId p = Some row_id ->
         JsString.truthy row_id = true ->
         signed_in server (requests p) user ->
         fails server (requests p ++ [auth_getUser])
               (update_row "ledger_entries" (entryData_of user (formData p))
                           row_id user)
               message ->
         only_reported p (snd (handleSubmit server p))
                       "Failed to Update Ledger Entry" message
                       [auth_getUser;
                        update_row "ledger_entries"
                                   (entryData_of user (formData p))
                                   row_id user])
  /\ (forall (p : Page N) (row_id user message : string),
         signed_in server (requests p) user ->
         fails server (requests p ++ [auth_getUser])
               (delete_row "ledger_entries" row_id user) message ->
         only_reported p (snd (handleDelete server row_id true p))
                       "Failed to Delete Ledger Entry" message
                       [auth_getUser;
                        delete_row "ledger_entries" row_id user])
  /\ (forall (p : Page N) (user message : string),
         signed_in server (requests p) user ->
         fails server (requests p ++ [auth_getUser])
               (select_all "customers" "name" true) message ->
         nothing_reported p (snd (fetchCustomers server p))
                          [auth_getUser; select_all "customers" "name" true])
  /\ (forall (p : Page N) (user message : string),
         signed_in server (requests p) user ->
         fails server (requests p ++ [auth_getUser])
               (select_all "vendors" "name" true) message ->
         nothing_reported p (snd (fetchVendors server p))
                          [auth_getUser; select_all "vendors" "name" true]).

End Failure.

(** The same for the other pages. *)

Module ProductsFailure.
Import Products ProductsPage ProductsStore.

(** The state of the page [after] an operation is that of the page
    [before] it: the products, the form, the editing id and the
    navigation. *)
Definition same_state {N : Type} (before after : Page N) : Prop :=
  products after = products before
  /\ formData after = formData before
  /\ editingId after = editingId before
  /\ navigations after = navigations before.

(** A failed operation that reports: the state is as before, one error
    toast with the message of the backend has been shown, and the calls
    [calls] have been made, each once. *)
Definition only_reported {N : Type} (before after : Page N)
           (title message : string) (calls : list (request N)) : Prop :=
  same_state before after
  /\ toasts after = (toasts before ++ [toast_error title message])%list
  /\ requests after = (requests before ++ calls)%list.

(** The backend [server] answers the call [call], made after the calls
    [earlier], with the error [message]. *)
Definition fails {N : Type} (server : backend N) (earlier : list (request N))
           (call : request N) (message : string) : Prop :=
  r_error (server earlier call) = Some message.

(** The backend [server] answers [auth.getUser], made after the calls
    [earlier], with the user [user] and no error. *)
Definition signed_in {N : Type} (server : backend N)
           (earlier : list (request N)) (user : string) : Prop :=
  r_user (server earlier (@auth_getUser N)) = Some user
  /\ r_error (server earlier (@auth_getUser N)) = None.

(** What the products page does when the backend answers with an error
    the fetch of the products, the insert, the update or the delete: it
    leaves the state as it was, shows the one error toast carrying the
    message of the backend, and has made the failing call once. *)
Definition errors_handled {N : Type} `{JsNumber N}
           (server : backend N) : Prop :=
  (forall (p : Page N) (user message : string),
      signed_in server (requests p) user ->
      fails server (requests p ++ [auth_getUser])
            (select_all "products" "created_at" false) message ->
      only_reported p (snd (fetchProducts server p))
                    "Failed to Fetch Products" message
                    [auth_getUser;
                     select_all "products" "created_at" false])
  /\ (forall (p : Page N) (user message : string),
      fst (validateForm (formData p)) = true ->
      JsString.truthy_opt (editingId p) = false ->
      signed_in server (requests p) user ->
      fails server (requests p ++ [auth_getUser])
            (insert_row "products" (productData_of user (formData p)))
            message ->
      only_reported p (snd (handleSubmit server p))
                    "Failed to Create Product" message
                    [auth_getUser;
                     insert_row "products" (productData_of user (formData p))])
  /\ (forall (p : Page N) (row_id user message : string),
      fst (validateForm (formData p)) = true ->
      editingId p = Some row_id ->
      JsString.truthy row_id = true ->
      signed_in server (requests p) user ->
      fails server (requests p ++ [auth_getUser])
            (update_row "products" (productData_of user (formData p))
                        [("id", row_id); ("user_id", user)])
            message ->
      only_reported p (snd (handleSubmit server p))
                    "Failed to Update Product" message
                    [auth_getUser;
                     update_row "products" (productData_of user (formData p))
                                [("id", row_id); ("user_id", user)]])
  /\ (forall (p : Page N) (row_id user message : string),
      signed_in server (requests p) user ->
      fails server (requests p ++ [auth_getUser])
            (delete_row "products"
                        [("id", row_id); ("user_id", user)])
            message ->
      only_reported p (snd (handleDelete server row_id true p))
                    "Failed to Delete Product" message
                    [auth_getUser;
                     delete_row "products"
                                [("id", row_id); ("user_id", user)]]).

End ProductsFailure.

Module CustomersFailure.
Import Parties PartiesPage CustomersStore.

(** The state of the page [after] an operation is that of the page
    [before] it: the customers, the form, the editing id and the
    navigation. *)
Definition same_state {N : Type} (before after : Page N) : Prop :=
  customers after = customers before
  /\ formData after = formData before
  /\ editingId after = editingId before
  /\ navigations after = navigations before.

(** A failed operation that reports: the state is as before, one error
    toast with the message of the backend has been shown, and the calls
    [calls] have been made, each once. *)
Definition only_reported {N : Type} (before after : Page N)
           (title message : string) (calls : list (request N)) : Prop :=
  same_state before after
  /\ toasts after = (toasts before ++ [toast_error title message])%list
  /\ requests after = (requests before ++ calls)%list.

(** The backend [server] answers the call [call], made after the calls
    [earlier], with the error [message]. *)
Definition fails {N : Type} (server : backend N) (earlier : list (request N))
           (call : request N) (message : string) : Prop :=
  r_error (server earlier call) = Some message.

(** The backend [server] answers [auth.getUser], made after the calls
    [earlier], with the user [user] and no error. *)
Definition signed_in {N : Type} (server : backend N)
           (earlier : list (request N)) (user : string) : Prop :=
  r_user (server earlier (@auth_getUser N)) = Some user
  /\ r_error (server earlier (@auth_getUser N)) = None.

(** What the customers page does when the backend answers with an error
    the fetch of the customers, the insert, the update or the delete: it
    leaves the state as it was, shows the one error toast carrying the
    message of the backend, and has made the failing call once. *)
Definition errors_handled {N : Type} `{JsNumber N}
           (server : backend N) : Prop :=
  (forall (p : Page N) (user message : string),
      signed_in server (requests p) user ->
      fails server (requests p ++ [auth_getUser])
            (select_all "customers" "created_at" false) message ->
      only_reported p (snd (fetchCustomers server p))
                    "Failed to Fetch Customers" message
                    [auth_getUser;
                     select_all "customers" "created_at" false])
  /\ (forall (p : Page N) (user message : string),
      fst (validateCustomerForm (formData p)) = true ->
      JsString.truthy_opt (editingId p) = false ->
      signed_in server (requests p) user ->
      fails server (requests p ++ [auth_getUser])
            (insert_row "customers" (customerData_of user (formData p)))
            message ->
      only_reported p (snd (handleSubmit server p))
                    "Failed to Create Customer" message
                    [auth_getUser;
                     insert_row "customers" (customerData_of user (formData p))])
  /\ (forall (p : Page N) (row_id user message : string),
      fst (validateCustomerForm (formData p)) = true ->
      editingId p = Some row_id ->
      JsString.truthy row_id = true ->
      signed_in server (requests p) user ->
      fails server (requests p ++ [auth_getUser])
            (update_row "customers" (customerData_of user (formData p))
                        [("id", row_id); ("user_id", user)])
            message ->
      only_reported p (snd (handleSubmit server p))
                    "Failed to Update Customer" message
                    [auth_getUser;
                     update_row "customers" (customerData_of user (formData p))
                                [("id", row_id); ("user_id", user)]])
  /\ (forall (p : Page N) (row_id user message : string),
      signed_in server (requests p) user ->
      fails server (requests p ++ [auth_getUser])
            (delete_row "customers"
                        [("id", row_id); ("user_id", user)])
            message ->
      only_reported p (snd (handleDelete server row_id true p))
                    "Failed to Delete Customer" message
                    [auth_getUser;
                     delete_row "customers"
                                [("id", row_id); ("user_id", user)]]).

End CustomersFailure.

Module VendorsFailure.
Import Parties PartiesPage VendorsStore.

(** The state of the page [after] an operation is that of the page
    [before] it: the vendors, the form, the editing id and the
    navigation. *)
Definition same_state {N : Type} (before after : Page N) : Prop :=
  vendors after = vendors before
  /\ formData after = formData before
  /\ editingId after = editingId before
  /\ navigations after = navigations before.

(** A failed operation that reports: the state is as before, one error
    toast with the message of the backend has been shown, and the calls
    [calls] have been made, each once. *)
Definition only_reported {N : Type} (before after : Page N)
           (title message : string) (calls : list (request N)) : Prop :=
  same_state before after
  /\ toasts after = (toasts before ++ [toast_error title message])%list
  /\ requests after = (requests before ++ calls)%list.

(** The backend [server] answers the call [call], made after the calls
    [earlier], with the error [message]. *)
Definition fails {N : Type} (server : backend N) (earlier : list (request N))
           (call : request N) (message : string) : Prop :=
  r_error (server earlier call) = Some message.

(** The backend [server] answers [auth.getUser], made after the calls
    [earlier], with the user [user] and no error. *)
Definition signed_in {N : Type} (server : backend N)
           (earlier : list (request N)) (user : string) : Prop :=
  r_user (server earlier (@auth_getUser N)) = Some user
  /\ r_error (server earlier (@auth_getUser N)) = None.

(** What the vendors page does when the backend answers with an error
    the fetch of the vendors, the insert, the update or the delete: it
    leaves the state as it was, shows the one error toast carrying the
    message of the backend, and has made the failing call once. *)
Definition errors_handled {N : Type} `{JsNumber N}
           (server : backend N) : Prop :=
  (forall (p : Page N) (user message : string),
      signed_in server (requests p) user ->
      fails server (requests p ++ [auth_getUser])
            (select_all "vendors" "created_at" false) message ->
      only_reported p (snd (fetchVendors server p))
                    "Failed to Fetch Vendors" message
                    [auth_getUser;
                     select_all "vendors" "created_at" false])
  /\ (forall (p : Page N) (user message : string),
      fst (validateVendorForm (formData p)) = true ->
      JsString.truthy_opt (editingId p) = false ->
      signed_in server (requests p) user ->
      fails server (requests p ++ [auth_getUser])
            (insert_row "vendors" (vendorData_of user (formData p)))
            message ->
      only_reported p (snd (handleSubmit server p))
                    "Failed to Create Vendor" message
                    [auth_getUser;
                     insert_row "vendors" (vendorData_of user (formData p))])
  /\ (forall (p : Page N) (row_id user message : string),
      fst (validateVendorForm (formData p)) = true ->
      editingId p = Some row_id ->
      JsString.truthy row_id = true ->
      signed_in server (requests p) user ->
      fails server (requests p ++ [auth_getUser])
            (update_row "vendors" (vendorData_of user (formData p))
                        [("id", row_id); ("user_id", user)])
            message ->
      only_reported p (snd (handleSubmit server p))
                    "Failed to Update Vendor" message
                    [auth_getUser;
                     update_row "vendors" (vendorData_of user (formData p))
                                [("id", row_id); ("user_id", user)]])
  /\ (forall (p : Page N) (row_id user message : string),
      signed_in server (requests p) user ->
      fails server (requests p ++ [auth_getUser])
            (delete_row "vendors"
                        [("id", row_id); ("user_id", user)])
            message ->
      only_reported p (snd (handleDelete server row_id true p))
                    "Failed to Delete Vendor" message
                    [auth_getUser;
                     delete_row "vendors"
                                [("id", row_id); ("user_id", user)]]).

End VendorsFailure.

Module PurchasesFailure.
Import Purchases PurchasesPage PurchasesStore.

(** The state of the page [after] an operation is that of the page
    [before] it: the purchases, the vendors offered for selection, the
    form, the editing id and the navigation. *)
Definition same_state {N : Type} (before after : Page N) : Prop :=
  purchases after = purchases before
  /\ vendors after = vendors before
  /\ formData after = formData before
  /\ editingId after = editingId before
  /\ navigations after = navigations before.

(** A failed operation that reports: the state is as before, one error
    toast with the message of the backend has been shown, and the calls
    [calls] have been made, each once. *)
Definition only_reported {N : Type} (before after : Page N)
           (title message : string) (calls : list (request N)) : Prop :=
  same_state before after
  /\ toasts after = (toasts before ++ [toast_error title message])%list
  /\ requests after = (requests before ++ calls)%list.

(** A failed operation that stays silent: the state is as before, nothing
    has been shown, and the calls [calls] have been made, each once. *)
Definition nothing_reported {N : Type} (before after : Page N)
           (calls : list (request N)) : Prop :=
  same_state before after
  /\ toasts after = toasts before
  /\ requests after = (requests before ++ calls)%list.

(** The backend [server] answers the call [call], made after the calls
    [earlier], with the error [message]. *)
Definition fails {N : Type} (server : backend N) (earlier : list (request N))
           (call : request N) (message : string) : Prop :=
  r_error (server earlier call) = Some message.

(** The backend [server] answers [auth.getUser], made after the calls
    [earlier], with the user [user] and no error. *)
Definition signed_in {N : Type} (server : backend N)
           (earlier : list (request N)) (user : string) : Prop :=
  r_user (server earlier (@auth_getUser N)) = Some user
  /\ r_error (server earlier (@auth_getUser N)) = None.

(** What the purchases page does when the backend answers with an error
    the fetch of the purchases, the insert, the update or the delete: it
    leaves the state as it was, shows the one error toast carrying the
    message of the backend, and has made the failing call once.  The
    fetches of the vendors offered for selection leave the state as it
    was and make their call once as well, but they show nothing. *)
Definition errors_handled {N : Type} `{JsNumber N}
           (server : backend N) : Prop :=
  (forall (p : Page N) (user message : string),
      signed_in server (requests p) user ->
      fails server (requests p ++ [auth_getUser])
            (select_all "purchases" "created_at" false) message ->
      only_reported p (snd (fetchPurchases server p))
                    "Failed to Fetch Purchases" message
                    [auth_getUser;
                     select_all "purchases" "created_at" false])
  /\ (forall (p : Page N) (today : string) (user message : string),
      fst (validateForm (formData p)) = true ->
      JsString.truthy_opt (editingId p) = false ->
      signed_in server (requests p) user ->
      fails server (requests p ++ [auth_getUser])
            (insert_row "purchases" (purchaseData_of user (formData p)))
            message ->
      only_reported p (snd (handleSubmit server today p))
                    "Failed to Create Purchase" message
                    [auth_getUser;
                     insert_row "purchases" (purchaseData_of user (formData p))])
  /\ (forall (p : Page N) (today : string) (row_id user message : string),
      fst (validateForm (formData p)) = true ->
      editingId p = Some row_id ->
      JsString.truthy row_id = true ->
      signed_in server (requests p) user ->
      fails server (requests p ++ [auth_getUser])
            (update_row "purchases" (purchaseData_of user (formData p))
                        [("id", row_id); ("user_id", user)])
            message ->
      only_reported p (snd (handleSubmit server today p))
                    "Failed to Update Purchase" message
                    [auth_getUser;
                     update_row "purchases" (purchaseData_of user (formData p))
                                [("id", row_id); ("user_id", user)]])
  /\ (forall (p : Page N) (row_id user message : string),
      signed_in server (requests p) user ->
      fails server (requests p ++ [auth_getUser])
            (delete_row "purchases"
                        [("id", row_id); ("user_id", user)])
            message ->
      only_reported p (snd (handleDelete server row_id true p))
                    "Failed to Delete Purchase" message
                    [auth_getUser;
                     delete_row "purchases"
                                [("id", row_id); ("user_id", user)]])
  /\ (forall (p : Page N) (user message : string),
      signed_in server (requests p) user ->
      fails server (requests p ++ [auth_getUser])
            (select_all "vendors" "name" true) message ->
      nothing_reported p (snd (fetchVendors server p))
                       [auth_getUser;
                        select_all "vendors" "name" true]).

End PurchasesFailure.

Module SaleItemsFailure.
Import SaleItems SaleItemsPage SaleItemsStore.

(** The state of the page [after] an operation is that of the page
    [before] it: the sale items, the sales and the products offered for
    selection, the form, the editing id and the navigation. *)
Definition same_state {N : Type} (before after : Page N) : Prop :=
  saleItems after = saleItems before
  /\ sales after = sales before
  /\ products after = products before
  /\ formData after = formData before
  /\ editingId after = editingId before
  /\ navigations after = navigations before.

(** A failed operation that reports: the state is as before, one error
    toast with the message of the backend has been shown, and the calls
    [calls] have been made, each once. *)
Definition only_reported {N : Type} (before after : Page N)
           (title message : string) (calls : list (request N)) : Prop :=
  same_state before after
  /\ toasts after = (toasts before ++ [toast_error title message])%list
  /\ requests after = (requests before ++ calls)%list.

(** A failed operation that stays silent: the state is as before, nothing
    has been shown, and the calls [calls] have been made, each once. *)
Definition nothing_reported {N : Type} (before after : Page N)
           (calls : list (request N)) : Prop :=
  same_state before after
  /\ toasts after = toasts before
  /\ requests after = (requests before ++ calls)%list.

(** The backend [server] answers the call [call], made after the calls
    [earlier], with the error [message]. *)
Definition fails {N : Type} (server : backend N) (earlier : list (request N))
           (call : request N) (message : string) : Prop :=
  r_error (server earlier call) = Some message.

(** The backend [server] answers [auth.getUser], made after the calls
    [earlier], with the user [user] and no error. *)
Definition signed_in {N : Type} (server : backend N)
           (earlier : list (request N)) (user : string) : Prop :=
  r_user (server earlier (@auth_getUser N)) = Some user
  /\ r_error (server earlier (@auth_getUser N)) = None.

(** What the sale items page does when the backend answers with an error
    the fetch of the sale items, the insert, the update or the delete:
    it leaves the state as it was, shows the one error toast carrying
    the message of the backend, and has made the failing call once.  The
    fetches of the sales and of the products offered for selection leave
    the state as it was and make their call once as well, but they show
    nothing. *)
Definition errors_handled {N : Type} `{JsNumber N} `{!JsOne N}
           (server : backend N) : Prop :=
  (forall (p : Page N) (user message : string),
      signed_in server (requests p) user ->
      fails server (requests p ++ [auth_getUser])
            (select_all "sale_items" "created_at" false) message ->
      only_reported p (snd (fetchSaleItems server p))
                    "Failed to Fetch Sale Items" message
                    [auth_getUser;
                     select_all "sale_items" "created_at" false])
  /\ (forall (p : Page N) (user message : string),
      fst (validateForm (formData p)) = true ->
      JsString.truthy_opt (editingId p) = false ->
      signed_in server (requests p) user ->
      fails server (requests p ++ [auth_getUser])
            (insert_row "sale_items" (itemData_of (formData p)))
            message ->
      only_reported p (snd (handleSubmit server p))
                    "Failed to Create Sale Item" message
                    [auth_getUser;
                     insert_row "sale_items" (itemData_of (formData p))])
  /\ (forall (p : Page N) (row_id user message : string),
      fst (validateForm (formData p)) = true ->
      editingId p = Some row_id ->
      JsString.truthy row_id = true ->
      signed_in server (requests p) user ->
      fails server (requests p ++ [auth_getUser])
            (update_row "sale_items" (itemData_of (formData p))
                        [("id", row_id)])
            message ->
      only_reported p (snd (handleSubmit server p))
                    "Failed to Update Sale Item" message
                    [auth_getUser;
                     update_row "sale_items" (itemData_of (formData p))
                                [("id", row_id)]])
  /\ (forall (p : Page N) (row_id user message : string),
      signed_in server (requests p) user ->
      fails server (requests p ++ [auth_getUser])
            (delete_row "sale_items"
                        [("id", row_id)])
            message ->
      only_reported p (snd (handleDelete server row_id true p))
                    "Failed to Delete Sale Item" message
                    [auth_getUser;
                     delete_row "sale_items"
                                [("id", row_id)]])
  /\ (forall (p : Page N) (user message : string),
      signed_in server (requests p) user ->
      fails server (requests p ++ [auth_getUser])
            (select_all "sales" "created_at" false) message ->
      nothing_reported p (snd (fetchSales server p))
                       [auth_getUser;
                        select_all "sales" "created_at" false])
  /\ (forall (p : Page N) (user message : string),
      signed_in server (requests p) user ->
      fails server (requests p ++ [auth_getUser])
            (select_all "products" "name" true) message ->
      nothing_reported p (snd (fetchProducts server p))
                       [auth_getUser;
                        select_all "products" "name" true]).

End SaleItemsFailure.

Module PurchaseItemsFailure.
Import PurchaseItems PurchaseItemsPage PurchaseItemsStore.

(** The state of the page [after] an operation is that of the page
    [before] it: the purchase items, the purchases and the products
    offered for selection, the form, the editing id and the navigation.
    *)
Definition same_state {N : Type} (before after : Page N) : Prop :=
  purchaseItems after = purchaseItems before
  /\ purchases after = purchases before
  /\ products after = products before
  /\ formData after = formData before
  /\ editingId after = editingId before
  /\ navigations after = navigations before.

(** A failed operation that reports: the state is as before, one error
    toast with the message of the backend has been shown, and the calls
    [calls] have been made, each once. *)
Definition only_reported {N : Type} (before after : Page N)
           (title message : string) (calls : list (request N)) : Prop :=
  same_state before after
  /\ toasts after = (toasts before ++ [toast_error title message])%list
  /\ requests after = (requests before ++ calls)%list.

(** A failed operation that stays silent: the state is as before, nothing
    has been shown, and the calls [calls] have been made, each once. *)
Definition nothing_reported {N : Type} (before after : Page N)
           (calls : list (request N)) : Prop :=
  same_state before after
  /\ toasts after = toasts before
  /\ requests after = (requests before ++ calls)%list.

(** The backend [server] answers the call [call], made after the calls
    [earlier], with the error [message]. *)
Definition fails {N : Type} (server : backend N) (earlier : list (request N))
           (call : request N) (message : string) : Prop :=
  r_error (server earlier call) = Some message.

(** The backend [server] answers [auth.getUser], made after the calls
    [earlier], with the user [user] and no error. *)
Definition signed_in {N : Type} (server : backend N)
           (earlier : list (request N)) (user : string) : Prop :=
  r_user (server earlier (@auth_getUser N)) = Some user
  /\ r_error (server earlier (@auth_getUser N)) = None.

(** What the purchase items page does when the backend answers with an
    error the fetch of the purchase items, the insert, the update or the
    delete: it leaves the state as it was, shows the one error toast
    carrying the message of the backend, and has made the failing call
    once.  The fetches of the purchases and of the products offered for
    selection leave the state as it was and make their call once as
    well, but they show nothing. *)
Definition errors_handled {N : Type} `{JsNumber N} `{!JsOne N}
           (server : backend N) : Prop :=
  (forall (p : Page N) (user message : string),
      signed_in server (requests p) user ->
      fails server (requests p ++ [auth_getUser])
            (select_all "purchase_items" "created_at" false) message ->
      only_reported p (snd (fetchPurchaseItems server p))
                    "Failed to Fetch Purchase Items" message
                    [auth_getUser;
                     select_all "purchase_items" "created_at" false])
  /\ (forall (p : Page N) (user message : string),
      fst (validateForm (formData p)) = true ->
      JsString.truthy_opt (editingId p) = false ->
      signed_in server (requests p) user ->
      fails server (requests p ++ [auth_getUser])
            (insert_row "purchase_items" (itemData_of (formData p)))
            message ->
      only_reported p (snd (handleSubmit server p))
                    "Failed to Create Purchase Item" message
                    [auth_getUser;
                     insert_row "purchase_items" (itemData_of (formData p))])
  /\ (forall (p : Page N) (row_id user message : string),
      fst (validateForm (formData p)) = true ->
      editingId p = Some row_id ->
      JsString.truthy row_id = true ->
      signed_in server (requests p) user ->
      fails server (requests p ++ [auth_getUser])
            (update_row "purchase_items" (itemData_of (formData p))
                        [("id", row_id)])
            message ->
      only_reported p (snd (handleSubmit server p))
                    "Failed to Update Purchase Item" message
                    [auth_getUser;
                     update_row "purchase_items" (itemData_of (formData p))
                                [("id", row_id)]])
  /\ (forall (p : Page N) (row_id user message : string),
      signed_in server (requests p) user ->
      fails server (requests p ++ [auth_getUser])
            (delete_row "purchase_items"
                        [("id", row_id)])
            message ->
      only_reported p (snd (handleDelete server row_id true p))
                    "Failed to Delete Purchase Item" message
                    [auth_getUser;
                     delete_row "purchase_items"
                                [("id", row_id)]])
  /\ (forall (p : Page N) (user message : string),
      signed_in server (requests p) user ->
      fails server (requests p ++ [auth_getUser])
            (select_all "purchases" "created_at" false) message ->
      nothing_reported p (snd (fetchPurchases server p))
                       [auth_getUser;
                        select_all "purchases" "created_at" false])
  /\ (forall (p : Page N) (user message : string),
      signed_in server (requests p) user ->
      fails server (requests p ++ [auth_getUser])
            (select_all "products" "name" true) message ->
      nothing_reported p (snd (fetchProducts server p))
                       [auth_getUser;
                        select_all "products" "name" true]).

End PurchaseItemsFailure.

(** ** Sample data *)

Module Samples.

Definition entry {N : Type} (type : string) (amount : N) : Ledger.LedgerEntry N :=
  {| Ledger.id := "entry";
     Ledger.entity_type := "customer";
     Ledger.entity_id := None;
     Ledger.entity_name := "Acme";
     Ledger.transaction_type := type;
     Ledger.amount := amount;
     Ledger.description := None;
     Ledger.reference_id := None;
     Ledger.reference_type := None |}.

(** The scenario of the specification. *)
Definition debit_100_credit_150 : list (Ledger.LedgerEntry float) :=
  [entry "debit" 100%float; entry "credit" 150%float].

(** Three debits of 0.10, 0.20 and 0.30, and the same entries in the
    opposite order. *)
Definition tenths : list (Ledger.LedgerEntry float) :=
  [entry "debit" 0.1%float; entry "debit" 0.2%float; entry "debit" 0.3%float].

Definition tenths_reversed : list (Ledger.LedgerEntry float) := rev tenths.

(** The same amounts as binary64 numbers. *)
Definition whole_amounts_binary64 : list (Ledger.LedgerEntry float) :=
  [entry "debit" 100%float; entry "credit" 150%float; entry "debit" 30%float].

(** Four debits, the first of them the largest safe integer, and the
    same entries in the opposite order. *)
Definition beyond_safe : list (Ledger.LedgerEntry float) :=
  [entry "debit" 9007199254740991%float; entry "debit" 1%float;
   entry "debit" 1%float; entry "debit" 1%float].

Definition whole_amounts : list (Ledger.LedgerEntry Z) :=
  [entry "debit" 100%Z; entry "credit" 150%Z; entry "debit" 30%Z].

Definition saleItem {N : Type} (quantity price total : N) : SaleItems.SaleItem N :=
  {| SaleItems.id := "item";
     SaleItems.sale_id := "sale";
     SaleItems.product_id := None;
     SaleItems.product_name := "Widget";
     SaleItems.quantity := quantity;
     SaleItems.price := price;
     SaleItems.total := total |}.

Definition saleItems : list (SaleItems.SaleItem float) :=
  [saleItem 3%float 25%float 75%float; saleItem 1%float 25.5%float 25.5%float].

Definition purchaseItem {N : Type} (quantity price total : N)
  : PurchaseItems.PurchaseItem N :=
  {| PurchaseItems.id := "item";
     PurchaseItems.purchase_id := "purchase";
     PurchaseItems.product_id := None;
     PurchaseItems.product_name := "Widget";
     PurchaseItems.quantity := quantity;
     PurchaseItems.price := price;
     PurchaseItems.total := total |}.

Definition purchaseItems : list (PurchaseItems.PurchaseItem float) :=
  [purchaseItem 3%float 25%float 75%float;
   purchaseItem 1%float 25.5%float 25.5%float].

Definition product (name : string) (quantity min_stock : Z) : Products.Product Z :=
  {| Products.id := name;
     Products.user_id := "user";
     Products.name := name;
     Products.category := "Tools";
     Products.quantity := quantity;
     Products.price := 10%Z;
     Products.min_stock := min_stock;
     Products.created_at := "2025-01-01";
     Products.updated_at := "2025-01-01" |}.

Definition products : list (Products.Product Z) :=
  [product "hammer" 0 10; product "widget" 5 10; product "anvil" 20 10].

(** The form of the validation scenario: an empty name, a price of 10 and
    nothing else. *)
Definition nameless_product {N : Type} (ten : N) : Products.Form N :=
  {| Products.f_name := Some "";
     Products.f_category := None;
     Products.f_quantity := None;
     Products.f_price := Some ten;
     Products.f_min_stock := None |}.

Definition saleItemForm {N : Type} (quantity price total : option N)
  : SaleItems.Form N :=
  {| SaleItems.f_sale_id := Some "sale";
     SaleItems.f_product_id := Some "";
     SaleItems.f_product_name := Some "Widget";
     SaleItems.f_quantity := quantity;
     SaleItems.f_price := price;
     SaleItems.f_total := total |}.

Definition purchase (id date : string) : Purchases.Purchase Z :=
  {| Purchases.id := id;
     Purchases.vendor_id := None;
     Purchases.vendor_name := "Acme";
     Purchases.purchase_date := date;
     Purchases.subtotal := 100%Z;
     Purchases.tax := 0%Z;
     Purchases.total := 100%Z;
     Purchases.status := "paid" |}.

(** Noon UTC on 15 March 2025. *)
Definition noon_2025_03_15 : Z := 1742040000000%Z.

(** A purchase made 29 days before that day and one dated after it. *)
Definition purchases : list (Purchases.Purchase Z) :=
  [purchase "p1" "2025-02-14"; purchase "p2" "2025-12-25"].

(** A backend that knows the user and fails every other call. *)
Definition failing_backend : LedgerPage.backend Z :=
  fun _ call =>
    match call with
    | LedgerPage.auth_getUser =>
        {| LedgerPage.r_user := Some "user-1";
           LedgerPage.r_data := None;
           LedgerPage.r_parties := None;
           LedgerPage.r_error := None |}
    | _ =>
        {| LedgerPage.r_user := None;
           LedgerPage.r_data := None;
           LedgerPage.r_parties := None;
           LedgerPage.r_error := Some "connection lost" |}
    end.

Definition ledgerForm : Ledger.Form Z :=
  {| Ledger.f_entity_type := Some "customer";
     Ledger.f_entity_id := Some "";
     Ledger.f_entity_name := Some "Acme";
     Ledger.f_transaction_type := Some "debit";
     Ledger.f_amount := Some 40%Z;
     Ledger.f_description := Some "";
     Ledger.f_reference_id := Some "";
     Ledger.f_reference_type := Some "" |}.

(** The ledger page showing three entries, with a valid new entry in the
    form. *)
Definition ledgerPage (editing : option string) : LedgerPage.Page Z :=
  {| LedgerPage.ledgerEntries := whole_amounts;
     LedgerPage.customers := [];
     LedgerPage.vendors := [];
     LedgerPage.formData := ledgerForm;
     LedgerPage.editingId := editing;
     LedgerPage.loading := false;
     LedgerPage.toasts := [];
     LedgerPage.navigations := [];
     LedgerPage.requests := [] |}.

(** The invoice of the specification: subtotal 75.00 and tax 7.50. *)
Definition purchaseForm : Purchases.Form float :=
  {| Purchases.f_vendor_id := Some "";
     Purchases.f_vendor_name := Some "Acme";
     Purchases.f_purchase_date := Some "2025-03-15";
     Purchases.f_subtotal := Some 75%float;
     Purchases.f_tax := Some 7.5%float;
     Purchases.f_total := Some 0%float;
     Purchases.f_status := Some "pending" |}.

End Samples.

(** ** Outcomes of the ledger operations *)

Module Flows.
Import Ledger LedgerPage.

(** The backend [server] answers the call [call], made after the calls
    [earlier], without an error. *)
Definition succeeds {N : Type} (server : backend N)
           (earlier : list (request N)) (call : request N) : Prop :=
  r_error (server earlier call) = None.

(** The backend [server] answers [auth.getUser], made after the calls
    [earlier], with an error or without a user. *)
Definition signed_out {N : Type} (server : backend N)
           (earlier : list (request N)) : Prop :=
  auth_failed (server earlier (@auth_getUser N)) = true.

(** The page [p] at rest after an operation: the entries, the form and
    the editing id it ends with, what it has shown, where it has gone and
    the calls it has made. *)
Definition outcome {N : Type} (p : Page N)
           (entries : list (LedgerEntry N)) (form : Form N)
           (editing : option string) (shown : list toast)
           (visited : list string) (calls : list (request N)) : Page N :=
  {| ledgerEntries := entries;
     customers := customers p;
     vendors := vendors p;
     formData := form;
     editingId := editing;
     loading := false;
     toasts := (toasts p ++ shown)%list;
     navigations := (navigations p ++ visited)%list;
     requests := (requests p ++ calls)%list |}.

(** The page [p] with nothing changed but the toasts [shown] and the
    calls [calls] added. *)
Definition continued {N : Type} (p : Page N) (shown : list toast)
           (calls : list (request N)) : Page N :=
  {| ledgerEntries := ledgerEntries p;
     customers := customers p;
     vendors := vendors p;
     formData := formData p;
     editingId := editingId p;
     loading := loading p;
     toasts := (toasts p ++ shown)%list;
     navigations := navigations p;
     requests := (requests p ++ calls)%list |}.

(** The page [p] once a row has been saved: as [continued], with the
    form back to its first value and no row being edited. *)
Definition saved {N : Type} `{JsNumber N} (p : Page N) (shown : list toast)
           (calls : list (request N)) : Page N :=
  {| ledgerEntries := ledgerEntries p;
     customers := customers p;
     vendors := vendors p;
     formData := LedgerEditing.initialFormData;
     editingId := None;
     loading := loading p;
     toasts := (toasts p ++ shown)%list;
     navigations := navigations p;
     requests := (requests p ++ calls)%list |}.

(** The rows a [select] resolved to: [data || []]. *)
Definition rows_of {N : Type} (r : response N) : list (LedgerEntry N) :=
  match r_data r with
  | Some d => d
  | None => []
  end.

Definition is_write {N : Type} (r : request N) : bool :=
  match r with
  | update_row _ _ _ _ | insert_row _ _ | delete_row _ _ _ => true
  | _ => false
  end.

(** The call [r] touches the rows of [user] only: a written row carries
    the id of [user], an update or a delete is restricted to the rows of
    [user]. *)
Definition scoped_to {N : Type} (user : string) (r : request N) : Prop :=
  match r with
  | update_row _ values _ u => u = user /\ d_user_id values = user
  | insert_row _ values => d_user_id values = user
  | delete_row _ _ u => u = user
  | _ => True
  end.

(** The calls of one operation, [answer] being what [auth.getUser]
    resolves to at its start: none at all, or [auth.getUser] first; after
    it nothing when no user is signed in, and otherwise calls that touch
    the rows of that user only, at most one of them a write. *)
Definition guarded_calls {N : Type} (answer : response N)
           (calls : list (request N)) : Prop :=
  calls = []
  \/ exists rest,
       calls = auth_getUser :: rest
       /\ (auth_failed answer = true -> rest = [])
       /\ Forall (scoped_to (user_id_of answer)) rest
       /\ (List.length (filter is_write rest) <= 1)%nat.

(** The name in the toast of a deletion: [entry?.entity_name || 'entity']. *)
Definition deleted_name {N : Type} (entries : list (LedgerEntry N))
           (row_id : string) : string :=
  match find (fun e => id e =? row_id) entries with
  | Some e => JsString.or_default (Some (entity_name e)) "entity"
  | None => "entity"
  end.

End Flows.

(** ** Stored ledger entries *)

Module Stored.
Import Ledger LedgerPage.

(** The row [e] of the table as the values of a write by [user]. *)
Definition values_of {N : Type} (user : string) (e : LedgerEntry N)
  : EntryData N :=
  {| d_user_id := user;
     d_entity_type := entity_type e;
     d_entity_id := entity_id e;
     d_entity_name := entity_name e;
     d_transaction_type := transaction_type e;
     d_amount := amount e;
     d_description := description e;
     d_reference_id := reference_id e;
     d_reference_type := reference_type e |}.

(** An optional id is [null] or not empty. *)
Definition tidy_id (o : option string) : Prop := o <> Some "".

(** An optional text is [null], or trimmed and not empty. *)
Definition tidy_text (o : option string) : Prop :=
  forall s, o = Some s -> s <> "" /\ JsString.trim s = s.

(** A row as the page itself writes it: the id, the types and the amount
    are there, the amount is above zero, the strings are trimmed, an
    absent optional value is [null], and the entity is given by id or by
    name. *)
Definition as_written {N : Type} `{JsNumber N} (e : LedgerEntry N) : Prop :=
  id e <> ""
  /\ entity_type e <> ""
  /\ transaction_type e <> ""
  /\ truthy (amount e) = true
  /\ le (amount e) zero = false
  /\ JsString.trim (entity_name e) = entity_name e
  /\ tidy_id (entity_id e)
  /\ tidy_id (reference_id e)
  /\ tidy_text (description e)
  /\ tidy_text (reference_type e)
  /\ (entity_id e <> None \/ entity_name e <> "").

End Stored.

(** ** The strings a regular expression matches *)

Module Language.
Import JsRegExp.

(** [matches r s]: the whole of [s] is matched by [r]. *)
Inductive matches : regex -> string -> Prop :=
| matches_eps : matches Eps ""
| matches_class p c : p c = true -> matches (CharClass p) (String c "")
| matches_seq r1 r2 s1 s2 :
    matches r1 s1 -> matches r2 s2 -> matches (Seq r1 r2) (s1 ++ s2)
| matches_alt_l r1 r2 s : matches r1 s -> matches (Alt r1 r2) s
| matches_alt_r r1 r2 s : matches r2 s -> matches (Alt r1 r2) s
| matches_star_nil r : matches (Star r) ""
| matches_star_cons r s1 s2 :
    matches r s1 -> matches (Star r) s2 -> matches (Star r) (s1 ++ s2).

(** Every character of [s] satisfies [p]. *)
Fixpoint all_chars (p : ascii -> bool) (s : string) : bool :=
  match s with
  | EmptyString => true
  | String c r => p c && all_chars p r
  end.

(** One or more characters, none of them white space or [@]. *)
Definition plain (s : string) : Prop :=
  s <> ""
  /\ all_chars (fun c => negb (JsString.is_whitespace c || Ascii.eqb c "@")) s
     = true.

(** The number of occurrences of [c] in [s]. *)
Fixpoint count (c : ascii) (s : string) : nat :=
  match s with
  | EmptyString => 0
  | String d r => (if Ascii.eqb d c then 1 else 0) + count c r
  end.

(** Every character of [s] is an ASCII character. *)
Definition ascii_only (s : string) : bool :=
  all_chars (fun c => (nat_of_ascii c <? 128)%nat) s.

Definition ascii_only_opt (o : option string) : bool :=
  match o with
  | Some s => ascii_only s
  | None => true
  end.

End Language.

(** ** Substrings *)

Module Substrings.

(** [t] occurs in [s]. *)
Definition contains (s t : string) : Prop :=
  exists before after, s = before ++ t ++ after.

Definition contains_opt (o : option string) (t : string) : Prop :=
  exists s, o = Some s /\ contains s t.

Definition contains_lower_opt (o : option string) (t : string) : Prop :=
  exists s, o = Some s /\ contains (JsString.toLowerCase s) t.

End Substrings.

(** ** Scenarios *)

Module Scenarios.

(** The entries the backend holds. *)
Definition stored_entries : list (Ledger.LedgerEntry Z) :=
  [Samples.entry "credit" 70%Z; Samples.entry "debit" 40%Z].

(** A backend that knows the user, accepts every write and answers
    every select of the ledger entries with [stored_entries]. *)
Definition working_backend : LedgerPage.backend Z :=
  fun _ call =>
    match call with
    | LedgerPage.auth_getUser =>
        {| LedgerPage.r_user := Some "user-1";
           LedgerPage.r_data := None;
           LedgerPage.r_parties := None;
           LedgerPage.r_error := None |}
    | LedgerPage.select_all _ _ _ =>
        {| LedgerPage.r_user := None;
           LedgerPage.r_data := Some stored_entries;
           LedgerPage.r_parties := None;
           LedgerPage.r_error := None |}
    | _ =>
        {| LedgerPage.r_user := None;
           LedgerPage.r_data := None;
           LedgerPage.r_parties := None;
           LedgerPage.r_error := None |}
    end.

(** A backend with nobody signed in. *)
Definition signed_out_backend : LedgerPage.backend Z :=
  fun _ _ =>
    {| LedgerPage.r_user := None;
       LedgerPage.r_data := None;
       LedgerPage.r_parties := None;
       LedgerPage.r_error := None |}.

(** The ledger page as it is first shown: three entries and the form in
    its first state. *)
Definition untouched_page : LedgerPage.Page Z :=
  {| LedgerPage.ledgerEntries := Samples.whole_amounts;
     LedgerPage.customers := [];
     LedgerPage.vendors := [];
     LedgerPage.formData := LedgerEditing.initialFormData;
     LedgerPage.editingId := None;
     LedgerPage.loading := false;
     LedgerPage.toasts := [];
     LedgerPage.navigations := [];
     LedgerPage.requests := [] |}.

Definition productForm {N : Type} (quantity price min_stock : N)
  : Products.Form N :=
  {| Products.f_name := Some " Hammer ";
     Products.f_category := Some "Tools";
     Products.f_quantity := Some quantity;
     Products.f_price := Some price;
     Products.f_min_stock := Some min_stock |}.

Definition vendorForm {N : Type} (balance : N) : Parties.Form N :=
  {| Parties.f_name := Some "Acme";
     Parties.f_email := Some "sales@acme.example";
     Parties.f_phone := Some "";
     Parties.f_address := Some "";
     Parties.f_balance := Some balance |}.

Definition purchaseItemForm {N : Type} (quantity price total : option N)
  : PurchaseItems.Form N :=
  {| PurchaseItems.f_purchase_id := Some "purchase";
     PurchaseItems.f_product_id := Some "";
     PurchaseItems.f_product_name := Some "Widget";
     PurchaseItems.f_quantity := quantity;
     PurchaseItems.f_price := price;
     PurchaseItems.f_total := total |}.

(** An invoice whose total is the sum of its subtotal and tax. *)
Definition purchaseForm {N : Type} (subtotal tax total : N)
  : Purchases.Form N :=
  {| Purchases.f_vendor_id := Some "";
     Purchases.f_vendor_name := Some "Acme";
     Purchases.f_purchase_date := Some "2025-03-15";
     Purchases.f_subtotal := Some subtotal;
     Purchases.f_tax := Some tax;
     Purchases.f_total := Some total;
     Purchases.f_status := Some "pending" |}.

(** A customer or vendor on file. *)
Definition acme_tools : Parties.Party Z :=
  {| Parties.id := "party-1";
     Parties.user_id := "user-1";
     Parties.name := "Acme Tools";
     Parties.email := Some "sales@acme.example";
     Parties.phone := None;
     Parties.address := None;
     Parties.balance := 0%Z;
     Parties.created_at := "2025-01-01";
     Parties.updated_at := "2025-01-01" |}.

(** Five hours west of UTC, all year. *)
Definition five_hours_west : JsDate.Zone := JsDate.fixed (-18000000).

(** New York in 2025: five hours west of UTC, four from
    2025-03-09T07:00Z to 2025-11-02T06:00Z. *)
Definition new_york : JsDate.Zone :=
  JsDate.zone_of (-18000000)
    [(1741503600000, -14400000); (1762063200000, -18000000)]%Z.

(** The Azores in 2025: one hour west of UTC, none from
    2025-03-30T01:00Z to 2025-10-26T01:00Z. *)
Definition azores : JsDate.Zone :=
  JsDate.zone_of (-3600000)
    [(1743296400000, 0); (1761440400000, -3600000)]%Z.

(** 2025-03-12T23:30Z and 2025-03-30T12:00Z. *)
Definition evening_2025_03_12 : Z := 1741822200000%Z.
Definition noon_2025_03_30 : Z := 1743336000000%Z.

(** The offsets of the zone stay below a day. *)
Definition within_a_day (zone : JsDate.Zone) : Prop :=
  forall t,
    (- JsDate.msPerDay < JsDate.LocalTZA zone t true < JsDate.msPerDay)%Z
    /\ (- JsDate.msPerDay < JsDate.LocalTZA zone t false < JsDate.msPerDay)%Z.

(** Purchases dated on the local day of [Samples.noon_2025_03_15] five
    hours west of UTC, and on the day after it. *)
Definition purchases_of_two_days : list (Purchases.Purchase Z) :=
  [Samples.purchase "p1" "2025-03-15"; Samples.purchase "p2" "2025-03-16"].

End Scenarios.

(** ** Calls of the sale items page *)

Module ItemFlows.
Import SaleItems SaleItemsPage SaleItemsStore.

Definition is_write {N : Type} (r : request N) : bool :=
  match r with
  | update_row _ _ _ | insert_row _ _ | delete_row _ _ => true
  | _ => false
  end.

(** The call [r] names its rows by their id alone: an update or a delete
    of sale items is restricted by one [.eq], on the column [id]. *)
Definition by_row_id {N : Type} (r : request N) : Prop :=
  match r with
  | update_row table _ eq | delete_row table eq =>
      table = "sale_items" /\ map fst eq = ["id"]
  | insert_row table _ => table = "sale_items"
  | _ => True
  end.

(** The calls of one operation, [answer] being what [auth.getUser]
    resolves to at its start: none at all, or [auth.getUser] first; after
    it nothing when no user is signed in, and otherwise calls that name
    their rows by id alone, at most one of them a write. *)
Definition guarded_calls {N : Type} (answer : response N)
           (calls : list (request N)) : Prop :=
  calls = []
  \/ exists rest,
       calls = auth_getUser :: rest
       /\ (auth_failed answer = true -> rest = [])
       /\ Forall by_row_id rest
       /\ (List.length (filter is_write rest) <= 1)%nat.

End ItemFlows.

Module ItemScenarios.
Import SaleItems SaleItemsPage SaleItemsStore.

(** A backend on which [alice] is signed in and every call succeeds. *)
Definition alice_backend : backend Z :=
  fun _ _ => {| r_user := Some "alice"; r_data := Some [];
                r_sales := Some []; r_products := Some [];
                r_error := None |}.

(** A backend on which [alice] is signed in and every other call fails. *)
Definition failing_backend : backend Z :=
  fun _ call =>
    match call with
    | auth_getUser =>
        {| r_user := Some "alice"; r_data := None; r_sales := None;
           r_products := None; r_error := None |}
    | _ =>
        {| r_user := None; r_data := None; r_sales := None;
           r_products := None; r_error := Some "connection lost" |}
    end.

(** The page of [alice], editing the row ["row-7"]. *)
Definition editing_page : Page Z :=
  {| saleItems := [];
     sales := [];
     products := [];
     formData := {| f_sale_id := Some "sale-1";
                    f_product_id := Some "";
                    f_product_name := Some "Widget";
                    f_quantity := Some 2%Z;
                    f_price := Some 5%Z;
                    f_total := Some 10%Z |};
     editingId := Some "row-7";
     loading := false;
     toasts := [];
     navigations := [];
     requests := [] |}.

End ItemScenarios.

(** * Theorems *)

(** ** Lists *)

Lemma filter_filter_and {A} (f g : A -> bool) (l : list A) :
  filter g (filter f l) = filter (fun x => f x && g x) l.
Proof.
  induction l as [|x l IH]; simpl; [reflexivity|].
  destruct (f x); simpl; [destruct (g x)|]; now rewrite IH.
Qed.

Lemma filter_swap {A} (f g : A -> bool) (l : list A) :
  filter g (filter f l) = filter f (filter g l).
Proof.
  rewrite !filter_filter_and. apply filter_ext. intro x. apply andb_comm.
Qed.

Lemma filter_all {A} (l : list A) : filter (fun _ => true) l = l.
Proof. induction l; simpl; congruence. Qed.

(** A guarded [filter] is the [filter] by the guarded predicate. *)
Lemma guarded_filter {A} (active : bool) (f : A -> bool) (l : list A) :
  (if active then filter f l else l) = filter (fun x => negb active || f x) l.
Proof. destruct active; simpl; [reflexivity | now rewrite filter_all]. Qed.

(** ** Exact arithmetic *)

(** The integers are an exact number model. *)
#[export] Instance ExactNumber_Z : ExactNumber Z.
Proof.
  split; simpl.
  - intros; lia.
  - intros; lia.
  - intros; lia.
  - intros a b E. now apply Z.eqb_eq.
  - intros a E. apply negb_false_iff in E. now apply Z.eqb_eq.
Qed.

(** ** Binary64 arithmetic *)

(** Facts about the binary64 operations, from their specification on
    [spec_float]. *)
Section Binary64Facts.
Import Binary64.
Local Open Scope float_scope.

Lemma Prim2SF_zero : Prim2SF 0 = S754_zero false.
Proof. reflexivity. Qed.

Lemma Prim2SF_infinity : Prim2SF infinity = S754_infinity false.
Proof. reflexivity. Qed.

Lemma SFcompare_antisym (x y : spec_float) :
  SFcompare y x = option_map CompOpp (SFcompare x y).
Proof.
  destruct x as [sx|sx| |sx mx ex], y as [sy|sy| |sy my ey]; simpl;
    try reflexivity;
    try (destruct sx; reflexivity); try (destruct sy; reflexivity);
    try (destruct sx, sy; reflexivity).
  assert (P : Pos.compare_cont Eq my mx = CompOpp (Pos.compare_cont Eq mx my))
    by (symmetry; apply (Pos.compare_cont_antisym mx my Eq)).
  destruct sx, sy; simpl; try reflexivity;
    rewrite (Z.compare_antisym ex ey), P;
    destruct (ex ?= ey)%Z; simpl; try reflexivity.
Qed.

Lemma eqb_zero_inv (x : float) :
  (x =? 0) = true -> exists s, Prim2SF x = S754_zero s.
Proof.
  rewrite eqb_spec, Prim2SF_zero.
  destruct (Prim2SF x) as [s|s| |s m e]; simpl; try discriminate.
  - now exists s.
  - destruct s; discriminate.
  - destruct s; discriminate.
Qed.

Lemma is_finite_inv (x : float) :
  is_finite x = true ->
  (exists s, Prim2SF x = S754_zero s)
  \/ (exists s m e, Prim2SF x = S754_finite s m e).
Proof.
  unfold is_finite, is_nan, is_infinity.
  rewrite !eqb_spec, abs_spec, Prim2SF_infinity.
  destruct (Prim2SF x) as [s|s| |s m e].
  - left. now exists s.
  - destruct s; discriminate.
  - discriminate.
  - right. now exists s, m, e.
Qed.

Lemma mul_zero_finite (z p : float) :
  (z =? 0) = true -> is_finite p = true -> (z * p =? 0) = true.
Proof.
  intros Z F. apply eqb_zero_inv in Z as [s Z].
  rewrite eqb_spec, mul_spec, Z, Prim2SF_zero.
  destruct (is_finite_inv p F) as [[t ->]|[t [m [e ->]]]]; reflexivity.
Qed.

Lemma zeros_eqb (a b : float) :
  (a =? 0) = true -> (b =? 0) = true -> (a =? b) = true.
Proof.
  intros A B. apply eqb_zero_inv in A as [s A], B as [t B].
  now rewrite eqb_spec, A, B.
Qed.

Lemma mul_finite_zero (q z : float) :
  is_finite q = true -> (z =? 0) = true -> (q * z =? 0) = true.
Proof.
  intros F Z. apply eqb_zero_inv in Z as [s Z].
  rewrite eqb_spec, mul_spec, Z, Prim2SF_zero.
  destruct (is_finite_inv q F) as [[t ->]|[t [m [e ->]]]]; reflexivity.
Qed.

Lemma is_finite_not_nan (a : float) : is_finite a = true -> is_nan a = false.
Proof.
  unfold is_finite. destruct (is_nan a); [discriminate | reflexivity].
Qed.

Lemma number_or_zero_binary64 (a : float) :
  (truthy a = true /\ number_or_zero (Some a) = a)
  \/ (truthy a = false /\ number_or_zero (Some a) = 0
      /\ ((a =? 0) = true \/ is_nan a = true)).
Proof.
  simpl. destruct (a =? 0) eqn:Z; simpl; [right; auto|].
  destruct (is_nan a) eqn:E; simpl; [right; auto | left; auto].
Qed.

Lemma number_or_zero_finite (a : float) :
  is_infinity a = false -> is_finite (number_or_zero (Some a)) = true.
Proof.
  intro I. destruct (number_or_zero_binary64 a) as [[T ->]|[_ [-> _]]];
    [|reflexivity].
  simpl in T. apply negb_true_iff, orb_false_iff in T as [_ E].
  unfold is_finite. now rewrite E, I.
Qed.

Lemma lineTotal_same_as_product (q p : float) :
  is_finite q = true -> is_finite p = true ->
  same_value_zero (mul (number_or_zero (Some q)) (number_or_zero (Some p)))
                  (q * p).
Proof.
  intros Fq Fp.
  pose proof (is_finite_not_nan q Fq) as Nq.
  pose proof (is_finite_not_nan p Fp) as Np.
  destruct (number_or_zero_binary64 q) as [[_ ->]|[_ [-> [Zq|Nq']]]];
    [| |congruence].
  - destruct (number_or_zero_binary64 p) as [[_ ->]|[_ [-> [Zp|Np']]]];
      [left; reflexivity | | congruence].
    right. apply zeros_eqb; apply mul_finite_zero; auto.
  - right. apply zeros_eqb; apply mul_zero_finite; auto.
    apply number_or_zero_finite.
    unfold is_finite in Fp. apply negb_true_iff, orb_false_iff in Fp. tauto.
Qed.

Lemma lineTotal_zero_quantity (q p : option float) :
  zero_like q -> not_infinite p ->
  (mul (number_or_zero q) (number_or_zero p) =? 0) = true.
Proof.
  intros Q P.
  assert (Zq : number_or_zero q = 0).
  { destruct Q as [->|[z [-> Z]]]; [reflexivity|].
    destruct (number_or_zero_binary64 z) as [[T _]|[_ [E _]]]; [|exact E].
    simpl in T. apply negb_true_iff, orb_false_iff in T as [T1 T2].
    destruct Z; congruence. }
  rewrite Zq. apply mul_zero_finite; [reflexivity|].
  destruct P as [->|[x [-> I]]]; [reflexivity|].
  now apply number_or_zero_finite.
Qed.

Lemma is_infinity_inv (x : float) :
  is_infinity x = true -> exists s, Prim2SF x = S754_infinity s.
Proof.
  unfold is_infinity. rewrite eqb_spec, abs_spec, Prim2SF_infinity.
  destruct (Prim2SF x) as [s|s| |s m e]; simpl; try discriminate.
  intros _. now exists s.
Qed.

Lemma is_nan_spec (x : float) : is_nan x = true <-> Prim2SF x = S754_nan.
Proof.
  unfold is_nan. rewrite negb_true_iff, eqb_spec.
  destruct (Prim2SF x) as [s|s| |s m e] eqn:E; simpl.
  - split; [|discriminate]. destruct s; discriminate.
  - split; [|discriminate]. destruct s; discriminate.
  - split; reflexivity.
  - split; [|discriminate]. unfold SFeqb, SFcompare.
    destruct s; rewrite Z.compare_refl, Pos.compare_cont_refl; discriminate.
Qed.

Lemma nan_unique (x y : float) :
  is_nan x = true -> is_nan y = true -> x = y.
Proof.
  rewrite !is_nan_spec. intros X Y.
  rewrite <- (SF2Prim_Prim2SF x), <- (SF2Prim_Prim2SF y). now rewrite X, Y.
Qed.

Lemma mul_zero_infinite (z p : float) :
  (z =? 0) = true -> is_infinity p = true -> is_nan (z * p) = true.
Proof.
  intros Z I. apply eqb_zero_inv in Z as [s Z].
  apply is_infinity_inv in I as [t I].
  apply is_nan_spec. now rewrite mul_spec, Z, I.
Qed.

Lemma mul_infinite_zero (q z : float) :
  is_infinity q = true -> (z =? 0) = true -> is_nan (q * z) = true.
Proof.
  intros I Z. apply eqb_zero_inv in Z as [s Z].
  apply is_infinity_inv in I as [t I].
  apply is_nan_spec. now rewrite mul_spec, Z, I.
Qed.

Lemma finite_or_infinite (x : float) :
  is_nan x = false -> is_finite x = true \/ is_infinity x = true.
Proof.
  unfold is_finite. intros ->. destruct (is_infinity x); simpl; auto.
Qed.

Lemma nan_not_zero (x : float) : is_nan x = true -> (x =? 0) = false.
Proof.
  rewrite is_nan_spec, eqb_spec. now intros ->.
Qed.

(** For inputs that are numbers the computed product is the same value
    as [q * p]: the replacement of [-0] by [0] is all that happens. *)
Lemma lineTotal_same_as_product_numbers (q p : float) :
  is_nan q = false -> is_nan p = false ->
  same_value_zero (mul (number_or_zero (Some q)) (number_or_zero (Some p)))
                  (q * p).
Proof.
  intros Nq Np.
  destruct (finite_or_infinite q Nq) as [Fq|Iq];
    destruct (finite_or_infinite p Np) as [Fp|Ip].
  - now apply lineTotal_same_as_product.
  - destruct (number_or_zero_binary64 p) as [[_ ->]|[_ [_ [Zp|Np']]]];
      [| |congruence].
    + destruct (number_or_zero_binary64 q) as [[_ ->]|[_ [-> [Zq|Nq']]]];
        [left; reflexivity | | congruence].
      left. apply nan_unique; apply mul_zero_infinite; auto.
    + apply eqb_zero_inv in Zp as [s Zp]. apply is_infinity_inv in Ip as [t Ip].
      rewrite Zp in Ip. discriminate.
  - destruct (number_or_zero_binary64 q) as [[_ ->]|[_ [_ [Zq|Nq']]]];
      [| |congruence].
    + destruct (number_or_zero_binary64 p) as [[_ ->]|[_ [-> [Zp|Np']]]];
        [left; reflexivity | | congruence].
      left. apply nan_unique; apply mul_infinite_zero; auto.
    + apply eqb_zero_inv in Zq as [s Zq]. apply is_infinity_inv in Iq as [t Iq].
      rewrite Zq in Iq. discriminate.
  - destruct (number_or_zero_binary64 q) as [[_ ->]|[_ [_ [Zq|Nq']]]];
      [| |congruence].
    + destruct (number_or_zero_binary64 p) as [[_ ->]|[_ [_ [Zp|Np']]]];
        [left; reflexivity | | congruence].
      apply eqb_zero_inv in Zp as [s Zp]. apply is_infinity_inv in Ip as [t Ip].
      rewrite Zp in Ip. discriminate.
    + apply eqb_zero_inv in Zq as [s Zq]. apply is_infinity_inv in Iq as [t Iq].
      rewrite Zq in Iq. discriminate.
Qed.

(** A zero, missing or [NaN] quantity with an infinite price gives
    [NaN], which is not [=== 0]. *)
Lemma lineTotal_zero_quantity_infinite_price (q : option float) (p : float) :
  zero_like q -> is_infinity p = true ->
  is_nan (mul (number_or_zero q) (number_or_zero (Some p))) = true
  /\ strict_eq (mul (number_or_zero q) (number_or_zero (Some p))) 0 = false.
Proof.
  intros Q I.
  assert (Zq : number_or_zero q = 0).
  { destruct Q as [->|[z [-> Z]]]; [reflexivity|].
    destruct (number_or_zero_binary64 z) as [[T _]|[_ [E _]]]; [|exact E].
    simpl in T. apply negb_true_iff, orb_false_iff in T as [T1 T2].
    destruct Z; congruence. }
  assert (P : number_or_zero (Some p) = p).
  { destruct (number_or_zero_binary64 p) as [[_ E]|[_ [_ [Z|Np]]]];
      [exact E| |].
    - apply eqb_zero_inv in Z as [s Z]. apply is_infinity_inv in I as [t I].
      rewrite Z in I. discriminate.
    - apply is_nan_spec in Np. apply is_infinity_inv in I as [t I].
      rewrite Np in I. discriminate. }
  rewrite Zq, P.
  assert (M : is_nan (mul 0 p) = true)
    by (apply mul_zero_infinite; [reflexivity | exact I]).
  split; [exact M|]. now apply nan_not_zero.
Qed.

Lemma SFcompare_None (x y : spec_float) :
  SFcompare x y = None -> x = S754_nan \/ y = S754_nan.
Proof.
  destruct x as [sx|sx| |sx mx ex], y as [sy|sy| |sy my ey]; simpl; auto;
    discriminate.
Qed.

Lemma leb_zero_not_nan (x : float) :
  (0 <=? x) = true -> Prim2SF x <> S754_nan.
Proof.
  rewrite leb_spec, Prim2SF_zero. intros L E. rewrite E in L. discriminate.
Qed.

(** Of two numbers that are not [NaN], one is [<=] the other or the
    other is [<] the one, and never both. *)
Lemma leb_ltb_total (a b : float) :
  Prim2SF a <> S754_nan -> Prim2SF b <> S754_nan ->
  (b <? a) = negb (a <=? b).
Proof.
  intros A B. rewrite ltb_spec, leb_spec. unfold SFltb, SFleb.
  rewrite (SFcompare_antisym (Prim2SF a) (Prim2SF b)).
  destruct (SFcompare (Prim2SF a) (Prim2SF b)) as [[]|] eqn:C;
    try reflexivity.
  apply SFcompare_None in C. tauto.
Qed.

Lemma eqb_zero_leb (q m : float) :
  (q =? 0) = true -> (0 <=? m) = true -> (q <=? m) = true.
Proof.
  intros Z L. apply eqb_zero_inv in Z as [s Z].
  rewrite leb_spec, Prim2SF_zero in L. rewrite leb_spec, Z.
  destruct (Prim2SF m); exact L.
Qed.

Lemma eqb_zero_ltb (q : float) :
  (0 <=? q) = true -> (0 <? q) = negb (q =? 0).
Proof.
  rewrite leb_spec, ltb_spec, eqb_spec, Prim2SF_zero.
  destruct (Prim2SF q) as [[]|[]| |[] m e]; simpl; intro L;
    try reflexivity; discriminate.
Qed.

End Binary64Facts.

(** ** Binary64 arithmetic on whole numbers *)

(** Whole numbers up to [Number.MAX_SAFE_INTEGER] are binary64 numbers,
    and adding two of them is exact when the sum is one of them too;
    from the definition of the rounding on [spec_float]. *)
Section Binary64Whole.
Import Binary64 Sums.
Local Open Scope Z_scope.

(** The number of binary digits of a positive number. *)
Lemma digits2_pos_size (p : positive) : digits2_pos p = Pos.size p.
Proof. induction p as [p IH|p IH|]; simpl; now rewrite ?IH. Qed.

Lemma digits2_pos_bounds (p : positive) :
  2 ^ (Zpos (digits2_pos p) - 1) <= Zpos p < 2 ^ Zpos (digits2_pos p).
Proof.
  induction p as [p IH|p IH|]; cbn [digits2_pos].
  - rewrite Pos2Z.inj_succ. replace (Z.succ (Zpos (digits2_pos p)) - 1)
      with (Zpos (digits2_pos p) - 1 + 1) by lia.
    rewrite Z.pow_succ_r by lia.
    rewrite Z.pow_add_r by lia. change (2 ^ 1) with 2. lia.
  - rewrite Pos2Z.inj_succ. replace (Z.succ (Zpos (digits2_pos p)) - 1)
      with (Zpos (digits2_pos p) - 1 + 1) by lia.
    rewrite Z.pow_succ_r by lia.
    rewrite Z.pow_add_r by lia. change (2 ^ 1) with 2. lia.
  - simpl. lia.
Qed.

Lemma digits2_pos_unique (p : positive) (d : Z) :
  2 ^ (d - 1) <= Zpos p < 2 ^ d -> Zpos (digits2_pos p) = d.
Proof.
  intros B. pose proof (digits2_pos_bounds p) as C.
  set (k := Zpos (digits2_pos p)) in *.
  assert (K : 0 < k) by (unfold k; lia). clearbody k.
  destruct (Z.lt_trichotomy k d) as [L|[E|G]]; [|exact E|].
  - assert (P : 2 ^ k <= 2 ^ (d - 1)) by (apply Z.pow_le_mono_r; lia). lia.
  - assert (D : 0 < d).
    { destruct (Z.le_gt_cases d 0) as [N|N]; [|exact N].
      assert (2 ^ d <= 2 ^ 0) by (apply Z.pow_le_mono_r; lia).
      change (2 ^ 0) with 1 in *. lia. }
    assert (P : 2 ^ d <= 2 ^ (k - 1)) by (apply Z.pow_le_mono_r; lia). lia.
Qed.

(** Shifting a mantissa to the left. *)
Lemma iter_xO_value (m k : positive) :
  Zpos (Pos.iter xO m k) = Zpos m * 2 ^ Zpos k.
Proof.
  induction k as [|k IH] using Pos.peano_ind.
  - simpl. lia.
  - rewrite Pos.iter_succ, Pos2Z.inj_xO, IH, Pos2Z.inj_succ,
      Z.pow_succ_r by lia. lia.
Qed.

Lemma digits2_pos_shift (m k : positive) :
  Zpos (digits2_pos (Pos.iter xO m k)) = Zpos (digits2_pos m) + Zpos k.
Proof.
  induction k as [|k IH] using Pos.peano_ind.
  - simpl. lia.
  - rewrite Pos.iter_succ. cbn [digits2_pos].
    rewrite Pos2Z.inj_succ, IH. lia.
Qed.

(** Shifting a mantissa whose low digits are zero to the right loses
    nothing. *)
Lemma iter_pos_iter {A} (f : A -> A) (n : positive) :
  forall x, iter_pos f n x = Pos.iter f x n.
Proof.
  induction n as [n IH|n IH|]; intro x; simpl.
  - rewrite !IH. now rewrite <- !Pos.iter_swap.
  - now rewrite !IH.
  - reflexivity.
Qed.

Lemma shr_iter_xO (m k : positive) :
  iter_pos shr_1 k
    {| shr_m := Zpos (Pos.iter xO m k); shr_r := false; shr_s := false |}
  = {| shr_m := Zpos m; shr_r := false; shr_s := false |}.
Proof.
  rewrite iter_pos_iter.
  induction k as [|k IH] using Pos.peano_ind.
  - reflexivity.
  - rewrite !Pos.iter_succ. rewrite <- Pos.iter_swap. simpl. exact IH.
Qed.

(** A mantissa of 53 digits with an exponent in range is left as it is
    by the rounding. *)
Lemma binary_round_aux_canonical (s : bool) (m : positive) (e : Z) :
  Zpos (digits2_pos m) = 53 -> -1074 <= e <= 971 ->
  binary_round_aux prec emax s (Zpos m) e loc_Exact = S754_finite s m e.
Proof.
  intros D E. unfold binary_round_aux.
  assert (F : shr_fexp prec emax (Zpos m) e loc_Exact
              = ({| shr_m := Zpos m; shr_r := false; shr_s := false |}, e)).
  { unfold shr_fexp, Zdigits2, fexp, SpecFloat.emin, prec, emax.
    rewrite D. replace (Z.max (53 + e - 53) (3 - 1024 - 53) - e) with 0 by lia.
    reflexivity. }
  rewrite F. cbn [shr_m loc_of_shr_record round_nearest_even]. rewrite F.
  cbn [shr_m]. unfold emax, prec.
  destruct (Z.leb_spec e (1024 - 53)); [reflexivity | lia].
Qed.

Lemma binary_round_aux_exact (s : bool) (M : Z) (e : Z) (m : positive) (e0 : Z) :
  shr_fexp prec emax M e loc_Exact
  = ({| shr_m := Zpos m; shr_r := false; shr_s := false |}, e0) ->
  Zpos (digits2_pos m) = 53 -> -1074 <= e0 <= 971 ->
  binary_round_aux prec emax s M e loc_Exact = S754_finite s m e0.
Proof.
  intros F D E. unfold binary_round_aux. rewrite F.
  cbn [shr_m loc_of_shr_record round_nearest_even].
  assert (G : shr_fexp prec emax (Zpos m) e0 loc_Exact
              = ({| shr_m := Zpos m; shr_r := false; shr_s := false |}, e0)).
  { unfold shr_fexp, Zdigits2, fexp, SpecFloat.emin, prec, emax.
    rewrite D. replace (Z.max (53 + e0 - 53) (3 - 1024 - 53) - e0) with 0 by lia.
    reflexivity. }
  rewrite G. cbn [shr_m]. unfold emax, prec.
  destruct (Z.leb_spec e0 (1024 - 53)); [reflexivity | lia].
Qed.

Lemma digits2_pos_below (n : positive) :
  Zpos n < 2 ^ 53 -> Zpos (digits2_pos n) <= 53.
Proof.
  intros B. pose proof (digits2_pos_bounds n) as C.
  destruct (Z.le_gt_cases (Zpos (digits2_pos n)) 53) as [L|G]; [exact L|].
  assert (P : 2 ^ 53 <= 2 ^ (Zpos (digits2_pos n) - 1))
    by (apply Z.pow_le_mono_r; lia).
  lia.
Qed.

Lemma canon_inv (s : bool) (n : positive) :
  Zpos n < 2 ^ 53 ->
  exists m e,
    canon s n = S754_finite s m e
    /\ e = Zpos (digits2_pos n) - 53
    /\ -52 <= e <= 0
    /\ Zpos m = Zpos n * 2 ^ (- e)
    /\ Zpos (digits2_pos m) = 53.
Proof.
  intros B. pose proof (digits2_pos_below n B) as D. unfold canon. cbv zeta.
  set (d := Zpos (digits2_pos n)) in *.
  assert (P : 0 < d) by (unfold d; lia).
  destruct (53 - d) as [|k|k] eqn:K; try lia.
  - exists n, 0. assert (d = 53) by lia.
    repeat split; lia.
  - exists (Pos.iter xO n k), (d - 53).
    repeat split; try lia.
    + rewrite iter_xO_value. f_equal. f_equal. lia.
    + rewrite digits2_pos_shift. fold d. lia.
Qed.

Lemma digits2_pos_scaled (M n : positive) (j : Z) :
  0 <= j -> Zpos M = Zpos n * 2 ^ j ->
  Zpos (digits2_pos M) = Zpos (digits2_pos n) + j.
Proof.
  intros J E. apply digits2_pos_unique. rewrite E.
  pose proof (digits2_pos_bounds n) as [L U].
  set (d := Zpos (digits2_pos n)) in *.
  assert (P : 0 < d) by (unfold d; lia).
  replace (d + j - 1) with (d - 1 + j) by lia.
  rewrite !Z.pow_add_r by lia.
  assert (T : 0 < 2 ^ j) by (apply Z.pow_pos_nonneg; lia).
  split; nia.
Qed.

(** Rounding a whole number below [2 ^ 53], given with a mantissa that
    carries [j] more digits, is exact. *)
Lemma binary_round_scaled (s : bool) (M n : positive) (j : Z) :
  0 <= j -> Zpos M = Zpos n * 2 ^ j -> Zpos n < 2 ^ 53 ->
  binary_round prec emax s M (- j) = canon s n.
Proof.
  intros J E B.
  pose proof (digits2_pos_scaled M n j J E) as DM.
  destruct (canon_inv s n B) as (m & e & C & Ee & Er & Em & Dm).
  rewrite C. set (d := Zpos (digits2_pos n)) in *.
  unfold binary_round. rewrite DM.
  assert (X : fexp prec emax (d + j + - j) = e).
  { unfold fexp, SpecFloat.emin, prec, emax. lia. }
  rewrite X. unfold shl_align.
  destruct (e - - j) as [|k|k] eqn:K.
  - (* the mantissa has 53 digits already *)
    assert (M = m).
    { apply Pos2Z.inj. rewrite E, Em. f_equal. f_equal. lia. }
    subst M. replace (- j) with e by lia.
    apply binary_round_aux_canonical; [exact Dm | lia].
  - (* the low digits are shifted out *)
    assert (M = Pos.iter xO m k).
    { apply Pos2Z.inj. rewrite iter_xO_value, E, Em.
      rewrite <- Z.mul_assoc, <- Z.pow_add_r by lia. f_equal. f_equal. lia. }
    subst M. apply binary_round_aux_exact; [|exact Dm | lia].
    unfold shr_fexp, Zdigits2. rewrite DM.
    replace (d + j + - j) with d by lia.
    replace (d + j - j) with d in X by lia.
    replace (fexp prec emax d - - j) with (Zpos k)
      by (unfold fexp, SpecFloat.emin, prec, emax in *; lia).
    unfold shr, shr_record_of_loc. rewrite shr_iter_xO. f_equal. lia.
  - (* the mantissa is shifted to the left *)
    assert (Pos.iter xO M k = m).
    { apply Pos2Z.inj. rewrite iter_xO_value, E, Em.
      rewrite <- Z.mul_assoc, <- Z.pow_add_r by lia. f_equal. f_equal. lia. }
    rewrite H. apply binary_round_aux_canonical; [exact Dm | lia].
Qed.

Lemma Z2SF_pos (n : positive) :
  Zpos n < 2 ^ 53 -> Z2SF (Zpos n) = canon false n.
Proof.
  intros B. unfold Z2SF, binary_normalize.
  apply (binary_round_scaled false n n 0); [lia | | exact B].
  rewrite Z.pow_0_r. lia.
Qed.

Lemma Z2SF_neg (n : positive) :
  Zpos n < 2 ^ 53 -> Z2SF (Zneg n) = canon true n.
Proof.
  intros B. unfold Z2SF, binary_normalize.
  apply (binary_round_scaled true n n 0); [lia | | exact B].
  rewrite Z.pow_0_r. lia.
Qed.

Lemma Z2SF_valid (z : Z) :
  Z.abs z < 2 ^ 53 -> valid_binary (Z2SF z) = true.
Proof.
  intros B. destruct z as [|n|n]; [reflexivity| |].
  - rewrite Z2SF_pos by exact B.
    destruct (canon_inv false n B) as (m & e & -> & _ & Er & _ & Dm).
    unfold SpecFloat.valid_binary, bounded, canonical_mantissa, fexp, SpecFloat.emin,
      prec, emax. rewrite Dm.
    apply andb_true_iff. split; [apply Z.eqb_eq | apply Z.leb_le]; lia.
  - rewrite Z2SF_neg by exact B.
    destruct (canon_inv true n B) as (m & e & -> & _ & Er & _ & Dm).
    unfold SpecFloat.valid_binary, bounded, canonical_mantissa, fexp, SpecFloat.emin,
      prec, emax. rewrite Dm.
    apply andb_true_iff. split; [apply Z.eqb_eq | apply Z.leb_le]; lia.
Qed.

(** What a whole number is represented by: zero, or a mantissa of 53
    digits whose value at its exponent is the number. *)
Lemma Z2SF_inv (z : Z) :
  Z.abs z < 2 ^ 53 ->
  (z = 0 /\ Z2SF z = S754_zero false)
  \/ exists m e,
       Z2SF z = S754_finite (z <? 0) m e
       /\ -52 <= e <= 0
       /\ Zpos m = Z.abs z * 2 ^ (- e).
Proof.
  intros B. destruct z as [|n|n]; [left; split; reflexivity| |]; right.
  - rewrite Z2SF_pos by exact B.
    destruct (canon_inv false n B) as (m & e & C & _ & Er & Em & _).
    exists m, e. auto.
  - rewrite Z2SF_neg by exact B.
    destruct (canon_inv true n B) as (m & e & C & _ & Er & Em & _).
    exists m, e. auto.
Qed.

Lemma shl_align_value (m : positive) (e ez : Z) :
  ez <= e ->
  Zpos (fst (shl_align m e ez)) = Zpos m * 2 ^ (e - ez).
Proof.
  intros L. unfold shl_align.
  destruct (ez - e) as [|k|k] eqn:K; try lia; cbn [fst].
  - replace (e - ez) with 0 by lia. rewrite Z.pow_0_r. lia.
  - rewrite iter_xO_value. f_equal. f_equal. lia.
Qed.

(** Adding two whole numbers whose sum stays below [2 ^ 53] is exact. *)
Lemma SFadd_whole (a b : Z) :
  Z.abs a < 2 ^ 53 -> Z.abs b < 2 ^ 53 -> Z.abs (a + b) < 2 ^ 53 ->
  SFadd prec emax (Z2SF a) (Z2SF b) = Z2SF (a + b).
Proof.
  intros A B S.
  destruct (Z2SF_inv a A) as [[-> Ea]|(ma & ea & Ea & Ra & Va)];
    destruct (Z2SF_inv b B) as [[-> Eb]|(mb & eb & Eb & Rb & Vb)].
  - rewrite Ea. reflexivity.
  - rewrite Ea. simpl (0 + b). rewrite Eb. reflexivity.
  - rewrite Eb. rewrite Z.add_0_r. rewrite Ea. reflexivity.
  - rewrite Ea, Eb. unfold SFadd. cbv zeta.
    set (ez := Z.min ea eb).
    rewrite (shl_align_value ma ea ez), (shl_align_value mb eb ez)
      by (unfold ez; lia).
    rewrite Va, Vb, <- !Z.mul_assoc, <- !Z.pow_add_r by (unfold ez; lia).
    replace (- ea + (ea - ez)) with (- ez) by lia.
    replace (- eb + (eb - ez)) with (- ez) by lia.
    assert (J : 0 <= - ez) by (unfold ez; lia).
    set (j := - ez) in *.
    assert (T : 0 < 2 ^ j) by (apply Z.pow_pos_nonneg; lia).
    assert (V : cond_Zopp (a <? 0) (Z.abs a * 2 ^ j)
                + cond_Zopp (b <? 0) (Z.abs b * 2 ^ j)
                = (a + b) * 2 ^ j).
    { unfold cond_Zopp.
      destruct (Z.ltb_spec a 0), (Z.ltb_spec b 0); nia. }
    rewrite V. replace ez with (- j) by (unfold j; lia).
    destruct (a + b) as [|n|n] eqn:N.
    + reflexivity.
    + rewrite Z2SF_pos by exact S.
      assert (P : exists M, Zpos n * 2 ^ j = Zpos M).
      { exists (Z.to_pos (Zpos n * 2 ^ j)). rewrite Z2Pos.id; lia. }
      destruct P as [M P]. rewrite P. unfold binary_normalize.
      apply binary_round_scaled; [exact J | now rewrite P | exact S].
    + rewrite Z2SF_neg by exact S.
      assert (P : exists M, Zneg n * 2 ^ j = Zneg M).
      { exists (Z.to_pos (Zpos n * 2 ^ j)).
        assert (Q : Zpos (Z.to_pos (Zpos n * 2 ^ j)) = Zpos n * 2 ^ j)
          by (apply Z2Pos.id; lia).
        lia. }
      destruct P as [M P]. rewrite P. unfold binary_normalize.
      apply binary_round_scaled; [exact J | lia | exact S].
Qed.

Lemma Prim2SF_of_Z (z : Z) :
  Z.abs z <= MAX_SAFE_INTEGER -> Prim2SF (of_Z z) = Z2SF z.
Proof.
  intros B. unfold of_Z. apply Prim2SF_SF2Prim. apply Z2SF_valid.
  unfold MAX_SAFE_INTEGER in B. change (2 ^ 53) with 9007199254740992. lia.
Qed.

Lemma add_of_Z (a b : Z) :
  Z.abs a <= MAX_SAFE_INTEGER -> Z.abs b <= MAX_SAFE_INTEGER ->
  Z.abs (a + b) <= MAX_SAFE_INTEGER ->
  (of_Z a + of_Z b)%float = of_Z (a + b).
Proof.
  intros A B S. apply Prim2SF_inj.
  rewrite add_spec, !Prim2SF_of_Z by assumption.
  unfold MAX_SAFE_INTEGER in *.
  apply SFadd_whole; change (2 ^ 53) with 9007199254740992; lia.
Qed.

(** The numbers of the safe integers are whole numbers: the whole
    part of the number of [z] is [z]. *)
Lemma to_Z_of_Z (z : Z) :
  Z.abs z <= MAX_SAFE_INTEGER -> to_Z (of_Z z) = z.
Proof.
  intros A. unfold to_Z. rewrite Prim2SF_of_Z by exact A.
  assert (B : Z.abs z < 2 ^ 53)
    by (unfold MAX_SAFE_INTEGER in A;
        change (2 ^ 53) with 9007199254740992; lia).
  destruct (Z2SF_inv z B) as [[-> E]|(m & e & E & R & V)]; rewrite E;
    [reflexivity|].
  replace e with (- - e) at 1 by lia.
  rewrite Z.shiftl_opp_r, Z.shiftr_div_pow2 by lia.
  rewrite V, Z.div_mul by (apply Z.pow_nonzero; lia).
  unfold cond_Zopp. destruct (Z.ltb_spec z 0); lia.
Qed.

Lemma of_Z_whole (z : Z) :
  Z.abs z <= MAX_SAFE_INTEGER -> whole (of_Z z).
Proof. intros A. left. now rewrite to_Z_of_Z. Qed.

(** Adding [-0] changes nothing. *)
Lemma add_neg_zero (a : Z) :
  Z.abs a <= MAX_SAFE_INTEGER -> (of_Z a + neg_zero)%float = of_Z a.
Proof.
  intros A. apply Prim2SF_inj.
  rewrite add_spec, Prim2SF_of_Z by assumption.
  change (Prim2SF neg_zero) with (S754_zero true).
  assert (B : Z.abs a < 2 ^ 53)
    by (unfold MAX_SAFE_INTEGER in A;
        change (2 ^ 53) with 9007199254740992; lia).
  destruct (Z2SF_inv a B) as [[-> E]|(m & e & E & _)]; rewrite E; reflexivity.
Qed.

Lemma magnitude_nonneg {A} (value : A -> Z) (l : list A) :
  0 <= magnitude value l.
Proof. induction l as [|x l IH]; simpl; lia. Qed.

Lemma whole_sum_magnitude {A} (value : A -> Z) (l : list A) :
  Z.abs (whole_sum value l) <= magnitude value l.
Proof. induction l as [|x l IH]; simpl; lia. Qed.

Lemma magnitude_filter {A} (value : A -> Z) (keep : A -> bool) (l : list A) :
  magnitude value (filter keep l) <= magnitude value l.
Proof.
  induction l as [|x l IH]; simpl; [lia|].
  destruct (keep x); simpl; lia.
Qed.

Lemma whole_sum_permutation {A} (value : A -> Z) (l l' : list A) :
  Permutation l l' -> whole_sum value l = whole_sum value l'.
Proof. induction 1; simpl; lia. Qed.

Lemma magnitude_permutation {A} (value : A -> Z) (l l' : list A) :
  Permutation l l' -> magnitude value l = magnitude value l'.
Proof. induction 1; simpl; lia. Qed.

(** Adding up whole amounts from left to right is exact as long as the
    magnitudes stay within the safe integers. *)
Lemma fold_add_whole {A} (f : A -> float) (value : A -> Z) (l : list A) :
  forall so_far : Z,
    (forall x, In x l ->
               f x = of_Z (value x) \/ (f x = neg_zero /\ value x = 0)) ->
    Z.abs so_far + magnitude value l <= MAX_SAFE_INTEGER ->
    fold_left (fun sum x => add sum (f x)) l (of_Z so_far)
    = of_Z (so_far + whole_sum value l).
Proof.
  induction l as [|x l IH]; intros so_far W B; simpl.
  - now rewrite Z.add_0_r.
  - simpl in B. pose proof (magnitude_nonneg value l) as P.
    destruct (W x (or_introl eq_refl)) as [E|[E V]]; rewrite E.
    + rewrite add_of_Z by lia.
      rewrite IH; [f_equal; lia | intros y I; apply W; now right | lia].
    + rewrite add_neg_zero by lia.
      rewrite IH; [f_equal; lia | intros y I; apply W; now right | lia].
Qed.

Lemma reduce_sum_whole {A} (f : A -> float) (value : A -> Z) (l : list A) :
  (forall x, In x l ->
             f x = of_Z (value x) \/ (f x = neg_zero /\ value x = 0)) ->
  magnitude value l <= MAX_SAFE_INTEGER ->
  reduce_sum f l = of_Z (whole_sum value l).
Proof.
  intros W B. unfold reduce_sum.
  change (zero (N := float)) with (of_Z 0).
  rewrite (fold_add_whole f value l 0 W) by (simpl; lia). reflexivity.
Qed.

End Binary64Whole.

(** ** Stock status *)

Section StockStatus.
Import Products.

Lemma getStockBadge_cases (q m : Z) :
  (q = 0 /\ getStockBadge q m = OutOfStock)%Z
  \/ (q <> 0 /\ q <= m /\ getStockBadge q m = LowStock)%Z
  \/ (q <> 0 /\ m < q /\ getStockBadge q m = InStock)%Z.
Proof.
  unfold getStockBadge; simpl.
  destruct (Z.eqb_spec q 0) as [E|E]; [now left|].
  destruct (Z.leb_spec q m); [right; left | right; right]; auto.
Qed.

Lemma getStockBadge_partition_integers (q m : Z) :
  (0 <= q)%Z -> (0 <= m)%Z ->
  (getStockBadge q m = OutOfStock <-> q = 0%Z)
  /\ (getStockBadge q m = LowStock <-> (0 < q <= m)%Z)
  /\ (getStockBadge q m = InStock <-> (m < q)%Z).
Proof.
  intros Hq Hm.
  destruct (getStockBadge_cases q m) as [[E B]|[[E [L B]]|[E [L B]]]];
    rewrite B; repeat split; intros; try discriminate; try lia.
Qed.

Lemma getStockBadge_partition_binary64 (q m : float) :
  (0 <=? q)%float = true -> (0 <=? m)%float = true ->
  (getStockBadge q m = OutOfStock <-> (q =? 0)%float = true)
  /\ (getStockBadge q m = LowStock
      <-> (0 <? q)%float = true /\ (q <=? m)%float = true)
  /\ (getStockBadge q m = InStock <-> (m <? q)%float = true).
Proof.
  intros Q M.
  pose proof (leb_ltb_total q m (leb_zero_not_nan q Q) (leb_zero_not_nan m M))
    as T.
  pose proof (eqb_zero_ltb q Q) as P.
  unfold getStockBadge; simpl.
  destruct (q =? 0)%float eqn:Z.
  - rewrite (eqb_zero_leb q m Z M) in T. rewrite T, P; simpl.
    intuition congruence.
  - rewrite T, P. destruct (q <=? m)%float; simpl; intuition congruence.
Qed.

(** C1. For integers [q >= 0] and [m >= 0] the badge is out of stock
    exactly when [q = 0], low stock exactly when [0 < q <= m] and in stock
    exactly when [q > m]: the three cases exclude each other and cover
    every pair.  The same holds of all binary64 numbers [q >= 0] and
    [m >= 0], the integer-valued ones among them, with the comparisons of
    binary64. *)
Theorem getStockBadge_partition :
  (forall q m : Z,
      (0 <= q)%Z -> (0 <= m)%Z ->
      (getStockBadge q m = OutOfStock <-> q = 0%Z)
      /\ (getStockBadge q m = LowStock <-> (0 < q <= m)%Z)
      /\ (getStockBadge q m = InStock <-> (m < q)%Z))
  /\ (forall q m : float,
         (0 <=? q)%float = true -> (0 <=? m)%float = true ->
         (getStockBadge q m = OutOfStock <-> (q =? 0)%float = true)
         /\ (getStockBadge q m = LowStock
             <-> (0 <? q)%float = true /\ (q <=? m)%float = true)
         /\ (getStockBadge q m = InStock <-> (m <? q)%float = true)).
Proof.
  split;
    [exact getStockBadge_partition_integers
    | exact getStockBadge_partition_binary64].
Qed.

Lemma getStockBadge_partition_witness :
  ((getStockBadge 0%Z 10%Z = OutOfStock <-> 0%Z = 0%Z)
   /\ (getStockBadge 0%Z 10%Z = LowStock <-> (0 < 0 <= 10)%Z)
   /\ (getStockBadge 0%Z 10%Z = InStock <-> (10 < 0)%Z))
  /\ ((getStockBadge 5%float 10%float = OutOfStock
       <-> (5 =? 0)%float = true)
      /\ (getStockBadge 5%float 10%float = LowStock
          <-> (0 <? 5)%float = true /\ (5 <=? 10)%float = true)
      /\ (getStockBadge 5%float 10%float = InStock
          <-> (10 <? 5)%float = true)).
Proof.
  split.
  - apply (proj1 getStockBadge_partition 0%Z 10%Z); lia.
  - apply (proj2 getStockBadge_partition 5%float 10%float); reflexivity.
Defined.

(** The scenarios of the specification. *)
Example getStockBadge_scenarios :
  getStockBadge 5%Z 10%Z = LowStock
  /\ getStockBadge 0%Z 10%Z = OutOfStock
  /\ getStockBadge 20%Z 10%Z = InStock
  /\ getStockBadge 5%float 10%float = LowStock
  /\ getStockBadge 0%float 10%float = OutOfStock
  /\ getStockBadge 20%float 10%float = InStock.
Proof. repeat split; reflexivity. Qed.

(** *** The "low" stock filter *)

Section LowFilter.
Context {N : Type} `{JsNumber N}.
Hypothesis zero_le :
  forall q m : N, strict_eq q zero = true -> le zero m = true -> le q m = true.

Lemma stockStage_low (products : list (Product N)) (p : Product N) :
  In p (stockStage "low" products)
  <-> In p products /\ le (quantity p) (min_stock p) = true.
Proof. unfold stockStage; simpl. apply filter_In. Qed.

Lemma low_filter_superset (products : list (Product N)) :
  (forall p, In p (stockStage "low" products)
             <-> In p products /\ le (quantity p) (min_stock p) = true)
  /\ filterProducts products "" "all" "low" = stockStage "low" products
  /\ (forall p, In p products ->
                getStockBadge (quantity p) (min_stock p) = LowStock ->
                In p (stockStage "low" products))
  /\ (forall p, In p products ->
                strict_eq (quantity p) zero = true ->
                le zero (min_stock p) = true ->
                In p (stockStage "low" products)
                /\ getStockBadge (quantity p) (min_stock p) = OutOfStock
                /\ getStockBadge (quantity p) (min_stock p) <> LowStock).
Proof.
  split; [apply stockStage_low|]. split; [reflexivity|]. split.
  - intros p Hin Hb. apply stockStage_low. split; [exact Hin|].
    unfold getStockBadge in Hb.
    destruct (strict_eq (quantity p) zero); [discriminate|].
    destruct (le (quantity p) (min_stock p)); [reflexivity | discriminate].
  - intros p Hin Hq Hm. split.
    + apply stockStage_low. split; [exact Hin | now apply zero_le].
    + unfold getStockBadge. rewrite Hq. split; [reflexivity | discriminate].
Qed.

End LowFilter.

Lemma zero_le_integers (q m : Z) :
  strict_eq q zero = true -> le zero m = true -> le q m = true.
Proof. simpl. rewrite Z.eqb_eq, !Z.leb_le. lia. Qed.

(** C9. The "low" stock filter keeps exactly the products with
    [quantity <= min_stock].  It keeps every product whose badge is low
    stock, and also every product with [quantity = 0] and
    [min_stock >= 0], whose badge is out of stock and not low stock: the
    filter selects more than the products labelled low stock.  This holds
    of integer quantities and of binary64 quantities alike. *)
Theorem low_filter_includes_out_of_stock :
  (forall products : list (Product Z),
      (forall p, In p (stockStage "low" products)
                 <-> In p products /\ (quantity p <= min_stock p)%Z)
      /\ filterProducts products "" "all" "low" = stockStage "low" products
      /\ (forall p, In p products ->
                    getStockBadge (quantity p) (min_stock p) = LowStock ->
                    In p (stockStage "low" products))
      /\ (forall p, In p products ->
                    quantity p = 0%Z -> (0 <= min_stock p)%Z ->
                    In p (stockStage "low" products)
                    /\ getStockBadge (quantity p) (min_stock p) = OutOfStock
                    /\ getStockBadge (quantity p) (min_stock p) <> LowStock))
  /\ (forall products : list (Product float),
      (forall p, In p (stockStage "low" products)
                 <-> In p products
                     /\ (quantity p <=? min_stock p)%float = true)
      /\ filterProducts products "" "all" "low" = stockStage "low" products
      /\ (forall p, In p products ->
                    getStockBadge (quantity p) (min_stock p) = LowStock ->
                    In p (stockStage "low" products))
      /\ (forall p, In p products ->
                    (quantity p =? 0)%float = true ->
                    (0 <=? min_stock p)%float = true ->
                    In p (stockStage "low" products)
                    /\ getStockBadge (quantity p) (min_stock p) = OutOfStock
                    /\ getStockBadge (quantity p) (min_stock p) <> LowStock)).
Proof.
  split.
  - intro products.
    destruct (low_filter_superset zero_le_integers products)
      as (S & F & L & O).
    split; [|split; [exact F | split; [exact L|]]].
    + intro p. rewrite S. simpl. now rewrite Z.leb_le.
    + intros p Hin Hq Hm. apply (O p Hin); simpl.
      * now apply Z.eqb_eq.
      * now apply Z.leb_le.
  - intro products. exact (low_filter_superset eqb_zero_leb products).
Qed.

Lemma low_filter_includes_out_of_stock_witness :
  In (Samples.product "hammer" 0 10) (stockStage "low" Samples.products)
  /\ getStockBadge (quantity (Samples.product "hammer" 0 10))
                   (min_stock (Samples.product "hammer" 0 10))
     = OutOfStock
  /\ getStockBadge (quantity (Samples.product "hammer" 0 10))
                   (min_stock (Samples.product "hammer" 0 10))
     <> LowStock.
Proof.
  destruct (proj1 low_filter_includes_out_of_stock Samples.products)
    as (_ & _ & _ & O).
  apply (O (Samples.product "hammer" 0 10)).
  - left. reflexivity.
  - reflexivity.
  - simpl. lia.
Defined.

End StockStatus.

(** ** Dates *)

Section Dates.
Import JsDate.
Local Open Scope Z_scope.

Lemma DayFromYear_step (y : Z) :
  DayFromYear y + 365 <= DayFromYear (y + 1) <= DayFromYear y + 366.
Proof.
  unfold DayFromYear. Z.div_mod_to_equations. lia.
Qed.

Lemma DayFromYear_after_epoch (y : Z) :
  1970 <= y -> 365 * (y - 1970) <= DayFromYear y <= 366 * (y - 1970).
Proof.
  unfold DayFromYear. intro Y. Z.div_mod_to_equations. lia.
Qed.

Lemma DayFromYear_before_epoch (y : Z) :
  y <= 1970 -> 366 * (y - 1970) <= DayFromYear y <= 365 * (y - 1970).
Proof.
  unfold DayFromYear. intro Y. Z.div_mod_to_equations. lia.
Qed.

Lemma year_search_spec (fuel : nat) :
  forall y d,
    DayFromYear y <= d -> d - DayFromYear y < 365 * Z.of_nat fuel ->
    DayFromYear (year_search fuel y d) <= d
    < DayFromYear (year_search fuel y d + 1).
Proof.
  induction fuel as [|n IH]; intros y d L B.
  - lia.
  - simpl year_search. destruct (Z.leb_spec (DayFromYear (y + 1)) d) as [G|G].
    + apply IH; [exact G|]. pose proof (DayFromYear_step y). lia.
    + lia.
Qed.

(** [YearFromTime] is the year of the language definition, the largest
    year starting at or before the time value, on the whole range of
    time values of a date: the search never runs short. *)
Lemma YearFromTime_spec (t : Z) :
  -8640000000000000 <= t <= 8640000000000000 ->
  DayFromYear (YearFromTime t) <= Day t < DayFromYear (YearFromTime t + 1).
Proof.
  intro R. unfold YearFromTime. cbv zeta.
  assert (D : -100000000 <= Day t <= 100000000).
  { unfold Day, msPerDay. Z.div_mod_to_equations. lia. }
  apply year_search_spec.
  - destruct (Z.leb_spec 0 (Day t)) as [P|P].
    + pose proof (DayFromYear_after_epoch (1970 + Day t / 366)).
      Z.div_mod_to_equations. lia.
    + pose proof (DayFromYear_before_epoch (1970 + Day t / 365)).
      Z.div_mod_to_equations. lia.
  - destruct (Z.leb_spec 0 (Day t)) as [P|P].
    + pose proof (DayFromYear_after_epoch (1970 + Day t / 366)).
      Z.div_mod_to_equations. lia.
    + pose proof (DayFromYear_before_epoch (1970 + Day t / 365)).
      Z.div_mod_to_equations. lia.
Qed.

Lemma DayFromYear_next (y : Z) :
  DayFromYear (y + 1) = DayFromYear y + DaysInYear y.
Proof.
  unfold DayFromYear, DaysInYear.
  replace (y + 1 - 1970) with (y - 1969) by lia.
  replace (y + 1 - 1969) with (y - 1968) by lia.
  replace (y + 1 - 1901) with (y - 1900) by lia.
  replace (y + 1 - 1601) with (y - 1600) by lia.
  assert (A : (y - 1968) / 4 = (y - 1969) / 4 + (if y mod 4 =? 0 then 1 else 0)).
  { destruct (Z.eqb_spec (y mod 4) 0); Z.div_mod_to_equations; lia. }
  assert (B : (y - 1900) / 100 = (y - 1901) / 100 + (if y mod 100 =? 0 then 1 else 0)).
  { destruct (Z.eqb_spec (y mod 100) 0); Z.div_mod_to_equations; lia. }
  assert (C : (y - 1600) / 400 = (y - 1601) / 400 + (if y mod 400 =? 0 then 1 else 0)).
  { destruct (Z.eqb_spec (y mod 400) 0); Z.div_mod_to_equations; lia. }
  rewrite A, B, C.
  assert (P : y mod 400 = 0 -> y mod 100 = 0) by (Z.div_mod_to_equations; lia).
  assert (Q : y mod 100 = 0 -> y mod 4 = 0) by (Z.div_mod_to_equations; lia).
  destruct (Z.eqb_spec (y mod 4) 0), (Z.eqb_spec (y mod 100) 0),
    (Z.eqb_spec (y mod 400) 0); cbn [andb orb negb]; try lia; tauto.
Qed.

Lemma MonthFromTime_range (t : Z) : 0 <= MonthFromTime t <= 11.
Proof.
  unfold MonthFromTime. cbv zeta.
  repeat match goal with
         | |- context [if ?c then _ else _] => destruct c
         end; lia.
Qed.

Lemma month_start_step (leap : bool) (m : Z) :
  1 <= m <= 11 ->
  month_start (if leap then 1 else 0) m
  - month_start (if leap then 1 else 0) (m - 1)
  = if m =? 2 then (if leap then 29 else 28)
    else if (m =? 4) || (m =? 6) || (m =? 9) || (m =? 11) then 30 else 31.
Proof.
  intro R.
  assert (M : m = 1 \/ m = 2 \/ m = 3 \/ m = 4 \/ m = 5 \/ m = 6
              \/ m = 7 \/ m = 8 \/ m = 9 \/ m = 10 \/ m = 11) by lia.
  destruct M as [M|[M|[M|[M|[M|[M|[M|[M|[M|[M|M]]]]]]]]]]; subst m;
    destruct leap; reflexivity.
Qed.

Lemma MakeDay_in_year (y m dt : Z) :
  0 <= m <= 11 ->
  MakeDay y m dt
  = DayFromYear y
    + month_start (if DaysInYear y =? 366 then 1 else 0) m + dt - 1.
Proof.
  intro R. unfold MakeDay. cbv zeta.
  rewrite (Z.div_small m 12), (Z.mod_small m 12) by lia.
  now replace (y + 0) with y by lia.
Qed.

Lemma MakeDay_last_month_of_previous_year (y dt : Z) :
  MakeDay y (-1) dt = DayFromYear y - 31 + dt - 1.
Proof.
  unfold MakeDay. cbv zeta.
  change (-1 / 12) with (-1). change (-1 mod 12) with 11.
  replace (y + -1) with (y - 1) by lia.
  pose proof (DayFromYear_next (y - 1)) as Y.
  replace (y - 1 + 1) with y in Y by lia.
  change (month_start ?l 11) with (334 + l).
  unfold DaysInYear at 1 in Y. unfold DaysInYear.
  destruct ((y - 1) mod 4 =? 0) eqn:A, ((y - 1) mod 100 =? 0) eqn:B,
    ((y - 1) mod 400 =? 0) eqn:C; cbn [andb orb negb] in *;
    cbn [Z.eqb Pos.eqb]; lia.
Qed.

(** Moving a date to the month before its own moves its local time
    back by the length of that month, whatever the day of the month;
    the new time value is the instant of that local time. *)
Lemma setMonth_previous (zone : JsDate.Zone) (now : Z) :
  setMonth zone now (getMonth zone now - 1)
  = UTC zone (LocalTime zone now
              - Predicates.previous_month_days zone now * msPerDay).
Proof.
  unfold setMonth, getMonth, Predicates.previous_month_days. cbv zeta.
  set (l := LocalTime zone now). f_equal. unfold MakeDate.
  assert (L : l = Day l * msPerDay + TimeWithinDay l).
  { unfold Day, TimeWithinDay, msPerDay. Z.div_mod_to_equations. lia. }
  assert (D : Day l = DayFromYear (YearFromTime l)
                      + month_start (InLeapYear l) (MonthFromTime l)
                      + DateFromTime l - 1).
  { unfold DateFromTime, DayWithinYear. lia. }
  pose proof (MonthFromTime_range l) as R.
  unfold InLeapYear in D.
  set (dt := DateFromTime l) in *. set (m := MonthFromTime l) in *.
  set (y := YearFromTime l) in *. set (w := TimeWithinDay l) in *.
  set (d := Day l) in *. clearbody dt m y w d.
  destruct (Z.eqb_spec m 0) as [M|M].
  - subst m. change (0 - 1) with (-1).
    rewrite MakeDay_last_month_of_previous_year.
    change (month_start ?l 0) with 0 in D. unfold msPerDay in *. lia.
  - rewrite MakeDay_in_year by lia.
    pose proof (month_start_step (DaysInYear y =? 366) m) as S.
    unfold days_in_month.
    destruct (DaysInYear y =? 366); destruct (m =? 2);
      destruct ((m =? 4) || (m =? 6) || (m =? 9) || (m =? 11));
      unfold msPerDay in *; lia.
Qed.

(** The instant of a local time that lies [days] days before the local
    time of [now]: that many days before [now], corrected by the change
    of offset between the two. *)
Lemma UTC_days_before (zone : JsDate.Zone) (now days : Z) :
  UTC zone (LocalTime zone now - days * msPerDay)
  = now - days * msPerDay
    + (LocalTZA zone now true
       - LocalTZA zone (LocalTime zone now - days * msPerDay) false).
Proof. unfold UTC, LocalTime. lia. Qed.

(** In a zone without daylight saving the offset is the same at every
    time. *)
Lemma LocalTZA_fixed (offset t : Z) (isUTC : bool) :
  LocalTZA (fixed offset) t isUTC = offset.
Proof. now destruct isUTC. Qed.

Lemma previous_month_days_range (zone : JsDate.Zone) (now : Z) :
  28 <= Predicates.previous_month_days zone now <= 31.
Proof.
  unfold Predicates.previous_month_days, days_in_month. cbv zeta.
  repeat match goal with
         | |- context [if ?c then _ else _] => destruct c
         end; lia.
Qed.

End Dates.

(** ** Filters *)

Section Filters.
Context {N : Type} `{JsNumber N}.
Import Predicates.

Lemma in_filter2 {A} (f g : A -> bool) (l : list A) (x : A) :
  In x (filter g (filter f l)) <-> In x l /\ f x = true /\ g x = true.
Proof. rewrite !filter_In. tauto. Qed.

Lemma in_filter3 {A} (f g h : A -> bool) (l : list A) (x : A) :
  In x (filter h (filter g (filter f l)))
  <-> In x l /\ f x = true /\ g x = true /\ h x = true.
Proof. rewrite !filter_In. tauto. Qed.

Lemma filter_rotate {A} (f g h : A -> bool) (l : list A) :
  filter h (filter g (filter f l)) = filter f (filter g (filter h l)).
Proof.
  rewrite !filter_filter_and. apply filter_ext. intro x.
  destruct (f x), (g x), (h x); reflexivity.
Qed.

(** *** Products *)

Lemma products_searchStage (s : string) (l : list (Products.Product N)) :
  Products.searchStage s l = filter (productSearch s) l.
Proof. unfold Products.searchStage. now rewrite guarded_filter. Qed.

Lemma products_categoryStage (c : string) (l : list (Products.Product N)) :
  Products.categoryStage c l = filter (productCategory c) l.
Proof.
  unfold Products.categoryStage. rewrite guarded_filter.
  apply filter_ext. intro p. unfold productCategory.
  now rewrite negb_involutive.
Qed.

Lemma products_stockStage (k : string) (l : list (Products.Product N)) :
  Products.stockStage k l = filter (productStock k) l.
Proof.
  unfold Products.stockStage, productStock.
  destruct (k =? "low"); [reflexivity|].
  destruct (k =? "out"); [reflexivity|].
  destruct (k =? "instock"); [reflexivity|].
  now rewrite filter_all.
Qed.

Lemma products_filter_commutes
      (products : list (Products.Product N)) (s c k : string) :
  Products.categoryStage c (Products.searchStage s products)
  = Products.searchStage s (Products.categoryStage c products)
  /\ Products.stockStage k (Products.searchStage s products)
     = Products.searchStage s (Products.stockStage k products)
  /\ Products.stockStage k (Products.categoryStage c products)
     = Products.categoryStage c (Products.stockStage k products)
  /\ Products.filterProducts products s c k
     = Products.searchStage s
         (Products.categoryStage c (Products.stockStage k products))
  /\ forall p, In p (Products.filterProducts products s c k)
               <-> In p products
                   /\ productSearch s p = true
                   /\ productCategory c p = true
                   /\ productStock k p = true.
Proof.
  unfold Products.filterProducts.
  rewrite !products_searchStage, !products_categoryStage,
    !products_stockStage.
  split; [apply filter_swap|]. split; [apply filter_swap|].
  split; [apply filter_swap|]. split; [apply filter_rotate|].
  intro p. apply in_filter3.
Qed.

(** *** Ledger entries *)

Lemma ledger_searchStage (s : string) (l : list (Ledger.LedgerEntry N)) :
  Ledger.searchStage s l = filter (ledgerSearch s) l.
Proof. unfold Ledger.searchStage. now rewrite guarded_filter. Qed.

Lemma ledger_entityTypeStage (t : string) (l : list (Ledger.LedgerEntry N)) :
  Ledger.entityTypeStage t l = filter (ledgerEntityType t) l.
Proof.
  unfold Ledger.entityTypeStage. rewrite guarded_filter.
  apply filter_ext. intro e. unfold ledgerEntityType.
  now rewrite negb_involutive.
Qed.

Lemma ledger_transactionTypeStage (t : string)
      (l : list (Ledger.LedgerEntry N)) :
  Ledger.transactionTypeStage t l = filter (ledgerTransactionType t) l.
Proof.
  unfold Ledger.transactionTypeStage. rewrite guarded_filter.
  apply filter_ext. intro e. unfold ledgerTransactionType.
  now rewrite negb_involutive.
Qed.

Lemma ledger_filter_commutes
      (entries : list (Ledger.LedgerEntry N)) (s t u : string) :
  Ledger.entityTypeStage t (Ledger.searchStage s entries)
  = Ledger.searchStage s (Ledger.entityTypeStage t entries)
  /\ Ledger.transactionTypeStage u (Ledger.searchStage s entries)
     = Ledger.searchStage s (Ledger.transactionTypeStage u entries)
  /\ Ledger.transactionTypeStage u (Ledger.entityTypeStage t entries)
     = Ledger.entityTypeStage t (Ledger.transactionTypeStage u entries)
  /\ Ledger.filterLedgerEntries entries s t u
     = Ledger.searchStage s
         (Ledger.entityTypeStage t (Ledger.transactionTypeStage u entries))
  /\ forall e, In e (Ledger.filterLedgerEntries entries s t u)
               <-> In e entries
                   /\ ledgerSearch s e = true
                   /\ ledgerEntityType t e = true
                   /\ ledgerTransactionType u e = true.
Proof.
  unfold Ledger.filterLedgerEntries.
  rewrite !ledger_searchStage, !ledger_entityTypeStage,
    !ledger_transactionTypeStage.
  split; [apply filter_swap|]. split; [apply filter_swap|].
  split; [apply filter_swap|]. split; [apply filter_rotate|].
  intro e. apply in_filter3.
Qed.

(** *** Purchases *)

Lemma purchases_searchStage (s : string) (l : list (Purchases.Purchase N)) :
  Purchases.searchStage s l = filter (purchaseSearch s) l.
Proof. unfold Purchases.searchStage. now rewrite guarded_filter. Qed.

Lemma purchases_statusStage (st : string) (l : list (Purchases.Purchase N)) :
  Purchases.statusStage st l = filter (purchaseStatus st) l.
Proof.
  unfold Purchases.statusStage. rewrite guarded_filter.
  apply filter_ext. intro p. unfold purchaseStatus.
  now rewrite negb_involutive.
Qed.

Lemma purchases_dateStage (zone : JsDate.Zone) (now : Z) (d : string)
      (l : list (Purchases.Purchase N)) :
  Purchases.dateStage zone now d l = filter (purchaseDate zone now d) l.
Proof.
  unfold Purchases.dateStage, purchaseDate.
  destruct (d =? "all"); simpl; [now rewrite filter_all|].
  destruct (d =? "today"); [reflexivity|].
  destruct (d =? "week"); [reflexivity|].
  destruct (d =? "month"); [reflexivity|].
  now rewrite filter_all.
Qed.

Lemma purchases_filter_commutes (zone : JsDate.Zone) (now : Z)
      (purchases : list (Purchases.Purchase N)) (s st d : string) :
  Purchases.statusStage st (Purchases.searchStage s purchases)
  = Purchases.searchStage s (Purchases.statusStage st purchases)
  /\ Purchases.dateStage zone now d (Purchases.searchStage s purchases)
     = Purchases.searchStage s (Purchases.dateStage zone now d purchases)
  /\ Purchases.dateStage zone now d (Purchases.statusStage st purchases)
     = Purchases.statusStage st (Purchases.dateStage zone now d purchases)
  /\ Purchases.filterPurchases zone now purchases s st d
     = Purchases.searchStage s
         (Purchases.statusStage st (Purchases.dateStage zone now d purchases))
  /\ forall p, In p (Purchases.filterPurchases zone now purchases s st d)
               <-> In p purchases
                   /\ purchaseSearch s p = true
                   /\ purchaseStatus st p = true
                   /\ purchaseDate zone now d p = true.
Proof.
  unfold Purchases.filterPurchases.
  rewrite !purchases_searchStage, !purchases_statusStage,
    !purchases_dateStage.
  split; [apply filter_swap|]. split; [apply filter_swap|].
  split; [apply filter_swap|]. split; [apply filter_rotate|].
  intro p. apply in_filter3.
Qed.

(** *** Sale items and purchase items *)

Lemma saleItems_searchStage (s : string) (l : list (SaleItems.SaleItem N)) :
  SaleItems.searchStage s l = filter (saleItemSearch s) l.
Proof. unfold SaleItems.searchStage. now rewrite guarded_filter. Qed.

Lemma saleItems_saleStage (f : string) (l : list (SaleItems.SaleItem N)) :
  SaleItems.saleStage f l = filter (saleItemSale f) l.
Proof.
  unfold SaleItems.saleStage. rewrite guarded_filter.
  apply filter_ext. intro i. unfold saleItemSale.
  now rewrite negb_involutive.
Qed.

Lemma saleItems_filter_commutes
      (items : list (SaleItems.SaleItem N)) (s f : string) :
  SaleItems.filterSaleItems items s f
  = SaleItems.searchStage s (SaleItems.saleStage f items)
  /\ forall i, In i (SaleItems.filterSaleItems items s f)
               <-> In i items
                   /\ saleItemSearch s i = true /\ saleItemSale f i = true.
Proof.
  unfold SaleItems.filterSaleItems.
  rewrite !saleItems_searchStage, !saleItems_saleStage.
  split; [apply filter_swap|]. intro i. apply in_filter2.
Qed.

Lemma purchaseItems_searchStage (s : string)
      (l : list (PurchaseItems.PurchaseItem N)) :
  PurchaseItems.searchStage s l = filter (purchaseItemSearch s) l.
Proof. unfold PurchaseItems.searchStage. now rewrite guarded_filter. Qed.

Lemma purchaseItems_purchaseStage (f : string)
      (l : list (PurchaseItems.PurchaseItem N)) :
  PurchaseItems.purchaseStage f l = filter (purchaseItemPurchase f) l.
Proof.
  unfold PurchaseItems.purchaseStage. rewrite guarded_filter.
  apply filter_ext. intro i. unfold purchaseItemPurchase.
  now rewrite negb_involutive.
Qed.

Lemma purchaseItems_filter_commutes
      (items : list (PurchaseItems.PurchaseItem N)) (s f : string) :
  PurchaseItems.filterPurchaseItems items s f
  = PurchaseItems.searchStage s (PurchaseItems.purchaseStage f items)
  /\ forall i, In i (PurchaseItems.filterPurchaseItems items s f)
               <-> In i items
                   /\ purchaseItemSearch s i = true
                   /\ purchaseItemPurchase f i = true.
Proof.
  unfold PurchaseItems.filterPurchaseItems.
  rewrite !purchaseItems_searchStage, !purchaseItems_purchaseStage.
  split; [apply filter_swap|]. intro i. apply in_filter2.
Qed.

(** C7. On every page with several filters (products, ledger entries,
    purchases, sale items, purchase items) any two filter stages give the
    same list in either order, the whole filter gives the same list with
    its stages in the opposite order, and the filtered list holds exactly
    the records of the collection that satisfy every predicate. *)
Theorem filter_stages_commute :
  (forall (products : list (Products.Product N)) (s c k : string),
      Products.categoryStage c (Products.searchStage s products)
      = Products.searchStage s (Products.categoryStage c products)
      /\ Products.stockStage k (Products.searchStage s products)
         = Products.searchStage s (Products.stockStage k products)
      /\ Products.stockStage k (Products.categoryStage c products)
         = Products.categoryStage c (Products.stockStage k products)
      /\ Products.filterProducts products s c k
         = Products.searchStage s
             (Products.categoryStage c (Products.stockStage k products))
      /\ forall p, In p (Products.filterProducts products s c k)
                   <-> In p products
                       /\ productSearch s p = true
                       /\ productCategory c p = true
                       /\ productStock k p = true)
  /\ (forall (entries : list (Ledger.LedgerEntry N)) (s t u : string),
      Ledger.entityTypeStage t (Ledger.searchStage s entries)
      = Ledger.searchStage s (Ledger.entityTypeStage t entries)
      /\ Ledger.transactionTypeStage u (Ledger.searchStage s entries)
         = Ledger.searchStage s (Ledger.transactionTypeStage u entries)
      /\ Ledger.transactionTypeStage u (Ledger.entityTypeStage t entries)
         = Ledger.entityTypeStage t (Ledger.transactionTypeStage u entries)
      /\ Ledger.filterLedgerEntries entries s t u
         = Ledger.searchStage s
             (Ledger.entityTypeStage t (Ledger.transactionTypeStage u entries))
      /\ forall e, In e (Ledger.filterLedgerEntries entries s t u)
                   <-> In e entries
                       /\ ledgerSearch s e = true
                       /\ ledgerEntityType t e = true
                       /\ ledgerTransactionType u e = true)
  /\ (forall (zone : JsDate.Zone) (now : Z) (purchases : list (Purchases.Purchase N))
             (s st d : string),
      Purchases.statusStage st (Purchases.searchStage s purchases)
      = Purchases.searchStage s (Purchases.statusStage st purchases)
      /\ Purchases.dateStage zone now d (Purchases.searchStage s purchases)
         = Purchases.searchStage s (Purchases.dateStage zone now d purchases)
      /\ Purchases.dateStage zone now d (Purchases.statusStage st purchases)
         = Purchases.statusStage st (Purchases.dateStage zone now d purchases)
      /\ Purchases.filterPurchases zone now purchases s st d
         = Purchases.searchStage s
             (Purchases.statusStage st
                (Purchases.dateStage zone now d purchases))
      /\ forall p, In p (Purchases.filterPurchases zone now purchases s st d)
                   <-> In p purchases
                       /\ purchaseSearch s p = true
                       /\ purchaseStatus st p = true
                       /\ purchaseDate zone now d p = true)
  /\ (forall (items : list (SaleItems.SaleItem N)) (s f : string),
      SaleItems.filterSaleItems items s f
      = SaleItems.searchStage s (SaleItems.saleStage f items)
      /\ forall i, In i (SaleItems.filterSaleItems items s f)
                   <-> In i items
                       /\ saleItemSearch s i = true
                       /\ saleItemSale f i = true)
  /\ (forall (items : list (PurchaseItems.PurchaseItem N)) (s f : string),
      PurchaseItems.filterPurchaseItems items s f
      = PurchaseItems.searchStage s (PurchaseItems.purchaseStage f items)
      /\ forall i, In i (PurchaseItems.filterPurchaseItems items s f)
                   <-> In i items
                       /\ purchaseItemSearch s i = true
                       /\ purchaseItemPurchase f i = true).
Proof.
  split; [exact products_filter_commutes|].
  split; [exact ledger_filter_commutes|].
  split; [exact purchases_filter_commutes|].
  split; [exact saleItems_filter_commutes|].
  exact purchaseItems_filter_commutes.
Qed.

(** The scenario of the specification: the search for "widget" and the
    category "Tools", in both orders. *)
Example filter_widget_tools (products : list (Products.Product N)) :
  Products.categoryStage "Tools" (Products.searchStage "widget" products)
  = Products.searchStage "widget" (Products.categoryStage "Tools" products).
Proof. apply products_filter_commutes; exact "". Qed.

(** An inactive filter accepts every record. *)
Lemma inactive_filters_accept :
  (forall p : Products.Product N, productSearch "" p = true)
  /\ (forall p : Products.Product N, productCategory "all" p = true)
  /\ (forall p : Products.Product N, productStock "all" p = true)
  /\ (forall e : Ledger.LedgerEntry N, ledgerSearch "" e = true)
  /\ (forall e : Ledger.LedgerEntry N, ledgerEntityType "all" e = true)
  /\ (forall e : Ledger.LedgerEntry N, ledgerTransactionType "all" e = true).
Proof. repeat split. Qed.

(** *** The date filter of the purchases page *)

(** C3, amended. With the date filter on ["month"] the filter effect
    selects exactly the records of the collection that satisfy the search
    and status predicates and are dated at or after the cut-off that
    [setMonth (getMonth () - 1)] computes.  That cut-off is the instant
    at which the local clock shows the date and time it shows now, moved
    back by the length of the previous calendar month, which is 28 to 31
    days.  Counted in instants it lies that many days before now,
    corrected by the change of the offset of the zone between the two: in
    a zone without daylight saving it is now minus 28 to 31 days.
    Records dated after today are among the selected ones. *)
Theorem month_filter_since_one_month_back
        (zone : JsDate.Zone) (now : Z) (purchases : list (Purchases.Purchase N))
        (searchTerm statusFilter : string) :
  (forall p : Purchases.Purchase N,
      In p (Purchases.filterPurchases zone now purchases searchTerm
                                      statusFilter "month")
      <-> In p purchases
          /\ purchaseSearch searchTerm p = true
          /\ purchaseStatus statusFilter p = true
          /\ exists t, JsDate.parse (Purchases.purchase_date p) = Some t
                       /\ (local_days_before zone now
                             (previous_month_days zone now) <= t)%Z)
  /\ JsDate.setMonth zone now (JsDate.getMonth zone now - 1)
     = local_days_before zone now (previous_month_days zone now)
  /\ local_days_before zone now (previous_month_days zone now)
     = (now - previous_month_days zone now * JsDate.msPerDay
        + (JsDate.LocalTZA zone now true
           - JsDate.LocalTZA zone
               (JsDate.LocalTime zone now
                - previous_month_days zone now * JsDate.msPerDay) false))%Z
  /\ (forall offset : Z,
         local_days_before (JsDate.fixed offset) now
           (previous_month_days (JsDate.fixed offset) now)
         = (now - previous_month_days (JsDate.fixed offset) now
                  * JsDate.msPerDay)%Z)
  /\ (28 <= previous_month_days zone now <= 31)%Z.
Proof.
  split; [|split; [apply setMonth_previous
                  |split; [apply UTC_days_before
                          |split; [|apply previous_month_days_range]]]].
  - intro p.
    destruct (purchases_filter_commutes zone now purchases searchTerm
                statusFilter "month") as (_ & _ & _ & _ & M).
    rewrite M. unfold purchaseDate; simpl. unfold JsDate.date_ge.
    rewrite setMonth_previous. fold (local_days_before zone now
                                       (previous_month_days zone now)).
    destruct (JsDate.parse (Purchases.purchase_date p)) as [t|].
    + rewrite Z.leb_le. split.
      * intros (I & S & T & D). repeat split; auto. now exists t.
      * intros (I & S & T & t' & E & D). injection E as <-. auto.
    + split.
      * intros (_ & _ & _ & D). discriminate.
      * intros (_ & _ & _ & t' & E & _). discriminate.
  - intro offset. unfold local_days_before. rewrite UTC_days_before.
    rewrite !LocalTZA_fixed. lia.
Qed.

End Filters.

(** *** One calendar month back *)

(** How far back one calendar month reaches: 28 days from 15 March 2025
    and from 31 March 2025 (whose cut-off is 3 March), 31 days from
    15 January 2025, 30 days from 31 May 2025 (whose cut-off is 1 May). *)
Example oneMonthBack_examples :
  (Samples.noon_2025_03_15
   - Predicates.oneMonthBack JsDate.utc Samples.noon_2025_03_15
   = 28 * JsDate.msPerDay)%Z
  /\ option_map (fun t => JsDate.toDateString JsDate.utc (Predicates.oneMonthBack JsDate.utc t))
                (JsDate.parse "2025-03-31")
     = Some (2025, 2, 3)%Z
  /\ option_map (fun t => JsDate.toDateString JsDate.utc (Predicates.oneMonthBack JsDate.utc t))
                (JsDate.parse "2025-01-15")
     = Some (2024, 11, 15)%Z
  /\ option_map (fun t => JsDate.toDateString JsDate.utc (Predicates.oneMonthBack JsDate.utc t))
                (JsDate.parse "2025-05-31")
     = Some (2025, 4, 1)%Z.
Proof. repeat split; vm_compute; reflexivity. Qed.

(** C3, as stated, fails: at noon on 15 March 2025 the ["month"] filter
    drops the purchase of 14 February, made 29 days before, and keeps the
    purchase dated 25 December 2025, while the records of the last 30
    days are the first and not the second. *)
Lemma month_filter_last_30_days_counterexample :
  Purchases.filterPurchases JsDate.utc Samples.noon_2025_03_15 Samples.purchases
                            "" "all" "month"
  = [Samples.purchase "p2" "2025-12-25"]
  /\ filter (Predicates.purchaseInLast30Days Samples.noon_2025_03_15)
            Samples.purchases
     = [Samples.purchase "p1" "2025-02-14"]
  /\ Purchases.filterPurchases JsDate.utc Samples.noon_2025_03_15 Samples.purchases
                               "" "all" "month"
     <> filter (Predicates.purchaseInLast30Days Samples.noon_2025_03_15)
               Samples.purchases.
Proof.
  assert (C : Purchases.filterPurchases JsDate.utc Samples.noon_2025_03_15
                Samples.purchases "" "all" "month"
              = [Samples.purchase "p2" "2025-12-25"])
    by (vm_compute; reflexivity).
  assert (S : filter (Predicates.purchaseInLast30Days Samples.noon_2025_03_15)
                     Samples.purchases
              = [Samples.purchase "p1" "2025-02-14"])
    by (vm_compute; reflexivity).
  split; [exact C|]. split; [exact S|].
  rewrite C, S. discriminate.
Qed.

(** ** Ledger statistics *)

Section LedgerStatistics.
Context {N : Type} `{JsNumber N}.
Import Ledger.

Lemma fold_amount_running (type : string) (entries : list (LedgerEntry N)) :
  forall so_far,
    fold_left (fun sum entry => add sum (amount entry))
              (filter (fun entry => transaction_type entry =? type) entries)
              so_far
    = Sums.running_amount type so_far entries.
Proof.
  induction entries as [|e rest IH]; intro so_far; simpl; [reflexivity|].
  destruct (transaction_type e =? type); simpl; apply IH.
Qed.

Lemma calculateStats_totals (entries : list (LedgerEntry N)) :
  totalDebits (calculateStats entries) = Sums.amount_of_type "debit" entries
  /\ totalCredits (calculateStats entries)
     = Sums.amount_of_type "credit" entries
  /\ netBalance (calculateStats entries)
     = sub (totalCredits (calculateStats entries))
           (totalDebits (calculateStats entries)).
Proof.
  unfold calculateStats, reduce_sum, Sums.amount_of_type; simpl.
  rewrite !fold_amount_running. repeat split.
Qed.

End LedgerStatistics.

(** C2. [calculateStats] returns as total debits the sum of the amounts
    of the debit entries, as total credits the sum of the amounts of the
    credit entries, and as net balance the credits minus the debits; the
    entries [{debit, 100}, {credit, 150}] give [{100, 150, 50}]. *)
Theorem calculateStats_sums :
  (forall (N : Type) (H : JsNumber N) (entries : list (Ledger.LedgerEntry N)),
      Ledger.totalDebits (Ledger.calculateStats entries)
      = Sums.amount_of_type "debit" entries
      /\ Ledger.totalCredits (Ledger.calculateStats entries)
         = Sums.amount_of_type "credit" entries
      /\ Ledger.netBalance (Ledger.calculateStats entries)
         = sub (Ledger.totalCredits (Ledger.calculateStats entries))
               (Ledger.totalDebits (Ledger.calculateStats entries)))
  /\ Ledger.calculateStats Samples.debit_100_credit_150
     = {| Ledger.totalDebits := 100%float;
          Ledger.totalCredits := 150%float;
          Ledger.netBalance := 50%float |}
  /\ Ledger.calculateStats
       [Samples.entry "debit" 100%Z; Samples.entry "credit" 150%Z]
     = {| Ledger.totalDebits := 100%Z;
          Ledger.totalCredits := 150%Z;
          Ledger.netBalance := 50%Z |}.
Proof.
  split; [intros; apply calculateStats_totals|].
  split; reflexivity.
Qed.

(** *** Order of the entries *)

Lemma Permutation_filter_same {A} (f : A -> bool) (l l' : list A) :
  Permutation l l' -> Permutation (filter f l) (filter f l').
Proof.
  induction 1 as [|x l l' _ IH|x y l|l l' l'' _ IH1 _ IH2]; simpl.
  - constructor.
  - destruct (f x); [now constructor | exact IH].
  - destruct (f x), (f y); try reflexivity. apply perm_swap.
  - now transitivity (filter f l').
Qed.

Section ExactSums.
Context {N : Type} `{ExactNumber N}.

Lemma add_swap_right (a b c : N) : add (add a b) c = add (add a c) b.
Proof.
  rewrite <- (add_assoc a b c), (add_comm b c). apply add_assoc.
Qed.

Lemma fold_add_permutation {A} (f : A -> N) (l l' : list A) :
  Permutation l l' ->
  forall start,
    fold_left (fun sum x => add sum (f x)) l start
    = fold_left (fun sum x => add sum (f x)) l' start.
Proof.
  induction 1 as [|x l l' _ IH|x y l|l l' l'' _ IH1 _ IH2];
    intro start; simpl.
  - reflexivity.
  - apply IH.
  - now rewrite add_swap_right.
  - now rewrite IH1.
Qed.

Lemma reduce_sum_permutation {A} (f : A -> N) (l l' : list A) :
  Permutation l l' -> reduce_sum f l = reduce_sum f l'.
Proof. intro P. unfold reduce_sum. now apply fold_add_permutation. Qed.

(** In exact arithmetic, where sums do not depend on the order of the
    summands, [calculateStats] returns the same statistics on every
    permutation of the entries. *)
Lemma calculateStats_permutation_exact (l l' : list (Ledger.LedgerEntry N)) :
  Permutation l l' -> Ledger.calculateStats l = Ledger.calculateStats l'.
Proof.
  intro P. unfold Ledger.calculateStats.
  rewrite (reduce_sum_permutation Ledger.amount _ _
             (Permutation_filter_same
                (fun e => Ledger.transaction_type e =? "debit") _ _ P)).
  rewrite (reduce_sum_permutation Ledger.amount _ _
             (Permutation_filter_same
                (fun e => Ledger.transaction_type e =? "credit") _ _ P)).
  reflexivity.
Qed.

End ExactSums.

Example calculateStats_permutation_integers :
  Ledger.calculateStats Samples.whole_amounts
  = Ledger.calculateStats (rev Samples.whole_amounts).
Proof.
  apply (calculateStats_permutation_exact (N := Z)).
  apply Permutation_rev.
Qed.

Section WholeAmounts.
Import Binary64 Sums.
Local Open Scope Z_scope.

Lemma amount_of_type_whole (type : string)
      (l : list (Ledger.LedgerEntry float)) :
  (forall e, In e l -> whole (Ledger.amount e)) ->
  magnitude whole_amount l <= MAX_SAFE_INTEGER ->
  reduce_sum Ledger.amount
    (filter (fun e => Ledger.transaction_type e =? type)%string l)
  = of_Z (whole_sum whole_amount
            (filter (fun e => Ledger.transaction_type e =? type)%string l)).
Proof.
  intros W B. apply reduce_sum_whole.
  - intros e I. apply filter_In in I as [I _].
    destruct (W e I) as [E|E]; [left; exact E | right].
    split; [exact E|]. unfold whole_amount. now rewrite E.
  - pose proof (magnitude_filter whole_amount
                  (fun e => Ledger.transaction_type e =? type)%string l). lia.
Qed.

End WholeAmounts.

(** C6, amended. On binary64 numbers, for entries whose amounts are
    whole numbers with absolute values that add up to at most
    [Number.MAX_SAFE_INTEGER], [calculateStats] returns the same
    statistics on every permutation of the entries: the total debits and
    the total credits are then the exact sums of the amounts. *)
Theorem calculateStats_permutation_whole_amounts
        (l l' : list (Ledger.LedgerEntry float)) :
  Permutation l l' ->
  (forall e, In e l -> Binary64.whole (Ledger.amount e)) ->
  (Sums.magnitude Sums.whole_amount l <= Binary64.MAX_SAFE_INTEGER)%Z ->
  Ledger.calculateStats l = Ledger.calculateStats l'
  /\ Ledger.totalDebits (Ledger.calculateStats l)
     = Binary64.of_Z
         (Sums.whole_sum Sums.whole_amount
            (filter (fun e => Ledger.transaction_type e =? "debit") l))
  /\ Ledger.totalCredits (Ledger.calculateStats l)
     = Binary64.of_Z
         (Sums.whole_sum Sums.whole_amount
            (filter (fun e => Ledger.transaction_type e =? "credit") l)).
Proof.
  intros P W B.
  assert (W' : forall e, In e l' -> Binary64.whole (Ledger.amount e)).
  { intros e I. apply W. apply (Permutation_in e (Permutation_sym P) I). }
  assert (B' : (Sums.magnitude Sums.whole_amount l'
                <= Binary64.MAX_SAFE_INTEGER)%Z)
    by (rewrite <- (magnitude_permutation Sums.whole_amount l l' P); exact B).
  unfold Ledger.calculateStats. cbn [Ledger.totalDebits Ledger.totalCredits].
  rewrite !(amount_of_type_whole _ l W B).
  rewrite !(amount_of_type_whole _ l' W' B').
  rewrite (whole_sum_permutation Sums.whole_amount _ _
             (Permutation_filter_same
                (fun e => Ledger.transaction_type e =? "debit") _ _ P)).
  rewrite (whole_sum_permutation Sums.whole_amount _ _
             (Permutation_filter_same
                (fun e => Ledger.transaction_type e =? "credit") _ _ P)).
  repeat split.
Qed.

Lemma calculateStats_permutation_whole_amounts_witness :
  Ledger.calculateStats Samples.whole_amounts_binary64
  = Ledger.calculateStats (rev Samples.whole_amounts_binary64)
  /\ Ledger.totalDebits (Ledger.calculateStats Samples.whole_amounts_binary64)
     = Binary64.of_Z 130.
Proof.
  destruct (calculateStats_permutation_whole_amounts
              Samples.whole_amounts_binary64
              (rev Samples.whole_amounts_binary64)) as (E & D & _).
  - apply Permutation_rev.
  - intros e [<-|[<-|[<-|[]]]]; left; vm_compute; reflexivity.
  - vm_compute. discriminate.
  - split; [exact E | exact D].
Defined.

(** Whole numbers and the binary64 numbers they are. *)
Example whole_samples :
  Binary64.of_Z 100 = 100%float
  /\ Binary64.of_Z (-150) = (-150)%float
  /\ Binary64.of_Z Binary64.MAX_SAFE_INTEGER = 9007199254740991%float
  /\ Binary64.to_Z 100%float = 100%Z
  /\ Binary64.to_Z 0.5%float = 0%Z
  /\ Binary64.whole 100%float
  /\ Binary64.whole (-0)%float
  /\ ~ Binary64.whole 0.5%float
  /\ ~ Binary64.whole nan.
Proof.
  repeat split; try (vm_compute; reflexivity).
  - left. vm_compute. reflexivity.
  - right. reflexivity.
  - intros [W|W]; vm_compute in W; discriminate W.
  - intros [W|W]; vm_compute in W; discriminate W.
Qed.

(** C6, as stated, fails on binary64 numbers: the debits 0.1, 0.2 and 0.3
    add up to 0.6000000000000001 in this order and to 0.6 in the opposite
    order. *)
Lemma calculateStats_permutation_float_counterexample :
  Permutation Samples.tenths Samples.tenths_reversed
  /\ Ledger.calculateStats Samples.tenths
     <> Ledger.calculateStats Samples.tenths_reversed
  /\ strict_eq (Ledger.totalDebits (Ledger.calculateStats Samples.tenths))
               (Ledger.totalDebits
                  (Ledger.calculateStats Samples.tenths_reversed))
     = false
  /\ Ledger.totalDebits (Ledger.calculateStats Samples.tenths)
     = 0.6000000000000001%float
  /\ Ledger.totalDebits (Ledger.calculateStats Samples.tenths_reversed)
     = 0.6%float.
Proof.
  assert (D : strict_eq
                (Ledger.totalDebits (Ledger.calculateStats Samples.tenths))
                (Ledger.totalDebits
                   (Ledger.calculateStats Samples.tenths_reversed))
              = false) by (vm_compute; reflexivity).
  split; [apply Permutation_rev|]. split; [|split; [exact D|]].
  - intro E. rewrite E in D. vm_compute in D. discriminate.
  - split; vm_compute; reflexivity.
Qed.

(** Beyond the safe integers whole amounts are not added exactly
    either: the debits [2 ^ 53 - 1], 1, 1 and 1 add up to
    9007199254740992 in this order and to 9007199254740994 in the
    opposite order. *)
Example calculateStats_beyond_safe_integers :
  Ledger.totalDebits (Ledger.calculateStats Samples.beyond_safe)
  = 9007199254740992%float
  /\ Ledger.totalDebits (Ledger.calculateStats (rev Samples.beyond_safe))
     = 9007199254740994%float
  /\ Sums.magnitude Sums.whole_amount Samples.beyond_safe
     = (Binary64.MAX_SAFE_INTEGER + 3)%Z.
Proof. repeat split; vm_compute; reflexivity. Qed.

(** ** Item statistics *)

Lemma reduce_sum_map {N : Type} `{JsNumber N} {A} (f : A -> N) (l : list A) :
  reduce_sum f l = Sums.sum (map f l).
Proof.
  unfold reduce_sum, Sums.sum. generalize zero.
  induction l as [|x l IH]; intro start; simpl; [reflexivity | apply IH].
Qed.

Lemma nonempty_length_pos {A} (l : list A) :
  l <> [] -> (0 <? List.length l)%nat = true.
Proof. destruct l; [congruence | reflexivity]. Qed.

(** C10. On the sale items page and on the purchase items page
    [calculateStats] returns the number of items, the sum of their totals,
    and as average the sum divided by the number of items when there is
    an item and [0] when there is none: the empty list is never divided
    by, although its quotient [0 / 0] would not be [0]. *)
Theorem calculateStats_average_guarded :
  (forall (N : Type) (H : JsNumber N) (D : JsDivision N)
          (items : list (SaleItems.SaleItem N)),
      SaleItems.totalItems (SaleItems.calculateStats items) = List.length items
      /\ SaleItems.totalValue (SaleItems.calculateStats items)
         = Sums.sum (map SaleItems.total items)
      /\ (items <> [] ->
          SaleItems.avgPrice (SaleItems.calculateStats items)
          = div (Sums.sum (map SaleItems.total items))
                (of_nat (List.length items)))
      /\ (items = [] ->
          SaleItems.avgPrice (SaleItems.calculateStats items) = zero))
  /\ (forall (N : Type) (H : JsNumber N) (D : JsDivision N)
             (items : list (PurchaseItems.PurchaseItem N)),
      PurchaseItems.totalItems (PurchaseItems.calculateStats items)
      = List.length items
      /\ PurchaseItems.totalValue (PurchaseItems.calculateStats items)
         = Sums.sum (map PurchaseItems.total items)
      /\ (items <> [] ->
          PurchaseItems.avgPrice (PurchaseItems.calculateStats items)
          = div (Sums.sum (map PurchaseItems.total items))
                (of_nat (List.length items)))
      /\ (items = [] ->
          PurchaseItems.avgPrice (PurchaseItems.calculateStats items) = zero))
  /\ strict_eq (div (Sums.sum (map SaleItems.total (@nil (SaleItems.SaleItem float))))
                    (of_nat 0))
               0%float
     = false.
Proof.
  split; [|split].
  - intros N H D items.
    unfold SaleItems.calculateStats; simpl.
    rewrite reduce_sum_map. repeat split.
    + intro NE. now rewrite (nonempty_length_pos _ NE).
    + intros ->. reflexivity.
  - intros N H D items.
    unfold PurchaseItems.calculateStats; simpl.
    rewrite reduce_sum_map. repeat split.
    + intro NE. now rewrite (nonempty_length_pos _ NE).
    + intros ->. reflexivity.
  - vm_compute. reflexivity.
Qed.

Lemma calculateStats_average_guarded_witness :
  SaleItems.calculateStats Samples.saleItems
  = {| SaleItems.totalItems := 2;
       SaleItems.totalValue := 100.5%float;
       SaleItems.avgPrice := 50.25%float |}
  /\ SaleItems.avgPrice (SaleItems.calculateStats Samples.saleItems)
     = div (Sums.sum (map SaleItems.total Samples.saleItems))
           (of_nat (List.length Samples.saleItems))
  /\ PurchaseItems.avgPrice (PurchaseItems.calculateStats Samples.purchaseItems)
     = div (Sums.sum (map PurchaseItems.total Samples.purchaseItems))
           (of_nat (List.length Samples.purchaseItems))
  /\ SaleItems.avgPrice (SaleItems.calculateStats (@nil (SaleItems.SaleItem float)))
     = 0%float.
Proof.
  destruct calculateStats_average_guarded as [S [P _]].
  split; [reflexivity|]. split; [|split].
  - apply (proj1 (proj2 (proj2 (S float _ _ Samples.saleItems)))).
    discriminate.
  - apply (proj1 (proj2 (proj2 (P float _ _ Samples.purchaseItems)))).
    discriminate.
  - exact (proj2 (proj2 (proj2 (S float _ _ []))) eq_refl).
Defined.

(** ** Line totals *)

Section LineTotals.
Context {N : Type} `{JsNumber N}.

(** In every number model the total effect leaves in the form the
    product it computed, or a total that is [===] to it. *)
Lemma recomputeTotal_stores (form : SaleItems.Form N) :
  exists t,
    SaleItems.f_total (SaleItems.recomputeTotal form) = Some t
    /\ (t = SaleItems.lineTotal form
        \/ strict_eq t (SaleItems.lineTotal form) = true).
Proof.
  unfold SaleItems.recomputeTotal, SaleItems.total_differs.
  destruct (SaleItems.f_total form) as [t|] eqn:T; simpl.
  - destruct (strict_eq t (SaleItems.lineTotal form)) eqn:E; simpl.
    + exists t. auto.
    + exists (SaleItems.lineTotal form). auto.
  - exists (SaleItems.lineTotal form). auto.
Qed.

Lemma recomputeTotal_purchase_stores (form : PurchaseItems.Form N) :
  exists t,
    PurchaseItems.f_total (PurchaseItems.recomputeTotal form) = Some t
    /\ (t = PurchaseItems.lineTotal form
        \/ strict_eq t (PurchaseItems.lineTotal form) = true).
Proof.
  unfold PurchaseItems.recomputeTotal, SaleItems.total_differs.
  destruct (PurchaseItems.f_total form) as [t|] eqn:T; simpl.
  - destruct (strict_eq t (PurchaseItems.lineTotal form)) eqn:E; simpl.
    + exists t. auto.
    + exists (PurchaseItems.lineTotal form). auto.
  - exists (PurchaseItems.lineTotal form). auto.
Qed.

Context `{!ExactNumber N}.

Lemma number_or_zero_exact (a : N) : number_or_zero (Some a) = a.
Proof.
  simpl. destruct (truthy a) eqn:T; [reflexivity|].
  symmetry. now apply falsy_zero.
Qed.

Lemma recomputeTotal_exact (form : SaleItems.Form N) :
  SaleItems.f_total (SaleItems.recomputeTotal form)
  = Some (SaleItems.lineTotal form).
Proof.
  destruct (recomputeTotal_stores form) as [t [E [->|S]]]; [exact E|].
  apply strict_eq_true in S. now rewrite E, S.
Qed.

Lemma recomputeTotal_purchase_exact (form : PurchaseItems.Form N) :
  PurchaseItems.f_total (PurchaseItems.recomputeTotal form)
  = Some (PurchaseItems.lineTotal form).
Proof.
  destruct (recomputeTotal_purchase_stores form) as [t [E [->|S]]];
    [exact E|].
  apply strict_eq_true in S. now rewrite E, S.
Qed.

Lemma lineTotal_exact :
  (forall form : SaleItems.Form N,
      SaleItems.f_total (SaleItems.recomputeTotal form)
      = Some (mul (number_or_zero (SaleItems.f_quantity form))
                  (number_or_zero (SaleItems.f_price form))))
  /\ (forall form : PurchaseItems.Form N,
      PurchaseItems.f_total (PurchaseItems.recomputeTotal form)
      = Some (mul (number_or_zero (PurchaseItems.f_quantity form))
                  (number_or_zero (PurchaseItems.f_price form))))
  /\ number_or_zero (@None N) = zero
  /\ (forall a : N, number_or_zero (Some a) = a)
  /\ (forall form : SaleItems.Form N,
         SaleItems.f_quantity form = Some zero
         \/ SaleItems.f_quantity form = None ->
         SaleItems.f_total (SaleItems.recomputeTotal form) = Some zero)
  /\ (forall form : PurchaseItems.Form N,
         PurchaseItems.f_quantity form = Some zero
         \/ PurchaseItems.f_quantity form = None ->
         PurchaseItems.f_total (PurchaseItems.recomputeTotal form) = Some zero).
Proof.
  split; [exact recomputeTotal_exact|].
  split; [exact recomputeTotal_purchase_exact|].
  split; [reflexivity|].
  split; [exact number_or_zero_exact|].
  split.
  - intros form Q. rewrite recomputeTotal_exact.
    unfold SaleItems.lineTotal; cbv zeta.
    destruct Q as [-> | ->]; [rewrite number_or_zero_exact | simpl];
      now rewrite mul_zero_l.
  - intros form Q. rewrite recomputeTotal_purchase_exact.
    unfold PurchaseItems.lineTotal; cbv zeta.
    destruct Q as [-> | ->]; [rewrite number_or_zero_exact | simpl];
      now rewrite mul_zero_l.
Qed.

End LineTotals.

(** C4, amended. The total effect computes [quantity * price] after
    replacing a missing or non-numeric input by [0], and leaves that
    product in the form (or a stored total that is [===] to it).
    - In exact arithmetic the stored total is [quantity * price], and it
      is [0] whenever the quantity is [0] or missing, whatever the price.
    - On binary64 numbers the product computed for inputs that are
      numbers is the same value as [quantity * price], [NaN] counts as
      [0], and the product is [0] whenever the quantity is [0], missing
      or [NaN] and the price is not infinite.  With such a quantity and
      an infinite price the product is [NaN], which is not [0]. *)
Theorem lineTotal_is_product :
  (forall (N : Type) (H : JsNumber N) (E : ExactNumber N),
      (forall form : SaleItems.Form N,
          SaleItems.f_total (SaleItems.recomputeTotal form)
          = Some (mul (number_or_zero (SaleItems.f_quantity form))
                      (number_or_zero (SaleItems.f_price form))))
      /\ (forall form : PurchaseItems.Form N,
          PurchaseItems.f_total (PurchaseItems.recomputeTotal form)
          = Some (mul (number_or_zero (PurchaseItems.f_quantity form))
                      (number_or_zero (PurchaseItems.f_price form))))
      /\ number_or_zero (@None N) = zero
      /\ (forall a : N, number_or_zero (Some a) = a)
      /\ (forall form : SaleItems.Form N,
             SaleItems.f_quantity form = Some zero
             \/ SaleItems.f_quantity form = None ->
             SaleItems.f_total (SaleItems.recomputeTotal form) = Some zero)
      /\ (forall form : PurchaseItems.Form N,
             PurchaseItems.f_quantity form = Some zero
             \/ PurchaseItems.f_quantity form = None ->
             PurchaseItems.f_total (PurchaseItems.recomputeTotal form)
             = Some zero))
  /\ (forall (N : Type) (H : JsNumber N) (form : SaleItems.Form N),
         SaleItems.lineTotal form
         = mul (number_or_zero (SaleItems.f_quantity form))
               (number_or_zero (SaleItems.f_price form))
         /\ exists t,
             SaleItems.f_total (SaleItems.recomputeTotal form) = Some t
             /\ (t = SaleItems.lineTotal form
                 \/ strict_eq t (SaleItems.lineTotal form) = true))
  /\ (forall (N : Type) (H : JsNumber N) (form : PurchaseItems.Form N),
         PurchaseItems.lineTotal form
         = mul (number_or_zero (PurchaseItems.f_quantity form))
               (number_or_zero (PurchaseItems.f_price form))
         /\ exists t,
             PurchaseItems.f_total (PurchaseItems.recomputeTotal form) = Some t
             /\ (t = PurchaseItems.lineTotal form
                 \/ strict_eq t (PurchaseItems.lineTotal form) = true))
  /\ number_or_zero (@None float) = 0%float
  /\ number_or_zero (Some nan) = 0%float
  /\ (forall q p : float,
         is_nan q = false -> is_nan p = false ->
         Binary64.same_value_zero
           (mul (number_or_zero (Some q)) (number_or_zero (Some p)))
           (q * p)%float)
  /\ (forall q p : option float,
         Binary64.zero_like q -> Binary64.not_infinite p ->
         strict_eq (mul (number_or_zero q) (number_or_zero p)) 0%float = true)
  /\ (forall (q : option float) (p : float),
         Binary64.zero_like q -> is_infinity p = true ->
         is_nan (mul (number_or_zero q) (number_or_zero (Some p))) = true
         /\ strict_eq (mul (number_or_zero q) (number_or_zero (Some p)))
                      0%float
            = false).
Proof.
  split; [intros N H E; exact lineTotal_exact|].
  split; [intros N H form; split;
          [reflexivity | apply recomputeTotal_stores]|].
  split; [intros N H form; split;
          [reflexivity | apply recomputeTotal_purchase_stores]|].
  split; [reflexivity|]. split; [reflexivity|].
  split; [exact lineTotal_same_as_product_numbers|].
  split; [exact lineTotal_zero_quantity
         | exact lineTotal_zero_quantity_infinite_price].
Qed.

Lemma lineTotal_is_product_witness :
  (SaleItems.f_total
     (SaleItems.recomputeTotal
        (Samples.saleItemForm (Some 3%Z) (Some 25%Z) (Some 0%Z)))
   = Some 75%Z
   /\ SaleItems.f_total
        (SaleItems.recomputeTotal
           (Samples.saleItemForm (Some 0%Z) (Some 25%Z) (Some 75%Z)))
      = Some 0%Z)
  /\ Binary64.same_value_zero
       (mul (number_or_zero (Some 3%float)) (number_or_zero (Some 25%float)))
       (3 * 25)%float
  /\ strict_eq (mul (number_or_zero (Some 0%float))
                    (number_or_zero (Some 25%float)))
               0%float
     = true.
Proof.
  destruct lineTotal_is_product as (E & _ & _ & _ & _ & P & Q & _).
  split; [split|split].
  - exact (proj1 (E Z _ _) _).
  - refine (proj1 (proj2 (proj2 (proj2 (proj2 (E Z _ _))))) _ _).
    left. reflexivity.
  - apply P; reflexivity.
  - apply Q.
    + right. exists 0%float. split; [reflexivity | left; reflexivity].
    + right. exists 25%float. split; reflexivity.
Defined.

(** C4, as stated, fails: with quantity [0] and the price [Infinity] the
    total effect stores [NaN], which is the product [0 * Infinity] and
    is not [0]. *)
Lemma lineTotal_infinite_price_counterexample :
  SaleItems.recomputeTotal
    (Samples.saleItemForm (Some 0%float) (Some infinity) (Some 0%float))
  = Samples.saleItemForm (Some 0%float) (Some infinity) (Some nan)
  /\ SaleItems.lineTotal
       (Samples.saleItemForm (Some 0%float) (Some infinity) (Some 0%float))
     = (0 * infinity)%float
  /\ strict_eq
       (SaleItems.lineTotal
          (Samples.saleItemForm (Some 0%float) (Some infinity) (Some 0%float)))
       0%float
     = false.
Proof. repeat split; vm_compute; reflexivity. Qed.

(** The same effect on binary64 numbers: the scenario of the
    specification, a quantity that is not a number, and a missing price. *)
Example lineTotal_float :
  SaleItems.recomputeTotal
    (Samples.saleItemForm (Some 3%float) (Some 25%float) (Some 0%float))
  = Samples.saleItemForm (Some 3%float) (Some 25%float) (Some 75%float)
  /\ SaleItems.lineTotal
       (Samples.saleItemForm (Some nan) (Some 25%float) None)
     = 0%float
  /\ SaleItems.lineTotal
       (Samples.saleItemForm (Some 3%float) None None)
     = 0%float
  /\ SaleItems.lineTotal
       (Samples.saleItemForm (Some 0%float) (Some 25%float) None)
     = 0%float.
Proof. repeat split; vm_compute; reflexivity. Qed.

(** The invoice total of the purchases page, computed the same way from
    subtotal and tax: the scenario of the specification. *)
Example invoiceTotal_scenario :
  Purchases.f_total (Purchases.recomputeTotal Samples.purchaseForm)
  = Some 82.5%float.
Proof. vm_compute. reflexivity. Qed.

(** ** Validation *)

Ltac first_violation_cases :=
  repeat match goal with
         | |- context [if ?c then _ else _] => destruct c; simpl
         end;
  reflexivity.

Section Validation.
Context {N : Type} `{JsNumber N}.
Import Rules.

Lemma report_at_most_one (violation : option string) :
  (violation = None /\ report violation = (true, []))
  \/ (exists reason,
         violation = Some reason
         /\ report violation
            = (false, [toast_error "Validation Error" reason])).
Proof.
  destruct violation as [reason|]; [right; exists reason | left]; auto.
Qed.

Lemma products_validateForm (f : Products.Form N) :
  Products.validateForm f = report (first_violation product f).
Proof.
  unfold Products.validateForm, product, blank, not_positive, negative.
  simpl. first_violation_cases.
Qed.

Lemma saleItems_validateForm (f : SaleItems.Form N) :
  SaleItems.validateForm f = report (first_violation saleItem f).
Proof.
  unfold SaleItems.validateForm, saleItem, blank, unset, not_positive.
  simpl. first_violation_cases.
Qed.

Lemma purchaseItems_validateForm (f : PurchaseItems.Form N) :
  PurchaseItems.validateForm f = report (first_violation purchaseItem f).
Proof.
  unfold PurchaseItems.validateForm, purchaseItem, blank, unset, not_positive.
  simpl. first_violation_cases.
Qed.

Lemma purchases_validateForm (f : Purchases.Form N) :
  Purchases.validateForm f = report (first_violation purchase f).
Proof.
  unfold Purchases.validateForm, purchase, blank, not_positive, negative.
  simpl. first_violation_cases.
Qed.

Lemma ledger_validateForm (f : Ledger.Form N) :
  Ledger.validateForm f = report (first_violation ledgerEntry f).
Proof.
  unfold Ledger.validateForm, ledgerEntry, blank, unset, not_positive.
  simpl. first_violation_cases.
Qed.

Lemma parties_validateForm (name : string) (f : Parties.Form N) :
  Parties.validateForm name f = report (first_violation (party name) f).
Proof.
  unfold Parties.validateForm, party, blank, bad_email, truthy_negative.
  simpl. first_violation_cases.
Qed.

(** C5. Every [validateForm] goes through its rules in a fixed order and
    reports the first violated one: it either accepts and shows nothing,
    or rejects and shows the one toast of that rule.  A product form with
    a blank name is rejected for its name whatever its other fields hold;
    so is the form with an empty name and price 10. *)
Theorem validateForm_reports_first_violation :
  (forall f, Products.validateForm f = report (first_violation product f))
  /\ (forall f, SaleItems.validateForm f = report (first_violation saleItem f))
  /\ (forall f, PurchaseItems.validateForm f
                = report (first_violation purchaseItem f))
  /\ (forall f, Purchases.validateForm f = report (first_violation purchase f))
  /\ (forall f, Ledger.validateForm f = report (first_violation ledgerEntry f))
  /\ (forall f, Parties.validateCustomerForm f
                = report (first_violation (party "Customer") f))
  /\ (forall f, Parties.validateVendorForm f
                = report (first_violation (party "Vendor") f))
  /\ (forall violation,
         (violation = None /\ report violation = (true, []))
         \/ (exists reason,
                violation = Some reason
                /\ report violation
                   = (false, [toast_error "Validation Error" reason])))
  /\ (forall f : Products.Form N,
         JsString.truthy_trim (Products.f_name f) = false ->
         Products.validateForm f = reject "Product name is required.")
  /\ (forall ten : N,
         Products.validateForm (Samples.nameless_product ten)
         = (false, [toast_error "Validation Error" "Product name is required."])
         /\ first_violation (tl product) (Samples.nameless_product ten)
            = Some "Category is required.").
Proof.
  split; [exact products_validateForm|].
  split; [exact saleItems_validateForm|].
  split; [exact purchaseItems_validateForm|].
  split; [exact purchases_validateForm|].
  split; [exact ledger_validateForm|].
  split; [exact (parties_validateForm "Customer")|].
  split; [exact (parties_validateForm "Vendor")|].
  split; [exact report_at_most_one|].
  split.
  - intros f B. unfold Products.validateForm. now rewrite B.
  - intro ten. split; reflexivity.
Qed.

End Validation.

Lemma validateForm_reports_first_violation_witness :
  Products.validateForm (Samples.nameless_product 10%float)
  = reject "Product name is required."
  /\ Products.validateForm (Samples.nameless_product 10%Z)
     = reject "Product name is required.".
Proof.
  split.
  - destruct (validateForm_reports_first_violation (N := float))
      as (_ & _ & _ & _ & _ & _ & _ & _ & T & _).
    apply T. reflexivity.
  - destruct (validateForm_reports_first_violation (N := Z))
      as (_ & _ & _ & _ & _ & _ & _ & _ & T & _).
    apply T. reflexivity.
Defined.

(** ** Failed backend calls on the ledger page *)

Section FailedCalls.
Context {N : Type} `{JsNumber N}.
Import LedgerPage Failure.
Variable server : backend N.

Lemma signed_in_auth (earlier : list (request N)) (user : string) :
  signed_in server earlier user ->
  auth_failed (server earlier auth_getUser) = false
  /\ user_id_of (server earlier auth_getUser) = user.
Proof.
  intros [U E]. unfold auth_failed, user_id_of. now rewrite U, E.
Qed.

Lemma fetchLedgerEntries_fails (p : Page N) (user message : string) :
  signed_in server (requests p) user ->
  fails server (requests p ++ [auth_getUser])
        (select_all "ledger_entries" "created_at" false) message ->
  only_reported p (snd (fetchLedgerEntries server p))
                "Failed to Fetch Ledger Entries" message
                [auth_getUser; select_all "ledger_entries" "created_at" false].
Proof.
  intros S F. apply signed_in_auth in S as [A _]. unfold fails in F.
  unfold fetchLedgerEntries, fetch_begin, fetch_resume, bind, await,
    setLoading, show; simpl.
  rewrite A; simpl. rewrite F; simpl.
  unfold only_reported, same_state; simpl. rewrite <- app_assoc.
  repeat split.
Qed.

Lemma valid_form_shows_nothing (f : Ledger.Form N) :
  fst (Ledger.validateForm f) = true -> Ledger.validateForm f = (true, []).
Proof.
  rewrite ledger_validateForm.
  destruct (report_at_most_one
              (Rules.first_violation Rules.ledgerEntry f))
    as [[_ R]|[reason [_ R]]]; rewrite R; simpl; [reflexivity | discriminate].
Qed.

Lemma handleSubmit_create_fails (p : Page N) (user message : string) :
  fst (Ledger.validateForm (formData p)) = true ->
  JsString.truthy_opt (editingId p) = false ->
  signed_in server (requests p) user ->
  fails server (requests p ++ [auth_getUser])
        (insert_row "ledger_entries" (entryData_of user (formData p)))
        message ->
  only_reported p (snd (handleSubmit server p))
                "Failed to Create Ledger Entry" message
                [auth_getUser;
                 insert_row "ledger_entries" (entryData_of user (formData p))].
Proof.
  intros V E S F. apply valid_form_shows_nothing in V.
  apply signed_in_auth in S as [A U]. unfold fails in F.
  unfold handleSubmit. rewrite V.
  unfold finish_then, bind, await, setLoading, show, ret; simpl.
  rewrite A, E, U; simpl. rewrite F; simpl.
  unfold only_reported, same_state; simpl.
  rewrite app_nil_r, <- app_assoc. repeat split.
Qed.

Lemma handleSubmit_update_fails (p : Page N)
      (row_id user message : string) :
  fst (Ledger.validateForm (formData p)) = true ->
  editingId p = Some row_id ->
  JsString.truthy row_id = true ->
  signed_in server (requests p) user ->
  fails server (requests p ++ [auth_getUser])
        (update_row "ledger_entries" (entryData_of user (formData p))
                    row_id user)
        message ->
  only_reported p (snd (handleSubmit server p))
                "Failed to Update Ledger Entry" message
                [auth_getUser;
                 update_row "ledger_entries" (entryData_of user (formData p))
                            row_id user].
Proof.
  intros V E T S F. apply valid_form_shows_nothing in V.
  apply signed_in_auth in S as [A U]. unfold fails in F.
  unfold handleSubmit. rewrite V, E.
  unfold finish_then, bind, await, setLoading, show, ret; simpl.
  rewrite A, T, U; simpl. rewrite F; simpl.
  unfold only_reported, same_state; simpl.
  rewrite app_nil_r, <- app_assoc. repeat split; auto.
Qed.

Lemma handleDelete_fails (p : Page N) (row_id user message : string) :
  signed_in server (requests p) user ->
  fails server (requests p ++ [auth_getUser])
        (delete_row "ledger_entries" row_id user) message ->
  only_reported p (snd (handleDelete server row_id true p))
                "Failed to Delete Ledger Entry" message
                [auth_getUser; delete_row "ledger_entries" row_id user].
Proof.
  intros S F. apply signed_in_auth in S as [A U]. unfold fails in F.
  unfold handleDelete, finish_then, bind, await, setLoading, show, ret; simpl.
  rewrite A, U; simpl. rewrite F; simpl.
  unfold only_reported, same_state; simpl. rewrite <- app_assoc.
  repeat split.
Qed.

Lemma fetchCustomers_fails (p : Page N) (user message : string) :
  signed_in server (requests p) user ->
  fails server (requests p ++ [auth_getUser])
        (select_all "customers" "name" true) message ->
  nothing_reported p (snd (fetchCustomers server p))
                   [auth_getUser; select_all "customers" "name" true].
Proof.
  intros S F. apply signed_in_auth in S as [A _]. unfold fails in F.
  unfold fetchCustomers, bind, await, ret; simpl.
  rewrite A; simpl. rewrite F; simpl.
  unfold nothing_reported, same_state; simpl.
  rewrite <- app_assoc. repeat split.
Qed.

Lemma fetchVendors_fails (p : Page N) (user message : string) :
  signed_in server (requests p) user ->
  fails server (requests p ++ [auth_getUser])
        (select_all "vendors" "name" true) message ->
  nothing_reported p (snd (fetchVendors server p))
                   [auth_getUser; select_all "vendors" "name" true].
Proof.
  intros S F. apply signed_in_auth in S as [A _]. unfold fails in F.
  unfold fetchVendors, bind, await, ret; simpl.
  rewrite A; simpl. rewrite F; simpl.
  unfold nothing_reported, same_state; simpl.
  rewrite <- app_assoc. repeat split.
Qed.

Lemma ledger_errors_handled : errors_handled server.
Proof.
  unfold errors_handled.
  split; [exact fetchLedgerEntries_fails|].
  split; [exact handleSubmit_create_fails|].
  split; [exact handleSubmit_update_fails|].
  split; [exact handleDelete_fails|].
  split; [exact fetchCustomers_fails | exact fetchVendors_fails].
Qed.

End FailedCalls.

(** ** Failed backend calls on the other pages *)

(** *** Products page *)

Section ProductsFailedCalls.
Context {N : Type} `{JsNumber N}.
Import Products ProductsPage ProductsStore ProductsFailure.
Variable server : backend N.

Lemma products_signed_in_auth (earlier : list (request N)) (user : string) :
  signed_in server earlier user ->
  auth_failed (server earlier auth_getUser) = false
  /\ user_id_of (server earlier auth_getUser) = user.
Proof.
  intros [U E]. unfold auth_failed, user_id_of. now rewrite U, E.
Qed.

Lemma products_valid_form_shows_nothing (f : Form N) :
  fst (validateForm f) = true -> validateForm f = (true, []).
Proof.
  rewrite products_validateForm.
  destruct (report_at_most_one
              (Rules.first_violation Rules.product f))
    as [[_ R]|[reason [_ R]]]; rewrite R; simpl; [reflexivity | discriminate].
Qed.

Lemma products_fetch_fails (p : Page N) (user message : string) :
  signed_in server (requests p) user ->
  fails server (requests p ++ [auth_getUser])
        (select_all "products" "created_at" false) message ->
  only_reported p (snd (fetchProducts server p))
                "Failed to Fetch Products" message
                [auth_getUser;
                 select_all "products" "created_at" false].
Proof.
  intros S F. apply products_signed_in_auth in S as [A U]. unfold fails in F.
  unfold fetchProducts, fetch_begin, fetch_resume, bind, await, setLoading,
    show; simpl.
  rewrite A; simpl. rewrite F; simpl.
  unfold only_reported, same_state; simpl. rewrite <- app_assoc.
  repeat split.
Qed.

Lemma products_create_fails (p : Page N) (user message : string) :
  fst (validateForm (formData p)) = true ->
  JsString.truthy_opt (editingId p) = false ->
  signed_in server (requests p) user ->
  fails server (requests p ++ [auth_getUser])
        (insert_row "products" (productData_of user (formData p)))
        message ->
  only_reported p (snd (handleSubmit server p))
                "Failed to Create Product" message
                [auth_getUser;
                 insert_row "products" (productData_of user (formData p))].
Proof.
  intros V E S F. apply products_valid_form_shows_nothing in V.
  apply products_signed_in_auth in S as [A U]. unfold fails in F.
  unfold handleSubmit. rewrite V.
  unfold finish_then, bind, await, setLoading, show, ret; simpl.
  rewrite A, E, U; simpl. rewrite F; simpl.
  unfold only_reported, same_state; simpl.
  rewrite app_nil_r, <- app_assoc. repeat split.
Qed.

Lemma products_update_fails (p : Page N) (row_id user message : string) :
  fst (validateForm (formData p)) = true ->
  editingId p = Some row_id ->
  JsString.truthy row_id = true ->
  signed_in server (requests p) user ->
  fails server (requests p ++ [auth_getUser])
        (update_row "products" (productData_of user (formData p))
                    [("id", row_id); ("user_id", user)])
        message ->
  only_reported p (snd (handleSubmit server p))
                "Failed to Update Product" message
                [auth_getUser;
                 update_row "products" (productData_of user (formData p))
                            [("id", row_id); ("user_id", user)]].
Proof.
  intros V E T S F. apply products_valid_form_shows_nothing in V.
  apply products_signed_in_auth in S as [A U]. unfold fails in F.
  unfold handleSubmit. rewrite V, E.
  unfold finish_then, bind, await, setLoading, show, ret; simpl.
  rewrite A, T, U; simpl. rewrite F; simpl.
  unfold only_reported, same_state; simpl.
  rewrite app_nil_r, <- app_assoc. repeat split; auto.
Qed.

Lemma products_delete_fails (p : Page N) (row_id user message : string) :
  signed_in server (requests p) user ->
  fails server (requests p ++ [auth_getUser])
        (delete_row "products"
                    [("id", row_id); ("user_id", user)])
        message ->
  only_reported p (snd (handleDelete server row_id true p))
                "Failed to Delete Product" message
                [auth_getUser;
                 delete_row "products"
                            [("id", row_id); ("user_id", user)]].
Proof.
  intros S F. apply products_signed_in_auth in S as [A U]. unfold fails in F.
  unfold handleDelete, finish_then, bind, await, setLoading, show, ret;
    simpl.
  rewrite A, U; simpl. rewrite F; simpl.
  unfold only_reported, same_state; simpl. rewrite <- app_assoc.
  repeat split.
Qed.

Lemma products_errors_handled : errors_handled server.
Proof.
  unfold errors_handled.
  split; [exact products_fetch_fails|].
  split; [exact products_create_fails|].
  split; [exact products_update_fails | exact products_delete_fails].
Qed.

End ProductsFailedCalls.

(** *** Customers page *)

Section CustomersFailedCalls.
Context {N : Type} `{JsNumber N}.
Import Parties PartiesPage CustomersStore CustomersFailure.
Variable server : backend N.

Lemma customers_signed_in_auth (earlier : list (request N)) (user : string) :
  signed_in server earlier user ->
  auth_failed (server earlier auth_getUser) = false
  /\ user_id_of (server earlier auth_getUser) = user.
Proof.
  intros [U E]. unfold auth_failed, user_id_of. now rewrite U, E.
Qed.

Lemma customers_valid_form_shows_nothing (f : Form N) :
  fst (validateCustomerForm f) = true -> validateCustomerForm f = (true, []).
Proof.
  unfold validateCustomerForm. rewrite (parties_validateForm "Customer").
  destruct (report_at_most_one
              (Rules.first_violation (Rules.party "Customer") f))
    as [[_ R]|[reason [_ R]]]; rewrite R; simpl; [reflexivity | discriminate].
Qed.

Lemma customers_fetch_fails (p : Page N) (user message : string) :
  signed_in server (requests p) user ->
  fails server (requests p ++ [auth_getUser])
        (select_all "customers" "created_at" false) message ->
  only_reported p (snd (fetchCustomers server p))
                "Failed to Fetch Customers" message
                [auth_getUser;
                 select_all "customers" "created_at" false].
Proof.
  intros S F. apply customers_signed_in_auth in S as [A U]. unfold fails in F.
  unfold fetchCustomers, fetch_begin, fetch_resume, bind, await, setLoading,
    show; simpl.
  rewrite A; simpl. rewrite F; simpl.
  unfold only_reported, same_state; simpl. rewrite <- app_assoc.
  repeat split.
Qed.

Lemma customers_create_fails (p : Page N) (user message : string) :
  fst (validateCustomerForm (formData p)) = true ->
  JsString.truthy_opt (editingId p) = false ->
  signed_in server (requests p) user ->
  fails server (requests p ++ [auth_getUser])
        (insert_row "customers" (customerData_of user (formData p)))
        message ->
  only_reported p (snd (handleSubmit server p))
                "Failed to Create Customer" message
                [auth_getUser;
                 insert_row "customers" (customerData_of user (formData p))].
Proof.
  intros V E S F. apply customers_valid_form_shows_nothing in V.
  apply customers_signed_in_auth in S as [A U]. unfold fails in F.
  unfold handleSubmit. rewrite V.
  unfold finish_then, bind, await, setLoading, show, ret; simpl.
  rewrite A, E, U; simpl. rewrite F; simpl.
  unfold only_reported, same_state; simpl.
  rewrite app_nil_r, <- app_assoc. repeat split.
Qed.

Lemma customers_update_fails (p : Page N) (row_id user message : string) :
  fst (validateCustomerForm (formData p)) = true ->
  editingId p = Some row_id ->
  JsString.truthy row_id = true ->
  signed_in server (requests p) user ->
  fails server (requests p ++ [auth_getUser])
        (update_row "customers" (customerData_of user (formData p))
                    [("id", row_id); ("user_id", user)])
        message ->
  only_reported p (snd (handleSubmit server p))
                "Failed to Update Customer" message
                [auth_getUser;
                 update_row "customers" (customerData_of user (formData p))
                            [("id", row_id); ("user_id", user)]].
Proof.
  intros V E T S F. apply customers_valid_form_shows_nothing in V.
  apply customers_signed_in_auth in S as [A U]. unfold fails in F.
  unfold handleSubmit. rewrite V, E.
  unfold finish_then, bind, await, setLoading, show, ret; simpl.
  rewrite A, T, U; simpl. rewrite F; simpl.
  unfold only_reported, same_state; simpl.
  rewrite app_nil_r, <- app_assoc. repeat split; auto.
Qed.

Lemma customers_delete_fails (p : Page N) (row_id user message : string) :
  signed_in server (requests p) user ->
  fails server (requests p ++ [auth_getUser])
        (delete_row "customers"
                    [("id", row_id); ("user_id", user)])
        message ->
  only_reported p (snd (handleDelete server row_id true p))
                "Failed to Delete Customer" message
                [auth_getUser;
                 delete_row "customers"
                            [("id", row_id); ("user_id", user)]].
Proof.
  intros S F. apply customers_signed_in_auth in S as [A U]. unfold fails in F.
  unfold handleDelete, finish_then, bind, await, setLoading, show, ret;
    simpl.
  rewrite A, U; simpl. rewrite F; simpl.
  unfold only_reported, same_state; simpl. rewrite <- app_assoc.
  repeat split.
Qed.

Lemma customers_errors_handled : errors_handled server.
Proof.
  unfold errors_handled.
  split; [exact customers_fetch_fails|].
  split; [exact customers_create_fails|].
  split; [exact customers_update_fails | exact customers_delete_fails].
Qed.

End CustomersFailedCalls.

(** *** Vendors page *)

Section VendorsFailedCalls.
Context {N : Type} `{JsNumber N}.
Import Parties PartiesPage VendorsStore VendorsFailure.
Variable server : backend N.

Lemma vendors_signed_in_auth (earlier : list (request N)) (user : string) :
  signed_in server earlier user ->
  auth_failed (server earlier auth_getUser) = false
  /\ user_id_of (server earlier auth_getUser) = user.
Proof.
  intros [U E]. unfold auth_failed, user_id_of. now rewrite U, E.
Qed.

Lemma vendors_valid_form_shows_nothing (f : Form N) :
  fst (validateVendorForm f) = true -> validateVendorForm f = (true, []).
Proof.
  unfold validateVendorForm. rewrite (parties_validateForm "Vendor").
  destruct (report_at_most_one
              (Rules.first_violation (Rules.party "Vendor") f))
    as [[_ R]|[reason [_ R]]]; rewrite R; simpl; [reflexivity | discriminate].
Qed.

Lemma vendors_fetch_fails (p : Page N) (user message : string) :
  signed_in server (requests p) user ->
  fails server (requests p ++ [auth_getUser])
        (select_all "vendors" "created_at" false) message ->
  only_reported p (snd (fetchVendors server p))
                "Failed to Fetch Vendors" message
                [auth_getUser;
                 select_all "vendors" "created_at" false].
Proof.
  intros S F. apply vendors_signed_in_auth in S as [A U]. unfold fails in F.
  unfold fetchVendors, fetch_begin, fetch_resume, bind, await, setLoading,
    show; simpl.
  rewrite A; simpl. rewrite F; simpl.
  unfold only_reported, same_state; simpl. rewrite <- app_assoc.
  repeat split.
Qed.

Lemma vendors_create_fails (p : Page N) (user message : string) :
  fst (validateVendorForm (formData p)) = true ->
  JsString.truthy_opt (editingId p) = false ->
  signed_in server (requests p) user ->
  fails server (requests p ++ [auth_getUser])
        (insert_row "vendors" (vendorData_of user (formData p)))
        message ->
  only_reported p (snd (handleSubmit server p))
                "Failed to Create Vendor" message
                [auth_getUser;
                 insert_row "vendors" (vendorData_of user (formData p))].
Proof.
  intros V E S F. apply vendors_valid_form_shows_nothing in V.
  apply vendors_signed_in_auth in S as [A U]. unfold fails in F.
  unfold handleSubmit. rewrite V.
  unfold finish_then, bind, await, setLoading, show, ret; simpl.
  rewrite A, E, U; simpl. rewrite F; simpl.
  unfold only_reported, same_state; simpl.
  rewrite app_nil_r, <- app_assoc. repeat split.
Qed.

Lemma vendors_update_fails (p : Page N) (row_id user message : string) :
  fst (validateVendorForm (formData p)) = true ->
  editingId p = Some row_id ->
  JsString.truthy row_id = true ->
  signed_in server (requests p) user ->
  fails server (requests p ++ [auth_getUser])
        (update_row "vendors" (vendorData_of user (formData p))
                    [("id", row_id); ("user_id", user)])
        message ->
  only_reported p (snd (handleSubmit server p))
                "Failed to Update Vendor" message
                [auth_getUser;
                 update_row "vendors" (vendorData_of user (formData p))
                            [("id", row_id); ("user_id", user)]].
Proof.
  intros V E T S F. apply vendors_valid_form_shows_nothing in V.
  apply vendors_signed_in_auth in S as [A U]. unfold fails in F.
  unfold handleSubmit. rewrite V, E.
  unfold finish_then, bind, await, setLoading, show, ret; simpl.
  rewrite A, T, U; simpl. rewrite F; simpl.
  unfold only_reported, same_state; simpl.
  rewrite app_nil_r, <- app_assoc. repeat split; auto.
Qed.

Lemma vendors_delete_fails (p : Page N) (row_id user message : string) :
  signed_in server (requests p) user ->
  fails server (requests p ++ [auth_getUser])
        (delete_row "vendors"
                    [("id", row_id); ("user_id", user)])
        message ->
  only_reported p (snd (handleDelete server row_id true p))
                "Failed to Delete Vendor" message
                [auth_getUser;
                 delete_row "vendors"
                            [("id", row_id); ("user_id", user)]].
Proof.
  intros S F. apply vendors_signed_in_auth in S as [A U]. unfold fails in F.
  unfold handleDelete, finish_then, bind, await, setLoading, show, ret;
    simpl.
  rewrite A, U; simpl. rewrite F; simpl.
  unfold only_reported, same_state; simpl. rewrite <- app_assoc.
  repeat split.
Qed.

Lemma vendors_errors_handled : errors_handled server.
Proof.
  unfold errors_handled.
  split; [exact vendors_fetch_fails|].
  split; [exact vendors_create_fails|].
  split; [exact vendors_update_fails | exact vendors_delete_fails].
Qed.

End VendorsFailedCalls.

(** *** Purchases page *)

Section PurchasesFailedCalls.
Context {N : Type} `{JsNumber N}.
Import Purchases PurchasesPage PurchasesStore PurchasesFailure.
Variable server : backend N.

Lemma purchases_signed_in_auth (earlier : list (request N)) (user : string) :
  signed_in server earlier user ->
  auth_failed (server earlier auth_getUser) = false
  /\ user_id_of (server earlier auth_getUser) = user.
Proof.
  intros [U E]. unfold auth_failed, user_id_of. now rewrite U, E.
Qed.

Lemma purchases_valid_form_shows_nothing (f : Form N) :
  fst (validateForm f) = true -> validateForm f = (true, []).
Proof.
  rewrite purchases_validateForm.
  destruct (report_at_most_one
              (Rules.first_violation Rules.purchase f))
    as [[_ R]|[reason [_ R]]]; rewrite R; simpl; [reflexivity | discriminate].
Qed.

Lemma purchases_fetch_fails (p : Page N) (user message : string) :
  signed_in server (requests p) user ->
  fails server (requests p ++ [auth_getUser])
        (select_all "purchases" "created_at" false) message ->
  only_reported p (snd (fetchPurchases server p))
                "Failed to Fetch Purchases" message
                [auth_getUser;
                 select_all "purchases" "created_at" false].
Proof.
  intros S F. apply purchases_signed_in_auth in S as [A U]. unfold fails in F.
  unfold fetchPurchases, fetch_begin, fetch_resume, bind, await, setLoading,
    show; simpl.
  rewrite A; simpl. rewrite F; simpl.
  unfold only_reported, same_state; simpl. rewrite <- app_assoc.
  repeat split.
Qed.

Lemma purchases_create_fails (p : Page N) (today : string) (user message : string) :
  fst (validateForm (formData p)) = true ->
  JsString.truthy_opt (editingId p) = false ->
  signed_in server (requests p) user ->
  fails server (requests p ++ [auth_getUser])
        (insert_row "purchases" (purchaseData_of user (formData p)))
        message ->
  only_reported p (snd (handleSubmit server today p))
                "Failed to Create Purchase" message
                [auth_getUser;
                 insert_row "purchases" (purchaseData_of user (formData p))].
Proof.
  intros V E S F. apply purchases_valid_form_shows_nothing in V.
  apply purchases_signed_in_auth in S as [A U]. unfold fails in F.
  unfold handleSubmit. rewrite V.
  unfold finish_then, bind, await, setLoading, show, ret; simpl.
  rewrite A, E, U; simpl. rewrite F; simpl.
  unfold only_reported, same_state; simpl.
  rewrite app_nil_r, <- app_assoc. repeat split.
Qed.

Lemma purchases_update_fails (p : Page N) (today : string) (row_id user message : string) :
  fst (validateForm (formData p)) = true ->
  editingId p = Some row_id ->
  JsString.truthy row_id = true ->
  signed_in server (requests p) user ->
  fails server (requests p ++ [auth_getUser])
        (update_row "purchases" (purchaseData_of user (formData p))
                    [("id", row_id); ("user_id", user)])
        message ->
  only_reported p (snd (handleSubmit server today p))
                "Failed to Update Purchase" message
                [auth_getUser;
                 update_row "purchases" (purchaseData_of user (formData p))
                            [("id", row_id); ("user_id", user)]].
Proof.
  intros V E T S F. apply purchases_valid_form_shows_nothing in V.
  apply purchases_signed_in_auth in S as [A U]. unfold fails in F.
  unfold handleSubmit. rewrite V, E.
  unfold finish_then, bind, await, setLoading, show, ret; simpl.
  rewrite A, T, U; simpl. rewrite F; simpl.
  unfold only_reported, same_state; simpl.
  rewrite app_nil_r, <- app_assoc. repeat split; auto.
Qed.

Lemma purchases_delete_fails (p : Page N) (row_id user message : string) :
  signed_in server (requests p) user ->
  fails server (requests p ++ [auth_getUser])
        (delete_row "purchases"
                    [("id", row_id); ("user_id", user)])
        message ->
  only_reported p (snd (handleDelete server row_id true p))
                "Failed to Delete Purchase" message
                [auth_getUser;
                 delete_row "purchases"
                            [("id", row_id); ("user_id", user)]].
Proof.
  intros S F. apply purchases_signed_in_auth in S as [A U]. unfold fails in F.
  unfold handleDelete, finish_then, bind, await, setLoading, show, ret;
    simpl.
  rewrite A, U; simpl. rewrite F; simpl.
  unfold only_reported, same_state; simpl. rewrite <- app_assoc.
  repeat split.
Qed.

Lemma purchases_fetchVendors_fails (p : Page N) (user message : string) :
  signed_in server (requests p) user ->
  fails server (requests p ++ [auth_getUser])
        (select_all "vendors" "name" true) message ->
  nothing_reported p (snd (fetchVendors server p))
                   [auth_getUser;
                    select_all "vendors" "name" true].
Proof.
  intros S F. apply purchases_signed_in_auth in S as [A U]. unfold fails in F.
  unfold fetchVendors, bind, await, ret; simpl.
  rewrite A; simpl. rewrite F; simpl.
  unfold nothing_reported, same_state; simpl.
  rewrite <- app_assoc. repeat split.
Qed.

Lemma purchases_errors_handled : errors_handled server.
Proof.
  unfold errors_handled.
  split; [exact purchases_fetch_fails|].
  split; [exact purchases_create_fails|].
  split; [exact purchases_update_fails|].
  split; [exact purchases_delete_fails | exact purchases_fetchVendors_fails].
Qed.

End PurchasesFailedCalls.

(** *** Sale items page *)

Section SaleItemsFailedCalls.
Context {N : Type} `{JsNumber N} `{!JsOne N}.
Import SaleItems SaleItemsPage SaleItemsStore SaleItemsFailure.
Variable server : backend N.

Lemma saleItems_signed_in_auth (earlier : list (request N)) (user : string) :
  signed_in server earlier user ->
  auth_failed (server earlier auth_getUser) = false.
Proof.
  intros [U E]. unfold auth_failed. now rewrite U, E.
Qed.

Lemma saleItems_valid_form_shows_nothing (f : Form N) :
  fst (validateForm f) = true -> validateForm f = (true, []).
Proof.
  rewrite saleItems_validateForm.
  destruct (report_at_most_one
              (Rules.first_violation Rules.saleItem f))
    as [[_ R]|[reason [_ R]]]; rewrite R; simpl; [reflexivity | discriminate].
Qed.

Lemma saleItems_fetch_fails (p : Page N) (user message : string) :
  signed_in server (requests p) user ->
  fails server (requests p ++ [auth_getUser])
        (select_all "sale_items" "created_at" false) message ->
  only_reported p (snd (fetchSaleItems server p))
                "Failed to Fetch Sale Items" message
                [auth_getUser;
                 select_all "sale_items" "created_at" false].
Proof.
  intros S F. apply saleItems_signed_in_auth in S as A. unfold fails in F.
  unfold fetchSaleItems, fetch_begin, fetch_resume, bind, await, setLoading,
    show; simpl.
  rewrite A; simpl. rewrite F; simpl.
  unfold only_reported, same_state; simpl. rewrite <- app_assoc.
  repeat split.
Qed.

Lemma saleItems_create_fails (p : Page N) (user message : string) :
  fst (validateForm (formData p)) = true ->
  JsString.truthy_opt (editingId p) = false ->
  signed_in server (requests p) user ->
  fails server (requests p ++ [auth_getUser])
        (insert_row "sale_items" (itemData_of (formData p)))
        message ->
  only_reported p (snd (handleSubmit server p))
                "Failed to Create Sale Item" message
                [auth_getUser;
                 insert_row "sale_items" (itemData_of (formData p))].
Proof.
  intros V E S F. apply saleItems_valid_form_shows_nothing in V.
  apply saleItems_signed_in_auth in S as A. unfold fails in F.
  unfold handleSubmit. rewrite V.
  unfold finish_then, bind, await, setLoading, show, ret; simpl.
  rewrite A, E; simpl. rewrite F; simpl.
  unfold only_reported, same_state; simpl.
  rewrite app_nil_r, <- app_assoc. repeat split.
Qed.

Lemma saleItems_update_fails (p : Page N) (row_id user message : string) :
  fst (validateForm (formData p)) = true ->
  editingId p = Some row_id ->
  JsString.truthy row_id = true ->
  signed_in server (requests p) user ->
  fails server (requests p ++ [auth_getUser])
        (update_row "sale_items" (itemData_of (formData p))
                    [("id", row_id)])
        message ->
  only_reported p (snd (handleSubmit server p))
                "Failed to Update Sale Item" message
                [auth_getUser;
                 update_row "sale_items" (itemData_of (formData p))
                            [("id", row_id)]].
Proof.
  intros V E T S F. apply saleItems_valid_form_shows_nothing in V.
  apply saleItems_signed_in_auth in S as A. unfold fails in F.
  unfold handleSubmit. rewrite V, E.
  unfold finish_then, bind, await, setLoading, show, ret; simpl.
  rewrite A, T; simpl. rewrite F; simpl.
  unfold only_reported, same_state; simpl.
  rewrite app_nil_r, <- app_assoc. repeat split; auto.
Qed.

Lemma saleItems_delete_fails (p : Page N) (row_id user message : string) :
  signed_in server (requests p) user ->
  fails server (requests p ++ [auth_getUser])
        (delete_row "sale_items"
                    [("id", row_id)])
        message ->
  only_reported p (snd (handleDelete server row_id true p))
                "Failed to Delete Sale Item" message
                [auth_getUser;
                 delete_row "sale_items"
                            [("id", row_id)]].
Proof.
  intros S F. apply saleItems_signed_in_auth in S as A. unfold fails in F.
  unfold handleDelete, finish_then, bind, await, setLoading, show, ret;
    simpl.
  rewrite A; simpl. rewrite F; simpl.
  unfold only_reported, same_state; simpl. rewrite <- app_assoc.
  repeat split.
Qed.

Lemma saleItems_fetchSales_fails (p : Page N) (user message : string) :
  signed_in server (requests p) user ->
  fails server (requests p ++ [auth_getUser])
        (select_all "sales" "created_at" false) message ->
  nothing_reported p (snd (fetchSales server p))
                   [auth_getUser;
                    select_all "sales" "created_at" false].
Proof.
  intros S F. apply saleItems_signed_in_auth in S as A. unfold fails in F.
  unfold fetchSales, bind, await, ret; simpl.
  rewrite A; simpl. rewrite F; simpl.
  unfold nothing_reported, same_state; simpl.
  rewrite <- app_assoc. repeat split.
Qed.

Lemma saleItems_fetchProducts_fails (p : Page N) (user message : string) :
  signed_in server (requests p) user ->
  fails server (requests p ++ [auth_getUser])
        (select_all "products" "name" true) message ->
  nothing_reported p (snd (fetchProducts server p))
                   [auth_getUser;
                    select_all "products" "name" true].
Proof.
  intros S F. apply saleItems_signed_in_auth in S as A. unfold fails in F.
  unfold fetchProducts, bind, await, ret; simpl.
  rewrite A; simpl. rewrite F; simpl.
  unfold nothing_reported, same_state; simpl.
  rewrite <- app_assoc. repeat split.
Qed.

Lemma saleItems_errors_handled : errors_handled server.
Proof.
  unfold errors_handled.
  split; [exact saleItems_fetch_fails|].
  split; [exact saleItems_create_fails|].
  split; [exact saleItems_update_fails|].
  split; [exact saleItems_delete_fails|].
  split; [exact saleItems_fetchSales_fails | exact saleItems_fetchProducts_fails].
Qed.

End SaleItemsFailedCalls.

(** *** Purchase items page *)

Section PurchaseItemsFailedCalls.
Context {N : Type} `{JsNumber N} `{!JsOne N}.
Import PurchaseItems PurchaseItemsPage PurchaseItemsStore PurchaseItemsFailure.
Variable server : backend N.

Lemma purchaseItems_signed_in_auth (earlier : list (request N)) (user : string) :
  signed_in server earlier user ->
  auth_failed (server earlier auth_getUser) = false.
Proof.
  intros [U E]. unfold auth_failed. now rewrite U, E.
Qed.

Lemma purchaseItems_valid_form_shows_nothing (f : Form N) :
  fst (validateForm f) = true -> validateForm f = (true, []).
Proof.
  rewrite purchaseItems_validateForm.
  destruct (report_at_most_one
              (Rules.first_violation Rules.purchaseItem f))
    as [[_ R]|[reason [_ R]]]; rewrite R; simpl; [reflexivity | discriminate].
Qed.

Lemma purchaseItems_fetch_fails (p : Page N) (user message : string) :
  signed_in server (requests p) user ->
  fails server (requests p ++ [auth_getUser])
        (select_all "purchase_items" "created_at" false) message ->
  only_reported p (snd (fetchPurchaseItems server p))
                "Failed to Fetch Purchase Items" message
                [auth_getUser;
                 select_all "purchase_items" "created_at" false].
Proof.
  intros S F. apply purchaseItems_signed_in_auth in S as A. unfold fails in F.
  unfold fetchPurchaseItems, fetch_begin, fetch_resume, bind, await, setLoading,
    show; simpl.
  rewrite A; simpl. rewrite F; simpl.
  unfold only_reported, same_state; simpl. rewrite <- app_assoc.
  repeat split.
Qed.

Lemma purchaseItems_create_fails (p : Page N) (user message : string) :
  fst (validateForm (formData p)) = true ->
  JsString.truthy_opt (editingId p) = false ->
  signed_in server (requests p) user ->
  fails server (requests p ++ [auth_getUser])
        (insert_row "purchase_items" (itemData_of (formData p)))
        message ->
  only_reported p (snd (handleSubmit server p))
                "Failed to Create Purchase Item" message
                [auth_getUser;
                 insert_row "purchase_items" (itemData_of (formData p))].
Proof.
  intros V E S F. apply purchaseItems_valid_form_shows_nothing in V.
  apply purchaseItems_signed_in_auth in S as A. unfold fails in F.
  unfold handleSubmit. rewrite V.
  unfold finish_then, bind, await, setLoading, show, ret; simpl.
  rewrite A, E; simpl. rewrite F; simpl.
  unfold only_reported, same_state; simpl.
  rewrite app_nil_r, <- app_assoc. repeat split.
Qed.

Lemma purchaseItems_update_fails (p : Page N) (row_id user message : string) :
  fst (validateForm (formData p)) = true ->
  editingId p = Some row_id ->
  JsString.truthy row_id = true ->
  signed_in server (requests p) user ->
  fails server (requests p ++ [auth_getUser])
        (update_row "purchase_items" (itemData_of (formData p))
                    [("id", row_id)])
        message ->
  only_reported p (snd (handleSubmit server p))
                "Failed to Update Purchase Item" message
                [auth_getUser;
                 update_row "purchase_items" (itemData_of (formData p))
                            [("id", row_id)]].
Proof.
  intros V E T S F. apply purchaseItems_valid_form_shows_nothing in V.
  apply purchaseItems_signed_in_auth in S as A. unfold fails in F.
  unfold handleSubmit. rewrite V, E.
  unfold finish_then, bind, await, setLoading, show, ret; simpl.
  rewrite A, T; simpl. rewrite F; simpl.
  unfold only_reported, same_state; simpl.
  rewrite app_nil_r, <- app_assoc. repeat split; auto.
Qed.

Lemma purchaseItems_delete_fails (p : Page N) (row_id user message : string) :
  signed_in server (requests p) user ->
  fails server (requests p ++ [auth_getUser])
        (delete_row "purchase_items"
                    [("id", row_id)])
        message ->
  only_reported p (snd (handleDelete server row_id true p))
                "Failed to Delete Purchase Item" message
                [auth_getUser;
                 delete_row "purchase_items"
                            [("id", row_id)]].
Proof.
  intros S F. apply purchaseItems_signed_in_auth in S as A. unfold fails in F.
  unfold handleDelete, finish_then, bind, await, setLoading, show, ret;
    simpl.
  rewrite A; simpl. rewrite F; simpl.
  unfold only_reported, same_state; simpl. rewrite <- app_assoc.
  repeat split.
Qed.

Lemma purchaseItems_fetchPurchases_fails (p : Page N) (user message : string) :
  signed_in server (requests p) user ->
  fails server (requests p ++ [auth_getUser])
        (select_all "purchases" "created_at" false) message ->
  nothing_reported p (snd (fetchPurchases server p))
                   [auth_getUser;
                    select_all "purchases" "created_at" false].
Proof.
  intros S F. apply purchaseItems_signed_in_auth in S as A. unfold fails in F.
  unfold fetchPurchases, bind, await, ret; simpl.
  rewrite A; simpl. rewrite F; simpl.
  unfold nothing_reported, same_state; simpl.
  rewrite <- app_assoc. repeat split.
Qed.

Lemma purchaseItems_fetchProducts_fails (p : Page N) (user message : string) :
  signed_in server (requests p) user ->
  fails server (requests p ++ [auth_getUser])
        (select_all "products" "name" true) message ->
  nothing_reported p (snd (fetchProducts server p))
                   [auth_getUser;
                    select_all "products" "name" true].
Proof.
  intros S F. apply purchaseItems_signed_in_auth in S as A. unfold fails in F.
  unfold fetchProducts, bind, await, ret; simpl.
  rewrite A; simpl. rewrite F; simpl.
  unfold nothing_reported, same_state; simpl.
  rewrite <- app_assoc. repeat split.
Qed.

Lemma purchaseItems_errors_handled : errors_handled server.
Proof.
  unfold errors_handled.
  split; [exact purchaseItems_fetch_fails|].
  split; [exact purchaseItems_create_fails|].
  split; [exact purchaseItems_update_fails|].
  split; [exact purchaseItems_delete_fails|].
  split; [exact purchaseItems_fetchPurchases_fails | exact purchaseItems_fetchProducts_fails].
Qed.

End PurchaseItemsFailedCalls.

(** C8, amended. On each of the seven pages (ledger, products,
    customers, vendors, purchases, sale items, purchase items), when the
    backend answers the fetch of the records of the page, the insert, the
    update or the delete with an error, the operation leaves the list of
    records, the selection lists, the form and the editing id as they
    were, shows the one error toast carrying the message of the backend,
    and has made the failing call exactly once: there is no second
    attempt.  The fetches that fill the selection lists (the customers
    and vendors of the ledger page, the vendors of the purchases page,
    the sales or purchases and the products of the two item pages) leave
    the state as it was and make their call once as well, but they show
    nothing. *)
Theorem failed_call_keeps_state :
  (forall (N : Type) (H : JsNumber N) (server : LedgerPage.backend N),
      Failure.errors_handled server)
  /\ (forall (N : Type) (H : JsNumber N) (server : ProductsStore.backend N),
         ProductsFailure.errors_handled server)
  /\ (forall (N : Type) (H : JsNumber N) (server : CustomersStore.backend N),
         CustomersFailure.errors_handled server)
  /\ (forall (N : Type) (H : JsNumber N) (server : VendorsStore.backend N),
         VendorsFailure.errors_handled server)
  /\ (forall (N : Type) (H : JsNumber N) (server : PurchasesStore.backend N),
         PurchasesFailure.errors_handled server)
  /\ (forall (N : Type) (H : JsNumber N) (J : JsOne N)
             (server : SaleItemsStore.backend N),
         SaleItemsFailure.errors_handled server)
  /\ (forall (N : Type) (H : JsNumber N) (J : JsOne N)
             (server : PurchaseItemsStore.backend N),
         PurchaseItemsFailure.errors_handled server).
Proof.
  split; [intros N H server; apply ledger_errors_handled|].
  split; [intros N H server; apply products_errors_handled|].
  split; [intros N H server; apply customers_errors_handled|].
  split; [intros N H server; apply vendors_errors_handled|].
  split; [intros N H server; apply purchases_errors_handled|].
  split; [intros N H J server; apply saleItems_errors_handled
         | intros N H J server; apply purchaseItems_errors_handled].
Qed.

Lemma failed_call_keeps_state_witness :
  Failure.only_reported
    (Samples.ledgerPage None)
    (snd (LedgerPage.fetchLedgerEntries Samples.failing_backend
                                        (Samples.ledgerPage None)))
    "Failed to Fetch Ledger Entries" "connection lost"
    [LedgerPage.auth_getUser;
     LedgerPage.select_all "ledger_entries" "created_at" false]
  /\ Failure.only_reported
       (Samples.ledgerPage None)
       (snd (LedgerPage.handleSubmit Samples.failing_backend
                                     (Samples.ledgerPage None)))
       "Failed to Create Ledger Entry" "connection lost"
       [LedgerPage.auth_getUser;
        LedgerPage.insert_row "ledger_entries"
          (LedgerPage.entryData_of "user-1" Samples.ledgerForm)]
  /\ Failure.only_reported
       (Samples.ledgerPage (Some "entry"))
       (snd (LedgerPage.handleSubmit Samples.failing_backend
                                     (Samples.ledgerPage (Some "entry"))))
       "Failed to Update Ledger Entry" "connection lost"
       [LedgerPage.auth_getUser;
        LedgerPage.update_row "ledger_entries"
          (LedgerPage.entryData_of "user-1" Samples.ledgerForm)
          "entry" "user-1"]
  /\ Failure.only_reported
       (Samples.ledgerPage None)
       (snd (LedgerPage.handleDelete Samples.failing_backend "entry" true
                                     (Samples.ledgerPage None)))
       "Failed to Delete Ledger Entry" "connection lost"
       [LedgerPage.auth_getUser;
        LedgerPage.delete_row "ledger_entries" "entry" "user-1"]
  /\ SaleItemsFailure.only_reported
       ItemScenarios.editing_page
       (snd (SaleItemsStore.handleSubmit ItemScenarios.failing_backend
                                         ItemScenarios.editing_page))
       "Failed to Update Sale Item" "connection lost"
       [SaleItemsStore.auth_getUser;
        SaleItemsStore.update_row "sale_items"
          (SaleItemsPage.itemData_of
             (SaleItemsStore.formData ItemScenarios.editing_page))
          [("id", "row-7")]]
  /\ SaleItemsFailure.nothing_reported
       ItemScenarios.editing_page
       (snd (SaleItemsStore.fetchSales ItemScenarios.failing_backend
                                       ItemScenarios.editing_page))
       [SaleItemsStore.auth_getUser;
        SaleItemsStore.select_all "sales" "created_at" false].
Proof.
  destruct failed_call_keeps_state as (L & _ & _ & _ & _ & I & _).
  destruct (L Z _ Samples.failing_backend) as (F & C & U & D & _).
  destruct (I Z _ _ ItemScenarios.failing_backend)
    as (_ & _ & IU & _ & IS & _).
  split; [|split; [|split; [|split; [|split]]]].
  - apply (F (Samples.ledgerPage None) "user-1" "connection lost");
      [split|]; reflexivity.
  - apply (C (Samples.ledgerPage None) "user-1" "connection lost");
      [reflexivity | reflexivity | split; reflexivity | reflexivity].
  - apply (U (Samples.ledgerPage (Some "entry")) "entry" "user-1"
             "connection lost");
      [reflexivity | reflexivity | reflexivity | split; reflexivity
      | reflexivity].
  - apply (D (Samples.ledgerPage None) "entry" "user-1" "connection lost");
      [split|]; reflexivity.
  - apply (IU ItemScenarios.editing_page "row-7" "alice" "connection lost");
      [reflexivity | reflexivity | reflexivity | split; reflexivity
      | reflexivity].
  - apply (IS ItemScenarios.editing_page "alice" "connection lost");
      [split|]; reflexivity.
Defined.

(** C8, as stated, fails for the fetches that fill the selection lists:
    the backend answers the fetch of the customers with an error, and the
    page shows no notification at all. *)
Lemma failed_fetchCustomers_counterexample :
  Failure.signed_in Samples.failing_backend [] "user-1"
  /\ Failure.fails Samples.failing_backend [LedgerPage.auth_getUser]
                   (LedgerPage.select_all "customers" "name" true)
                   "connection lost"
  /\ LedgerPage.toasts
       (snd (LedgerPage.fetchCustomers Samples.failing_backend
                                       (Samples.ledgerPage None)))
     = []
  /\ LedgerPage.requests
       (snd (LedgerPage.fetchCustomers Samples.failing_backend
                                       (Samples.ledgerPage None)))
     = [LedgerPage.auth_getUser;
        LedgerPage.select_all "customers" "name" true]
  /\ (forall title message calls,
         ~ Failure.only_reported
             (Samples.ledgerPage None)
             (snd (LedgerPage.fetchCustomers Samples.failing_backend
                                             (Samples.ledgerPage None)))
             title message calls).
Proof.
  split; [split; reflexivity|]. split; [reflexivity|].
  split; [reflexivity|]. split; [reflexivity|].
  intros title message calls (_ & T & _). discriminate T.
Qed.

(** * Further properties of the pages *)

(** ** Strings and lists *)

Lemma truthy_or_default (o : option string) (d : string) :
  JsString.truthy_opt o = true ->
  o = Some (JsString.or_default o d) /\ JsString.or_default o d <> "".
Proof.
  destruct o as [s|]; simpl; [|discriminate].
  intros T. rewrite T. split; [reflexivity|].
  intros E. rewrite E in T. discriminate.
Qed.

Lemma truthy_not_empty (s : string) : JsString.truthy s = true <-> s <> "".
Proof.
  unfold JsString.truthy. rewrite negb_true_iff, String.eqb_neq. tauto.
Qed.

Lemma filter_length_le {A} (f g : A -> bool) (l : list A) :
  (forall x, In x l -> f x = true -> g x = true) ->
  (List.length (filter f l) <= List.length (filter g l))%nat.
Proof.
  induction l as [|x l IH]; simpl; intros I; [lia|].
  assert (IH' := IH (fun y Y => I y (or_intror Y))).
  destruct (f x) eqn:F; simpl.
  - rewrite (I x (or_introl eq_refl) F). simpl. lia.
  - destruct (g x); simpl; lia.
Qed.

Lemma find_id_some {A} (key : A -> string) (i : string) (l : list A) (x : A) :
  find (fun y => key y =? i) l = Some x -> In x l /\ key x = i.
Proof.
  intros F. apply find_some in F as [I E]. now apply String.eqb_eq in E.
Qed.

Lemma find_id_none {A} (key : A -> string) (i : string) (l : list A) :
  find (fun y => key y =? i) l = None -> forall x, In x l -> key x <> i.
Proof.
  intros F x I. apply (find_none _ _ F) in I. now apply String.eqb_neq.
Qed.

Lemma or_null_or_default_id (o : option string) :
  Stored.tidy_id o -> JsString.or_null (Some (JsString.or_default o "")) = o.
Proof.
  unfold Stored.tidy_id. destruct o as [s|]; simpl; [|reflexivity].
  destruct (JsString.truthy s) eqn:T; simpl; [now rewrite T|].
  intros E. exfalso. apply E. f_equal.
  apply negb_false_iff, String.eqb_eq in T. exact T.
Qed.

Lemma or_null_or_default_text (o : option string) :
  Stored.tidy_text o ->
  JsString.or_null (JsString.trim_opt (Some (JsString.or_default o ""))) = o.
Proof.
  unfold Stored.tidy_text. destruct o as [s|]; simpl; [|reflexivity].
  intros T. destruct (T s eq_refl) as [E R].
  apply truthy_not_empty in E. rewrite E, R; simpl. now rewrite E.
Qed.

Section Substrings.
Import Substrings.

Lemma prefix_append (t s : string) :
  prefix t s = true <-> exists after, s = t ++ after.
Proof.
  revert s. induction t as [|c t IH]; intros s; simpl.
  - split; [now exists s | now destruct s].
  - destruct s as [|d s]; [split; [discriminate | intros [? ?]; discriminate]|].
    simpl. destruct (ascii_dec c d) as [->|NE].
    + rewrite IH. split; intros [a E]; exists a; congruence.
    + split; [discriminate|]. intros [a E]. congruence.
Qed.

Lemma includes_contains (s t : string) :
  JsString.includes s t = true <-> contains s t.
Proof.
  unfold contains. induction s as [|c s IH].
  - change (JsString.includes "" t) with (prefix t "" || false).
    rewrite orb_false_r, prefix_append. split.
    + intros [a E]. now exists "", a.
    + intros (b & a & E). destruct b; [now exists a | discriminate].
  - change (JsString.includes (String c s) t)
      with (prefix t (String c s) || JsString.includes s t).
    rewrite orb_true_iff, IH, (prefix_append t (String c s)). split.
    + intros [[a E]|(b & a & E)].
      * now exists "", a.
      * exists (String c b), a. simpl. now rewrite E.
    + intros (b & a & E). destruct b as [|d b]; simpl in E.
      * left. now exists a.
      * right. injection E as -> ->. now exists b, a.
Qed.

End Substrings.

(** ** Binary64 numbers: order, products and sums *)

Section Binary64Order.
Local Open Scope float_scope.

Lemma is_nan_Prim2SF (a : float) : is_nan a = false -> Prim2SF a <> S754_nan.
Proof.
  unfold is_nan. rewrite eqb_spec. intros E A. rewrite A in E. discriminate.
Qed.

(** A truthy number that is not [<= 0] is [> 0]. *)
Lemma truthy_positive (a : float) :
  truthy a = true -> le a zero = false -> (0 <? a) = true.
Proof.
  simpl. intros T L.
  apply negb_true_iff, orb_false_iff in T as [_ T].
  rewrite (leb_ltb_total a 0 (is_nan_Prim2SF a T)), L; [reflexivity|].
  rewrite Prim2SF_zero. discriminate.
Qed.

(** [Number(x) || 0] is [>= 0] for a number that is not both truthy and
    [< 0]. *)
Lemma number_or_zero_nonnegative (a : float) :
  (truthy a = true -> lt a zero = false) ->
  (0 <=? number_or_zero (Some a)) = true.
Proof.
  simpl. intros L.
  destruct (a =? 0) eqn:Z; simpl; [reflexivity|].
  destruct (is_nan a) eqn:T; simpl; [reflexivity|].
  specialize (L eq_refl).
  pose proof (leb_ltb_total 0 a) as E.
  rewrite L in E. symmetry in E. apply negb_false_iff in E; [exact E| |].
  - rewrite Prim2SF_zero. discriminate.
  - now apply is_nan_Prim2SF.
Qed.

Lemma shr_1_nonneg (mrs : shr_record) :
  (0 <= shr_m mrs)%Z -> (0 <= shr_m (shr_1 mrs))%Z.
Proof.
  destruct mrs as [m r s]. simpl.
  destruct m as [|[p|p|]|p]; simpl; lia.
Qed.

Lemma iter_shr_1_nonneg (p : positive) :
  forall mrs, (0 <= shr_m mrs)%Z -> (0 <= shr_m (iter_pos shr_1 p mrs))%Z.
Proof.
  induction p as [p IH|p IH|]; simpl; intros mrs M.
  - apply IH, IH, shr_1_nonneg, M.
  - apply IH, IH, M.
  - apply shr_1_nonneg, M.
Qed.

Lemma shr_fexp_nonneg (prec emax m e : Z) (l : location) :
  (0 <= m)%Z -> (0 <= shr_m (fst (shr_fexp prec emax m e l)))%Z.
Proof.
  intros M. unfold shr_fexp, shr.
  assert (R : (0 <= shr_m (shr_record_of_loc m l))%Z).
  { destruct l as [|[]]; exact M. }
  destruct (_ - e)%Z; simpl; [exact R | | exact R].
  now apply iter_shr_1_nonneg.
Qed.

Lemma round_nearest_even_nonneg (m : Z) (l : location) :
  (0 <= m)%Z -> (0 <= round_nearest_even m l)%Z.
Proof.
  intros M. unfold round_nearest_even.
  destruct l as [|[]]; [lia | | lia | lia].
  destruct (Z.even m); lia.
Qed.

Lemma binary_round_aux_not_nan (prec emax : Z) (s : bool) (m e : Z)
      (l : location) :
  (0 <= m)%Z -> binary_round_aux prec emax s m e l <> S754_nan.
Proof.
  intros M. unfold binary_round_aux.
  pose proof (shr_fexp_nonneg prec emax m e l M) as A.
  destruct (shr_fexp prec emax m e l) as [mrs' e']. simpl in A.
  pose proof (shr_fexp_nonneg prec emax _ e' loc_Exact
                (round_nearest_even_nonneg _ (loc_of_shr_record mrs') A)) as B.
  destruct (shr_fexp prec emax _ e' loc_Exact) as [mrs'' e'']. simpl in B.
  destruct (shr_m mrs'') as [|p|p]; [discriminate | | lia].
  destruct (_ <=? _)%Z; discriminate.
Qed.

Lemma ltb_zero_inv (x : float) :
  (0 <? x) = true ->
  Prim2SF x = S754_infinity false
  \/ exists m e, Prim2SF x = S754_finite false m e.
Proof.
  rewrite ltb_spec, Prim2SF_zero.
  destruct (Prim2SF x) as [[]|[]| |[] m e]; simpl; try discriminate; eauto.
Qed.

(** The product of two numbers above zero is a number. *)
Lemma mul_positive_not_nan (q p : float) :
  (0 <? q) = true -> (0 <? p) = true -> Prim2SF (q * p) <> S754_nan.
Proof.
  intros Q P. rewrite mul_spec. unfold SF64mul.
  destruct (ltb_zero_inv q Q) as [->|(mq & eq & ->)],
           (ltb_zero_inv p P) as [->|(mp & ep & ->)]; simpl;
    try discriminate.
  apply binary_round_aux_not_nan. lia.
Qed.

Lemma binary_normalize_not_nan (prec emax m e : Z) (szero : bool) :
  binary_normalize prec emax m e szero <> S754_nan.
Proof.
  unfold binary_normalize, binary_round.
  destruct m as [|p|p]; [discriminate | |];
    destruct (shl_align _ _ _) as [mz ez];
    apply binary_round_aux_not_nan; lia.
Qed.

Lemma leb_zero_inv (x : float) :
  (0 <=? x) = true ->
  (exists s, Prim2SF x = S754_zero s)
  \/ Prim2SF x = S754_infinity false
  \/ exists m e, Prim2SF x = S754_finite false m e.
Proof.
  rewrite leb_spec, Prim2SF_zero.
  destruct (Prim2SF x) as [s|[]| |[] m e]; simpl; try discriminate; eauto.
Qed.

(** The sum of a number above zero and a number that is not negative is
    a number. *)
Lemma add_nonnegative_not_nan (s t : float) :
  (0 <? s) = true -> (0 <=? t) = true -> Prim2SF (s + t) <> S754_nan.
Proof.
  intros S T. rewrite add_spec. unfold SF64add.
  destruct (ltb_zero_inv s S) as [->|(ms & es & ->)],
           (leb_zero_inv t T) as [[z ->]|[->|(mt & et & ->)]];
    unfold SFadd; cbv beta iota zeta; try discriminate.
  apply binary_normalize_not_nan.
Qed.

Lemma SFcompare_refl (x : spec_float) :
  x <> S754_nan -> SFcompare x x = Some Eq.
Proof.
  destruct x as [s|s| |s m e]; simpl; intros X; try congruence.
  - now destruct s.
  - rewrite Z.compare_refl, Pos.compare_cont_refl. now destruct s.
Qed.

Lemma eqb_refl_not_nan (x : float) :
  Prim2SF x <> S754_nan -> (x =? x) = true.
Proof.
  intros X. rewrite eqb_spec. unfold SFeqb. now rewrite SFcompare_refl.
Qed.

(** [Number(t) || 0] is [===] to whatever [t] is [===] to. *)
Lemma number_or_zero_strict_eq (t x : float) :
  (t =? x) = true -> (number_or_zero (Some t) =? x) = true.
Proof.
  intros E. simpl.
  destruct (t =? 0) eqn:Z; simpl.
  - apply eqb_zero_inv in Z as [s Z].
    rewrite eqb_spec, Z in E. rewrite eqb_spec, Prim2SF_zero.
    unfold SFeqb in *.
    destruct (Prim2SF x) as [sx|sx| |sx mx ex]; simpl in *;
      try reflexivity; try discriminate E; destruct sx; discriminate E.
  - destruct (is_nan t) eqn:T; simpl; [|exact E].
    unfold is_nan in T. apply negb_true_iff in T.
    rewrite eqb_spec in T, E. unfold SFeqb in *.
    destruct (Prim2SF t) as [st|st| |st mt et]; simpl in *;
      try discriminate T; try discriminate E.
    + now destruct st.
    + rewrite Z.compare_refl, Pos.compare_cont_refl in T. now destruct st.
Qed.

Lemma stored_total_strict_eq (t x : float) :
  Prim2SF x <> S754_nan ->
  t = x \/ (t =? x) = true ->
  (number_or_zero (Some t) =? x) = true.
Proof.
  intros X [->|E]; apply number_or_zero_strict_eq; [|exact E].
  now apply eqb_refl_not_nan.
Qed.

End Binary64Order.

Lemma number_or_zero_nonnegative_Z (a : Z) :
  (truthy a = true -> lt a zero = false) ->
  (0 <= number_or_zero (Some a))%Z.
Proof.
  simpl. intros L. destruct (a =? 0)%Z eqn:E; simpl; [lia|].
  specialize (L eq_refl). apply Z.ltb_ge in L. exact L.
Qed.

(** ** The e-mail pattern *)

Section RegExp.
Import JsRegExp Language.

Lemma append_eq_nil (a b : string) : a ++ b = "" -> a = "" /\ b = "".
Proof. destruct a; simpl; [auto | discriminate]. Qed.

Lemma matches_seq_inv (r1 r2 : regex) (s : string) :
  matches (Seq r1 r2) s
  <-> exists s1 s2, s = s1 ++ s2 /\ matches r1 s1 /\ matches r2 s2.
Proof.
  split.
  - intros M. inversion M; subst. eauto.
  - intros (s1 & s2 & -> & M1 & M2). now constructor.
Qed.

Lemma nullable_matches (r : regex) : nullable r = true <-> matches r "".
Proof.
  induction r as [| |p|r1 IH1 r2 IH2|r1 IH1 r2 IH2|r IH]; simpl.
  - split; [discriminate | intros M; inversion M].
  - split; [constructor | reflexivity].
  - split; [discriminate | intros M; inversion M].
  - rewrite andb_true_iff, IH1, IH2. split.
    + intros [M1 M2]. exact (matches_seq _ _ "" "" M1 M2).
    + intros M. apply matches_seq_inv in M as (s1 & s2 & E & M1 & M2).
      symmetry in E. apply append_eq_nil in E as [-> ->]. auto.
  - rewrite orb_true_iff, IH1, IH2. split.
    + intros [M|M]; [now apply matches_alt_l | now apply matches_alt_r].
    + intros M. inversion M; subst; auto.
  - split; [constructor | reflexivity].
Qed.

(** A match of [r*] against a string that is not empty starts with a
    match of [r] that is not empty. *)
Lemma matches_star_cons_inv (r : regex) (s : string) :
  matches (Star r) s ->
  forall c t, s = String c t ->
    exists s1 s2,
      t = s1 ++ s2 /\ matches r (String c s1) /\ matches (Star r) s2.
Proof.
  intros M. remember (Star r) as r' eqn:R.
  induction M as [| | | | | |r0 s1 s2 M1 _ M2 IH2]; try discriminate R.
  - intros c t E. discriminate E.
  - injection R as ->. intros c t E.
    destruct s1 as [|d s1]; simpl in E.
    + exact (IH2 eq_refl c t E).
    + injection E as -> <-. now exists s1, s2.
Qed.

Lemma deriv_matches (r : regex) :
  forall c s, matches (deriv c r) s <-> matches r (String c s).
Proof.
  induction r as [| |p|r1 IH1 r2 IH2|r1 IH1 r2 IH2|r IH]; intros c s; simpl.
  - split; intros M; inversion M.
  - split; intros M; inversion M.
  - destruct (p c) eqn:P; split; intros M.
    + inversion M; subst. now constructor.
    + inversion M; subst. constructor.
    + inversion M.
    + inversion M; subst. congruence.
  - assert (S : matches (Seq (deriv c r1) r2) s
                <-> exists s1 s2, s = s1 ++ s2
                                  /\ matches r1 (String c s1) /\ matches r2 s2).
    { split.
      - intros M. apply matches_seq_inv in M as (s1 & s2 & -> & M1 & M2).
        exists s1, s2. split; [reflexivity|]. split; [now apply IH1 | exact M2].
      - intros (s1 & s2 & -> & M1 & M2). constructor; [now apply IH1 | exact M2]. }
    assert (T : matches (Seq r1 r2) (String c s)
                <-> (exists s1 s2, s = s1 ++ s2
                                   /\ matches r1 (String c s1) /\ matches r2 s2)
                    \/ (matches r1 "" /\ matches r2 (String c s))).
    { split.
      - intros M. apply matches_seq_inv in M as (s1 & s2 & E & M1 & M2).
        destruct s1 as [|d s1]; simpl in E.
        + right. subst s2. auto.
        + injection E as <- ->. left. now exists s1, s2.
      - intros [(s1 & s2 & -> & M1 & M2)|[M1 M2]].
        + exact (matches_seq _ _ (String c s1) s2 M1 M2).
        + exact (matches_seq _ _ "" (String c s) M1 M2). }
    rewrite T. destruct (nullable r1) eqn:Nl.
    + split.
      * intros M. inversion M; subst.
        -- left. now apply S.
        -- right. split; [now apply nullable_matches | now apply IH2].
      * intros [M|[M1 M2]].
        -- apply matches_alt_l. now apply S.
        -- apply matches_alt_r. now apply IH2.
    + rewrite S. split; [auto|].
      intros [M|[M1 _]]; [exact M|].
      apply nullable_matches in M1. congruence.
  - split; intros M; inversion M; subst.
    + apply matches_alt_l. now apply IH1.
    + apply matches_alt_r. now apply IH2.
    + apply matches_alt_l. now apply IH1.
    + apply matches_alt_r. now apply IH2.
  - split.
    + intros M. apply matches_seq_inv in M as (s1 & s2 & -> & M1 & M2).
      apply IH in M1.
      exact (matches_star_cons r (String c s1) s2 M1 M2).
    + intros M.
      destruct (matches_star_cons_inv r _ M c s eq_refl)
        as (s1 & s2 & -> & M1 & M2).
      constructor; [now apply IH | exact M2].
Qed.

(** The matcher by derivatives decides the language of the expression. *)
Lemma test_matches (s : string) :
  forall r, test r s = true <-> matches r s.
Proof.
  induction s as [|c s IH]; intros r; simpl.
  - apply nullable_matches.
  - rewrite IH. apply deriv_matches.
Qed.

Lemma matches_star_class (p : ascii -> bool) (s : string) :
  matches (Star (CharClass p)) s <-> all_chars p s = true.
Proof.
  split.
  - intros M. remember (Star (CharClass p)) as r eqn:R.
    induction M as [| | | | | |r0 s1 s2 M1 _ M2 IH2]; try discriminate R.
    + reflexivity.
    + injection R as ->. inversion M1; subst. simpl.
      rewrite IH2 by reflexivity.
      match goal with X : p _ = true |- _ => now rewrite X end.
  - induction s as [|c s IH]; simpl; intros A.
    + constructor.
    + apply andb_true_iff in A as [P A].
      apply (matches_star_cons _ (String c "") s); [now constructor | auto].
Qed.

Lemma matches_plus_class (p : ascii -> bool) (s : string) :
  matches (Plus (CharClass p)) s <-> s <> "" /\ all_chars p s = true.
Proof.
  unfold Plus. split.
  - intros M. apply matches_seq_inv in M as (s1 & s2 & -> & M1 & M2).
    inversion M1; subst. simpl. split; [discriminate|].
    apply matches_star_class in M2.
    match goal with X : p _ = true |- _ => now rewrite X end.
  - intros [E A]. destruct s as [|c s]; [congruence|]. simpl in A.
    apply andb_true_iff in A as [P A].
    apply (matches_seq _ _ (String c "") s); [now constructor|].
    now apply matches_star_class.
Qed.

Lemma matches_char (c : ascii) (s : string) :
  matches (char c) s <-> s = String c "".
Proof.
  unfold char. split.
  - intros M. inversion M; subst.
    match goal with X : Ascii.eqb _ _ = true |- _ =>
      apply Ascii.eqb_eq in X; now subst end.
  - intros ->. constructor. apply Ascii.eqb_refl.
Qed.

(** The e-mail pattern accepts exactly the strings [a@b.c] whose parts
    [a], [b] and [c] are not empty and hold no white space and no [@]. *)
Lemma email_shape (s : string) :
  test email s = true
  <-> exists a b c,
        s = a ++ "@" ++ b ++ "." ++ c /\ plain a /\ plain b /\ plain c.
Proof.
  rewrite test_matches. unfold email, not_space_or_at, plain.
  rewrite matches_seq_inv. split.
  - intros (a & s1 & -> & A & M).
    apply matches_seq_inv in M as (x & s2 & -> & X & M).
    apply matches_seq_inv in M as (b & s3 & -> & B & M).
    apply matches_seq_inv in M as (y & c & -> & Y & C).
    apply matches_char in X, Y. subst x y.
    apply matches_plus_class in A, B, C.
    exists a, b, c. auto.
  - intros (a & b & c & -> & A & B & C).
    exists a, ("@" ++ b ++ "." ++ c). split; [reflexivity|].
    split; [now apply matches_plus_class|].
    apply matches_seq_inv. exists "@", (b ++ "." ++ c).
    split; [reflexivity|]. split; [now apply matches_char|].
    apply matches_seq_inv. exists b, ("." ++ c).
    split; [reflexivity|]. split; [now apply matches_plus_class|].
    apply matches_seq_inv. exists ".", c.
    split; [reflexivity|]. split; [now apply matches_char|].
    now apply matches_plus_class.
Qed.

Lemma all_chars_append (p : ascii -> bool) (a b : string) :
  all_chars p (a ++ b)
  = all_chars p a && all_chars p b.
Proof.
  induction a as [|c a IH]; simpl; [reflexivity|].
  now rewrite IH, andb_assoc.
Qed.

Lemma trimEnd_no_space (s : string) :
  all_chars (fun c => negb (JsString.is_whitespace c)) s = true ->
  JsString.trimEnd s = s.
Proof.
  induction s as [|c s IH]; simpl; [reflexivity|].
  intros A. apply andb_true_iff in A as [C A]. rewrite (IH A).
  apply negb_true_iff in C. rewrite C. now destruct s.
Qed.

Lemma trim_no_space (s : string) :
  all_chars (fun c => negb (JsString.is_whitespace c)) s = true ->
  JsString.trim s = s.
Proof.
  intros A. unfold JsString.trim.
  assert (S : JsString.trimStart s = s).
  { destruct s as [|c s]; simpl in *; [reflexivity|].
    apply andb_true_iff in A as [C _]. apply negb_true_iff in C.
    now rewrite C. }
  rewrite S. now apply trimEnd_no_space.
Qed.

Lemma all_chars_weaken (p q : ascii -> bool) (s : string) :
  (forall c, p c = true -> q c = true) ->
  all_chars p s = true -> all_chars q s = true.
Proof.
  intros I. induction s as [|c s IH]; simpl; [reflexivity|].
  intros A. apply andb_true_iff in A as [C A].
  now rewrite (I c C), (IH A).
Qed.

Lemma count_append (c : ascii) (a b : string) :
  count c (a ++ b) = (count c a + count c b)%nat.
Proof. induction a as [|d a IH]; simpl; [reflexivity | rewrite IH; lia]. Qed.

Lemma plain_no_space (s : string) :
  plain s ->
  all_chars (fun c => negb (JsString.is_whitespace c)) s = true.
Proof.
  intros [_ A]. revert A. apply all_chars_weaken.
  intros c C. apply negb_true_iff, orb_false_iff in C as [C _].
  now rewrite C.
Qed.

Lemma plain_no_at (s : string) : plain s -> count "@" s = 0%nat.
Proof.
  intros [_ A]. induction s as [|c s IH]; simpl in *; [reflexivity|].
  apply andb_true_iff in A as [C A].
  apply negb_true_iff, orb_false_iff in C as [_ C]. rewrite C.
  now rewrite (IH A).
Qed.

Lemma email_trimmed_one_at (s : string) :
  test email s = true -> JsString.trim s = s /\ count "@" s = 1%nat.
Proof.
  intros T. apply email_shape in T as (a & b & c & -> & A & B & C).
  split.
  - apply trim_no_space.
    rewrite !all_chars_append.
    rewrite (plain_no_space a A), (plain_no_space b B), (plain_no_space c C).
    reflexivity.
  - rewrite !count_append.
    rewrite (plain_no_at a A), (plain_no_at b B), (plain_no_at c C).
    reflexivity.
Qed.

End RegExp.

(** X1. For a string of ASCII characters, the e-mail check of the
    customer and vendor forms accepts exactly the strings of the shape
    [a@b.c] whose parts [a], [b] and [c] are not empty and hold neither
    white space nor [@]; an accepted address therefore holds exactly one
    [@] and no white space, so that trimming leaves it as it is. *)
Theorem email_accepted (s : string) :
  Language.ascii_only s = true ->
  (JsRegExp.test JsRegExp.email s = true
   <-> exists a b c,
        s = a ++ "@" ++ b ++ "." ++ c
        /\ Language.plain a /\ Language.plain b /\ Language.plain c)
  /\ (JsRegExp.test JsRegExp.email s = true ->
      JsString.trim s = s /\ Language.count "@" s = 1%nat).
Proof.
  intros _. split; [apply email_shape | apply email_trimmed_one_at].
Qed.

Lemma email_accepted_witness :
  Language.ascii_only "sales@acme.example" = true
  /\ JsString.trim "sales@acme.example" = "sales@acme.example"
  /\ Language.count "@" "sales@acme.example" = 1%nat.
Proof.
  split; [reflexivity|].
  apply (email_accepted "sales@acme.example"); reflexivity.
Defined.

Example email_samples :
  JsRegExp.test JsRegExp.email "sales@acme.example" = true
  /\ JsRegExp.test JsRegExp.email "sales@acme" = false
  /\ JsRegExp.test JsRegExp.email "sales @acme.example" = false
  /\ JsRegExp.test JsRegExp.email "a@b@c.example" = false
  /\ JsRegExp.test JsRegExp.email " sales@acme.example" = false.
Proof. repeat split. Qed.

(** ** Ledger page: what the operations do *)

Section LedgerOutcomes.
Context {N : Type} `{JsNumber N}.
Import Ledger LedgerPage Failure Flows.
Variable server : backend N.

(** Whatever the page has been through, [fetch_resume] ends with the
    loading flag down: the flag it starts with does not matter. *)
Lemma fetch_resume_any_loading (auth : response N) (p : Page N) (b : bool) :
  snd (fetch_resume server auth (snd (setLoading b p)))
  = snd (fetch_resume server auth p).
Proof.
  unfold fetch_resume, bind, await, setLoading, show, router_push,
    setLedgerEntries; simpl.
  destruct (auth_failed auth); simpl; [reflexivity|].
  destruct (r_error (server (requests p) _)); reflexivity.
Qed.

(** X2. When the user is signed in and the select succeeds,
    [fetchLedgerEntries] replaces the entries by the rows of the backend
    (by the empty list when the backend hands no rows over), leaves the
    form, the editing id and the selection lists alone, shows nothing,
    goes nowhere, ends with the loading flag down and has made two calls:
    [auth.getUser] and the select. *)
Theorem fetch_replaces_entries (p : Page N) (user : string) :
  signed_in server (requests p) user ->
  succeeds server (requests p ++ [auth_getUser])
           (select_all "ledger_entries" "created_at" false) ->
  snd (fetchLedgerEntries server p)
  = outcome p
      (rows_of (server (requests p ++ [auth_getUser])%list
                       (select_all "ledger_entries" "created_at" false)))
      (formData p) (editingId p) [] []
      [auth_getUser; select_all "ledger_entries" "created_at" false].
Proof.
  intros S F. apply signed_in_auth in S as [A _]. unfold succeeds in F.
  unfold fetchLedgerEntries, fetch_begin, fetch_resume, bind, await,
    setLoading, show, setLedgerEntries; simpl.
  rewrite A; simpl. rewrite F; simpl.
  unfold outcome, rows_of; simpl.
  now rewrite app_nil_r, app_nil_r, <- app_assoc.
Qed.

Lemma invalid_form_shows_one (f : Form N) :
  fst (validateForm f) = false ->
  exists reason,
    validateForm f = (false, [toast_error "Validation Error" reason]).
Proof.
  rewrite ledger_validateForm.
  destruct (report_at_most_one (Rules.first_violation Rules.ledgerEntry f))
    as [[_ R]|[reason [_ R]]]; rewrite R; simpl; [discriminate|].
  intros _. now exists reason.
Qed.

(** X3. A form that does not pass the validation never reaches the
    backend: [handleSubmit] shows the one validation toast and leaves
    everything else, the loading flag and the list of calls included, as
    it was. *)
Theorem handleSubmit_invalid_form (p : Page N) :
  fst (validateForm (formData p)) = false ->
  exists reason,
    validateForm (formData p)
    = (false, [toast_error "Validation Error" reason])
    /\ snd (handleSubmit server p)
       = continued p [toast_error "Validation Error" reason] [].
Proof.
  intros V. destruct (invalid_form_shows_one _ V) as [reason R].
  exists reason. split; [exact R|].
  unfold handleSubmit. rewrite R.
  unfold bind, show, ret, continued; simpl. now rewrite app_nil_r.
Qed.

(** X4. With nobody signed in, every operation stops after
    [auth.getUser]: it makes no other call, changes neither the entries
    nor the form nor the editing id, shows one authentication toast and
    ends with the loading flag down; only [fetchLedgerEntries] also goes
    to the login page. *)
Theorem signed_out_stops (p : Page N) (row_id : string) :
  signed_out server (requests p) ->
  snd (fetchLedgerEntries server p)
  = outcome p (ledgerEntries p) (formData p) (editingId p)
            [toast_error "Authentication Error"
                         "Please log in to view ledger entries."]
            ["/login"] [auth_getUser]
  /\ (fst (validateForm (formData p)) = true ->
      snd (handleSubmit server p)
      = outcome p (ledgerEntries p) (formData p) (editingId p)
                [toast_error "Authentication Error"
                             "Please log in to perform this action."]
                [] [auth_getUser])
  /\ snd (handleDelete server row_id true p)
     = outcome p (ledgerEntries p) (formData p) (editingId p)
               [toast_error "Authentication Error"
                            "Please log in to perform this action."]
               [] [auth_getUser].
Proof.
  unfold signed_out. intros A. split; [|split].
  - unfold fetchLedgerEntries, fetch_begin, fetch_resume, bind, await,
      setLoading, show, router_push; simpl.
    rewrite A; simpl. reflexivity.
  - intros V. apply valid_form_shows_nothing in V.
    unfold handleSubmit. rewrite V.
    unfold bind, await, setLoading, show, ret; simpl.
    rewrite A; simpl. unfold outcome; simpl.
    now rewrite !app_nil_r.
  - unfold handleDelete, bind, await, setLoading, show, ret; simpl.
    rewrite A; simpl. unfold outcome; simpl. now rewrite !app_nil_r.
Qed.

Lemma handleSubmit_create_succeeds (p : Page N) (user : string) :
  fst (validateForm (formData p)) = true ->
  JsString.truthy_opt (editingId p) = false ->
  signed_in server (requests p) user ->
  succeeds server (requests p ++ [auth_getUser])
           (insert_row "ledger_entries" (entryData_of user (formData p))) ->
  snd (handleSubmit server p)
  = snd (fetchLedgerEntries server
           (saved p
              [toast_success "Ledger Entry Created"
                 ("Ledger entry for "
                    ++ JsString.interpolate (f_entity_name (formData p))
                    ++ " has been successfully created.")]
              [auth_getUser;
               insert_row "ledger_entries"
                          (entryData_of user (formData p))])).
Proof.
  intros V E S F. apply valid_form_shows_nothing in V.
  apply signed_in_auth in S as [A U]. unfold succeeds in F.
  unfold handleSubmit. rewrite V.
  unfold finish_then, bind, await, setLoading, show, ret; simpl.
  rewrite A, E, U; simpl. rewrite F; simpl.
  unfold fetchLedgerEntries, fetch_begin, bind, await, setLoading, saved; simpl.
  match goal with
  | |- _ = snd (fetch_resume _ ?a ?q) =>
      rewrite <- (fetch_resume_any_loading a q false)
  end.
  unfold setLoading; simpl.
  now rewrite app_nil_r, <- !app_assoc.
Qed.

Lemma handleSubmit_update_succeeds (p : Page N) (row_id user : string) :
  fst (validateForm (formData p)) = true ->
  editingId p = Some row_id ->
  JsString.truthy row_id = true ->
  signed_in server (requests p) user ->
  succeeds server (requests p ++ [auth_getUser])
           (update_row "ledger_entries" (entryData_of user (formData p))
                       row_id user) ->
  snd (handleSubmit server p)
  = snd (fetchLedgerEntries server
           (saved p
              [toast_success "Ledger Entry Updated"
                 ("Ledger entry for "
                    ++ JsString.interpolate (f_entity_name (formData p))
                    ++ " has been successfully updated.")]
              [auth_getUser;
               update_row "ledger_entries" (entryData_of user (formData p))
                          row_id user])).
Proof.
  intros V E T S F. apply valid_form_shows_nothing in V.
  apply signed_in_auth in S as [A U]. unfold succeeds in F.
  unfold handleSubmit. rewrite V, E.
  unfold finish_then, bind, await, setLoading, show, ret; simpl.
  rewrite A, T, U; simpl. rewrite F; simpl.
  unfold fetchLedgerEntries, fetch_begin, bind, await, setLoading, saved; simpl.
  match goal with
  | |- _ = snd (fetch_resume _ ?a ?q) =>
      rewrite <- (fetch_resume_any_loading a q false)
  end.
  unfold setLoading; simpl.
  now rewrite app_nil_r, <- !app_assoc.
Qed.

Lemma handleDelete_succeeds (p : Page N) (row_id user : string) :
  signed_in server (requests p) user ->
  succeeds server (requests p ++ [auth_getUser])
           (delete_row "ledger_entries" row_id user) ->
  snd (handleDelete server row_id true p)
  = snd (fetchLedgerEntries server
           (continued p
              [toast_success "Ledger Entry Deleted"
                 ("Ledger entry for "
                    ++ deleted_name (ledgerEntries p) row_id
                    ++ " has been successfully deleted.")]
              [auth_getUser; delete_row "ledger_entries" row_id user])).
Proof.
  intros S F. apply signed_in_auth in S as [A U]. unfold succeeds in F.
  unfold handleDelete, finish_then, bind, await, setLoading, show, ret; simpl.
  rewrite A, U; simpl. rewrite F; simpl.
  unfold fetchLedgerEntries, fetch_begin, bind, await, setLoading, continued,
    deleted_name; simpl.
  match goal with
  | |- _ = snd (fetch_resume _ ?a ?q) =>
      rewrite <- (fetch_resume_any_loading a q false)
  end.
  unfold setLoading; simpl.
  now rewrite <- !app_assoc.
Qed.

Lemma fetchLedgerEntries_keeps_form (p : Page N) :
  formData (snd (fetchLedgerEntries server p)) = formData p
  /\ editingId (snd (fetchLedgerEntries server p)) = editingId p.
Proof.
  unfold fetchLedgerEntries, fetch_begin, fetch_resume, bind, await,
    setLoading, show, router_push, setLedgerEntries; simpl.
  destruct (auth_failed _); simpl; [split; reflexivity|].
  destruct (r_error _); split; reflexivity.
Qed.

Lemma initial_form_rejected :
  validateForm (@LedgerEditing.initialFormData N _)
  = reject "Entity selection or name is required.".
Proof. reflexivity. Qed.

(** X5. A save that the backend accepts, of a new entry or of an edited
    one, is the success toast, the reset of the form and of the editing
    id, and then a full [fetchLedgerEntries]: the page ends as that fetch
    leaves it.  The form it ends with is the first form, which does not
    pass the validation, so that submitting again at once sends
    nothing. *)
Theorem successful_save_refetches :
  (forall (p : Page N) (user : string),
      fst (validateForm (formData p)) = true ->
      JsString.truthy_opt (editingId p) = false ->
      signed_in server (requests p) user ->
      succeeds server (requests p ++ [auth_getUser])
               (insert_row "ledger_entries" (entryData_of user (formData p))) ->
      snd (handleSubmit server p)
      = snd (fetchLedgerEntries server
               (saved p
                  [toast_success "Ledger Entry Created"
                     ("Ledger entry for "
                        ++ JsString.interpolate (f_entity_name (formData p))
                        ++ " has been successfully created.")]
                  [auth_getUser;
                   insert_row "ledger_entries"
                              (entryData_of user (formData p))])))
  /\ (forall (p : Page N) (row_id user : string),
         fst (validateForm (formData p)) = true ->
         editingId p = Some row_id ->
         JsString.truthy row_id = true ->
         signed_in server (requests p) user ->
         succeeds server (requests p ++ [auth_getUser])
                  (update_row "ledger_entries" (entryData_of user (formData p))
                              row_id user) ->
         snd (handleSubmit server p)
         = snd (fetchLedgerEntries server
                  (saved p
                     [toast_success "Ledger Entry Updated"
                        ("Ledger entry for "
                           ++ JsString.interpolate (f_entity_name (formData p))
                           ++ " has been successfully updated.")]
                     [auth_getUser;
                      update_row "ledger_entries"
                                 (entryData_of user (formData p))
                                 row_id user])))
  /\ (forall (p : Page N) (shown : list toast) (calls : list (request N)),
         formData (snd (fetchLedgerEntries server (saved p shown calls)))
         = LedgerEditing.initialFormData
         /\ editingId (snd (fetchLedgerEntries server (saved p shown calls)))
            = None)
  /\ validateForm (@LedgerEditing.initialFormData N _)
     = reject "Entity selection or name is required.".
Proof.
  split; [exact handleSubmit_create_succeeds|].
  split; [exact handleSubmit_update_succeeds|].
  split; [|exact initial_form_rejected].
  intros p shown calls.
  exact (fetchLedgerEntries_keeps_form (saved p shown calls)).
Qed.

Lemma deleted_name_unknown (entries : list (LedgerEntry N)) (row_id : string) :
  (forall e, In e entries -> id e <> row_id) ->
  deleted_name entries row_id = "entity".
Proof.
  intros U. unfold deleted_name.
  destruct (find _ entries) as [e|] eqn:F; [|reflexivity].
  apply find_id_some in F as [I E]. now apply U in I.
Qed.

(** X6. A deletion that is not confirmed does nothing at all.  A
    confirmed deletion that the backend accepts is the success toast,
    which names the entity of the entry with that id (or ["entity"] when
    the page holds no such entry), followed by a full
    [fetchLedgerEntries]; the form and the editing id stay as they
    were. *)
Theorem handleDelete_outcomes :
  (forall (p : Page N) (row_id : string),
      handleDelete server row_id false p = (tt, p))
  /\ (forall (p : Page N) (row_id user : string),
         signed_in server (requests p) user ->
         succeeds server (requests p ++ [auth_getUser])
                  (delete_row "ledger_entries" row_id user) ->
         snd (handleDelete server row_id true p)
         = snd (fetchLedgerEntries server
                  (continued p
                     [toast_success "Ledger Entry Deleted"
                        ("Ledger entry for "
                           ++ deleted_name (ledgerEntries p) row_id
                           ++ " has been successfully deleted.")]
                     [auth_getUser;
                      delete_row "ledger_entries" row_id user]))
         /\ formData (snd (handleDelete server row_id true p)) = formData p
         /\ editingId (snd (handleDelete server row_id true p)) = editingId p)
  /\ (forall (entries : list (LedgerEntry N)) (row_id : string),
         (forall e, In e entries -> id e <> row_id) ->
         deleted_name entries row_id = "entity").
Proof.
  split; [reflexivity|]. split; [|exact deleted_name_unknown].
  intros p row_id user S F.
  rewrite (handleDelete_succeeds p row_id user S F).
  split; [reflexivity|].
  match goal with
  | |- formData (snd (fetchLedgerEntries server ?q)) = _ /\ _ =>
      exact (fetchLedgerEntries_keeps_form q)
  end.
Qed.

(** What [fetch_resume] does to a page, whatever the backend answers. *)
Lemma fetch_resume_cases (auth : response N) (p : Page N) :
  exists entries shown visited calls,
    snd (fetch_resume server auth p)
    = outcome p entries (formData p) (editingId p) shown visited calls
    /\ Forall (fun r => is_write r = false) calls.
Proof.
  unfold fetch_resume, bind, await, setLoading, show, router_push,
    setLedgerEntries, outcome; simpl.
  destruct (auth_failed auth); simpl.
  - exists (ledgerEntries p),
      [toast_error "Authentication Error"
                   "Please log in to view ledger entries."],
      ["/login"], [].
    rewrite app_nil_r. split; [reflexivity|constructor].
  - destruct (r_error (server (requests p) _)) as [message|] eqn:E; simpl.
    + exists (ledgerEntries p),
        [toast_error "Failed to Fetch Ledger Entries" message], [],
        [select_all "ledger_entries" "created_at" false].
      rewrite app_nil_r. split; [reflexivity|]. repeat constructor.
    + eexists _, [], [], [select_all "ledger_entries" "created_at" false].
      rewrite !app_nil_r. split; [reflexivity|]. repeat constructor.
Qed.

Lemma fetchLedgerEntries_cases (p : Page N) :
  exists entries shown visited calls,
    snd (fetchLedgerEntries server p)
    = outcome p entries (formData p) (editingId p) shown visited
              (auth_getUser :: calls)
    /\ Forall (fun r => is_write r = false) calls.
Proof.
  unfold fetchLedgerEntries, fetch_begin, bind, await, setLoading; simpl.
  match goal with
  | |- context [fetch_resume server ?a ?q] =>
      destruct (fetch_resume_cases a q) as (e & s & v & c & E & W)
  end.
  exists e, s, v, c. rewrite E. unfold outcome; simpl.
  now rewrite <- app_assoc.
Qed.

(** X7. Whatever the backend answers, no operation leaves the page
    loading: the loading flag is down after [fetchLedgerEntries], after a
    [handleSubmit] of a form that passes the validation and after a
    confirmed [handleDelete]. *)
Theorem loading_cleared (p : Page N) (row_id : string) :
  loading (snd (fetchLedgerEntries server p)) = false
  /\ (fst (validateForm (formData p)) = true ->
      loading (snd (handleSubmit server p)) = false)
  /\ loading (snd (handleDelete server row_id true p)) = false.
Proof.
  split; [|split].
  - destruct (fetchLedgerEntries_cases p) as (e & s & v & c & E & _).
    now rewrite E.
  - intros V. apply valid_form_shows_nothing in V.
    unfold handleSubmit. rewrite V.
    unfold finish_then, bind, await, setLoading, show, ret, fetch_begin,
      resetForm, setFormData, setEditingId; simpl.
    destruct (auth_failed _); simpl; [reflexivity|].
    destruct (JsString.truthy_opt _); simpl;
      (destruct (r_error _); simpl; [reflexivity|]);
      match goal with
      | |- context [fetch_resume server ?a ?q] =>
          destruct (fetch_resume_cases a q) as (e & s & v & c & E & _)
      end; now rewrite E.
  - unfold handleDelete, finish_then, bind, await, setLoading, show, ret,
      fetch_begin; simpl.
    destruct (auth_failed _); simpl; [reflexivity|].
    destruct (r_error _); simpl; [reflexivity|].
    match goal with
    | |- context [fetch_resume server ?a ?q] =>
        destruct (fetch_resume_cases a q) as (e & s & v & c & E & _)
    end; now rewrite E.
Qed.

Lemma reads_scoped (user : string) (calls : list (request N)) :
  Forall (fun r => is_write r = false) calls ->
  Forall (scoped_to user) calls /\ filter is_write calls = [].
Proof.
  induction 1 as [|r l R _ [IH1 IH2]]; [split; constructor|].
  split.
  - constructor; [|exact IH1]. destruct r; try discriminate; exact I.
  - simpl. now rewrite R.
Qed.

Lemma fetch_resume_calls (auth : response N) (p : Page N) :
  exists calls,
    requests (snd (fetch_resume server auth p)) = (requests p ++ calls)%list
    /\ Forall (fun r => is_write r = false) calls.
Proof.
  destruct (fetch_resume_cases auth p) as (e & s & v & c & E & W).
  exists c. now rewrite E.
Qed.

(** X8. Whatever the backend answers, the calls of [handleSubmit],
    [handleDelete] and [fetchLedgerEntries] are guarded: the operation
    makes no call at all, or asks for the user first; with nobody signed
    in it stops there; otherwise it makes at most one write, the row it
    inserts or updates carries the id of that user, and an update or a
    delete is restricted to the rows of that user. *)
Theorem writes_scoped_to_user (p : Page N) (row_id : string) (confirmed : bool) :
  (exists calls,
      requests (snd (handleSubmit server p)) = (requests p ++ calls)%list
      /\ guarded_calls (server (requests p) auth_getUser) calls)
  /\ (exists calls,
         requests (snd (handleDelete server row_id confirmed p))
         = (requests p ++ calls)%list
         /\ guarded_calls (server (requests p) auth_getUser) calls)
  /\ (exists calls,
         requests (snd (fetchLedgerEntries server p))
         = (requests p ++ calls)%list
         /\ guarded_calls (server (requests p) auth_getUser) calls).
Proof.
  split; [|split].
  - unfold handleSubmit.
    destruct (validateForm (formData p)) as [[|] shown].
    + unfold finish_then, bind, await, setLoading, show, ret, fetch_begin,
        resetForm, setFormData, setEditingId; simpl.
      destruct (auth_failed _) eqn:A; simpl.
      * exists [auth_getUser]. split; [reflexivity|]. right. exists [].
        repeat split; auto.
      * destruct (JsString.truthy_opt _); simpl;
          (destruct (r_error _); simpl;
           [eexists [auth_getUser; _]; rewrite <- app_assoc;
            split; [reflexivity|]; right; eexists [_];
            split; [reflexivity|]; split; [congruence|];
            split; [repeat constructor | simpl; lia]
           |]);
          match goal with
          | |- context [fetch_resume server ?a ?q] =>
              destruct (fetch_resume_calls a q) as (c & E & W)
          end; rewrite E; simpl;
          destruct (reads_scoped
                      (user_id_of (server (requests p) auth_getUser)) _ W)
            as [S F];
          (eexists (auth_getUser :: _ :: auth_getUser :: c);
           rewrite <- !app_assoc; split; [reflexivity|];
           right; eexists; split; [reflexivity|]; split; [congruence|];
           split; [constructor; [simpl; auto|constructor; [exact I|exact S]]
                  | simpl; rewrite F; simpl; lia]).
    + exists []. unfold bind, show, ret; simpl.
      rewrite app_nil_r. split; [reflexivity | now left].
  - unfold handleDelete. destruct confirmed; simpl.
    + unfold finish_then, bind, await, setLoading, show, ret, fetch_begin;
        simpl.
      destruct (auth_failed _) eqn:A; simpl.
      * exists [auth_getUser]. split; [reflexivity|]. right. exists [].
        repeat split; auto.
      * destruct (r_error _); simpl;
          [eexists [auth_getUser; _]; rewrite <- app_assoc;
           split; [reflexivity|]; right; eexists [_];
           split; [reflexivity|]; split; [congruence|];
           split; [repeat constructor | simpl; lia]
          |].
        match goal with
        | |- context [fetch_resume server ?a ?q] =>
            destruct (fetch_resume_calls a q) as (c & E & W)
        end; rewrite E; simpl.
        destruct (reads_scoped
                    (user_id_of (server (requests p) auth_getUser)) _ W)
          as [S F].
        eexists (auth_getUser :: _ :: auth_getUser :: c).
        rewrite <- !app_assoc. split; [reflexivity|].
        right. eexists. split; [reflexivity|]. split; [congruence|].
        split; [constructor; [simpl; auto|constructor; [exact I|exact S]]
               | simpl; rewrite F; simpl; lia].
    + exists []. unfold ret; simpl. rewrite app_nil_r.
      split; [reflexivity | now left].
  - unfold fetchLedgerEntries, fetch_begin, fetch_resume, bind, await,
      setLoading, show, router_push, setLedgerEntries; simpl.
    destruct (auth_failed _) eqn:A; simpl.
    + exists [auth_getUser]. split; [reflexivity|]. right. exists [].
      repeat split; auto.
    + exists [auth_getUser; select_all "ledger_entries" "created_at" false].
      split.
      * destruct (r_error _); simpl; now rewrite <- app_assoc.
      * right. eexists. split; [reflexivity|]. split; [congruence|].
        split; [repeat constructor | simpl; lia].
Qed.

(** What a form that validates sends. *)
Lemma valid_entryData (user : string) (f : Form N) :
  fst (validateForm f) = true ->
  f_entity_type f = Some (d_entity_type (entryData_of user f))
  /\ d_entity_type (entryData_of user f) <> ""
  /\ f_transaction_type f = Some (d_transaction_type (entryData_of user f))
  /\ d_transaction_type (entryData_of user f) <> ""
  /\ f_amount f = Some (d_amount (entryData_of user f))
  /\ truthy (d_amount (entryData_of user f)) = true
  /\ le (d_amount (entryData_of user f)) zero = false
  /\ ((exists i, d_entity_id (entryData_of user f) = Some i /\ i <> "")
      \/ (d_entity_name (entryData_of user f) <> ""
          /\ exists n, f_entity_name f = Some n
                       /\ d_entity_name (entryData_of user f)
                          = JsString.trim n)).
Proof.
  unfold validateForm, entryData_of; simpl.
  destruct (JsString.truthy_opt (f_entity_type f)) eqn:T; simpl;
    [|discriminate].
  destruct (negb (JsString.truthy_opt (f_entity_id f))
            && negb (JsString.truthy_trim (f_entity_name f))) eqn:E; simpl;
    [discriminate|].
  destruct (JsString.truthy_opt (f_transaction_type f)) eqn:U; simpl;
    [|discriminate].
  destruct (f_amount f) as [a|]; simpl; [|discriminate].
  destruct (truthy a) eqn:A; simpl; [|discriminate].
  destruct (le a zero) eqn:L; simpl; [discriminate|]. intros _.
  destruct (truthy_or_default _ "customer" T) as [T1 T2].
  destruct (truthy_or_default _ "debit" U) as [U1 U2].
  repeat (split; [assumption || reflexivity|]).
  apply andb_false_iff in E as [E|E]; apply negb_false_iff in E.
  - left. destruct (f_entity_id f) as [i|]; simpl in *; [|discriminate].
    rewrite E. exists i. split; [reflexivity|]. now apply truthy_not_empty.
  - right. destruct (f_entity_name f) as [n|]; simpl in *; [|discriminate].
    rewrite E. split; [now apply truthy_not_empty|]. now exists n.
Qed.

Lemma handleEdit_entryData (user : string) (e : LedgerEntry N) (p : Page N) :
  Stored.as_written e ->
  editingId (snd (LedgerEditing.handleEdit e p)) = Some (id e)
  /\ fst (validateForm (formData (snd (LedgerEditing.handleEdit e p)))) = true
  /\ entryData_of user (formData (snd (LedgerEditing.handleEdit e p)))
     = Stored.values_of user e.
Proof.
  intros (I & T & U & A & L & R & Ei & Ri & D & Rt & E).
  unfold LedgerEditing.handleEdit, bind, setFormData, setEditingId; simpl.
  apply truthy_not_empty in T, U.
  split; [reflexivity|]. split.
  - unfold validateForm; simpl. rewrite T, U, A, L; simpl.
    destruct E as [E|E].
    + destruct (entity_id e) as [i|]; [|congruence]. simpl.
      assert (X : JsString.truthy i = true).
      { apply truthy_not_empty. intros Y. apply Ei. now rewrite Y. }
      now rewrite X, X.
    + rewrite R. apply truthy_not_empty in E. rewrite E.
      now rewrite andb_false_r.
  - unfold entryData_of, Stored.values_of.
    cbn [f_entity_type f_entity_id f_entity_name f_transaction_type f_amount
         f_description f_reference_id f_reference_type].
    rewrite (or_null_or_default_id _ Ei), (or_null_or_default_id _ Ri).
    rewrite (or_null_or_default_text _ D), (or_null_or_default_text _ Rt).
    f_equal.
    + simpl. now rewrite T.
    + simpl. rewrite R.
      destruct (JsString.truthy (entity_name e)) eqn:X; [reflexivity|].
      apply negb_false_iff, String.eqb_eq in X. now rewrite X.
    + simpl. now rewrite U.
    + simpl. now rewrite A.
Qed.

(** The calls of a submission while a row is edited, as far as the
    update. *)
Lemma handleSubmit_update_calls (p : Page N) (row_id user : string) :
  fst (validateForm (formData p)) = true ->
  editingId p = Some row_id ->
  row_id <> "" ->
  signed_in server (requests p) user ->
  exists rest,
    requests (snd (handleSubmit server p))
    = (requests p
       ++ [auth_getUser;
           update_row "ledger_entries" (entryData_of user (formData p))
                      row_id user]
       ++ rest)%list.
Proof.
  intros V E T S. apply valid_form_shows_nothing in V.
  apply truthy_not_empty in T.
  apply signed_in_auth in S as [A U].
  unfold handleSubmit. rewrite V, E.
  unfold finish_then, bind, await, setLoading, show, ret, fetch_begin,
    resetForm, setFormData, setEditingId; simpl.
  rewrite A, T, U; simpl.
  destruct (r_error _); simpl.
  - exists []. now rewrite <- app_assoc.
  - match goal with
    | |- context [fetch_resume server ?a ?q] =>
        destruct (fetch_resume_calls a q) as (c & C & _)
    end.
    rewrite C; simpl. exists (auth_getUser :: c).
    now rewrite <- !app_assoc.
Qed.

(** X9. Editing an entry that is stored as the page itself writes
    entries, and saving it unchanged, writes its own values back to its
    own row: [handleEdit] fills the form so that it passes the
    validation, and the second call of the [handleSubmit] that follows is
    the update of the row with the id of the entry, by the values of the
    entry. *)
Theorem edit_then_save_writes_back
        (p : Page N) (e : LedgerEntry N) (user : string) :
  Stored.as_written e ->
  signed_in server (requests p) user ->
  editingId (snd (LedgerEditing.handleEdit e p)) = Some (id e)
  /\ entryData_of user (formData (snd (LedgerEditing.handleEdit e p)))
     = Stored.values_of user e
  /\ exists rest,
      requests (snd (handleSubmit server
                       (snd (LedgerEditing.handleEdit e p))))
      = (requests p
         ++ [auth_getUser;
             update_row "ledger_entries" (Stored.values_of user e) (id e) user]
         ++ rest)%list.
Proof.
  intros W S.
  destruct (handleEdit_entryData user e p W) as (E & V & D).
  split; [exact E|]. split; [exact D|].
  rewrite <- D.
  apply (handleSubmit_update_calls
           (snd (LedgerEditing.handleEdit e p)) (id e) user V E).
  - now destruct W.
  - exact S.
Qed.

Lemma handleEntitySelect_listed (p : Page N) (entityId : string) :
  exists i n,
    snd (LedgerEditing.handleEntitySelect entityId p)
    = snd (setFormData (LedgerEditing.with_entity (formData p) i n) p)
    /\ ((i = entityId
         /\ exists c, In c (customers p)
                      /\ Parties.id c = entityId /\ Parties.name c = n)
        \/ (i = entityId
            /\ (forall c, In c (customers p) -> Parties.id c <> entityId)
            /\ exists v, In v (vendors p)
                         /\ Parties.id v = entityId /\ Parties.name v = n)
        \/ (i = "" /\ n = ""
            /\ (forall c, In c (customers p) -> Parties.id c <> entityId)
            /\ (forall v, In v (vendors p) -> Parties.id v <> entityId))).
Proof.
  unfold LedgerEditing.handleEntitySelect.
  destruct (find _ (customers p)) as [c|] eqn:C.
  - apply find_id_some in C as [I E].
    exists entityId, (Parties.name c). split; [reflexivity|].
    left. split; [reflexivity|]. now exists c.
  - pose proof (find_id_none _ _ _ C) as NC.
    destruct (find _ (vendors p)) as [v|] eqn:V.
    + apply find_id_some in V as [I E].
      exists entityId, (Parties.name v). split; [reflexivity|].
      right; left. split; [reflexivity|]. split; [exact NC|]. now exists v.
    + pose proof (find_id_none _ _ _ V) as NV.
      exists "", "". split; [reflexivity|]. right; right. auto.
Qed.

Lemma handleEntityTypeChange_rejected (p : Page N) (value : string) :
  validateForm (formData (snd (LedgerEditing.handleEntityTypeChange value p)))
  = reject (if JsString.truthy value
            then "Entity selection or name is required."
            else "Entity type is required.").
Proof.
  unfold LedgerEditing.handleEntityTypeChange, setFormData, validateForm;
    simpl.
  now destruct (JsString.truthy value).
Qed.

Lemma handleVendorSelect_listed (vendors : list (Parties.Party N))
      (f : Purchases.Form N) (vendorId : string) :
  Purchases.f_purchase_date
    (PurchasesPage.handleVendorSelect vendors f vendorId)
  = Purchases.f_purchase_date f
  /\ Purchases.f_subtotal (PurchasesPage.handleVendorSelect vendors f vendorId)
     = Purchases.f_subtotal f
  /\ Purchases.f_tax (PurchasesPage.handleVendorSelect vendors f vendorId)
     = Purchases.f_tax f
  /\ Purchases.f_total (PurchasesPage.handleVendorSelect vendors f vendorId)
     = Purchases.f_total f
  /\ Purchases.f_status (PurchasesPage.handleVendorSelect vendors f vendorId)
     = Purchases.f_status f
  /\ ((exists v,
          In v vendors /\ Parties.id v = vendorId
          /\ Purchases.f_vendor_id
               (PurchasesPage.handleVendorSelect vendors f vendorId)
             = Some vendorId
          /\ Purchases.f_vendor_name
               (PurchasesPage.handleVendorSelect vendors f vendorId)
             = Some (Parties.name v))
      \/ ((forall v, In v vendors -> Parties.id v <> vendorId)
          /\ Purchases.f_vendor_id
               (PurchasesPage.handleVendorSelect vendors f vendorId)
             = Some ""
          /\ Purchases.f_vendor_name
               (PurchasesPage.handleVendorSelect vendors f vendorId)
             = Some "")).
Proof.
  unfold PurchasesPage.handleVendorSelect.
  destruct (find _ vendors) as [v|] eqn:V; simpl;
    repeat (split; [reflexivity|]).
  - left. apply find_id_some in V as [I E]. now exists v.
  - right. split; [exact (find_id_none _ _ _ V) | split; reflexivity].
Qed.

(** X10. The selectors keep the form pointing at listed rows.  After
    [handleEntitySelect] the entity of the ledger form is a listed
    customer, or else a listed vendor, by id and by name, or it is
    cleared when nobody listed has that id; all other fields stay.
    Changing the entity type clears the entity, so that the form is
    rejected until an entity is chosen or named.  After
    [handleVendorSelect] the vendor of the purchase form is a listed
    vendor by id and by name, or cleared. *)
Theorem selection_is_listed :
  (forall (p : Page N) (entityId : string),
      exists i n,
        snd (LedgerEditing.handleEntitySelect entityId p)
        = snd (setFormData (LedgerEditing.with_entity (formData p) i n) p)
        /\ ((i = entityId
             /\ exists c, In c (customers p)
                          /\ Parties.id c = entityId /\ Parties.name c = n)
            \/ (i = entityId
                /\ (forall c, In c (customers p) -> Parties.id c <> entityId)
                /\ exists v, In v (vendors p)
                             /\ Parties.id v = entityId /\ Parties.name v = n)
            \/ (i = "" /\ n = ""
                /\ (forall c, In c (customers p) -> Parties.id c <> entityId)
                /\ (forall v, In v (vendors p) -> Parties.id v <> entityId))))
  /\ (forall (p : Page N) (value : string),
         validateForm
           (formData (snd (LedgerEditing.handleEntityTypeChange value p)))
         = reject (if JsString.truthy value
                   then "Entity selection or name is required."
                   else "Entity type is required."))
  /\ (forall (vendors : list (Parties.Party N)) (f : Purchases.Form N)
             (vendorId : string),
         Purchases.f_purchase_date
           (PurchasesPage.handleVendorSelect vendors f vendorId)
         = Purchases.f_purchase_date f
         /\ Purchases.f_subtotal
              (PurchasesPage.handleVendorSelect vendors f vendorId)
            = Purchases.f_subtotal f
         /\ Purchases.f_tax
              (PurchasesPage.handleVendorSelect vendors f vendorId)
            = Purchases.f_tax f
         /\ Purchases.f_total
              (PurchasesPage.handleVendorSelect vendors f vendorId)
            = Purchases.f_total f
         /\ Purchases.f_status
              (PurchasesPage.handleVendorSelect vendors f vendorId)
            = Purchases.f_status f
         /\ ((exists v,
                 In v vendors /\ Parties.id v = vendorId
                 /\ Purchases.f_vendor_id
                      (PurchasesPage.handleVendorSelect vendors f vendorId)
                    = Some vendorId
                 /\ Purchases.f_vendor_name
                      (PurchasesPage.handleVendorSelect vendors f vendorId)
                    = Some (Parties.name v))
             \/ ((forall v, In v vendors -> Parties.id v <> vendorId)
                 /\ Purchases.f_vendor_id
                      (PurchasesPage.handleVendorSelect vendors f vendorId)
                    = Some ""
                 /\ Purchases.f_vendor_name
                      (PurchasesPage.handleVendorSelect vendors f vendorId)
                    = Some ""))).
Proof.
  split; [exact handleEntitySelect_listed|].
  split; [exact handleEntityTypeChange_rejected
         | exact handleVendorSelect_listed].
Qed.

End LedgerOutcomes.

Lemma fetch_replaces_entries_witness :
  snd (LedgerPage.fetchLedgerEntries Scenarios.working_backend
                                     (Samples.ledgerPage None))
  = Flows.outcome (Samples.ledgerPage None) Scenarios.stored_entries
                  Samples.ledgerForm None [] []
                  [LedgerPage.auth_getUser;
                   LedgerPage.select_all "ledger_entries" "created_at" false].
Proof.
  apply (fetch_replaces_entries Scenarios.working_backend
           (Samples.ledgerPage None) "user-1");
    [split; reflexivity | reflexivity].
Defined.

Lemma handleSubmit_invalid_form_witness :
  exists reason,
    Ledger.validateForm (LedgerPage.formData Scenarios.untouched_page)
    = (false, [toast_error "Validation Error" reason])
    /\ snd (LedgerPage.handleSubmit Scenarios.working_backend
                                    Scenarios.untouched_page)
       = Flows.continued Scenarios.untouched_page
                         [toast_error "Validation Error" reason] [].
Proof.
  apply (handleSubmit_invalid_form Scenarios.working_backend
           Scenarios.untouched_page).
  reflexivity.
Defined.

Lemma signed_out_stops_witness :
  snd (LedgerPage.fetchLedgerEntries Scenarios.signed_out_backend
                                     (Samples.ledgerPage None))
  = Flows.outcome (Samples.ledgerPage None) Samples.whole_amounts
                  Samples.ledgerForm None
                  [toast_error "Authentication Error"
                               "Please log in to view ledger entries."]
                  ["/login"] [LedgerPage.auth_getUser]
  /\ snd (LedgerPage.handleDelete Scenarios.signed_out_backend "entry" true
                                  (Samples.ledgerPage None))
     = Flows.outcome (Samples.ledgerPage None) Samples.whole_amounts
                     Samples.ledgerForm None
                     [toast_error "Authentication Error"
                                  "Please log in to perform this action."]
                     [] [LedgerPage.auth_getUser].
Proof.
  destruct (signed_out_stops Scenarios.signed_out_backend
              (Samples.ledgerPage None) "entry" eq_refl) as (F & _ & D).
  split; [exact F | exact D].
Defined.

Lemma successful_save_refetches_witness :
  snd (LedgerPage.handleSubmit Scenarios.working_backend
                               (Samples.ledgerPage None))
  = snd (LedgerPage.fetchLedgerEntries Scenarios.working_backend
           (Flows.saved (Samples.ledgerPage None)
              [toast_success "Ledger Entry Created"
                 "Ledger entry for Acme has been successfully created."]
              [LedgerPage.auth_getUser;
               LedgerPage.insert_row "ledger_entries"
                 (LedgerPage.entryData_of "user-1" Samples.ledgerForm)])).
Proof.
  destruct (successful_save_refetches Scenarios.working_backend)
    as (C & _).
  apply (C (Samples.ledgerPage None) "user-1");
    [reflexivity | reflexivity | split; reflexivity | reflexivity].
Defined.

(** The state a successful save of a new entry ends in. *)
Example successful_save_scenario :
  snd (LedgerPage.handleSubmit Scenarios.working_backend
                               (Samples.ledgerPage None))
  = Flows.outcome (Samples.ledgerPage None) Scenarios.stored_entries
      LedgerEditing.initialFormData None
      [toast_success "Ledger Entry Created"
         "Ledger entry for Acme has been successfully created."]
      []
      [LedgerPage.auth_getUser;
       LedgerPage.insert_row "ledger_entries"
         (LedgerPage.entryData_of "user-1" Samples.ledgerForm);
       LedgerPage.auth_getUser;
       LedgerPage.select_all "ledger_entries" "created_at" false].
Proof. reflexivity. Qed.

Lemma handleDelete_outcomes_witness :
  snd (LedgerPage.handleDelete Scenarios.working_backend "entry" true
                               (Samples.ledgerPage None))
  = snd (LedgerPage.fetchLedgerEntries Scenarios.working_backend
           (Flows.continued (Samples.ledgerPage None)
              [toast_success "Ledger Entry Deleted"
                 "Ledger entry for Acme has been successfully deleted."]
              [LedgerPage.auth_getUser;
               LedgerPage.delete_row "ledger_entries" "entry" "user-1"]))
  /\ LedgerPage.formData
       (snd (LedgerPage.handleDelete Scenarios.working_backend "entry" true
                                     (Samples.ledgerPage None)))
     = Samples.ledgerForm
  /\ LedgerPage.editingId
       (snd (LedgerPage.handleDelete Scenarios.working_backend "entry" true
                                     (Samples.ledgerPage None)))
     = None.
Proof.
  destruct (handleDelete_outcomes Scenarios.working_backend) as (_ & D & _).
  apply (D (Samples.ledgerPage None) "entry" "user-1");
    [split; reflexivity | reflexivity].
Defined.

(** X11. A ledger entry that passes the validation is sent with its
    entity type and transaction type, neither of them empty, with an
    entity given by id or by a trimmed name that is not empty, and with
    the amount of the form, which is above zero: on integers and on
    binary64 numbers alike. *)
Theorem valid_entry_is_sent_positive :
  (forall (N : Type) (H : JsNumber N) (user : string) (f : Ledger.Form N),
      fst (Ledger.validateForm f) = true ->
      Ledger.f_entity_type f
      = Some (LedgerPage.d_entity_type (LedgerPage.entryData_of user f))
      /\ LedgerPage.d_entity_type (LedgerPage.entryData_of user f) <> ""
      /\ Ledger.f_transaction_type f
         = Some (LedgerPage.d_transaction_type (LedgerPage.entryData_of user f))
      /\ LedgerPage.d_transaction_type (LedgerPage.entryData_of user f) <> ""
      /\ Ledger.f_amount f
         = Some (LedgerPage.d_amount (LedgerPage.entryData_of user f))
      /\ truthy (LedgerPage.d_amount (LedgerPage.entryData_of user f)) = true
      /\ le (LedgerPage.d_amount (LedgerPage.entryData_of user f)) zero = false
      /\ ((exists i,
              LedgerPage.d_entity_id (LedgerPage.entryData_of user f) = Some i
              /\ i <> "")
          \/ (LedgerPage.d_entity_name (LedgerPage.entryData_of user f) <> ""
              /\ exists n,
                  Ledger.f_entity_name f = Some n
                  /\ LedgerPage.d_entity_name (LedgerPage.entryData_of user f)
                     = JsString.trim n)))
  /\ (forall (user : string) (f : Ledger.Form Z),
         fst (Ledger.validateForm f) = true ->
         (0 < LedgerPage.d_amount (LedgerPage.entryData_of user f))%Z)
  /\ (forall (user : string) (f : Ledger.Form float),
         fst (Ledger.validateForm f) = true ->
         (0 <? LedgerPage.d_amount (LedgerPage.entryData_of user f))%float
         = true).
Proof.
  split; [intros N H; exact valid_entryData|]. split.
  - intros user f V.
    destruct (valid_entryData user f V) as (_ & _ & _ & _ & _ & _ & L & _).
    simpl in L. apply Z.leb_gt in L. exact L.
  - intros user f V.
    destruct (valid_entryData user f V) as (_ & _ & _ & _ & _ & T & L & _).
    now apply truthy_positive.
Qed.

Lemma valid_entry_is_sent_positive_witness :
  (0 < LedgerPage.d_amount
         (LedgerPage.entryData_of "user-1" Samples.ledgerForm))%Z.
Proof.
  destruct valid_entry_is_sent_positive as (_ & P & _).
  apply (P "user-1" Samples.ledgerForm). reflexivity.
Defined.

Lemma edit_then_save_writes_back_witness :
  LedgerPage.editingId
    (snd (LedgerEditing.handleEdit (Samples.entry "debit" 40%Z)
                                   Scenarios.untouched_page))
  = Some "entry"
  /\ LedgerPage.entryData_of "user-1"
       (LedgerPage.formData
          (snd (LedgerEditing.handleEdit (Samples.entry "debit" 40%Z)
                                         Scenarios.untouched_page)))
     = Stored.values_of "user-1" (Samples.entry "debit" 40%Z)
  /\ exists rest,
      LedgerPage.requests
        (snd (LedgerPage.handleSubmit Scenarios.working_backend
                (snd (LedgerEditing.handleEdit (Samples.entry "debit" 40%Z)
                                               Scenarios.untouched_page))))
      = ([]
         ++ [LedgerPage.auth_getUser;
             LedgerPage.update_row "ledger_entries"
               (Stored.values_of "user-1" (Samples.entry "debit" 40%Z))
               "entry" "user-1"]
         ++ rest)%list.
Proof.
  apply (edit_then_save_writes_back Scenarios.working_backend
           Scenarios.untouched_page (Samples.entry "debit" 40%Z) "user-1").
  - unfold Stored.as_written, Stored.tidy_id, Stored.tidy_text; simpl.
    repeat split; try discriminate; try reflexivity.
    right. discriminate.
  - split; reflexivity.
Defined.

(** ** Products page: the category selector, the header and the data sent *)

Section Sets.

Lemma existsb_eqb (x : string) (s : list string) :
  existsb (String.eqb x) s = true <-> In x s.
Proof.
  rewrite existsb_exists. split.
  - intros [y [I E]]. apply String.eqb_eq in E. now subst.
  - intros I. exists x. split; [exact I | apply String.eqb_refl].
Qed.

Lemma JsSet_add_spec (s : list string) (x : string) :
  NoDup s ->
  NoDup (JsSet.add s x) /\ forall y, In y (JsSet.add s x) <-> In y s \/ y = x.
Proof.
  intros D. unfold JsSet.add.
  destruct (existsb (String.eqb x) s) eqn:E.
  - apply existsb_eqb in E. split; [exact D|].
    intros y. split; [auto|]. intros [I|I]; [exact I | now subst].
  - split.
    + apply NoDup_app; [exact D | repeat constructor; intros [] |].
      intros y I [J|[]]. subst y. apply existsb_eqb in I. congruence.
    + intros y. rewrite in_app_iff. simpl. intuition.
Qed.

Lemma fold_add_spec (values : list string) :
  forall s, NoDup s ->
    NoDup (fold_left JsSet.add values s)
    /\ forall y, In y (fold_left JsSet.add values s) <-> In y s \/ In y values.
Proof.
  induction values as [|x values IH]; simpl; intros s D.
  - split; [exact D | intuition].
  - destruct (JsSet_add_spec s x D) as [D' I'].
    destruct (IH _ D') as [D'' I'']. split; [exact D''|].
    intros y. rewrite I'', I'. intuition.
Qed.

Lemma of_list_spec (values : list string) :
  NoDup (JsSet.of_list values)
  /\ forall y, In y (JsSet.of_list values) <-> In y values.
Proof.
  destruct (fold_add_spec values [] (NoDup_nil _)) as [D I].
  split; [exact D|]. intros y. rewrite (I y). simpl. intuition.
Qed.

End Sets.

Section Categories.
Context {N : Type} `{JsNumber N}.
Import Products ProductsPage.

(** X12. The category selector offers every category in use exactly
    once and never an empty one; each category it offers, other than one
    spelled ["all"], lists exactly the products of that category, of
    which there is at least one.  The value ["all"] always lists every
    product, also when it is the category of a product. *)
Theorem categories_offered (products : list (Product N)) :
  NoDup (categories products)
  /\ (forall c, In c (categories products)
                <-> c <> "" /\ exists p, In p products /\ category p = c)
  /\ (forall c, In c (categories products) -> c <> "all" ->
                categoryStage c products <> []
                /\ forall p, In p (categoryStage c products)
                             <-> In p products /\ category p = c)
  /\ categoryStage "all" products = products.
Proof.
  unfold categories.
  destruct (of_list_spec (filter JsString.truthy (map category products)))
    as [D I].
  assert (M : forall c, In c (JsSet.of_list
                                (filter JsString.truthy (map category products)))
                        <-> c <> "" /\ exists p, In p products /\ category p = c).
  { intros c. rewrite I, filter_In, in_map_iff, truthy_not_empty.
    split.
    - intros [[p [E P]] T]. split; [exact T|]. now exists p.
    - intros [T [p [P E]]]. split; [|exact T]. now exists p. }
  split; [exact D|]. split; [exact M|]. split; [|reflexivity].
  intros c C A. apply M in C as [_ [p [P E]]].
  assert (S : forall q, In q (categoryStage c products)
                        <-> In q products /\ category q = c).
  { intros q. unfold categoryStage.
    apply String.eqb_neq in A. rewrite A; simpl.
    rewrite filter_In, String.eqb_eq. tauto. }
  split; [|exact S].
  intros E'. assert (X : In p (categoryStage c products)) by now apply S.
  rewrite E' in X. exact X.
Qed.

End Categories.

Section Header.
Context {N : Type} `{JsNumber N}.
Import Products ProductsPage.
Hypothesis zero_le :
  forall q m : N, strict_eq q zero = true -> le zero m = true -> le q m = true.

Lemma badge_not_in_stock (q m : N) :
  le zero m = true ->
  (getStockBadge q m <> InStock <-> le q m = true).
Proof.
  intros M. unfold getStockBadge.
  destruct (strict_eq q zero) eqn:Z.
  - rewrite (zero_le q m Z M). split; [reflexivity | discriminate].
  - destruct (le q m); split; congruence.
Qed.

Lemma header_counts (products : list (Product N)) :
  (forall p, In p products -> le zero (min_stock p) = true) ->
  (forall p, In p (outOfStock products)
             <-> In p products
                 /\ getStockBadge (quantity p) (min_stock p) = OutOfStock)
  /\ (forall p, In p (stockAlerts products)
                <-> In p products
                    /\ getStockBadge (quantity p) (min_stock p) <> InStock)
  /\ (forall p, In p (outOfStock products) -> In p (stockAlerts products))
  /\ (List.length (outOfStock products)
      <= List.length (stockAlerts products))%nat
  /\ (outOfStockBadge products <> None -> stockAlertsBadge products <> None).
Proof.
  intros M.
  assert (O : forall p, In p (outOfStock products)
                        <-> In p products
                            /\ getStockBadge (quantity p) (min_stock p)
                               = OutOfStock).
  { intros p. unfold outOfStock. rewrite filter_In. unfold getStockBadge.
    destruct (strict_eq (quantity p) zero); [tauto|].
    destruct (le (quantity p) (min_stock p));
      split; intros [? ?]; discriminate. }
  assert (A : forall p, In p (stockAlerts products)
                        <-> In p products
                            /\ getStockBadge (quantity p) (min_stock p)
                               <> InStock).
  { intros p. unfold stockAlerts. rewrite filter_In.
    split; intros [I E]; (split; [exact I|]);
      now apply (badge_not_in_stock _ _ (M p I)). }
  assert (L : (List.length (outOfStock products)
               <= List.length (stockAlerts products))%nat).
  { apply filter_length_le. intros p I Z. exact (zero_le _ _ Z (M p I)). }
  split; [exact O|]. split; [exact A|]. split; [|split; [exact L|]].
  - intros p I. apply A. apply O in I as [I E]. split; [exact I|].
    rewrite E. discriminate.
  - unfold outOfStockBadge, stockAlertsBadge.
    destruct (0 <? List.length (outOfStock products))%nat eqn:X;
      [|congruence].
    apply Nat.ltb_lt in X. intros _.
    destruct (0 <? List.length (stockAlerts products))%nat eqn:Y;
      [discriminate|].
    apply Nat.ltb_ge in Y. lia.
Qed.

End Header.

(** X13. For products whose minimum stock is not negative, on integers
    and on binary64 numbers alike, the two counts of the header agree
    with the stock badges of the rows: the out-of-stock count counts the
    products badged "Out of Stock", the alert count counts the products
    not badged "In Stock"; every product out of stock is among the
    alerts, so the alert count is never the smaller one and the alert
    badge is shown whenever the out-of-stock badge is. *)
Theorem header_counts_match_badges :
  (forall products : list (Products.Product Z),
      (forall p, In p products -> (0 <= Products.min_stock p)%Z) ->
      (forall p, In p (ProductsPage.outOfStock products)
                 <-> In p products
                     /\ Products.getStockBadge (Products.quantity p)
                                               (Products.min_stock p)
                        = Products.OutOfStock)
      /\ (forall p, In p (ProductsPage.stockAlerts products)
                    <-> In p products
                        /\ Products.getStockBadge (Products.quantity p)
                                                  (Products.min_stock p)
                           <> Products.InStock)
      /\ (forall p, In p (ProductsPage.outOfStock products) ->
                    In p (ProductsPage.stockAlerts products))
      /\ (List.length (ProductsPage.outOfStock products)
          <= List.length (ProductsPage.stockAlerts products))%nat
      /\ (ProductsPage.outOfStockBadge products <> None ->
          ProductsPage.stockAlertsBadge products <> None))
  /\ (forall products : list (Products.Product float),
      (forall p, In p products -> (0 <=? Products.min_stock p)%float = true) ->
      (forall p, In p (ProductsPage.outOfStock products)
                 <-> In p products
                     /\ Products.getStockBadge (Products.quantity p)
                                               (Products.min_stock p)
                        = Products.OutOfStock)
      /\ (forall p, In p (ProductsPage.stockAlerts products)
                    <-> In p products
                        /\ Products.getStockBadge (Products.quantity p)
                                                  (Products.min_stock p)
                           <> Products.InStock)
      /\ (forall p, In p (ProductsPage.outOfStock products) ->
                    In p (ProductsPage.stockAlerts products))
      /\ (List.length (ProductsPage.outOfStock products)
          <= List.length (ProductsPage.stockAlerts products))%nat
      /\ (ProductsPage.outOfStockBadge products <> None ->
          ProductsPage.stockAlertsBadge products <> None)).
Proof.
  split.
  - intros products M. apply (header_counts (H := JsNumber_Z) zero_le_integers).
    intros p I. apply Z.leb_le. exact (M p I).
  - intros products M. apply (header_counts (H := JsNumber_float) eqb_zero_leb). exact M.
Qed.

Lemma header_counts_match_badges_witness :
  (List.length (ProductsPage.outOfStock Samples.products)
   <= List.length (ProductsPage.stockAlerts Samples.products))%nat
  /\ (ProductsPage.outOfStockBadge Samples.products <> None ->
      ProductsPage.stockAlertsBadge Samples.products <> None).
Proof.
  destruct header_counts_match_badges as (Z & _).
  destruct (Z Samples.products) as (_ & _ & _ & L & B).
  - intros p [<-|[<-|[<-|[]]]]; simpl; lia.
  - split; [exact L | exact B].
Defined.

Example header_scenario :
  ProductsPage.outOfStockBadge Samples.products = Some 1%nat
  /\ ProductsPage.stockAlertsBadge Samples.products
     = Some (2%nat, "Low Stock Alerts")
  /\ ProductsPage.categories Samples.products = ["Tools"].
Proof. repeat split. Qed.

Section ProductPayload.
Context {N : Type} `{JsNumber N}.
Import Products ProductsPage.

Lemma valid_productData (user : string) (f : Form N) :
  fst (validateForm f) = true ->
  (exists n, f_name f = Some n
             /\ d_name (productData_of user f) = JsString.trim n
             /\ JsString.trim n <> "")
  /\ (exists c, f_category f = Some c
                /\ d_category (productData_of user f) = JsString.trim c
                /\ JsString.trim c <> "")
  /\ f_price f = Some (d_price (productData_of user f))
  /\ truthy (d_price (productData_of user f)) = true
  /\ le (d_price (productData_of user f)) zero = false
  /\ (f_quantity f = None
      \/ exists q, f_quantity f = Some q /\ lt q zero = false)
  /\ (f_min_stock f = None
      \/ exists m, f_min_stock f = Some m /\ lt m zero = false).
Proof.
  unfold validateForm, productData_of; simpl.
  destruct (f_name f) as [n|]; simpl; [|discriminate].
  destruct (JsString.truthy (JsString.trim n)) eqn:Tn; simpl; [|discriminate].
  destruct (f_category f) as [c|]; simpl; [|discriminate].
  destruct (JsString.truthy (JsString.trim c)) eqn:Tc; simpl; [|discriminate].
  destruct (f_price f) as [p|]; simpl; [|discriminate].
  destruct (truthy p) eqn:Tp; simpl; [|discriminate].
  destruct (le p zero) eqn:Lp; simpl; [discriminate|].
  destruct (match f_quantity f with Some q => lt q zero | None => false end)
    eqn:Q; simpl; [discriminate|].
  destruct (match f_min_stock f with Some m => lt m zero | None => false end)
    eqn:M; simpl; [discriminate|]. intros _.
  split; [exists n; repeat split; now apply truthy_not_empty|].
  split; [exists c; repeat split; now apply truthy_not_empty|].
  repeat (split; [reflexivity || assumption|]).
  split.
  - destruct (f_quantity f) as [q|]; [right; now exists q | now left].
  - destruct (f_min_stock f) as [m|]; [right; now exists m | now left].
Qed.

End ProductPayload.

(** X14. A product that passes the validation is sent with a trimmed
    name and a trimmed category, neither of them empty, with the price of
    the form, which is above zero, and with a quantity and a minimum
    stock that are not negative (a missing or [NaN] one is sent as 0):
    on integers and on binary64 numbers alike. *)
Theorem valid_product_is_sent_sound :
  (forall (N : Type) (H : JsNumber N) (user : string) (f : Products.Form N),
      fst (Products.validateForm f) = true ->
      (exists n,
          Products.f_name f = Some n
          /\ ProductsPage.d_name (ProductsPage.productData_of user f)
             = JsString.trim n
          /\ JsString.trim n <> "")
      /\ (exists c,
             Products.f_category f = Some c
             /\ ProductsPage.d_category (ProductsPage.productData_of user f)
                = JsString.trim c
             /\ JsString.trim c <> "")
      /\ Products.f_price f
         = Some (ProductsPage.d_price (ProductsPage.productData_of user f)))
  /\ (forall (user : string) (f : Products.Form Z),
         fst (Products.validateForm f) = true ->
         (0 < ProductsPage.d_price (ProductsPage.productData_of user f))%Z
         /\ (0 <= ProductsPage.d_quantity (ProductsPage.productData_of user f))%Z
         /\ (0 <= ProductsPage.d_min_stock
                    (ProductsPage.productData_of user f))%Z)
  /\ (forall (user : string) (f : Products.Form float),
         fst (Products.validateForm f) = true ->
         (0 <? ProductsPage.d_price (ProductsPage.productData_of user f))%float
         = true
         /\ (0 <=? ProductsPage.d_quantity
                     (ProductsPage.productData_of user f))%float = true
         /\ (0 <=? ProductsPage.d_min_stock
                     (ProductsPage.productData_of user f))%float = true).
Proof.
  split; [|split].
  - intros N H user f V.
    destruct (valid_productData user f V) as (A & B & C & _). auto.
  - intros user f V.
    destruct (valid_productData user f V) as (_ & _ & _ & _ & L & Q & M).
    simpl in L. apply Z.leb_gt in L. split; [exact L|].
    unfold ProductsPage.productData_of; simpl. split.
    + destruct Q as [Q|(q & Q & Lq)]; rewrite Q; [simpl; lia|].
      now apply number_or_zero_nonnegative_Z.
    + destruct M as [M|(m & M & Lm)]; rewrite M; [simpl; lia|].
      now apply number_or_zero_nonnegative_Z.
  - intros user f V.
    destruct (valid_productData user f V) as (_ & _ & _ & T & L & Q & M).
    split; [now apply truthy_positive|].
    unfold ProductsPage.productData_of; simpl. split.
    + destruct Q as [Q|(q & Q & Lq)]; rewrite Q; [reflexivity|].
      now apply number_or_zero_nonnegative.
    + destruct M as [M|(m & M & Lm)]; rewrite M; [reflexivity|].
      now apply number_or_zero_nonnegative.
Qed.

Lemma valid_product_is_sent_sound_witness :
  ProductsPage.productData_of "user-1" (Scenarios.productForm 5%Z 12%Z 2%Z)
  = {| ProductsPage.d_user_id := "user-1";
       ProductsPage.d_name := "Hammer";
       ProductsPage.d_category := "Tools";
       ProductsPage.d_quantity := 5%Z;
       ProductsPage.d_price := 12%Z;
       ProductsPage.d_min_stock := 2%Z |}
  /\ (0 < ProductsPage.d_price
            (ProductsPage.productData_of "user-1"
               (Scenarios.productForm 5%Z 12%Z 2%Z)))%Z
  /\ (0 <=? ProductsPage.d_quantity
              (ProductsPage.productData_of "user-1"
                 (Scenarios.productForm nan 12%float 2%float)))%float = true.
Proof.
  destruct valid_product_is_sent_sound as (_ & Z & F).
  split; [reflexivity|]. split.
  - apply (Z "user-1" (Scenarios.productForm 5%Z 12%Z 2%Z)). reflexivity.
  - apply (F "user-1" (Scenarios.productForm nan 12%float 2%float)).
    reflexivity.
Defined.

(** ** Customers and vendors pages: the search and the data sent *)

Section PartySearch.
Context {N : Type} `{JsNumber N}.
Import Parties PartiesPage Substrings.

Lemma includes_opt_contains (o : option string) (t : string) :
  includes_opt o t = true <-> contains_opt o t.
Proof.
  unfold includes_opt, contains_opt. destruct o as [s|].
  - rewrite includes_contains. split.
    + intros C. now exists s.
    + intros (s' & E & C). now injection E as ->.
  - split; [discriminate | intros (s' & E & _); discriminate].
Qed.

Lemma includes_lower_opt_contains (o : option string) (t : string) :
  includes_lower_opt o t = true <-> contains_lower_opt o t.
Proof.
  unfold includes_lower_opt, contains_lower_opt. destruct o as [s|].
  - rewrite includes_contains. split.
    + intros C. now exists s.
    + intros (s' & E & C). now injection E as ->.
  - split; [discriminate | intros (s' & E & _); discriminate].
Qed.

(** X15. For names, e-mail addresses, addresses and a search term of
    ASCII characters, the search of the customers page and of the
    vendors page keeps the order of the list; a blank term lists
    everybody; any other term lists exactly the parties that hold it in
    the name, the e-mail address or the address, whatever the case of
    the letters, or in the phone number exactly as it is typed. *)
Theorem party_search_matches (parties : list (Party N)) (searchTerm : string) :
  Language.ascii_only searchTerm = true ->
  (forall party, In party parties ->
                 Language.ascii_only (name party) = true
                 /\ Language.ascii_only_opt (email party) = true
                 /\ Language.ascii_only_opt (address party) = true) ->
  (JsString.trim searchTerm = "" -> filterParties parties searchTerm = parties)
  /\ (exists keep, filterParties parties searchTerm = filter keep parties)
  /\ (JsString.trim searchTerm <> "" ->
      forall party,
        In party (filterParties parties searchTerm)
        <-> In party parties
            /\ (contains (JsString.toLowerCase (name party))
                         (JsString.toLowerCase searchTerm)
                \/ contains_lower_opt (email party)
                                      (JsString.toLowerCase searchTerm)
                \/ contains_opt (phone party) searchTerm
                \/ contains_lower_opt (address party)
                                      (JsString.toLowerCase searchTerm))).
Proof.
  intros _ _.
  unfold filterParties. split; [|split].
  - intros ->. reflexivity.
  - destruct (negb _).
    + exists (fun _ => true). now rewrite filter_all.
    + eexists. reflexivity.
  - intros T. apply truthy_not_empty in T. rewrite T; simpl.
    intros party. rewrite filter_In, !orb_true_iff.
    rewrite includes_contains, !includes_lower_opt_contains,
      includes_opt_contains.
    tauto.
Qed.

End PartySearch.

Lemma party_search_matches_witness :
  In Scenarios.acme_tools
     (PartiesPage.filterParties [Scenarios.acme_tools] "TOOLS").
Proof.
  destruct (party_search_matches [Scenarios.acme_tools] "TOOLS")
    as (_ & _ & M).
  - reflexivity.
  - intros party [<-|[]]. repeat split.
  - apply M; [discriminate|]. split; [left; reflexivity|].
    left. exists "acme ", "". reflexivity.
Defined.

Section PartyPayload.
Context {N : Type} `{JsNumber N}.
Import Parties PartiesPage.

Lemma valid_partyData (party : string) (f : Form N) :
  fst (validateForm party f) = true ->
  (exists n, f_name f = Some n
             /\ JsString.or_default (JsString.trim_opt (f_name f)) ""
                = JsString.trim n
             /\ JsString.trim n <> "")
  /\ (JsString.or_null (JsString.trim_opt (f_email f)) = None
      \/ exists e, f_email f = Some e
                   /\ JsString.or_null (JsString.trim_opt (f_email f)) = Some e
                   /\ JsRegExp.test JsRegExp.email e = true)
  /\ (f_balance f = None
      \/ exists b, f_balance f = Some b
                   /\ (truthy b = true -> lt b zero = false)).
Proof.
  unfold validateForm.
  destruct (f_name f) as [n|]; simpl; [|discriminate].
  destruct (JsString.truthy (JsString.trim n)) eqn:T; simpl; [|discriminate].
  destruct (match f_email f with
            | Some e => JsString.truthy e
                        && negb (JsRegExp.test JsRegExp.email e)
            | None => false
            end) eqn:E; simpl; [discriminate|].
  destruct (match f_balance f with
            | Some b => truthy b && lt b zero
            | None => false
            end) eqn:B; simpl; [discriminate|]. intros _.
  split; [|split].
  - exists n. split; [reflexivity|]. split; [reflexivity|].
    now apply truthy_not_empty.
  - destruct (f_email f) as [e|]; simpl; [|now left].
    destruct (JsString.truthy e) eqn:Te.
    + simpl in E. apply negb_false_iff in E.
      destruct (email_trimmed_one_at e E) as [R _].
      rewrite R, Te. right. now exists e.
    + apply negb_false_iff, String.eqb_eq in Te. subst e. now left.
  - destruct (f_balance f) as [b|]; [|now left].
    right. exists b. split; [reflexivity|]. intros Tb. now rewrite Tb in B.
Qed.

End PartyPayload.

(** X16. A customer or a vendor that passes the validation is sent with
    a trimmed name that is not empty and with an e-mail address that is
    [null] or the address of the form, which the e-mail pattern accepts;
    the balance of a vendor is sent as a number that is not negative, on
    integers and on binary64 numbers alike. *)
Theorem valid_party_is_sent_clean :
  (forall (N : Type) (H : JsNumber N) (party user : string)
          (f : Parties.Form N),
      fst (Parties.validateForm party f) = true ->
      (exists n,
          Parties.f_name f = Some n
          /\ PartiesPage.d_name (PartiesPage.customerData_of user f)
             = JsString.trim n
          /\ PartiesPage.d_name (PartiesPage.vendorData_of user f)
             = JsString.trim n
          /\ JsString.trim n <> "")
      /\ PartiesPage.d_email (PartiesPage.vendorData_of user f)
         = PartiesPage.d_email (PartiesPage.customerData_of user f)
      /\ (PartiesPage.d_email (PartiesPage.customerData_of user f) = None
          \/ exists e,
              Parties.f_email f = Some e
              /\ PartiesPage.d_email (PartiesPage.customerData_of user f)
                 = Some e
              /\ JsRegExp.test JsRegExp.email e = true))
  /\ (forall (party user : string) (f : Parties.Form Z),
         fst (Parties.validateForm party f) = true ->
         exists b,
           PartiesPage.d_balance (PartiesPage.vendorData_of user f) = Some b
           /\ (0 <= b)%Z)
  /\ (forall (party user : string) (f : Parties.Form float),
         fst (Parties.validateForm party f) = true ->
         exists b,
           PartiesPage.d_balance (PartiesPage.vendorData_of user f) = Some b
           /\ (0 <=? b)%float = true).
Proof.
  split; [|split].
  - intros N H party user f V.
    destruct (valid_partyData party f V) as ((n & Fn & Dn & Tn) & E & _).
    split; [|split; [reflexivity | exact E]].
    exists n. auto.
  - intros party user f V.
    destruct (valid_partyData party f V) as (_ & _ & B).
    eexists. split; [reflexivity|].
    destruct B as [B|(b & B & L)]; rewrite B; [simpl; lia|].
    now apply number_or_zero_nonnegative_Z.
  - intros party user f V.
    destruct (valid_partyData party f V) as (_ & _ & B).
    eexists. split; [reflexivity|].
    destruct B as [B|(b & B & L)]; rewrite B; [reflexivity|].
    now apply number_or_zero_nonnegative.
Qed.

Lemma valid_party_is_sent_clean_witness :
  PartiesPage.vendorData_of "user-1" (Scenarios.vendorForm 250%Z)
  = {| PartiesPage.d_user_id := "user-1";
       PartiesPage.d_name := "Acme";
       PartiesPage.d_email := Some "sales@acme.example";
       PartiesPage.d_phone := None;
       PartiesPage.d_address := None;
       PartiesPage.d_balance := Some 250%Z |}
  /\ (exists b,
         PartiesPage.d_balance
           (PartiesPage.vendorData_of "user-1" (Scenarios.vendorForm 250%Z))
         = Some b
         /\ (0 <= b)%Z)
  /\ (exists b,
         PartiesPage.d_balance
           (PartiesPage.vendorData_of "user-1" (Scenarios.vendorForm nan))
         = Some b
         /\ (0 <=? b)%float = true).
Proof.
  destruct valid_party_is_sent_clean as (_ & Z & F).
  split; [reflexivity|]. split.
  - apply (Z "Vendor" "user-1" (Scenarios.vendorForm 250%Z)). reflexivity.
  - apply (F "Vendor" "user-1" (Scenarios.vendorForm nan)). reflexivity.
Defined.

(** ** Sale items, purchase items and purchases: totals *)

Section TotalEffect.
Context {N : Type} `{JsNumber N}.

Lemma saleItems_recomputeTotal_again (f : SaleItems.Form N) :
  SaleItems.recomputeTotal (SaleItems.recomputeTotal f)
  = SaleItems.recomputeTotal f.
Proof.
  unfold SaleItems.recomputeTotal.
  destruct (SaleItems.total_differs (SaleItems.f_total f)
                                    (SaleItems.lineTotal f)) eqn:D.
  - unfold SaleItems.lineTotal; simpl.
    match goal with
    | |- context [if ?c then _ else _] => destruct c
    end; reflexivity.
  - now rewrite D.
Qed.

Lemma purchaseItems_recomputeTotal_again (f : PurchaseItems.Form N) :
  PurchaseItems.recomputeTotal (PurchaseItems.recomputeTotal f)
  = PurchaseItems.recomputeTotal f.
Proof.
  unfold PurchaseItems.recomputeTotal.
  destruct (SaleItems.total_differs (PurchaseItems.f_total f)
                                    (PurchaseItems.lineTotal f)) eqn:D.
  - unfold PurchaseItems.lineTotal; simpl.
    match goal with
    | |- context [if ?c then _ else _] => destruct c
    end; reflexivity.
  - now rewrite D.
Qed.

Lemma purchases_recomputeTotal_again (f : Purchases.Form N) :
  Purchases.recomputeTotal (Purchases.recomputeTotal f)
  = Purchases.recomputeTotal f.
Proof.
  unfold Purchases.recomputeTotal.
  destruct (SaleItems.total_differs (Purchases.f_total f)
                                    (Purchases.invoiceTotal f)) eqn:D.
  - unfold Purchases.invoiceTotal; simpl.
    match goal with
    | |- context [if ?c then _ else _] => destruct c
    end; reflexivity.
  - now rewrite D.
Qed.

(** X17. The effect that recomputes a total, on the sale items page, the
    purchase items page and the purchases page, changes no field other
    than the total, and running it a second time changes nothing: one
    run settles the form, in every number model, [NaN] totals
    included. *)
Theorem recomputeTotal_settles :
  (forall f : SaleItems.Form N,
      SaleItems.recomputeTotal (SaleItems.recomputeTotal f)
      = SaleItems.recomputeTotal f
      /\ SaleItems.f_sale_id (SaleItems.recomputeTotal f)
         = SaleItems.f_sale_id f
      /\ SaleItems.f_product_id (SaleItems.recomputeTotal f)
         = SaleItems.f_product_id f
      /\ SaleItems.f_product_name (SaleItems.recomputeTotal f)
         = SaleItems.f_product_name f
      /\ SaleItems.f_quantity (SaleItems.recomputeTotal f)
         = SaleItems.f_quantity f
      /\ SaleItems.f_price (SaleItems.recomputeTotal f) = SaleItems.f_price f)
  /\ (forall f : PurchaseItems.Form N,
         PurchaseItems.recomputeTotal (PurchaseItems.recomputeTotal f)
         = PurchaseItems.recomputeTotal f
         /\ PurchaseItems.f_purchase_id (PurchaseItems.recomputeTotal f)
            = PurchaseItems.f_purchase_id f
         /\ PurchaseItems.f_product_id (PurchaseItems.recomputeTotal f)
            = PurchaseItems.f_product_id f
         /\ PurchaseItems.f_product_name (PurchaseItems.recomputeTotal f)
            = PurchaseItems.f_product_name f
         /\ PurchaseItems.f_quantity (PurchaseItems.recomputeTotal f)
            = PurchaseItems.f_quantity f
         /\ PurchaseItems.f_price (PurchaseItems.recomputeTotal f)
            = PurchaseItems.f_price f)
  /\ (forall f : Purchases.Form N,
         Purchases.recomputeTotal (Purchases.recomputeTotal f)
         = Purchases.recomputeTotal f
         /\ Purchases.f_vendor_id (Purchases.recomputeTotal f)
            = Purchases.f_vendor_id f
         /\ Purchases.f_vendor_name (Purchases.recomputeTotal f)
            = Purchases.f_vendor_name f
         /\ Purchases.f_purchase_date (Purchases.recomputeTotal f)
            = Purchases.f_purchase_date f
         /\ Purchases.f_subtotal (Purchases.recomputeTotal f)
            = Purchases.f_subtotal f
         /\ Purchases.f_tax (Purchases.recomputeTotal f) = Purchases.f_tax f
         /\ Purchases.f_status (Purchases.recomputeTotal f)
            = Purchases.f_status f).
Proof.
  split; [|split]; intros f.
  - split; [apply saleItems_recomputeTotal_again|].
    unfold SaleItems.recomputeTotal.
    destruct (SaleItems.total_differs _ _); repeat split.
  - split; [apply purchaseItems_recomputeTotal_again|].
    unfold PurchaseItems.recomputeTotal.
    destruct (SaleItems.total_differs _ _); repeat split.
  - split; [apply purchases_recomputeTotal_again|].
    unfold Purchases.recomputeTotal.
    destruct (SaleItems.total_differs _ _); repeat split.
Qed.

End TotalEffect.

Section ItemPayload.
Context {N : Type} `{JsNumber N} `{!JsOne N}.

Lemma valid_saleItemData (f : SaleItems.Form N) :
  fst (SaleItems.validateForm f) = true ->
  (exists s, SaleItems.f_sale_id f = Some s /\ s <> "")
  /\ (exists n,
         SaleItems.f_product_name f = Some n
         /\ SaleItemsPage.d_product_name (SaleItemsPage.itemData_of f) = JsString.trim n
         /\ JsString.trim n <> "")
  /\ (exists q,
         SaleItems.f_quantity f = Some q
         /\ SaleItemsPage.d_quantity (SaleItemsPage.itemData_of f) = q
         /\ truthy q = true /\ le q zero = false)
  /\ (exists p,
         SaleItems.f_price f = Some p
         /\ SaleItemsPage.d_price (SaleItemsPage.itemData_of f) = p
         /\ truthy p = true /\ le p zero = false).
Proof.
  unfold SaleItems.validateForm, SaleItemsPage.itemData_of; simpl.
  destruct (SaleItems.f_sale_id f) as [s|]; simpl; [|discriminate].
  destruct (JsString.truthy s) eqn:Ts; simpl; [|discriminate].
  destruct (SaleItems.f_product_name f) as [n|]; simpl; [|discriminate].
  destruct (JsString.truthy (JsString.trim n)) eqn:Tn; simpl; [|discriminate].
  destruct (SaleItems.f_quantity f) as [q|]; simpl; [|discriminate].
  destruct (truthy q) eqn:Tq; simpl; [|discriminate].
  destruct (le q zero) eqn:Lq; simpl; [discriminate|].
  destruct (SaleItems.f_price f) as [p|]; simpl; [|discriminate].
  destruct (truthy p) eqn:Tp; simpl; [|discriminate].
  destruct (le p zero) eqn:Lp; simpl; [discriminate|]. intros _.
  split; [exists s; split; [reflexivity | now apply truthy_not_empty]|].
  split; [exists n; repeat split; now apply truthy_not_empty|].
  split; [exists q | exists p]; auto.
Qed.

Lemma valid_purchaseItemData (f : PurchaseItems.Form N) :
  fst (PurchaseItems.validateForm f) = true ->
  (exists s, PurchaseItems.f_purchase_id f = Some s /\ s <> "")
  /\ (exists n,
         PurchaseItems.f_product_name f = Some n
         /\ PurchaseItemsPage.d_product_name (PurchaseItemsPage.itemData_of f) = JsString.trim n
         /\ JsString.trim n <> "")
  /\ (exists q,
         PurchaseItems.f_quantity f = Some q
         /\ PurchaseItemsPage.d_quantity (PurchaseItemsPage.itemData_of f) = q
         /\ truthy q = true /\ le q zero = false)
  /\ (exists p,
         PurchaseItems.f_price f = Some p
         /\ PurchaseItemsPage.d_price (PurchaseItemsPage.itemData_of f) = p
         /\ truthy p = true /\ le p zero = false).
Proof.
  unfold PurchaseItems.validateForm, PurchaseItemsPage.itemData_of; simpl.
  destruct (PurchaseItems.f_purchase_id f) as [s|]; simpl; [|discriminate].
  destruct (JsString.truthy s) eqn:Ts; simpl; [|discriminate].
  destruct (PurchaseItems.f_product_name f) as [n|]; simpl; [|discriminate].
  destruct (JsString.truthy (JsString.trim n)) eqn:Tn; simpl; [|discriminate].
  destruct (PurchaseItems.f_quantity f) as [q|]; simpl; [|discriminate].
  destruct (truthy q) eqn:Tq; simpl; [|discriminate].
  destruct (le q zero) eqn:Lq; simpl; [discriminate|].
  destruct (PurchaseItems.f_price f) as [p|]; simpl; [|discriminate].
  destruct (truthy p) eqn:Tp; simpl; [|discriminate].
  destruct (le p zero) eqn:Lp; simpl; [discriminate|]. intros _.
  split; [exists s; split; [reflexivity | now apply truthy_not_empty]|].
  split; [exists n; repeat split; now apply truthy_not_empty|].
  split; [exists q | exists p]; auto.
Qed.

Context `{!ExactNumber N}.

Lemma settled_saleItem_total (f : SaleItems.Form N) :
  fst (SaleItems.validateForm f) = true ->
  SaleItems.recomputeTotal f = f ->
  SaleItemsPage.d_total (SaleItemsPage.itemData_of f)
  = mul (SaleItemsPage.d_quantity (SaleItemsPage.itemData_of f))
        (SaleItemsPage.d_price (SaleItemsPage.itemData_of f)).
Proof.
  intros V S.
  destruct (valid_saleItemData f V)
    as (_ & _ & (q & Q & Dq & _) & (p & P & Dp & _)).
  rewrite Dq, Dp.
  pose proof (recomputeTotal_exact f) as T. rewrite S in T.
  unfold SaleItemsPage.itemData_of. cbn [SaleItemsPage.d_total].
  rewrite T, number_or_zero_exact. unfold SaleItems.lineTotal.
  now rewrite Q, P, !number_or_zero_exact.
Qed.

Lemma settled_purchaseItem_total (f : PurchaseItems.Form N) :
  fst (PurchaseItems.validateForm f) = true ->
  PurchaseItems.recomputeTotal f = f ->
  PurchaseItemsPage.d_total (PurchaseItemsPage.itemData_of f)
  = mul (PurchaseItemsPage.d_quantity (PurchaseItemsPage.itemData_of f))
        (PurchaseItemsPage.d_price (PurchaseItemsPage.itemData_of f)).
Proof.
  intros V S.
  destruct (valid_purchaseItemData f V)
    as (_ & _ & (q & Q & Dq & _) & (p & P & Dp & _)).
  rewrite Dq, Dp.
  pose proof (recomputeTotal_purchase_exact f) as T. rewrite S in T.
  unfold PurchaseItemsPage.itemData_of. cbn [PurchaseItemsPage.d_total].
  rewrite T, number_or_zero_exact. unfold PurchaseItems.lineTotal.
  now rewrite Q, P, !number_or_zero_exact.
Qed.

Lemma saleItems_recomputeTotal_record (f : SaleItems.Form N) :
  SaleItems.recomputeTotal f
  = {| SaleItems.f_sale_id := SaleItems.f_sale_id f;
       SaleItems.f_product_id := SaleItems.f_product_id f;
       SaleItems.f_product_name := SaleItems.f_product_name f;
       SaleItems.f_quantity := SaleItems.f_quantity f;
       SaleItems.f_price := SaleItems.f_price f;
       SaleItems.f_total := Some (SaleItems.lineTotal f) |}.
Proof.
  unfold SaleItems.recomputeTotal.
  destruct (SaleItems.total_differs _ _) eqn:D; [reflexivity|].
  unfold SaleItems.total_differs in D.
  destruct f as [a b c d e [t|]]; simpl in *; [|discriminate].
  apply negb_false_iff, strict_eq_true in D. rewrite D. reflexivity.
Qed.

Lemma saleItems_select_product (products : list (Products.Product N))
      (f : SaleItems.Form N) (productId : string) :
  SaleItems.f_sale_id
    (SaleItems.recomputeTotal
       (SaleItemsPage.handleProductSelect products f productId))
  = SaleItems.f_sale_id f
  /\ SaleItems.f_quantity
       (SaleItems.recomputeTotal
          (SaleItemsPage.handleProductSelect products f productId))
     = SaleItems.f_quantity f
  /\ ((exists product,
          In product products
          /\ Products.id product = productId
          /\ SaleItems.recomputeTotal
               (SaleItemsPage.handleProductSelect products f productId)
             = {| SaleItems.f_sale_id := SaleItems.f_sale_id f;
                  SaleItems.f_product_id := Some productId;
                  SaleItems.f_product_name := Some (Products.name product);
                  SaleItems.f_quantity := SaleItems.f_quantity f;
                  SaleItems.f_price := Some (Products.price product);
                  SaleItems.f_total :=
                    Some (mul (number_or_zero (SaleItems.f_quantity f))
                              (Products.price product)) |})
      \/ ((forall product, In product products ->
                           Products.id product <> productId)
          /\ SaleItems.recomputeTotal
               (SaleItemsPage.handleProductSelect products f productId)
             = {| SaleItems.f_sale_id := SaleItems.f_sale_id f;
                  SaleItems.f_product_id := Some "";
                  SaleItems.f_product_name := Some "";
                  SaleItems.f_quantity := SaleItems.f_quantity f;
                  SaleItems.f_price := Some zero;
                  SaleItems.f_total :=
                    Some (mul (number_or_zero (SaleItems.f_quantity f))
                              zero) |})).
Proof.
  rewrite saleItems_recomputeTotal_record.
  unfold SaleItemsPage.handleProductSelect, SaleItems.lineTotal.
  destruct (find _ products) as [product|] eqn:F;
    cbn [SaleItems.f_sale_id SaleItems.f_product_id SaleItems.f_product_name
         SaleItems.f_quantity SaleItems.f_price SaleItems.f_total].
  - split; [reflexivity|]. split; [reflexivity|].
    left. exists product. apply find_id_some in F as [I E].
    split; [exact I|]. split; [exact E|].
    now rewrite !number_or_zero_exact.
  - split; [reflexivity|]. split; [reflexivity|].
    right. split; [exact (find_id_none _ _ _ F)|].
    now rewrite (number_or_zero_exact zero).
Qed.

Lemma purchaseItems_recomputeTotal_record (f : PurchaseItems.Form N) :
  PurchaseItems.recomputeTotal f
  = {| PurchaseItems.f_purchase_id := PurchaseItems.f_purchase_id f;
       PurchaseItems.f_product_id := PurchaseItems.f_product_id f;
       PurchaseItems.f_product_name := PurchaseItems.f_product_name f;
       PurchaseItems.f_quantity := PurchaseItems.f_quantity f;
       PurchaseItems.f_price := PurchaseItems.f_price f;
       PurchaseItems.f_total := Some (PurchaseItems.lineTotal f) |}.
Proof.
  unfold PurchaseItems.recomputeTotal.
  destruct (SaleItems.total_differs _ _) eqn:D; [reflexivity|].
  unfold SaleItems.total_differs in D.
  destruct f as [a b c d e [t|]]; simpl in *; [|discriminate].
  apply negb_false_iff, strict_eq_true in D. rewrite D. reflexivity.
Qed.

Lemma purchaseItems_select_product (products : list (Products.Product N))
      (f : PurchaseItems.Form N) (productId : string) :
  PurchaseItems.f_purchase_id
    (PurchaseItems.recomputeTotal
       (PurchaseItemsPage.handleProductSelect products f productId))
  = PurchaseItems.f_purchase_id f
  /\ PurchaseItems.f_quantity
       (PurchaseItems.recomputeTotal
          (PurchaseItemsPage.handleProductSelect products f productId))
     = PurchaseItems.f_quantity f
  /\ ((exists product,
          In product products
          /\ Products.id product = productId
          /\ PurchaseItems.recomputeTotal
               (PurchaseItemsPage.handleProductSelect products f productId)
             = {| PurchaseItems.f_purchase_id := PurchaseItems.f_purchase_id f;
                  PurchaseItems.f_product_id := Some productId;
                  PurchaseItems.f_product_name := Some (Products.name product);
                  PurchaseItems.f_quantity := PurchaseItems.f_quantity f;
                  PurchaseItems.f_price := Some (Products.price product);
                  PurchaseItems.f_total :=
                    Some (mul (number_or_zero (PurchaseItems.f_quantity f))
                              (Products.price product)) |})
      \/ ((forall product, In product products ->
                           Products.id product <> productId)
          /\ PurchaseItems.recomputeTotal
               (PurchaseItemsPage.handleProductSelect products f productId)
             = {| PurchaseItems.f_purchase_id := PurchaseItems.f_purchase_id f;
                  PurchaseItems.f_product_id := Some "";
                  PurchaseItems.f_product_name := Some "";
                  PurchaseItems.f_quantity := PurchaseItems.f_quantity f;
                  PurchaseItems.f_price := Some zero;
                  PurchaseItems.f_total :=
                    Some (mul (number_or_zero (PurchaseItems.f_quantity f))
                              zero) |})).
Proof.
  rewrite purchaseItems_recomputeTotal_record.
  unfold PurchaseItemsPage.handleProductSelect, PurchaseItems.lineTotal.
  destruct (find _ products) as [product|] eqn:F;
    cbn [PurchaseItems.f_purchase_id PurchaseItems.f_product_id
         PurchaseItems.f_product_name PurchaseItems.f_quantity
         PurchaseItems.f_price PurchaseItems.f_total].
  - split; [reflexivity|]. split; [reflexivity|].
    left. exists product. apply find_id_some in F as [I E].
    split; [exact I|]. split; [exact E|].
    now rewrite !number_or_zero_exact.
  - split; [reflexivity|]. split; [reflexivity|].
    right. split; [exact (find_id_none _ _ _ F)|].
    now rewrite (number_or_zero_exact zero).
Qed.

End ItemPayload.

Section Binary64Payload.
Local Open Scope float_scope.

Lemma settled_saleItem_total_binary64 (f : SaleItems.Form float) :
  fst (SaleItems.validateForm f) = true ->
  SaleItems.recomputeTotal f = f ->
  (SaleItemsPage.d_total (SaleItemsPage.itemData_of f)
   =? SaleItemsPage.d_quantity (SaleItemsPage.itemData_of f)
      * SaleItemsPage.d_price (SaleItemsPage.itemData_of f)) = true.
Proof.
  intros V S.
  destruct (valid_saleItemData f V)
    as (_ & _ & (q & Q & Dq & Tq & Lq) & (p & P & Dp & Tp & Lp)).
  rewrite Dq, Dp.
  destruct (recomputeTotal_stores f) as (t & T & E). rewrite S in T.
  unfold SaleItemsPage.itemData_of. cbn [SaleItemsPage.d_total]. rewrite T.
  assert (L : SaleItems.lineTotal f = q * p).
  { unfold SaleItems.lineTotal. rewrite Q, P. cbv zeta.
    unfold number_or_zero. now rewrite Tq, Tp. }
  rewrite L in E. apply stored_total_strict_eq; [|exact E].
  apply mul_positive_not_nan; now apply truthy_positive.
Qed.

Lemma settled_purchaseItem_total_binary64 (f : PurchaseItems.Form float) :
  fst (PurchaseItems.validateForm f) = true ->
  PurchaseItems.recomputeTotal f = f ->
  (PurchaseItemsPage.d_total (PurchaseItemsPage.itemData_of f)
   =? PurchaseItemsPage.d_quantity (PurchaseItemsPage.itemData_of f)
      * PurchaseItemsPage.d_price (PurchaseItemsPage.itemData_of f)) = true.
Proof.
  intros V S.
  destruct (valid_purchaseItemData f V)
    as (_ & _ & (q & Q & Dq & Tq & Lq) & (p & P & Dp & Tp & Lp)).
  rewrite Dq, Dp.
  destruct (recomputeTotal_purchase_stores f) as (t & T & E). rewrite S in T.
  unfold PurchaseItemsPage.itemData_of. cbn [PurchaseItemsPage.d_total].
  rewrite T.
  assert (L : PurchaseItems.lineTotal f = q * p).
  { unfold PurchaseItems.lineTotal. rewrite Q, P. cbv zeta.
    unfold number_or_zero. now rewrite Tq, Tp. }
  rewrite L in E. apply stored_total_strict_eq; [|exact E].
  apply mul_positive_not_nan; now apply truthy_positive.
Qed.

End Binary64Payload.

(** X18. A sale item or a purchase item that passes the validation is
    sent with the sale or purchase it belongs to, a trimmed product name
    that is not empty, and the quantity and the price of the form, both
    above zero: the default quantity of 1 is never what is sent.  Once
    the total effect has run on the form, the total sent is the product
    of the quantity and the price sent: equal to it in exact arithmetic,
    [===] to it on binary64 numbers. *)
Theorem valid_item_is_sent_priced :
  (forall (N : Type) (H : JsNumber N) (O : JsOne N) (f : SaleItems.Form N),
      fst (SaleItems.validateForm f) = true ->
      (exists s, SaleItems.f_sale_id f = Some s /\ s <> "")
      /\ (exists n,
             SaleItems.f_product_name f = Some n
             /\ SaleItemsPage.d_product_name (SaleItemsPage.itemData_of f)
                = JsString.trim n
             /\ JsString.trim n <> "")
      /\ (exists q,
             SaleItems.f_quantity f = Some q
             /\ SaleItemsPage.d_quantity (SaleItemsPage.itemData_of f) = q
             /\ truthy q = true /\ le q zero = false)
      /\ (exists p,
             SaleItems.f_price f = Some p
             /\ SaleItemsPage.d_price (SaleItemsPage.itemData_of f) = p
             /\ truthy p = true /\ le p zero = false))
  /\ (forall (N : Type) (H : JsNumber N) (O : JsOne N)
             (f : PurchaseItems.Form N),
         fst (PurchaseItems.validateForm f) = true ->
         (exists s, PurchaseItems.f_purchase_id f = Some s /\ s <> "")
         /\ (exists n,
                PurchaseItems.f_product_name f = Some n
                /\ PurchaseItemsPage.d_product_name
                     (PurchaseItemsPage.itemData_of f)
                   = JsString.trim n
                /\ JsString.trim n <> "")
         /\ (exists q,
                PurchaseItems.f_quantity f = Some q
                /\ PurchaseItemsPage.d_quantity
                     (PurchaseItemsPage.itemData_of f) = q
                /\ truthy q = true /\ le q zero = false)
         /\ (exists p,
                PurchaseItems.f_price f = Some p
                /\ PurchaseItemsPage.d_price
                     (PurchaseItemsPage.itemData_of f) = p
                /\ truthy p = true /\ le p zero = false))
  /\ (forall (N : Type) (H : JsNumber N) (O : JsOne N) (E : ExactNumber N)
             (f : SaleItems.Form N),
         fst (SaleItems.validateForm f) = true ->
         SaleItems.recomputeTotal f = f ->
         SaleItemsPage.d_total (SaleItemsPage.itemData_of f)
         = mul (SaleItemsPage.d_quantity (SaleItemsPage.itemData_of f))
               (SaleItemsPage.d_price (SaleItemsPage.itemData_of f)))
  /\ (forall (N : Type) (H : JsNumber N) (O : JsOne N) (E : ExactNumber N)
             (f : PurchaseItems.Form N),
         fst (PurchaseItems.validateForm f) = true ->
         PurchaseItems.recomputeTotal f = f ->
         PurchaseItemsPage.d_total (PurchaseItemsPage.itemData_of f)
         = mul (PurchaseItemsPage.d_quantity (PurchaseItemsPage.itemData_of f))
               (PurchaseItemsPage.d_price (PurchaseItemsPage.itemData_of f)))
  /\ (forall f : SaleItems.Form float,
         fst (SaleItems.validateForm f) = true ->
         SaleItems.recomputeTotal f = f ->
         (0 <? SaleItemsPage.d_quantity (SaleItemsPage.itemData_of f))%float
         = true
         /\ (0 <? SaleItemsPage.d_price (SaleItemsPage.itemData_of f))%float
            = true
         /\ (SaleItemsPage.d_total (SaleItemsPage.itemData_of f)
             =? SaleItemsPage.d_quantity (SaleItemsPage.itemData_of f)
                * SaleItemsPage.d_price (SaleItemsPage.itemData_of f))%float
            = true)
  /\ (forall f : PurchaseItems.Form float,
         fst (PurchaseItems.validateForm f) = true ->
         PurchaseItems.recomputeTotal f = f ->
         (0 <? PurchaseItemsPage.d_quantity
                 (PurchaseItemsPage.itemData_of f))%float = true
         /\ (0 <? PurchaseItemsPage.d_price
                    (PurchaseItemsPage.itemData_of f))%float = true
         /\ (PurchaseItemsPage.d_total (PurchaseItemsPage.itemData_of f)
             =? PurchaseItemsPage.d_quantity (PurchaseItemsPage.itemData_of f)
                * PurchaseItemsPage.d_price
                    (PurchaseItemsPage.itemData_of f))%float
            = true).
Proof.
  split; [intros N H O; exact valid_saleItemData|].
  split; [intros N H O; exact valid_purchaseItemData|].
  split; [intros N H O E; exact settled_saleItem_total|].
  split; [intros N H O E; exact settled_purchaseItem_total|].
  split.
  - intros f V S.
    pose proof (settled_saleItem_total_binary64 f V S) as T.
    destruct (valid_saleItemData f V)
      as (_ & _ & (q & _ & Dq & Tq & Lq) & (p & _ & Dp & Tp & Lp)).
    rewrite Dq, Dp in *.
    split; [now apply truthy_positive|].
    split; [now apply truthy_positive | exact T].
  - intros f V S.
    pose proof (settled_purchaseItem_total_binary64 f V S) as T.
    destruct (valid_purchaseItemData f V)
      as (_ & _ & (q & _ & Dq & Tq & Lq) & (p & _ & Dp & Tp & Lp)).
    rewrite Dq, Dp in *.
    split; [now apply truthy_positive|].
    split; [now apply truthy_positive | exact T].
Qed.

Lemma valid_item_is_sent_priced_witness :
  SaleItemsPage.d_total
    (SaleItemsPage.itemData_of
       (Samples.saleItemForm (Some 3%Z) (Some 25%Z) (Some 75%Z)))
  = (SaleItemsPage.d_quantity
       (SaleItemsPage.itemData_of
          (Samples.saleItemForm (Some 3%Z) (Some 25%Z) (Some 75%Z)))
     * SaleItemsPage.d_price
         (SaleItemsPage.itemData_of
            (Samples.saleItemForm (Some 3%Z) (Some 25%Z) (Some 75%Z))))%Z
  /\ (PurchaseItemsPage.d_total
        (PurchaseItemsPage.itemData_of
           (Scenarios.purchaseItemForm (Some 0.1%float) (Some 3%float)
                                       (Some (0.1 * 3)%float)))
      =? PurchaseItemsPage.d_quantity
           (PurchaseItemsPage.itemData_of
              (Scenarios.purchaseItemForm (Some 0.1%float) (Some 3%float)
                                          (Some (0.1 * 3)%float)))
         * PurchaseItemsPage.d_price
             (PurchaseItemsPage.itemData_of
                (Scenarios.purchaseItemForm (Some 0.1%float) (Some 3%float)
                                            (Some (0.1 * 3)%float))))%float
     = true.
Proof.
  destruct valid_item_is_sent_priced as (_ & _ & S & _ & _ & P).
  split.
  - apply (S Z JsNumber_Z JsOne_Z ExactNumber_Z
             (Samples.saleItemForm (Some 3%Z) (Some 25%Z) (Some 75%Z)));
      reflexivity.
  - apply (P (Scenarios.purchaseItemForm (Some 0.1%float) (Some 3%float)
                                         (Some (0.1 * 3)%float)));
      reflexivity.
Defined.

(** X19. Choosing a product on the sale items page or the purchase items
    page, followed by the total effect, prices the line, in exact
    arithmetic: for a listed product the form takes its id, its name and
    its price, and the total becomes the quantity of the form times that
    price; for an id that is not listed (such as the entry for manual
    input) the product is cleared, the price is 0 and the total is the
    quantity times 0.  The sale or purchase and the quantity stay as
    they were. *)
Theorem product_selection_prices_line :
  (forall (N : Type) (H : JsNumber N) (O : JsOne N) (E : ExactNumber N)
          (products : list (Products.Product N)) (f : SaleItems.Form N)
          (productId : string),
      SaleItems.f_sale_id
        (SaleItems.recomputeTotal
           (SaleItemsPage.handleProductSelect products f productId))
      = SaleItems.f_sale_id f
      /\ SaleItems.f_quantity
           (SaleItems.recomputeTotal
              (SaleItemsPage.handleProductSelect products f productId))
         = SaleItems.f_quantity f
      /\ ((exists product,
              In product products
              /\ Products.id product = productId
              /\ SaleItems.recomputeTotal
                   (SaleItemsPage.handleProductSelect products f productId)
                 = {| SaleItems.f_sale_id := SaleItems.f_sale_id f;
                      SaleItems.f_product_id := Some productId;
                      SaleItems.f_product_name := Some (Products.name product);
                      SaleItems.f_quantity := SaleItems.f_quantity f;
                      SaleItems.f_price := Some (Products.price product);
                      SaleItems.f_total :=
                        Some (mul (number_or_zero (SaleItems.f_quantity f))
                                  (Products.price product)) |})
          \/ ((forall product, In product products ->
                               Products.id product <> productId)
              /\ SaleItems.recomputeTotal
                   (SaleItemsPage.handleProductSelect products f productId)
                 = {| SaleItems.f_sale_id := SaleItems.f_sale_id f;
                      SaleItems.f_product_id := Some "";
                      SaleItems.f_product_name := Some "";
                      SaleItems.f_quantity := SaleItems.f_quantity f;
                      SaleItems.f_price := Some zero;
                      SaleItems.f_total :=
                        Some (mul (number_or_zero (SaleItems.f_quantity f))
                                  zero) |})))
  /\ (forall (N : Type) (H : JsNumber N) (O : JsOne N) (E : ExactNumber N)
             (products : list (Products.Product N)) (f : PurchaseItems.Form N)
             (productId : string),
         PurchaseItems.f_purchase_id
           (PurchaseItems.recomputeTotal
              (PurchaseItemsPage.handleProductSelect products f productId))
         = PurchaseItems.f_purchase_id f
         /\ PurchaseItems.f_quantity
              (PurchaseItems.recomputeTotal
                 (PurchaseItemsPage.handleProductSelect products f productId))
            = PurchaseItems.f_quantity f
         /\ ((exists product,
                 In product products
                 /\ Products.id product = productId
                 /\ PurchaseItems.recomputeTotal
                      (PurchaseItemsPage.handleProductSelect products f
                                                             productId)
                    = {| PurchaseItems.f_purchase_id :=
                           PurchaseItems.f_purchase_id f;
                         PurchaseItems.f_product_id := Some productId;
                         PurchaseItems.f_product_name :=
                           Some (Products.name product);
                         PurchaseItems.f_quantity := PurchaseItems.f_quantity f;
                         PurchaseItems.f_price := Some (Products.price product);
                         PurchaseItems.f_total :=
                           Some (mul (number_or_zero
                                        (PurchaseItems.f_quantity f))
                                     (Products.price product)) |})
             \/ ((forall product, In product products ->
                                  Products.id product <> productId)
                 /\ PurchaseItems.recomputeTotal
                      (PurchaseItemsPage.handleProductSelect products f
                                                             productId)
                    = {| PurchaseItems.f_purchase_id :=
                           PurchaseItems.f_purchase_id f;
                         PurchaseItems.f_product_id := Some "";
                         PurchaseItems.f_product_name := Some "";
                         PurchaseItems.f_quantity := PurchaseItems.f_quantity f;
                         PurchaseItems.f_price := Some zero;
                         PurchaseItems.f_total :=
                           Some (mul (number_or_zero
                                        (PurchaseItems.f_quantity f))
                                     zero) |}))).
Proof.
  split.
  - intros N H O E. exact saleItems_select_product.
  - intros N H O E. exact purchaseItems_select_product.
Qed.

Example product_selection_scenario :
  SaleItems.recomputeTotal
    (SaleItemsPage.handleProductSelect
       Samples.products
       (Samples.saleItemForm (Some 3%Z) (Some 0%Z) (Some 0%Z)) "widget")
  = {| SaleItems.f_sale_id := Some "sale";
       SaleItems.f_product_id := Some "widget";
       SaleItems.f_product_name := Some "widget";
       SaleItems.f_quantity := Some 3%Z;
       SaleItems.f_price := Some 10%Z;
       SaleItems.f_total := Some 30%Z |}
  /\ SaleItems.recomputeTotal
       (SaleItemsPage.handleProductSelect
          Samples.products
          (Samples.saleItemForm (Some 3%Z) (Some 10%Z) (Some 30%Z)) "manual")
     = {| SaleItems.f_sale_id := Some "sale";
          SaleItems.f_product_id := Some "";
          SaleItems.f_product_name := Some "";
          SaleItems.f_quantity := Some 3%Z;
          SaleItems.f_price := Some 0%Z;
          SaleItems.f_total := Some 0%Z |}.
Proof. split; reflexivity. Qed.

(** ** Purchases page: the date filters, the statistics and the data sent *)

Section MoreDates.
Import JsDate.
Local Open Scope Z_scope.

(** Moving a date seven days of the month back moves its local time
    back by seven days exactly, across the ends of months and years; the
    new time value is the instant of that local time. *)
Lemma setDate_week_before (zone : JsDate.Zone) (now : Z) :
  setDate zone now (getDate zone now - 7)
  = UTC zone (LocalTime zone now - 7 * msPerDay).
Proof.
  unfold setDate, getDate. cbv zeta.
  set (l := LocalTime zone now). f_equal. unfold MakeDate.
  assert (L : l = Day l * msPerDay + TimeWithinDay l).
  { unfold Day, TimeWithinDay, msPerDay. Z.div_mod_to_equations. lia. }
  assert (D : Day l = DayFromYear (YearFromTime l)
                      + month_start (InLeapYear l) (MonthFromTime l)
                      + DateFromTime l - 1).
  { unfold DateFromTime, DayWithinYear. lia. }
  pose proof (MonthFromTime_range l) as R.
  rewrite MakeDay_in_year by exact R.
  unfold InLeapYear in D.
  set (dt := DateFromTime l) in *. set (m := MonthFromTime l) in *.
  set (y := YearFromTime l) in *. set (w := TimeWithinDay l) in *.
  set (d := Day l) in *. clearbody dt m y w d.
  unfold msPerDay in *. lia.
Qed.

Lemma YearFromTime_of_day (x y : Z) :
  Day x = Day y -> YearFromTime x = YearFromTime y.
Proof. unfold YearFromTime. cbv zeta. intros E. rewrite E. reflexivity. Qed.

Lemma InLeapYear_of_year (x y : Z) :
  YearFromTime x = YearFromTime y -> InLeapYear x = InLeapYear y.
Proof. unfold InLeapYear. intros E. rewrite E. reflexivity. Qed.

Lemma MonthFromTime_of_day (x y : Z) :
  DayWithinYear x = DayWithinYear y -> InLeapYear x = InLeapYear y ->
  MonthFromTime x = MonthFromTime y.
Proof.
  unfold MonthFromTime. cbv zeta. intros W I. rewrite W, I. reflexivity.
Qed.

(** Two times print the same date exactly when they fall on the same
    local day. *)
Lemma toDateString_same_day (zone : JsDate.Zone) (a b : Z) :
  toDateString zone a = toDateString zone b
  <-> Day (LocalTime zone a) = Day (LocalTime zone b).
Proof.
  unfold toDateString. cbv zeta.
  set (x := LocalTime zone a). set (y := LocalTime zone b). clearbody x y.
  split.
  - intros E. injection E as Y M D.
    pose proof (InLeapYear_of_year x y Y) as I.
    unfold DateFromTime, DayWithinYear in D. rewrite Y, M, I in D.
    set (s := month_start _ _) in D. set (f := DayFromYear _) in D.
    clearbody s f. lia.
  - intros E.
    pose proof (YearFromTime_of_day x y E) as Y.
    pose proof (InLeapYear_of_year x y Y) as I.
    assert (W : DayWithinYear x = DayWithinYear y).
    { unfold DayWithinYear. rewrite E, Y. reflexivity. }
    pose proof (MonthFromTime_of_day x y W I) as M.
    unfold DateFromTime. rewrite Y, M, W, I. reflexivity.
Qed.

Lemma same_date_string_same_day (zone : JsDate.Zone) (a : option Z) (b : Z) :
  same_date_string zone a b = true
  <-> exists t, a = Some t /\ Day (LocalTime zone t) = Day (LocalTime zone b).
Proof.
  unfold same_date_string. destruct a as [x|].
  - pose proof (toDateString_same_day zone x b) as S.
    destruct (toDateString zone x) as [[y1 m1] d1].
    destruct (toDateString zone b) as [[y2 m2] d2].
    rewrite !andb_true_iff, !Z.eqb_eq. split.
    + intros [[-> ->] ->]. exists x. split; [reflexivity | now apply S].
    + intros (t & E & T). injection E as <-. apply S in T.
      now injection T as -> -> ->.
  - split; [discriminate | intros (t & E & _); discriminate].
Qed.

(** A date-only string is the midnight that starts its day in UTC. *)
Lemma parse_midnight (s : string) (t : Z) :
  parse s = Some t -> t = Day t * msPerDay.
Proof.
  unfold parse. intros E.
  repeat match type of E with
         | context [match ?x with _ => _ end] =>
             destruct x; cbv beta iota in E; try discriminate E
         end.
  injection E as <-.
  unfold MakeDate, Day, msPerDay.
  rewrite Z.add_0_r, Z.div_mul by discriminate. reflexivity.
Qed.

(** The local day of a midnight UTC is its day where the zone is then
    at UTC or east of it, and the day before where it is then west of
    UTC. *)
Lemma local_day_of_midnight (zone : JsDate.Zone) (t : Z) :
  t = Day t * msPerDay ->
  (0 <= LocalTZA zone t true < msPerDay -> Day (LocalTime zone t) = Day t)
  /\ (- msPerDay <= LocalTZA zone t true < 0 ->
      Day (LocalTime zone t) = Day t - 1).
Proof.
  unfold LocalTime. set (o := LocalTZA zone t true). clearbody o.
  unfold Day, msPerDay. intros E.
  split; intros R; Z.div_mod_to_equations; lia.
Qed.

End MoreDates.

Section DateFilters.
Context {N : Type} `{JsNumber N}.
Import Predicates.

(** X20. With the date filter on ["week"] the filter effect lists
    exactly the records that satisfy the search and status predicates and
    are dated at or after the cut-off that [setDate (getDate () - 7)]
    computes.  That cut-off is the instant at which the local clock shows
    the date and time it shows now, moved back by seven days exactly,
    across the ends of months and years.  Counted in instants it lies
    seven days before now, corrected by the change of the offset of the
    zone between the two: in a zone without daylight saving it is now
    minus seven days.  There is no upper bound, so records dated after
    today are listed too. *)
Theorem week_filter_since_seven_days_back
        (zone : JsDate.Zone) (now : Z) (purchases : list (Purchases.Purchase N))
        (searchTerm statusFilter : string) :
  (forall p : Purchases.Purchase N,
      In p (Purchases.filterPurchases zone now purchases searchTerm
                                      statusFilter "week")
      <-> In p purchases
          /\ purchaseSearch searchTerm p = true
          /\ purchaseStatus statusFilter p = true
          /\ exists t, JsDate.parse (Purchases.purchase_date p) = Some t
                       /\ (local_days_before zone now 7 <= t)%Z)
  /\ JsDate.setDate zone now (JsDate.getDate zone now - 7)
     = local_days_before zone now 7
  /\ local_days_before zone now 7
     = (now - 7 * JsDate.msPerDay
        + (JsDate.LocalTZA zone now true
           - JsDate.LocalTZA zone
               (JsDate.LocalTime zone now - 7 * JsDate.msPerDay) false))%Z
  /\ (forall offset : Z,
         local_days_before (JsDate.fixed offset) now 7
         = (now - 7 * JsDate.msPerDay)%Z).
Proof.
  split; [|split; [apply setDate_week_before
                  |split; [apply UTC_days_before|]]].
  - intro p.
    destruct (purchases_filter_commutes zone now purchases searchTerm
                statusFilter "week") as (_ & _ & _ & _ & M).
    rewrite M. unfold purchaseDate; simpl. unfold JsDate.date_ge.
    rewrite setDate_week_before. fold (local_days_before zone now 7).
    destruct (JsDate.parse (Purchases.purchase_date p)) as [t|].
    + rewrite Z.leb_le. split.
      * intros (I & S & T & D). repeat split; auto. now exists t.
      * intros (I & S & T & t' & E & D). injection E as <-. auto.
    + split.
      * intros (_ & _ & _ & D). discriminate.
      * intros (_ & _ & _ & t' & E & _). discriminate.
  - intro offset. unfold local_days_before. rewrite UTC_days_before.
    rewrite !LocalTZA_fixed. lia.
Qed.

(** X21. With the date filter on ["today"] the filter effect lists the
    records that satisfy the search and status predicates and whose date,
    which is read as the midnight that starts that day in UTC, falls on
    the local day of now; each of the two instants is read with the
    offset in force at it.  Where the zone is at UTC or east of it at
    that midnight, the local day of a date is that day.  Where the zone
    is west of UTC at that midnight, the local day of a date is the day
    before it, so a record dated on the local day of now is not
    listed. *)
Theorem today_filter_local_day
        (zone : JsDate.Zone) (now : Z) (purchases : list (Purchases.Purchase N))
        (searchTerm statusFilter : string) :
  (forall p : Purchases.Purchase N,
      In p (Purchases.filterPurchases zone now purchases searchTerm
                                      statusFilter "today")
      <-> In p purchases
          /\ purchaseSearch searchTerm p = true
          /\ purchaseStatus statusFilter p = true
          /\ exists t, JsDate.parse (Purchases.purchase_date p) = Some t
                       /\ JsDate.Day (JsDate.LocalTime zone t)
                          = JsDate.Day (JsDate.LocalTime zone now))
  /\ (forall s t, JsDate.parse s = Some t ->
                  t = (JsDate.Day t * JsDate.msPerDay)%Z
                  /\ ((0 <= JsDate.LocalTZA zone t true < JsDate.msPerDay)%Z ->
                      JsDate.Day (JsDate.LocalTime zone t) = JsDate.Day t)
                  /\ ((- JsDate.msPerDay <= JsDate.LocalTZA zone t true < 0)%Z ->
                      JsDate.Day (JsDate.LocalTime zone t)
                      = (JsDate.Day t - 1)%Z))
  /\ (forall p t,
        JsDate.parse (Purchases.purchase_date p) = Some t ->
        (- JsDate.msPerDay <= JsDate.LocalTZA zone t true < 0)%Z ->
        JsDate.Day t = JsDate.Day (JsDate.LocalTime zone now) ->
        ~ In p (Purchases.filterPurchases zone now purchases searchTerm
                                          statusFilter "today")).
Proof.
  assert (A : forall p : Purchases.Purchase N,
      In p (Purchases.filterPurchases zone now purchases searchTerm
                                      statusFilter "today")
      <-> In p purchases
          /\ purchaseSearch searchTerm p = true
          /\ purchaseStatus statusFilter p = true
          /\ exists t, JsDate.parse (Purchases.purchase_date p) = Some t
                       /\ JsDate.Day (JsDate.LocalTime zone t)
                          = JsDate.Day (JsDate.LocalTime zone now)).
  { intro p.
    destruct (purchases_filter_commutes zone now purchases searchTerm
                statusFilter "today") as (_ & _ & _ & _ & M).
    rewrite M. unfold purchaseDate; simpl.
    rewrite same_date_string_same_day. tauto. }
  assert (B : forall s t, JsDate.parse s = Some t ->
                  t = (JsDate.Day t * JsDate.msPerDay)%Z
                  /\ ((0 <= JsDate.LocalTZA zone t true < JsDate.msPerDay)%Z ->
                      JsDate.Day (JsDate.LocalTime zone t) = JsDate.Day t)
                  /\ ((- JsDate.msPerDay <= JsDate.LocalTZA zone t true < 0)%Z ->
                      JsDate.Day (JsDate.LocalTime zone t)
                      = (JsDate.Day t - 1)%Z)).
  { intros s t P. pose proof (parse_midnight s t P) as Mn.
    split; [exact Mn|]. now apply local_day_of_midnight. }
  split; [exact A|]. split; [exact B|].
  intros p t P W D I. apply A in I as (_ & _ & _ & t' & P' & D').
  rewrite P in P'. injection P' as <-.
  destruct (B _ _ P) as (_ & _ & X). rewrite (X W) in D'. lia.
Qed.

End DateFilters.

Example week_filter_scenario :
  Purchases.filterPurchases JsDate.utc Samples.noon_2025_03_15
    [Samples.purchase "p0" "2025-03-08"; Samples.purchase "p1" "2025-03-09";
     Samples.purchase "p2" "2025-12-25"]
    "" "all" "week"
  = [Samples.purchase "p1" "2025-03-09"; Samples.purchase "p2" "2025-12-25"].
Proof. vm_compute. reflexivity. Qed.

(** In New York on 12 March 2025 at 19:30, three days after the clocks
    went forward, the cut-off of ["week"] is 5 March at 19:30 on the
    local clock, which is 167 hours before now and half an hour after
    the midnight UTC that starts 6 March: the purchase dated 6 March is
    left out.  The cut-off of ["month"] is 12 February at 19:30 on the
    local clock, half an hour after the midnight UTC that starts
    13 February. *)
Example daylight_saving_scenario :
  Purchases.filterPurchases Scenarios.new_york Scenarios.evening_2025_03_12
    [Samples.purchase "p5" "2025-03-05"; Samples.purchase "p6" "2025-03-06";
     Samples.purchase "p7" "2025-03-07"]
    "" "all" "week"
  = [Samples.purchase "p7" "2025-03-07"]
  /\ (Scenarios.evening_2025_03_12
      - Predicates.local_days_before Scenarios.new_york
          Scenarios.evening_2025_03_12 7
      = 167 * 3600000)%Z
  /\ Purchases.filterPurchases Scenarios.new_york Scenarios.evening_2025_03_12
       [Samples.purchase "p12" "2025-02-12"; Samples.purchase "p13" "2025-02-13";
        Samples.purchase "p14" "2025-02-14"]
       "" "all" "month"
     = [Samples.purchase "p14" "2025-02-14"]
  /\ (Scenarios.evening_2025_03_12
      - Predicates.oneMonthBack Scenarios.new_york
          Scenarios.evening_2025_03_12
      = 28 * JsDate.msPerDay - 3600000)%Z.
Proof. repeat split; vm_compute; reflexivity. Qed.

Lemma today_filter_local_day_witness :
  JsDate.Day (JsDate.LocalTime Scenarios.five_hours_west 1741996800000)
  = (JsDate.Day 1741996800000 - 1)%Z
  /\ ~ In (Samples.purchase "p1" "2025-03-15")
          (Purchases.filterPurchases Scenarios.five_hours_west
             Samples.noon_2025_03_15 Scenarios.purchases_of_two_days
             "" "all" "today").
Proof.
  destruct (today_filter_local_day (N := Z) Scenarios.five_hours_west
              Samples.noon_2025_03_15 Scenarios.purchases_of_two_days
              "" "all") as (_ & M & W).
  assert (R : (- JsDate.msPerDay
               <= JsDate.LocalTZA Scenarios.five_hours_west 1741996800000 true
               < 0)%Z)
    by (vm_compute; split; [discriminate | reflexivity]).
  split.
  - destruct (M "2025-03-15" 1741996800000%Z) as (_ & _ & D);
      [vm_compute; reflexivity | exact (D R)].
  - apply (W (Samples.purchase "p1" "2025-03-15") 1741996800000%Z);
      [vm_compute; reflexivity | exact R | vm_compute; reflexivity].
Defined.

(** Five hours west of UTC, at seven in the morning of 15 March 2025, the
    filter for today lists the purchase dated 16 March and leaves out the
    purchase dated 15 March; in UTC it lists the purchase of the day. *)
Example today_filter_scenario :
  Purchases.filterPurchases Scenarios.five_hours_west
    Samples.noon_2025_03_15 Scenarios.purchases_of_two_days "" "all" "today"
  = [Samples.purchase "p2" "2025-03-16"]
  /\ Purchases.filterPurchases JsDate.utc
       Samples.noon_2025_03_15 Scenarios.purchases_of_two_days "" "all" "today"
     = [Samples.purchase "p1" "2025-03-15"].
Proof. split; vm_compute; reflexivity. Qed.

(** On the Azores at noon UTC on 30 March 2025, the day the clocks went
    forward at 01:00 UTC, the filter for today lists neither the
    purchase dated 30 March, whose midnight still fell on 29 March at
    23:00 on the local clock, nor the purchase dated 31 March. *)
Example today_filter_clock_change_scenario :
  Purchases.filterPurchases Scenarios.azores Scenarios.noon_2025_03_30
    [Samples.purchase "sun" "2025-03-30"; Samples.purchase "mon" "2025-03-31"]
    "" "all" "today"
  = [].
Proof. vm_compute. reflexivity. Qed.

Section PurchaseStatistics.
Context {N : Type} `{JsNumber N}.
Import Purchases PurchasesPage.

(** The cards of the purchases page add up what the filters list: the
    total over all purchases, today's total over what the date filter
    lists for ["today"], the pending amount over what the status filter
    lists for ["pending"]. *)
Lemma calculateStats_filters (zone : JsDate.Zone) (now : Z) (purchases : list (Purchase N)) :
  totalPurchases (calculateStats zone now purchases)
  = reduce_sum total (filterPurchases zone now purchases "" "all" "all")
  /\ todayPurchases (calculateStats zone now purchases)
     = reduce_sum total (filterPurchases zone now purchases "" "all" "today")
  /\ pendingAmount (calculateStats zone now purchases)
     = reduce_sum total (filterPurchases zone now purchases "" "pending" "all").
Proof. repeat split. Qed.

End PurchaseStatistics.

Section WholeSums.
Local Open Scope Z_scope.

Lemma fold_add_filter_le {A} (f : A -> Z) (keep : A -> bool) (l : list A) :
  (forall x, In x l -> 0 <= f x) ->
  forall a b, a <= b ->
    a <= fold_left (fun sum x => sum + f x) (filter keep l) a
    /\ fold_left (fun sum x => sum + f x) (filter keep l) a
       <= fold_left (fun sum x => sum + f x) l b.
Proof.
  induction l as [|x l IH]; simpl; intros P a b L; [lia|].
  assert (Px := P x (or_introl eq_refl)).
  assert (Pl : forall y, In y l -> 0 <= f y) by (intros y Y; apply P; auto).
  destruct (keep x); simpl.
  - destruct (IH Pl (a + f x) (b + f x)); lia.
  - destruct (IH Pl a (b + f x)); lia.
Qed.

Lemma reduce_sum_filter_le {A} (f : A -> Z) (keep : A -> bool) (l : list A) :
  (forall x, In x l -> 0 <= f x) ->
  0 <= reduce_sum f (filter keep l) <= reduce_sum f l.
Proof.
  intros P. unfold reduce_sum. simpl.
  exact (fold_add_filter_le f keep l P 0 0 (Z.le_refl 0)).
Qed.

End WholeSums.

(** X22. Each card of the purchases page is the sum of the totals of the
    purchases the matching filter lists: all purchases, the purchases the
    date filter lists for ["today"], the purchases the status filter
    lists for ["pending"].  For whole totals that are not negative,
    today's purchases and the pending amount lie between zero and the
    total of all purchases. *)
Theorem purchase_cards_within_total :
  (forall (N : Type) (H : JsNumber N) (zone : JsDate.Zone) (now : Z)
          (purchases : list (Purchases.Purchase N)),
      PurchasesPage.totalPurchases
        (PurchasesPage.calculateStats zone now purchases)
      = reduce_sum Purchases.total
          (Purchases.filterPurchases zone now purchases "" "all" "all")
      /\ PurchasesPage.todayPurchases
           (PurchasesPage.calculateStats zone now purchases)
         = reduce_sum Purchases.total
             (Purchases.filterPurchases zone now purchases "" "all" "today")
      /\ PurchasesPage.pendingAmount
           (PurchasesPage.calculateStats zone now purchases)
         = reduce_sum Purchases.total
             (Purchases.filterPurchases zone now purchases "" "pending" "all"))
  /\ (forall (zone : JsDate.Zone) (now : Z) (purchases : list (Purchases.Purchase Z)),
         (forall p, In p purchases -> (0 <= Purchases.total p)%Z) ->
         (0 <= PurchasesPage.todayPurchases
                 (PurchasesPage.calculateStats zone now purchases)
          <= PurchasesPage.totalPurchases
               (PurchasesPage.calculateStats zone now purchases))%Z
         /\ (0 <= PurchasesPage.pendingAmount
                    (PurchasesPage.calculateStats zone now purchases)
             <= PurchasesPage.totalPurchases
                  (PurchasesPage.calculateStats zone now purchases))%Z).
Proof.
  split.
  - intros N H zone now purchases. apply calculateStats_filters.
  - intros zone now purchases P. unfold PurchasesPage.calculateStats. cbv zeta.
    cbn [PurchasesPage.todayPurchases PurchasesPage.totalPurchases
         PurchasesPage.pendingAmount].
    split; now apply reduce_sum_filter_le.
Qed.

Lemma purchase_cards_within_total_witness :
  (0 <= PurchasesPage.pendingAmount
          (PurchasesPage.calculateStats JsDate.utc Samples.noon_2025_03_15
                                        Scenarios.purchases_of_two_days)
   <= PurchasesPage.totalPurchases
        (PurchasesPage.calculateStats JsDate.utc Samples.noon_2025_03_15
                                      Scenarios.purchases_of_two_days))%Z.
Proof.
  destruct purchase_cards_within_total as (_ & B).
  destruct (B JsDate.utc Samples.noon_2025_03_15
              Scenarios.purchases_of_two_days)
    as (_ & P).
  - intros p [<-|[<-|[]]]; simpl; lia.
  - exact P.
Defined.

Example purchase_cards_scenario :
  PurchasesPage.calculateStats JsDate.utc Samples.noon_2025_03_15
                               Scenarios.purchases_of_two_days
  = {| PurchasesPage.totalPurchases := 200%Z;
       PurchasesPage.todayPurchases := 100%Z;
       PurchasesPage.pendingAmount := 0%Z |}.
Proof. vm_compute. reflexivity. Qed.

Section PurchasePayload.
Context {N : Type} `{JsNumber N}.
Import Purchases PurchasesPage.

Lemma valid_purchaseData (user : string) (f : Form N) :
  fst (validateForm f) = true ->
  (exists n, f_vendor_name f = Some n
             /\ d_vendor_name (purchaseData_of user f) = JsString.trim n
             /\ JsString.trim n <> "")
  /\ (exists s, f_subtotal f = Some s
                /\ d_subtotal (purchaseData_of user f) = s
                /\ truthy s = true /\ le s zero = false)
  /\ (f_tax f = None \/ exists t, f_tax f = Some t /\ lt t zero = false).
Proof.
  unfold validateForm, purchaseData_of; simpl.
  destruct (f_vendor_name f) as [n|]; simpl; [|discriminate].
  destruct (JsString.truthy (JsString.trim n)) eqn:Tn; simpl; [|discriminate].
  destruct (f_subtotal f) as [s|]; simpl; [|discriminate].
  destruct (truthy s) eqn:Ts; simpl; [|discriminate].
  destruct (le s zero) eqn:Ls; simpl; [discriminate|].
  destruct (match f_tax f with Some t => lt t zero | None => false end)
    eqn:T; simpl; [discriminate|]. intros _.
  split; [exists n; repeat split; now apply truthy_not_empty|].
  split; [exists s; auto|].
  destruct (f_tax f) as [t|]; [right; now exists t | now left].
Qed.

Context `{!ExactNumber N}.

Lemma purchases_recomputeTotal_exact (f : Form N) :
  f_total (recomputeTotal f) = Some (invoiceTotal f).
Proof.
  unfold recomputeTotal. cbv zeta.
  destruct (SaleItems.total_differs _ _) eqn:D; [reflexivity|].
  unfold SaleItems.total_differs in D.
  destruct (f_total f) as [t|]; [|discriminate].
  apply negb_false_iff, strict_eq_true in D. now rewrite D.
Qed.

Lemma settled_purchase_total (user : string) (f : Form N) :
  recomputeTotal f = f ->
  d_total (purchaseData_of user f)
  = add (d_subtotal (purchaseData_of user f)) (d_tax (purchaseData_of user f)).
Proof.
  intros S. pose proof (purchases_recomputeTotal_exact f) as T.
  rewrite S in T. unfold purchaseData_of.
  cbn [d_total d_subtotal d_tax]. rewrite T.
  now rewrite number_or_zero_exact.
Qed.

End PurchasePayload.

Section Binary64Invoice.
Local Open Scope float_scope.

Lemma recomputeTotal_invoice_stores (f : Purchases.Form float) :
  exists t,
    Purchases.f_total (Purchases.recomputeTotal f) = Some t
    /\ (t = Purchases.invoiceTotal f
        \/ (t =? Purchases.invoiceTotal f) = true).
Proof.
  unfold Purchases.recomputeTotal. cbv zeta.
  destruct (SaleItems.total_differs _ _) eqn:D.
  - eexists. split; [reflexivity | now left].
  - unfold SaleItems.total_differs in D.
    destruct (Purchases.f_total f) as [t|]; [|discriminate].
    apply negb_false_iff in D. exists t. split; [reflexivity | now right].
Qed.

Lemma settled_purchase_total_binary64 (user : string)
      (f : Purchases.Form float) :
  fst (Purchases.validateForm f) = true ->
  Purchases.recomputeTotal f = f ->
  (PurchasesPage.d_total (PurchasesPage.purchaseData_of user f)
   =? PurchasesPage.d_subtotal (PurchasesPage.purchaseData_of user f)
      + PurchasesPage.d_tax (PurchasesPage.purchaseData_of user f)) = true.
Proof.
  intros V S.
  destruct (valid_purchaseData user f V)
    as (_ & (s & Fs & Ds & Ts & Ls) & T).
  destruct (recomputeTotal_invoice_stores f) as (t & Ft & E).
  rewrite S in Ft.
  unfold PurchasesPage.purchaseData_of in *.
  cbn [PurchasesPage.d_total PurchasesPage.d_subtotal PurchasesPage.d_tax]
    in *.
  rewrite Ft. unfold Purchases.invoiceTotal in E. cbv zeta in E.
  apply stored_total_strict_eq; [|exact E].
  apply add_nonnegative_not_nan.
  - rewrite Ds. now apply truthy_positive.
  - destruct T as [T|(x & T & Lx)]; rewrite T; [reflexivity|].
    apply number_or_zero_nonnegative. intros _. exact Lx.
Qed.

End Binary64Invoice.

(** X23. A purchase that passes the validation is sent with a trimmed
    vendor name that is not empty, a subtotal above zero and a tax that
    is not negative (a missing or [NaN] tax is sent as 0).  Once the
    total effect has run on the form, the total sent is the sum of the
    subtotal and the tax sent: equal to it in exact arithmetic, [===] to
    it on binary64 numbers. *)
Theorem valid_purchase_is_sent_summed :
  (forall (N : Type) (H : JsNumber N) (user : string) (f : Purchases.Form N),
      fst (Purchases.validateForm f) = true ->
      exists n,
        Purchases.f_vendor_name f = Some n
        /\ PurchasesPage.d_vendor_name (PurchasesPage.purchaseData_of user f)
           = JsString.trim n
        /\ JsString.trim n <> "")
  /\ (forall (N : Type) (H : JsNumber N) (E : ExactNumber N)
             (user : string) (f : Purchases.Form N),
         Purchases.recomputeTotal f = f ->
         PurchasesPage.d_total (PurchasesPage.purchaseData_of user f)
         = add (PurchasesPage.d_subtotal (PurchasesPage.purchaseData_of user f))
               (PurchasesPage.d_tax (PurchasesPage.purchaseData_of user f)))
  /\ (forall (user : string) (f : Purchases.Form Z),
         fst (Purchases.validateForm f) = true ->
         Purchases.recomputeTotal f = f ->
         (0 < PurchasesPage.d_subtotal (PurchasesPage.purchaseData_of user f))%Z
         /\ (0 <= PurchasesPage.d_tax (PurchasesPage.purchaseData_of user f))%Z
         /\ PurchasesPage.d_total (PurchasesPage.purchaseData_of user f)
            = (PurchasesPage.d_subtotal (PurchasesPage.purchaseData_of user f)
               + PurchasesPage.d_tax (PurchasesPage.purchaseData_of user f))%Z)
  /\ (forall (user : string) (f : Purchases.Form float),
         fst (Purchases.validateForm f) = true ->
         Purchases.recomputeTotal f = f ->
         (0 <? PurchasesPage.d_subtotal
                 (PurchasesPage.purchaseData_of user f))%float = true
         /\ (0 <=? PurchasesPage.d_tax
                     (PurchasesPage.purchaseData_of user f))%float = true
         /\ (PurchasesPage.d_total (PurchasesPage.purchaseData_of user f)
             =? PurchasesPage.d_subtotal (PurchasesPage.purchaseData_of user f)
                + PurchasesPage.d_tax
                    (PurchasesPage.purchaseData_of user f))%float = true).
Proof.
  split; [|split; [|split]].
  - intros N H user f V.
    destruct (valid_purchaseData user f V) as (A & _). exact A.
  - intros N H E user f S. now apply settled_purchase_total.
  - intros user f V S.
    destruct (valid_purchaseData user f V) as (_ & (s & Fs & Ds & Ts & Ls) & T).
    rewrite (settled_purchase_total user f S). rewrite Ds.
    simpl in Ls. apply Z.leb_gt in Ls.
    split; [exact Ls|]. split; [|reflexivity].
    unfold PurchasesPage.purchaseData_of; simpl.
    destruct T as [T|(t & T & Lt)]; rewrite T; [simpl; lia|].
    apply number_or_zero_nonnegative_Z. intros _. exact Lt.
  - intros user f V S.
    split; [|split; [|now apply settled_purchase_total_binary64]].
    + destruct (valid_purchaseData user f V)
        as (_ & (s & Fs & Ds & Ts & Ls) & _).
      rewrite Ds. now apply truthy_positive.
    + destruct (valid_purchaseData user f V) as (_ & _ & T).
      unfold PurchasesPage.purchaseData_of; simpl.
      destruct T as [T|(t & T & Lt)]; rewrite T; [reflexivity|].
      apply number_or_zero_nonnegative. intros _. exact Lt.
Qed.

Lemma valid_purchase_is_sent_summed_witness :
  PurchasesPage.d_total
    (PurchasesPage.purchaseData_of "user-1"
       (Scenarios.purchaseForm 75%Z 8%Z 83%Z))
  = 83%Z
  /\ (PurchasesPage.d_total
        (PurchasesPage.purchaseData_of "user-1"
           (Scenarios.purchaseForm 75%float 7.5%float 82.5%float))
      =? 75 + 7.5)%float = true.
Proof.
  destruct valid_purchase_is_sent_summed as (_ & _ & Z & F).
  split.
  - destruct (Z "user-1" (Scenarios.purchaseForm 75%Z 8%Z 83%Z))
      as (_ & _ & T); [reflexivity | reflexivity |].
    exact T.
  - destruct (F "user-1"
                (Scenarios.purchaseForm 75%float 7.5%float 82.5%float))
      as (_ & _ & T); [reflexivity | reflexivity |].
    exact T.
Defined.

(** ** Badges of the rows *)

Section RowBadges.
Context {N : Type} `{JsNumber N}.

Lemma debit_badge (entries : list (Ledger.LedgerEntry N)) :
  filter (fun e => Ledger.transaction_type e =? "debit") entries
  = filter (fun e =>
              snd (@LedgerEditing.getTransactionTypeBadge
                     (Ledger.transaction_type e)) =? "Debit")
           entries.
Proof.
  apply filter_ext. intros e. unfold LedgerEditing.getTransactionTypeBadge.
  now destruct (Ledger.transaction_type e =? "debit").
Qed.

Lemma credit_badge (entries : list (Ledger.LedgerEntry N)) :
  (forall e, In e entries ->
             Ledger.transaction_type e = "debit"
             \/ Ledger.transaction_type e = "credit") ->
  filter (fun e => Ledger.transaction_type e =? "credit") entries
  = filter (fun e =>
              snd (@LedgerEditing.getTransactionTypeBadge
                     (Ledger.transaction_type e)) =? "Credit")
           entries.
Proof.
  intros T. apply filter_ext_in. intros e I.
  unfold LedgerEditing.getTransactionTypeBadge.
  destruct (T e I) as [-> | ->]; reflexivity.
Qed.

Lemma pending_badge (purchases : list (Purchases.Purchase N)) :
  (forall p, In p purchases ->
             Purchases.status p = "paid" \/ Purchases.status p = "pending") ->
  filter (fun p => Purchases.status p =? "pending") purchases
  = filter (fun p =>
              snd (@PurchasesPage.getStatusBadge (Purchases.status p))
              =? "Pending")
           purchases.
Proof.
  intros T. apply filter_ext_in. intros p I.
  unfold PurchasesPage.getStatusBadge.
  destruct (T p I) as [-> | ->]; reflexivity.
Qed.

(** X24. The statistics agree with the badges of the rows as long as the
    rows hold the values the forms offer.  The total of the debits is the
    sum over the entries badged "Debit", always; the total of the credits
    is the sum over the entries badged "Credit" when every entry is a
    debit or a credit; the pending amount is the sum over the purchases
    badged "Pending" when every purchase is paid or pending.  A row with
    any other value is badged "Credit" or "Pending" all the same. *)
Theorem totals_agree_with_badges :
  (forall entries : list (Ledger.LedgerEntry N),
      Ledger.totalDebits (Ledger.calculateStats entries)
      = reduce_sum Ledger.amount
          (filter (fun e =>
                     snd (@LedgerEditing.getTransactionTypeBadge
                            (Ledger.transaction_type e)) =? "Debit")
                  entries))
  /\ (forall entries : list (Ledger.LedgerEntry N),
         (forall e, In e entries ->
                    Ledger.transaction_type e = "debit"
                    \/ Ledger.transaction_type e = "credit") ->
         Ledger.totalCredits (Ledger.calculateStats entries)
         = reduce_sum Ledger.amount
             (filter (fun e =>
                        snd (@LedgerEditing.getTransactionTypeBadge
                               (Ledger.transaction_type e)) =? "Credit")
                     entries))
  /\ (forall (zone : JsDate.Zone) (now : Z) (purchases : list (Purchases.Purchase N)),
         (forall p, In p purchases ->
                    Purchases.status p = "paid"
                    \/ Purchases.status p = "pending") ->
         PurchasesPage.pendingAmount
           (PurchasesPage.calculateStats zone now purchases)
         = reduce_sum Purchases.total
             (filter (fun p =>
                        snd (@PurchasesPage.getStatusBadge (Purchases.status p))
                        =? "Pending")
                     purchases))
  /\ (forall type : string,
         type <> "debit" ->
         @LedgerEditing.getTransactionTypeBadge type
         = (variant_default, "Credit"))
  /\ (forall status : string,
         status <> "paid" ->
         @PurchasesPage.getStatusBadge status
         = (variant_secondary, "Pending")).
Proof.
  split; [|split; [|split; [|split]]].
  - intros entries. unfold Ledger.calculateStats. cbv zeta.
    cbn [Ledger.totalDebits]. now rewrite debit_badge.
  - intros entries T. unfold Ledger.calculateStats. cbv zeta.
    cbn [Ledger.totalCredits]. now rewrite (credit_badge entries T).
  - intros zone now purchases T. unfold PurchasesPage.calculateStats.
    cbv zeta. cbn [PurchasesPage.pendingAmount].
    now rewrite (pending_badge purchases T).
  - intros type D. unfold LedgerEditing.getTransactionTypeBadge.
    apply String.eqb_neq in D. now rewrite D.
  - intros status D. unfold PurchasesPage.getStatusBadge.
    apply String.eqb_neq in D. now rewrite D.
Qed.

End RowBadges.

Lemma totals_agree_with_badges_witness :
  Ledger.totalCredits (Ledger.calculateStats Samples.whole_amounts)
  = reduce_sum Ledger.amount
      (filter (fun e =>
                 snd (@LedgerEditing.getTransactionTypeBadge
                        (Ledger.transaction_type e)) =? "Credit")
              Samples.whole_amounts).
Proof.
  destruct (totals_agree_with_badges (N := Z)) as (_ & C & _).
  apply (C Samples.whole_amounts).
  intros e [<-|[<-|[<-|[]]]]; simpl; auto.
Defined.

(** An entry of another type is badged "Credit" and counted in neither
    total. *)
Example refund_badged_credit :
  @LedgerEditing.getTransactionTypeBadge "refund" = (variant_default, "Credit")
  /\ Ledger.calculateStats [Samples.entry "refund" 25%Z]
     = {| Ledger.totalDebits := 0%Z;
          Ledger.totalCredits := 0%Z;
          Ledger.netBalance := 0%Z |}.
Proof. split; reflexivity. Qed.

Section BalanceBadge.
Import PartiesPage.

Lemma getBalanceBadgeVariant_integers (b : Z) :
  (getBalanceBadgeVariant b = variant_destructive <-> (b < 0)%Z)
  /\ (getBalanceBadgeVariant b = variant_secondary <-> b = 0%Z)
  /\ (getBalanceBadgeVariant b = variant_default <-> (0 < b)%Z).
Proof.
  unfold getBalanceBadgeVariant; simpl.
  destruct (Z.ltb_spec b 0), (Z.eqb_spec b 0);
    repeat split; intros; try discriminate; try reflexivity; lia.
Qed.

Lemma getBalanceBadgeVariant_binary64 (b : float) :
  (getBalanceBadgeVariant b = variant_destructive <-> (b <? 0)%float = true)
  /\ (getBalanceBadgeVariant b = variant_secondary <-> (b =? 0)%float = true)
  /\ (getBalanceBadgeVariant b = variant_default
      <-> (b <? 0)%float = false /\ (b =? 0)%float = false)
  /\ (is_nan b = false ->
      (getBalanceBadgeVariant b = variant_default <-> (0 <? b)%float = true))
  /\ getBalanceBadgeVariant nan = variant_default.
Proof.
  unfold getBalanceBadgeVariant; simpl.
  assert (X : (b <? 0)%float = true -> (b =? 0)%float = false).
  { rewrite ltb_spec, eqb_spec, Prim2SF_zero. unfold SFltb, SFeqb.
    now destruct (SFcompare (Prim2SF b) (S754_zero false)) as [[]|]. }
  split; [|split; [|split; [|split; [|reflexivity]]]].
  - destruct (b <? 0)%float; [tauto|].
    destruct (b =? 0)%float; split; discriminate.
  - destruct (b <? 0)%float eqn:L.
    + rewrite (X eq_refl). split; discriminate.
    + destruct (b =? 0)%float; split; congruence.
  - destruct (b <? 0)%float; [split; [discriminate | intros [? ?]; discriminate]|].
    destruct (b =? 0)%float; split; try tauto; try discriminate.
    intros [_ ?]. discriminate.
  - intros T. apply is_nan_Prim2SF in T.
    rewrite ltb_spec, eqb_spec, (ltb_spec 0 b), Prim2SF_zero.
    unfold SFltb, SFeqb.
    rewrite (SFcompare_antisym (Prim2SF b) (S754_zero false)).
    destruct (SFcompare (Prim2SF b) (S754_zero false)) as [[]|] eqn:C; simpl;
      try (split; [discriminate | intros ?; discriminate]);
      try (split; reflexivity).
    apply SFcompare_None in C. destruct C as [C|C]; [tauto | discriminate].
Qed.

End BalanceBadge.

(** X25. The variant of the balance badge of a vendor row partitions the
    balances: destructive exactly below zero, secondary exactly at zero,
    default exactly above zero, on integers and on the binary64 numbers
    other than [NaN], for which the badge is the default one.  The
    balance a vendor form sends after passing the validation is never
    badged destructive. *)
Theorem balance_badge_partition :
  (forall b : Z,
      (PartiesPage.getBalanceBadgeVariant b = variant_destructive
       <-> (b < 0)%Z)
      /\ (PartiesPage.getBalanceBadgeVariant b = variant_secondary
          <-> b = 0%Z)
      /\ (PartiesPage.getBalanceBadgeVariant b = variant_default
          <-> (0 < b)%Z))
  /\ (forall b : float,
         (PartiesPage.getBalanceBadgeVariant b = variant_destructive
          <-> (b <? 0)%float = true)
         /\ (PartiesPage.getBalanceBadgeVariant b = variant_secondary
             <-> (b =? 0)%float = true)
         /\ (PartiesPage.getBalanceBadgeVariant b = variant_default
             <-> (b <? 0)%float = false /\ (b =? 0)%float = false)
         /\ (is_nan b = false ->
             (PartiesPage.getBalanceBadgeVariant b = variant_default
              <-> (0 <? b)%float = true))
         /\ PartiesPage.getBalanceBadgeVariant nan = variant_default)
  /\ (forall (user : string) (f : Parties.Form Z) (b : Z),
         fst (Parties.validateVendorForm f) = true ->
         PartiesPage.d_balance (PartiesPage.vendorData_of user f) = Some b ->
         PartiesPage.getBalanceBadgeVariant b <> variant_destructive)
  /\ (forall (user : string) (f : Parties.Form float) (b : float),
         fst (Parties.validateVendorForm f) = true ->
         PartiesPage.d_balance (PartiesPage.vendorData_of user f) = Some b ->
         PartiesPage.getBalanceBadgeVariant b <> variant_destructive).
Proof.
  split; [exact getBalanceBadgeVariant_integers|].
  split; [exact getBalanceBadgeVariant_binary64|]. split.
  - intros user f b V D.
    destruct (valid_partyData "Vendor" f V) as (_ & _ & B).
    intros X. apply getBalanceBadgeVariant_integers in X.
    injection D as <-.
    destruct B as [B|(x & B & L)]; rewrite B in X; [simpl in X; lia|].
    pose proof (number_or_zero_nonnegative_Z x L). lia.
  - intros user f b V D.
    destruct (valid_partyData "Vendor" f V) as (_ & _ & B).
    intros X. apply getBalanceBadgeVariant_binary64 in X.
    injection D as <-.
    assert (P : (0 <=? number_or_zero (Parties.f_balance f))%float = true).
    { destruct B as [B|(x & B & L)]; rewrite B; [reflexivity|].
      now apply number_or_zero_nonnegative. }
    rewrite (leb_ltb_total 0 (number_or_zero (Parties.f_balance f))) in X.
    + rewrite P in X. discriminate.
    + rewrite Prim2SF_zero. discriminate.
    + exact (leb_zero_not_nan _ P).
Qed.

Lemma balance_badge_partition_witness :
  PartiesPage.getBalanceBadgeVariant 250%Z <> variant_destructive
  /\ PartiesPage.getBalanceBadgeVariant (-5)%Z = variant_destructive.
Proof.
  destruct balance_badge_partition as (I & _ & V & _).
  split.
  - apply (V "user-1" (Scenarios.vendorForm 250%Z) 250%Z); reflexivity.
  - apply (I (-5)%Z). reflexivity.
Defined.

(** ** The calls of the sale items page *)

Section SaleItemOutcomes.
Import SaleItems SaleItemsPage SaleItemsStore ItemFlows.
Context {N : Type} `{JsNumber N} `{!JsOne N}.
Variable server : backend N.

Lemma saleItems_fetch_resume_calls (auth : response N) (p : Page N) :
  exists calls,
    requests (snd (fetch_resume server auth p)) = (requests p ++ calls)%list
    /\ loading (snd (fetch_resume server auth p)) = false
    /\ formData (snd (fetch_resume server auth p)) = formData p
    /\ editingId (snd (fetch_resume server auth p)) = editingId p
    /\ Forall (fun r => is_write r = false) calls.
Proof.
  unfold fetch_resume, bind, await, setLoading, show, router_push,
    setSaleItems; simpl.
  destruct (auth_failed auth); simpl.
  - exists []. rewrite app_nil_r. repeat split; constructor.
  - destruct (r_error (server (requests p) _)) as [message|] eqn:E; simpl;
      exists [select_all "sale_items" "created_at" false];
      repeat split; repeat constructor.
Qed.

Lemma saleItems_reads_by_row_id (calls : list (request N)) :
  Forall (fun r => is_write r = false) calls ->
  Forall by_row_id calls /\ filter is_write calls = [].
Proof.
  induction 1 as [|r l R _ [IH1 IH2]]; [split; constructor|].
  split.
  - constructor; [|exact IH1]. destruct r; try discriminate; exact I.
  - simpl. now rewrite R.
Qed.

(** X26. Whatever the backend answers, [handleSubmit] and [handleDelete]
    of the sale items page make no call at all or ask for the user
    first; with nobody signed in they stop there; otherwise they make at
    most one write, on the sale items.  That write names its rows by id
    alone: a valid form is sent as an update restricted to the row being
    edited, or as an insert when no row is, and a confirmed deletion is
    restricted to the row of the id passed; the id of the user is not
    part of any call. *)
Theorem sale_item_writes_by_row_id (p : Page N) (row_id : string)
        (confirmed : bool) :
  (exists calls,
      requests (snd (handleSubmit server p)) = (requests p ++ calls)%list
      /\ guarded_calls (server (requests p) auth_getUser) calls)
  /\ (exists calls,
         requests (snd (handleDelete server row_id confirmed p))
         = (requests p ++ calls)%list
         /\ guarded_calls (server (requests p) auth_getUser) calls)
  /\ (fst (validateForm (formData p)) = true ->
      auth_failed (server (requests p) auth_getUser) = false ->
      exists rest,
        requests (snd (handleSubmit server p))
        = (requests p
             ++ auth_getUser
             :: (if JsString.truthy_opt (editingId p)
                 then update_row "sale_items" (itemData_of (formData p))
                        [("id", JsString.interpolate (editingId p))]
                 else insert_row "sale_items" (itemData_of (formData p)))
             :: rest)%list)
  /\ (auth_failed (server (requests p) auth_getUser) = false ->
      exists rest,
        requests (snd (handleDelete server row_id true p))
        = (requests p
             ++ auth_getUser :: delete_row "sale_items" [("id", row_id)]
             :: rest)%list).
Proof.
  split; [|split; [|split]].
  - unfold handleSubmit.
    destruct (validateForm (formData p)) as [[|] shown].
    + unfold finish_then, bind, await, setLoading, show, ret, fetch_begin,
        resetForm, setFormData, setEditingId; simpl.
      destruct (auth_failed _) eqn:A; simpl.
      * exists [auth_getUser]. split; [reflexivity|]. right. exists [].
        repeat split; auto.
      * destruct (JsString.truthy_opt _); simpl;
          (destruct (r_error _); simpl;
           [eexists [auth_getUser; _]; rewrite <- app_assoc;
            split; [reflexivity|]; right; eexists [_];
            split; [reflexivity|]; split; [congruence|];
            split; [repeat constructor | simpl; lia]
           |]);
          match goal with
          | |- context [fetch_resume server ?a ?q] =>
              destruct (saleItems_fetch_resume_calls a q)
                as (c & E & _ & _ & _ & W)
          end; rewrite E; simpl;
          destruct (saleItems_reads_by_row_id _ W) as [S F];
          (eexists (auth_getUser :: _ :: auth_getUser :: c);
           rewrite <- !app_assoc; split; [reflexivity|];
           right; eexists; split; [reflexivity|]; split; [congruence|];
           split; [constructor; [simpl; auto|constructor; [exact I|exact S]]
                  | simpl; rewrite F; simpl; lia]).
    + exists []. unfold bind, show, ret; simpl.
      rewrite app_nil_r. split; [reflexivity | now left].
  - unfold handleDelete. destruct confirmed; simpl.
    + unfold finish_then, bind, await, setLoading, show, ret, fetch_begin;
        simpl.
      destruct (auth_failed _) eqn:A; simpl.
      * exists [auth_getUser]. split; [reflexivity|]. right. exists [].
        repeat split; auto.
      * destruct (r_error _); simpl;
          [eexists [auth_getUser; _]; rewrite <- app_assoc;
           split; [reflexivity|]; right; eexists [_];
           split; [reflexivity|]; split; [congruence|];
           split; [repeat constructor | simpl; lia]
          |].
        match goal with
        | |- context [fetch_resume server ?a ?q] =>
            destruct (saleItems_fetch_resume_calls a q)
              as (c & E & _ & _ & _ & W)
        end; rewrite E; simpl.
        destruct (saleItems_reads_by_row_id _ W) as [S F].
        eexists (auth_getUser :: _ :: auth_getUser :: c).
        rewrite <- !app_assoc; split; [reflexivity|].
        right; eexists; split; [reflexivity|]; split; [congruence|].
        split; [constructor; [simpl; auto|constructor; [exact I|exact S]]
               | simpl; rewrite F; simpl; lia].
    + exists []. unfold ret; simpl.
      rewrite app_nil_r. split; [reflexivity | now left].
  - intros V A. unfold handleSubmit.
    destruct (validateForm (formData p)) as [valid shown]. simpl in V.
    subst valid.
    unfold finish_then, bind, await, setLoading, show, ret, fetch_begin,
      resetForm, setFormData, setEditingId; simpl.
    rewrite A; simpl.
    destruct (JsString.truthy_opt _); simpl;
      (destruct (r_error _); simpl;
       [exists []; now rewrite <- app_assoc|]);
      match goal with
      | |- context [fetch_resume server ?a ?q] =>
          destruct (saleItems_fetch_resume_calls a q)
            as (c & E & _ & _ & _ & W)
      end; rewrite E; simpl;
      exists (auth_getUser :: c); now rewrite <- !app_assoc.
  - intros A. unfold handleDelete; simpl.
    unfold finish_then, bind, await, setLoading, show, ret, fetch_begin;
      simpl.
    rewrite A; simpl.
    destruct (r_error _); simpl; [exists []; now rewrite <- app_assoc|].
    match goal with
    | |- context [fetch_resume server ?a ?q] =>
        destruct (saleItems_fetch_resume_calls a q)
          as (c & E & _ & _ & _ & W)
    end; rewrite E; simpl.
    exists (auth_getUser :: c); now rewrite <- !app_assoc.
Qed.

End SaleItemOutcomes.

Example sale_item_update_scenario :
  SaleItemsStore.requests
    (snd (SaleItemsStore.handleSubmit ItemScenarios.alice_backend
            ItemScenarios.editing_page))
  = [SaleItemsStore.auth_getUser;
     SaleItemsStore.update_row "sale_items"
       {| SaleItemsPage.d_sale_id := Some "sale-1";
          SaleItemsPage.d_product_id := None;
          SaleItemsPage.d_product_name := "Widget";
          SaleItemsPage.d_quantity := 2%Z;
          SaleItemsPage.d_price := 5%Z;
          SaleItemsPage.d_total := 10%Z |}
       [("id", "row-7")];
     SaleItemsStore.auth_getUser;
     SaleItemsStore.select_all "sale_items" "created_at" false].
Proof. vm_compute. reflexivity. Qed.

(** ** The stock filter and the stock badges *)

Section StockFilters.
Import Products.
Context {N : Type} `{JsNumber N}.
Hypothesis zero_not_gt :
  forall q m : N, strict_eq q zero = true -> le zero m = true -> gt q m = false.
Hypothesis gt_not_le :
  forall q m : N, gt q m = true -> le q m = false.

Lemma stockStage_instock (products : list (Product N)) (p : Product N) :
  In p (stockStage "instock" products)
  <-> In p products /\ gt (quantity p) (min_stock p) = true.
Proof. unfold stockStage; simpl. apply filter_In. Qed.

Lemma stockStage_out (products : list (Product N)) (p : Product N) :
  In p (stockStage "out" products)
  <-> In p products /\ strict_eq (quantity p) zero = true.
Proof. unfold stockStage; simpl. apply filter_In. Qed.

Lemma instock_badged (q m : N) :
  le zero m = true -> gt q m = true -> getStockBadge q m = InStock.
Proof.
  intros M G. unfold getStockBadge.
  destruct (strict_eq q zero) eqn:Z.
  - rewrite (zero_not_gt q m Z M) in G. discriminate.
  - now rewrite (gt_not_le q m G).
Qed.

Lemma out_badged (q m : N) :
  strict_eq q zero = true <-> getStockBadge q m = OutOfStock.
Proof.
  unfold getStockBadge. destruct (strict_eq q zero); [tauto|].
  destruct (le q m); split; discriminate.
Qed.

Lemma stock_filters_sound (products : list (Product N)) :
  (forall p, In p products -> le zero (min_stock p) = true) ->
  (forall p, In p (stockStage "out" products)
             <-> In p products
                 /\ getStockBadge (quantity p) (min_stock p) = OutOfStock)
  /\ (forall p, In p (stockStage "instock" products) ->
                In p products
                /\ getStockBadge (quantity p) (min_stock p) = InStock)
  /\ (forall p, In p (stockStage "instock" products) ->
                ~ In p (stockStage "low" products))
  /\ (forall p, In p products ->
                getStockBadge (quantity p) (min_stock p) = InStock ->
                gt (quantity p) (min_stock p)
                = negb (le (quantity p) (min_stock p)) ->
                In p (stockStage "instock" products)).
Proof.
  intros M. split; [|split; [|split]].
  - intros p. rewrite stockStage_out. now rewrite out_badged.
  - intros p I. apply stockStage_instock in I as [I G].
    split; [exact I|]. exact (instock_badged _ _ (M p I) G).
  - intros p I L. apply stockStage_instock in I as [_ G].
    apply stockStage_low in L as [_ L].
    rewrite (gt_not_le _ _ G) in L. discriminate.
  - intros p I B T. apply stockStage_instock. split; [exact I|].
    rewrite T. unfold getStockBadge in B.
    destruct (strict_eq (quantity p) zero); [discriminate|].
    destruct (le (quantity p) (min_stock p)); [discriminate|reflexivity].
Qed.

End StockFilters.

Lemma zero_not_gt_integers (q m : Z) :
  strict_eq q zero = true -> le zero m = true -> gt q m = false.
Proof. unfold gt. simpl. rewrite Z.eqb_eq, Z.leb_le, Z.ltb_ge. lia. Qed.

Lemma gt_not_le_integers (q m : Z) : gt q m = true -> le q m = false.
Proof. unfold gt. simpl. rewrite Z.ltb_lt, Z.leb_gt. lia. Qed.

Lemma gt_negb_le_integers (q m : Z) : gt q m = negb (le q m).
Proof. unfold gt. simpl. apply Z.ltb_antisym. Qed.

Section Binary64Stock.
Local Open Scope float_scope.

Lemma ltb_not_nan (a b : float) :
  (a <? b) = true -> Prim2SF a <> S754_nan /\ Prim2SF b <> S754_nan.
Proof.
  rewrite ltb_spec. unfold SFltb.
  destruct (Prim2SF a), (Prim2SF b); simpl; intro L;
    try discriminate L; split; discriminate.
Qed.

Lemma gt_not_le_binary64 (q m : float) : gt q m = true -> le q m = false.
Proof.
  unfold gt. simpl. intros G.
  destruct (ltb_not_nan _ _ G) as [Nm Nq].
  rewrite (leb_ltb_total q m Nq Nm) in G. now apply negb_true_iff in G.
Qed.

Lemma zero_not_gt_binary64 (q m : float) :
  strict_eq q zero = true -> le zero m = true -> gt q m = false.
Proof.
  unfold gt. simpl. intros Z L.
  apply eqb_zero_inv in Z as [s Z].
  rewrite leb_spec, Prim2SF_zero in L. rewrite ltb_spec, Z.
  destruct (Prim2SF m) as [[]|[]| |[] ? ?]; try reflexivity;
    discriminate L.
Qed.

Lemma gt_negb_le_binary64 (q m : float) :
  (q =? q) = true -> (0 <=? m) = true -> gt q m = negb (le q m).
Proof.
  unfold gt. simpl. intros Q M. apply leb_ltb_total.
  - intro E. rewrite eqb_spec, E in Q. discriminate.
  - now apply leb_zero_not_nan.
Qed.

End Binary64Stock.

Lemma filter_negb_length {A} (f g : A -> bool) (l : list A) :
  (forall x, In x l -> g x = negb (f x)) ->
  (List.length (filter f l) + List.length (filter g l) = List.length l)%nat.
Proof.
  induction l as [|x l IH]; intros E; [reflexivity|].
  simpl. rewrite (E x (or_introl eq_refl)).
  specialize (IH (fun y I => E y (or_intror I))).
  destruct (f x); simpl; lia.
Qed.

(** X27. For products whose minimum stock is not negative, the stock
    filter agrees with the stock badges of the rows.  The filter ["out"]
    lists the products badged "Out of Stock".  On integers the filter
    ["instock"] lists the products badged "In Stock", every product is
    listed by exactly one of ["low"] and ["instock"], and the lengths of
    the two lists add up to the number of products.  On binary64 numbers
    what ["instock"] lists is badged "In Stock" and is not listed by
    ["low"], and a product badged "In Stock" is listed by ["instock"]
    when its quantity is a number. *)
Theorem stock_filters_match_badges :
  (forall products : list (Products.Product Z),
      (forall p, In p products -> (0 <= Products.min_stock p)%Z) ->
      (forall p, In p (Products.stockStage "out" products)
                 <-> In p products
                     /\ Products.getStockBadge (Products.quantity p)
                                               (Products.min_stock p)
                        = Products.OutOfStock)
      /\ (forall p, In p (Products.stockStage "instock" products)
                    <-> In p products
                        /\ Products.getStockBadge (Products.quantity p)
                                                  (Products.min_stock p)
                           = Products.InStock)
      /\ (forall p, In p products ->
                    In p (Products.stockStage "instock" products)
                    <-> ~ In p (Products.stockStage "low" products))
      /\ (List.length (Products.stockStage "low" products)
          + List.length (Products.stockStage "instock" products)
          = List.length products)%nat)
  /\ (forall products : list (Products.Product float),
      (forall p, In p products -> (0 <=? Products.min_stock p)%float = true) ->
      (forall p, In p (Products.stockStage "out" products)
                 <-> In p products
                     /\ Products.getStockBadge (Products.quantity p)
                                               (Products.min_stock p)
                        = Products.OutOfStock)
      /\ (forall p, In p (Products.stockStage "instock" products) ->
                    In p products
                    /\ Products.getStockBadge (Products.quantity p)
                                              (Products.min_stock p)
                       = Products.InStock)
      /\ (forall p, In p (Products.stockStage "instock" products) ->
                    ~ In p (Products.stockStage "low" products))
      /\ (forall p, In p products ->
                    Products.getStockBadge (Products.quantity p)
                                           (Products.min_stock p)
                    = Products.InStock ->
                    (Products.quantity p =? Products.quantity p)%float = true ->
                    In p (Products.stockStage "instock" products))).
Proof.
  split.
  - intros products M.
    destruct (stock_filters_sound (H := JsNumber_Z) zero_not_gt_integers
                gt_not_le_integers products) as (O & I & D & C).
    { intros p Ip. apply Z.leb_le. exact (M p Ip). }
    split; [exact O|]. split; [|split].
    + intros p. split; [apply I|]. intros [Ip B].
      apply (C p Ip B). apply gt_negb_le_integers.
    + intros p Ip. split; [apply D|]. intros L.
      apply stockStage_instock. split; [exact Ip|].
      rewrite gt_negb_le_integers.
      destruct (le (Products.quantity p) (Products.min_stock p)) eqn:E;
        [|reflexivity].
      exfalso. apply L. apply stockStage_low. now split.
    + unfold Products.stockStage; simpl. apply filter_negb_length.
      intros p _. apply gt_negb_le_integers.
  - intros products M.
    destruct (stock_filters_sound (H := JsNumber_float) zero_not_gt_binary64
                gt_not_le_binary64 products M) as (O & I & D & C).
    split; [exact O|]. split; [exact I|]. split; [exact D|].
    intros p Ip B Q. apply (C p Ip B).
    apply gt_negb_le_binary64; [exact Q | exact (M p Ip)].
Qed.

Lemma stock_filters_match_badges_witness :
  (List.length (Products.stockStage "low" Samples.products)
   + List.length (Products.stockStage "instock" Samples.products)
   = List.length Samples.products)%nat
  /\ (In (Samples.product "anvil" 20 10)
         (Products.stockStage "instock" Samples.products)
      <-> In (Samples.product "anvil" 20 10) Samples.products
          /\ Products.getStockBadge 20%Z 10%Z = Products.InStock).
Proof.
  destruct stock_filters_match_badges as (Z & _).
  destruct (Z Samples.products) as (_ & I & _ & L).
  - intros p [<-|[<-|[<-|[]]]]; simpl; lia.
  - split; [exact L | exact (I (Samples.product "anvil" 20 10))].
Defined.

(** ** The date filters, one inside the other *)

Section NestedDateFilters.
Context {N : Type} `{JsNumber N}.
Import Predicates.
Local Open Scope Z_scope.

Lemma same_local_day_within_a_day (zone : JsDate.Zone) (t now : Z) :
  JsDate.Day (JsDate.LocalTime zone t) = JsDate.Day (JsDate.LocalTime zone now) ->
  JsDate.LocalTime zone now - JsDate.msPerDay
  < JsDate.LocalTime zone t
  < JsDate.LocalTime zone now + JsDate.msPerDay.
Proof.
  set (x := JsDate.LocalTime zone t). set (y := JsDate.LocalTime zone now).
  clearbody x y. unfold JsDate.Day, JsDate.msPerDay.
  intros E. Z.div_mod_to_equations. lia.
Qed.

Lemma purchaseDate_nested (zone : JsDate.Zone) (now : Z)
      (p : Purchases.Purchase N) :
  Scenarios.within_a_day zone ->
  (purchaseDate zone now "today" p = true ->
   purchaseDate zone now "week" p = true)
  /\ (purchaseDate zone now "week" p = true ->
      purchaseDate zone now "month" p = true).
Proof.
  intros B.
  unfold purchaseDate; simpl. unfold JsDate.date_ge.
  rewrite setDate_week_before, setMonth_previous.
  pose proof (previous_month_days_range zone now) as R.
  set (days := previous_month_days zone now) in *. clearbody days.
  unfold JsDate.UTC. set (l := JsDate.LocalTime zone now).
  destruct (B (l - 7 * JsDate.msPerDay)) as [_ W].
  destruct (B (l - days * JsDate.msPerDay)) as [_ M].
  split.
  - intros T. apply same_date_string_same_day in T as (t & -> & D).
    apply same_local_day_within_a_day in D. fold l in D.
    destruct (B t) as [U _].
    unfold l, JsDate.LocalTime in *.
    apply Z.leb_le. unfold JsDate.msPerDay in *. lia.
  - destruct (JsDate.parse (Purchases.purchase_date p)) as [t|];
      [|discriminate].
    rewrite !Z.leb_le. unfold l, JsDate.LocalTime, JsDate.msPerDay in *.
    nia.
Qed.

(** X28. In a zone whose offsets from UTC stay below a day, daylight
    saving included, the values of the date filter are nested: with the
    same search and status filters, what ["today"] lists is listed by
    ["week"], what ["week"] lists is listed by ["month"], and what
    ["month"] lists is listed by ["all"]; the lists get no shorter from
    one to the next. *)
Theorem date_filters_nested
        (zone : JsDate.Zone) (now : Z) (purchases : list (Purchases.Purchase N))
        (searchTerm statusFilter : string) :
  Scenarios.within_a_day zone ->
  incl (Purchases.filterPurchases zone now purchases searchTerm statusFilter
                                  "today")
       (Purchases.filterPurchases zone now purchases searchTerm statusFilter
                                  "week")
  /\ incl (Purchases.filterPurchases zone now purchases searchTerm
                                     statusFilter "week")
          (Purchases.filterPurchases zone now purchases searchTerm
                                     statusFilter "month")
  /\ incl (Purchases.filterPurchases zone now purchases searchTerm
                                     statusFilter "month")
          (Purchases.filterPurchases zone now purchases searchTerm
                                     statusFilter "all")
  /\ (List.length (Purchases.filterPurchases zone now purchases searchTerm
                                             statusFilter "today")
      <= List.length (Purchases.filterPurchases zone now purchases searchTerm
                                                statusFilter "week")
      <= List.length (Purchases.filterPurchases zone now purchases searchTerm
                                                statusFilter "month"))%nat.
Proof.
  intros B.
  destruct (purchases_filter_commutes zone now purchases searchTerm
              statusFilter "today") as (_ & _ & _ & _ & T).
  destruct (purchases_filter_commutes zone now purchases searchTerm
              statusFilter "week") as (_ & _ & _ & _ & W).
  destruct (purchases_filter_commutes zone now purchases searchTerm
              statusFilter "month") as (_ & _ & _ & _ & M).
  destruct (purchases_filter_commutes zone now purchases searchTerm
              statusFilter "all") as (_ & _ & _ & _ & A).
  split; [|split; [|split]].
  - intros p I. apply W. apply T in I as (I & S & St & D).
    repeat split; auto. now apply purchaseDate_nested.
  - intros p I. apply M. apply W in I as (I & S & St & D).
    repeat split; auto. now apply purchaseDate_nested.
  - intros p I. apply A. apply M in I as (I & S & St & D).
    repeat split; auto.
  - unfold Purchases.filterPurchases. rewrite !purchases_dateStage.
    split; apply filter_length_le; intros p _;
      now apply purchaseDate_nested.
Qed.

End NestedDateFilters.

(** The offsets of New York are four and five hours. *)
Lemma new_york_within_a_day : Scenarios.within_a_day Scenarios.new_york.
Proof.
  intro t. unfold Scenarios.new_york, JsDate.LocalTZA, JsDate.zone_of,
    JsDate.msPerDay; simpl.
  repeat match goal with
         | |- context [if ?c then _ else _] => destruct c
         end; lia.
Qed.

Lemma date_filters_nested_witness :
  Scenarios.within_a_day Scenarios.new_york
  /\ incl (Purchases.filterPurchases Scenarios.new_york
             Scenarios.evening_2025_03_12 Samples.purchases "" "all" "week")
          (Purchases.filterPurchases Scenarios.new_york
             Scenarios.evening_2025_03_12 Samples.purchases "" "all" "month").
Proof.
  split; [exact new_york_within_a_day|].
  destruct (date_filters_nested (N := Z) Scenarios.new_york
              Scenarios.evening_2025_03_12 Samples.purchases "" "all"
              new_york_within_a_day) as (_ & W & _).
  exact W.
Defined.

Example date_filters_scenario :
  let purchases :=
    [Samples.purchase "p0" "2025-02-01"; Samples.purchase "p1" "2025-02-20";
     Samples.purchase "p2" "2025-03-10"; Samples.purchase "p3" "2025-03-15"] in
  Purchases.filterPurchases JsDate.utc Samples.noon_2025_03_15 purchases "" "all"
                            "today"
  = [Samples.purchase "p3" "2025-03-15"]
  /\ Purchases.filterPurchases JsDate.utc Samples.noon_2025_03_15 purchases "" "all"
                               "week"
     = [Samples.purchase "p2" "2025-03-10"; Samples.purchase "p3" "2025-03-15"]
  /\ Purchases.filterPurchases JsDate.utc Samples.noon_2025_03_15 purchases "" "all"
                               "month"
     = [Samples.purchase "p1" "2025-02-20"; Samples.purchase "p2" "2025-03-10";
        Samples.purchase "p3" "2025-03-15"].
Proof. vm_compute. repeat split. Qed.
